(** * Command-line tools of the marketing skills repository

  Every program under [tools/clis] follows one pattern: credential gate,
  [parseArgs], a two level [switch] over the first two positional tokens,
  one request through the tool's [api] function, and a top level
  [main().catch].  This development embeds that pattern as the source has
  it, transcribes each of the forty-seven programs in full, and states the
  properties of the specification over them, followed by further
  properties of the code. *)

From stdpp Require Import gmap strings list fin_maps pretty.
From Equations Require Import Equations.
From Equations.Prop Require Import Logic.
From Stdlib Require Import Ascii String.

Local Open Scope string_scope.
Local Set Warnings "-register-all".

(** ** JavaScript values that occur in a parsed argument object *)

Module JS.

(** A property of the object built by [parseArgs] holds a string, the
    boolean [true], or (under the key [_]) the array of positionals.
    Reading a property that is not there gives [undefined]. *)
Inductive value : Type :=
| VUndefined
| VTrue
| VStr (s : string)
| VArr (items : list string).

(** [if (v)], [!v], [a || b] *)
Definition truthy (v : value) : bool :=
  match v with
  | VUndefined => false
  | VTrue => true
  | VStr s => negb (String.eqb s "")
  | VArr _ => true
  end.

Definition or_else (v w : value) : value := if truthy v then v else w.

Fixpoint join (sep : string) (l : list string) : string :=
  match l with
  | [] => ""
  | [x] => x
  | x :: rest => x ++ sep ++ join sep rest
  end.

(** String coercion, as performed by template literals and by
    [URLSearchParams.set]. *)
Definition to_string (v : value) : string :=
  match v with
  | VUndefined => "undefined"
  | VTrue => "true"
  | VStr s => s
  | VArr items => join "," items
  end.

(** The outcome of running a piece of code: a value, or a thrown error
    whose [message] is what the top level handler prints. *)
Inductive completion (A : Type) : Type :=
| Normal (a : A)
| Throw (message : string).
Arguments Normal {A} a.
Arguments Throw {A} message.

(** [s.startsWith(p)] *)
Definition startsWith (s p : string) : bool := String.prefix p s.

(** [s.slice(n)] for [0 <= n] *)
Definition slice (s : string) (n : nat) : string :=
  String.substring n (String.length s - n) s.

(** [s.split(c)] for a one character separator; [cur] is the piece being
    read. *)
Fixpoint split_from (c : ascii) (cur : string) (s : string) : list string :=
  match s with
  | EmptyString => [cur]
  | String a rest =>
      if Ascii.eqb a c then cur :: split_from c "" rest
      else split_from c (cur ++ String a EmptyString) rest
  end.
Definition split (c : ascii) (s : string) : list string := split_from c "" s.

(** [hay.includes(needle)] *)
Definition includes (hay needle : string) : bool :=
  match String.index 0 needle hay with Some _ => true | None => false end.

(** [o[k] = v] for a primitive [v] on a plain object.  The key
    [__proto__] reaches the accessor inherited from [Object.prototype],
    whose setter ignores a value that is neither an object nor [null]; no
    own property is created. *)
Definition object_set (o : gmap string value) (k : string) (v : value)
  : gmap string value :=
  if decide (k = "__proto__") then o else <[k := v]> o.

(** The names that a plain object inherits from [Object.prototype]. *)
Definition Object_prototype : list string :=
  [ "constructor"; "hasOwnProperty"; "isPrototypeOf"; "propertyIsEnumerable";
    "toLocaleString"; "toString"; "valueOf"; "__proto__";
    "__defineGetter__"; "__defineSetter__"; "__lookupGetter__"; "__lookupSetter__" ].

(** [o[k]] for a name [k] that is not one of [Object_prototype]: the own
    property, or [undefined].  (Under an inherited name that the object does
    not have itself, JavaScript reads the function of the prototype; the
    tools read no such name.) *)
Definition get (o : gmap string value) (k : string) : value :=
  default VUndefined (o !! k).

End JS.
Import JS.

(** ** The argument parser

  <<
  function parseArgs(args) {
    const result = { _: [] }
    for (let i = 0; i < args.length; i++) {
      const arg = args[i]
      if (arg.startsWith('--')) {
        const key = arg.slice(2)
        const next = args[i + 1]
        if (next && !next.startsWith('--')) { result[key] = next; i++ }
        else { result[key] = true }
      } else { result._.push(arg) }
    }
    return result
  }
  >>
  The function is the same text in every tool. *)

Module Parser.

(** [result._.push(arg)]: [result._] is whatever the key [_] holds at that
    moment, which a flag written [--_] has overwritten. *)
Definition push_positional (result : gmap string value) (arg : string)
  : completion (gmap string value) :=
  match result !! "_" with
  | Some (VArr items) => Normal (<["_" := VArr (items ++ [arg])]> result)
  | Some _ => Throw "result._.push is not a function"
  | None => Throw "Cannot read properties of undefined (reading 'push')"
  end.

(** [next && !next.startsWith('--')] with [next = args[i + 1]] *)
Definition usable_value (next : option string) : option string :=
  match next with
  | Some n => if truthy (VStr n) && negb (startsWith n "--") then Some n else None
  | None => None
  end.

(** One iteration of the loop body at index [i], the [i++] of the loop
    header included: the next index and the updated object. *)
Definition loop_body (args : list string) (i : nat) (arg : string)
    (result : gmap string value) : completion (nat * gmap string value) :=
  if startsWith arg "--" then
    let key := slice arg 2 in
    match usable_value (args !! (i + 1)) with
    | Some next => Normal (i + 2, object_set result key (VStr next))
    | None => Normal (i + 1, object_set result key VTrue)
    end
  else
    match push_positional result arg with
    | Normal result' => Normal (i + 1, result')
    | Throw m => Throw m
    end.

(** The [for] loop.  It is not structural in [i] (a flag with a value
    advances by two), so it is defined by well-founded recursion on the
    number of tokens left. *)
Equations? parseArgs_loop (args : list string) (i : nat)
    (result : gmap string value) : completion (gmap string value)
  by wf (List.length args - i) lt :=
  parseArgs_loop args i result with inspect (args !! i) := {
    | exist _ None _ := Normal result
    | exist _ (Some arg) Harg with inspect (loop_body args i arg result) := {
        | exist _ (Throw m) _ := Throw m
        | exist _ (Normal (j, result')) Hstep := parseArgs_loop args j result' } }.
Proof.
  apply lookup_lt_Some in Harg.
  assert (i < j); [|lia].
  revert Hstep. unfold loop_body.
  destruct (startsWith arg "--").
  - destruct (usable_value _); intros [= <- _]; lia.
  - destruct (push_positional _ _); intros [= <- _]; lia.
Qed.

Definition parseArgs (args : list string) : completion (gmap string value) :=
  parseArgs_loop args 0 {[ "_" := VArr [] ]}.

End Parser.
Import Parser.

(** ** The rule of section 4.1, read as a function on token lists

    [Flag key v] stands for the assignment [result[key] = v],
    [Positional tok] for [result._.push(tok)]. *)

Module Pairing.

Inductive token_event : Type :=
| Flag (key : string) (v : value)
| Positional (tok : string).

(** The rule as the specification words it: a following token that exists
    and does not begin with [--] is the flag's value. *)
Fixpoint pairing_as_specified (toks : list string) : list token_event :=
  match toks with
  | [] => []
  | t :: rest =>
      if startsWith t "--" then
        match rest with
        | next :: rest' =>
            if negb (startsWith next "--")
            then Flag (slice t 2) (VStr next) :: pairing_as_specified rest'
            else Flag (slice t 2) VTrue :: pairing_as_specified rest
        | [] => [Flag (slice t 2) VTrue]
        end
      else Positional t :: pairing_as_specified rest
  end.

(** The rule with the one change the code makes: the following token must
    also be non-empty. *)
Fixpoint pairing (toks : list string) : list token_event :=
  match toks with
  | [] => []
  | t :: rest =>
      if startsWith t "--" then
        match rest with
        | next :: rest' =>
            if negb (String.eqb next "") && negb (startsWith next "--")
            then Flag (slice t 2) (VStr next) :: pairing rest'
            else Flag (slice t 2) VTrue :: pairing rest
        | [] => [Flag (slice t 2) VTrue]
        end
      else Positional t :: pairing rest
  end.

Definition apply_event (result : gmap string value) (ev : token_event)
  : completion (gmap string value) :=
  match ev with
  | Flag key v => Normal (object_set result key v)
  | Positional tok => push_positional result tok
  end.

Fixpoint replay (evs : list token_event) (result : gmap string value)
  : completion (gmap string value) :=
  match evs with
  | [] => Normal result
  | ev :: rest =>
      match apply_event result ev with
      | Normal result' => replay rest result'
      | Throw m => Throw m
      end
  end.

(** An event that leaves the array of positionals in place. *)
Definition plain_event (ev : token_event) : Prop :=
  match ev with
  | Flag key _ => key <> "_"
  | Positional _ => True
  end.

(** Tokens taken from the input by one event. *)
Definition consumed (ev : token_event) : nat :=
  match ev with
  | Flag _ (VStr _) => 2
  | _ => 1
  end.

End Pairing.
Import Pairing.

(** ** Requests, responses, printed results and the process around [main] *)

Module Host.

(** JSON as [JSON.stringify] prints it and [JSON.parse] reads it.  Natural
    numbers (an HTTP status, a count) are [JNat]; any other number, such as
    the double obtained by [Number], [parseInt] or [parseFloat], is kept as
    the conversion applied to its source. *)
Inductive json : Type :=
| JNull
| JBool (b : bool)
| JNat (n : nat)
| JNumberOf (conversion : string) (source : value)
| JStr (s : string)
| JArr (items : list json)
| JObj (fields : list (string * json)).

(** A parsed argument as a member of a body.  [undefined], the value of a
    flag that is not given, is written [JNull] here; [JSON.stringify]
    leaves a member of an object out when it holds that value. *)
Definition json_of (v : value) : json :=
  match v with
  | VUndefined => JNull
  | VTrue => JBool true
  | VStr s => JStr s
  | VArr items => JArr (map JStr items)
  end.

(** [o[k] = v] for a name [k] that is not an array index (the names that
    the scripts write themselves): an existing key keeps its place, a new
    key goes last. *)
Fixpoint assoc_set {A : Type} (o : list (string * A)) (k : string) (v : A)
  : list (string * A) :=
  match o with
  | [] => [(k, v)]
  | (k', v') :: rest =>
      if String.eqb k' k then (k, v) :: rest else (k', v') :: assoc_set rest k v
  end.

(** The array index that a property name denotes, if it denotes one: the
    decimal text, without leading zeros, of an integer below [2^32 - 1]. *)
Definition digit_of (a : ascii) : option N :=
  let n := N_of_ascii a in
  if (N.leb 48 n && N.leb n 57)%bool then Some (n - 48)%N else None.

Fixpoint digits (s : string) (acc : N) : option N :=
  match s with
  | EmptyString => Some acc
  | String a rest =>
      match digit_of a with
      | Some d => digits rest (acc * 10 + d)%N
      | None => None
      end
  end.

Definition array_index (s : string) : option N :=
  match s with
  | EmptyString => None
  | String a EmptyString => digit_of a
  | String a _ =>
      if Ascii.eqb a "0" then None
      else match digits s 0 with
           | Some n => if N.ltb n 4294967295 then Some n else None
           | None => None
           end
  end.

(** [o[k] = v] for the array index [n = k]: JavaScript lists the array
    indices of an object first, in ascending order. *)
Fixpoint put_index {A : Type} (o : list (string * A)) (n : N) (k : string) (v : A)
  : list (string * A) :=
  match o with
  | [] => [(k, v)]
  | (k', v') :: rest =>
      match array_index k' with
      | Some n' =>
          if N.eqb n' n then (k, v) :: rest
          else if N.ltb n n' then (k, v) :: (k', v') :: rest
          else (k', v') :: put_index rest n k v
      | None => (k, v) :: (k', v') :: rest
      end
  end.

(** [o[k] = v] on a plain object for any name [k], the keys in the order
    in which JavaScript lists and prints them: array indices first, then
    the other names in the order of their creation; [__proto__] as in
    [object_set]. *)
Definition object_put {A : Type} (o : list (string * A)) (k : string) (v : A)
  : list (string * A) :=
  if String.eqb k "__proto__" then o
  else match array_index k with
       | Some n => put_index o n k v
       | None => assoc_set o k v
       end.

Definition fields_set (o : list (string * json)) (k : string) (v : json)
  : list (string * json) :=
  object_put o k v.

Fixpoint assoc_get {A : Type} (o : list (string * A)) (k : string) : option A :=
  match o with
  | [] => None
  | (k', v) :: rest => if String.eqb k' k then Some v else assoc_get rest k
  end.

(** [params.set(name, value)] of [URLSearchParams]: the first pair of that
    name takes the value and the others go; without one, the pair is
    appended. *)
Fixpoint params_set (ps : list (string * string)) (k v : string)
  : list (string * string) :=
  match ps with
  | [] => [(k, v)]
  | (k', v') :: rest =>
      if String.eqb k' k
      then (k, v) :: filter (fun p => negb (String.eqb (fst p) k)) rest
      else (k', v') :: params_set rest k v
  end.

(** Truthiness and string coercion of a value read out of parsed JSON
    (a number that is not a natural number counts as nonzero). *)
Definition json_truthy (j : json) : bool :=
  match j with
  | JNull => false
  | JBool b => b
  | JNat n => negb (Nat.eqb n 0)
  | JStr s => negb (String.eqb s "")
  | JNumberOf _ _ | JArr _ | JObj _ => true
  end.

Fixpoint json_to_string (j : json) : string :=
  match j with
  | JNull => "null"
  | JBool true => "true"
  | JBool false => "false"
  | JNat n => pretty n
  | JNumberOf _ source => to_string source
  | JStr s => s
  | JArr items =>
      join "," (map (fun x => match x with JNull => "" | _ => json_to_string x end) items)
  | JObj _ => "[object Object]"
  end.

(** [data.name] on a value that came out of [JSON.parse]; [None] is
    [undefined]. *)
Definition property (data : json) (name : string) : completion (option json) :=
  match data with
  | JObj fields => Normal (assoc_get fields name)
  | JNull => Throw ("Cannot read properties of null (reading '" ++ name ++ "')")
  | _ => Normal None
  end.

(** The [body] option of [fetch]: [JSON.stringify(body)] or a string. *)
Inductive payload : Type :=
| JsonBody (j : json)
| TextBody (s : string).

(** The argument of [fetch]. *)
Record request : Type := {
  r_method : string;
  r_url : string;
  r_headers : list (string * string);
  r_body : option payload
}.

(** What the code reads from a [Response]: [status], [ok], [text()], and the
    outcome of [JSON.parse] on that text (also what [json()] gives). *)
Record response : Type := {
  status : nat;
  ok : bool;
  text : string;
  parsed : completion json
}.

(** The object returned by an [api] function when [--dry-run] is set:
    [{ _dry_run: true, method, url, headers, body }]. *)
Record descriptor : Type := {
  d_method : string;
  d_url : string;
  d_headers : list (string * string);
  d_body : option json
}.

(** The values [main] assigns to [result]. *)
Inductive output : Type :=
| DryRun (d : descriptor)
| Error (message : string)
| ErrorUsage (message : string) (usage : list (string * string))
| ErrorStatus (message : string) (status : nat)
| Json (j : json)
| StatusBody (status : nat) (body : string)
| Rows (rows : list (list (string * string))).

(** Library functions of the JavaScript runtime that the tools call:
    [URLSearchParams.prototype.toString], [encodeURIComponent],
    [Buffer.from(s).toString('base64')], [String.prototype.trim],
    [String(Number(v))], [JSON.stringify] and [JSON.parse]
    (which throws a [SyntaxError] on text that is not JSON);
    [number_text c v] is [String(c(v))] for the numeric expression named
    [c] (such as [parseInt]), and [text_op f s] the string that the string
    expression named [f] (such as [toLowerCase()]) makes of [s]. *)
Record runtime : Type := {
  form_urlencode : list (string * string) -> string;
  encodeURIComponent : string -> string;
  base64 : string -> string;
  trim : string -> string;
  String_of_Number : value -> string;
  JSON_stringify : json -> string;
  JSON_parse : string -> completion json;
  number_text : string -> value -> string;
  text_op : string -> string -> string
}.

(** What a process finds around it: the environment variables, the clock
    ([new Date().toISOString()] now and thirty days ago), the network
    ([None]: the request fails and [fetch] rejects) and the files
    ([fs.readFileSync(path, 'utf8')], which throws when it cannot read). *)
Record world : Type := {
  env : gmap string string;
  now_iso : string;
  month_ago_iso : string;
  net : request -> option response;
  files : string -> completion string
}.

Definition getenv (e : gmap string string) (name : string) : value :=
  match e !! name with
  | Some s => VStr s
  | None => VUndefined
  end.

(** Module level mutable state of a process: the token cache variable of
    the OAuth tools, and the calls made to [fetch] so far. *)
Record state : Type := {
  slot : json;
  requests : list request
}.

Definition initial : state := {| slot := JNull; requests := [] |}.

(** Asynchronous code: state passing with exceptions. *)
Definition M (A : Type) : Type := state -> completion A * state.

Definition ret {A : Type} (a : A) : M A := fun st => (Normal a, st).

Definition throw {A : Type} (message : string) : M A :=
  fun st => (Throw message, st).

Definition bind {A B : Type} (m : M A) (k : A -> M B) : M B :=
  fun st =>
    match m st with
    | (Normal a, st') => k a st'
    | (Throw e, st') => (Throw e, st')
    end.

Notation "'await' x ':=' m 'in' k" := (bind m (fun x => k))
  (at level 10, x name, m at level 100, k at level 200).

Definition lift {A : Type} (c : completion A) : M A :=
  match c with
  | Normal a => ret a
  | Throw e => throw e
  end.

Definition read_slot : M json := fun st => (Normal (slot st), st).

Definition write_slot (j : json) : M unit :=
  fun st => (Normal tt, {| slot := j; requests := requests st |}).

(** [await fetch(url, opts)] *)
Definition fetch (w : world) (r : request) : M response :=
  fun st =>
    let st' := {| slot := slot st; requests := requests st ++ [r] |} in
    match net w r with
    | Some res => (Normal res, st')
    | None => (Throw "fetch failed", st')
    end.

(** [try { return JSON.parse(text) } catch { return { status, body: text } }] *)
Definition read_body (res : response) : output :=
  match parsed res with
  | Normal j => Json j
  | Throw _ => StatusBody (status res) (text res)
  end.

(** [switch (v) { case l1: ...; break; ... default: ... }] on string labels,
    compared with [===]. *)
Definition value_is (v : value) (label : string) : bool :=
  match v with
  | VStr s => String.eqb s label
  | _ => false
  end.

Fixpoint switch {A : Type} (v : value) (cases : list (string * A)) (default : A) : A :=
  match cases with
  | [] => default
  | (label, body) :: rest =>
      if value_is v label then body else switch v rest default
  end.

(** [if (!v) { result = { error: message }; break }] followed by [rest] *)
Definition required (v : value) (message : string) (rest : M output) : M output :=
  if truthy v then rest else ret (Error message).

(** What the process leaves behind. *)
Inductive stderr_line : Type :=
| JsonError (message : string)      (* console.error(JSON.stringify({ error: message })) *)
| StackTrace (message : string).    (* uncaught exception, printed by the runtime *)

Record exit : Type := {
  stdout : list output;              (* console.log(JSON.stringify(result, null, 2)) *)
  stderr : list stderr_line;
  code : nat;
  argv_parsed : bool;
  fetched : list request
}.

(** [const [cmd, sub, ...rest] = args._].  The value is an array unless a
    flag [--_] replaced it: a string is then iterated character by
    character (byte-wise here, which is exact on ASCII) and [true] is not
    iterable (the messages are those of Node). *)
Definition element (items : list string) (i : nat) : value :=
  match items !! i with
  | Some s => VStr s
  | None => VUndefined
  end.

Definition characters (s : string) : list string :=
  map (fun c => String c EmptyString) (list_ascii_of_string s).

Definition destructure (positionals : value) : completion (value * value) :=
  match positionals with
  | VArr items => Normal (element items 0, element items 1)
  | VStr s => Normal (element (characters s) 0, element (characters s) 1)
  | VTrue =>
      Throw "boolean true is not iterable (cannot read property Symbol(Symbol.iterator))"
  | VUndefined =>
      Throw "undefined is not iterable (cannot read property Symbol(Symbol.iterator))"
  end.

(** A tool: its credential gate (the message of the first check that fails)
    and its [main], which reads the module level [args], [cmd] and [sub]. *)
Record tool : Type := {
  gate : gmap string string -> option string;
  main : runtime -> world -> gmap string value -> value -> value -> M output
}.

Definition uncaught (message : string) : exit :=
  {| stdout := []; stderr := [StackTrace message]; code := 1;
     argv_parsed := true; fetched := [] |}.

(** The script from top to bottom: gate, module level parsing and
    destructuring, then [main().catch(...)]. *)
Definition run (t : tool) (rt : runtime) (w : world) (argv : list string) : exit :=
  match gate t (env w) with
  | Some message =>
      {| stdout := []; stderr := [JsonError message]; code := 1;
         argv_parsed := false; fetched := [] |}
  | None =>
      match parseArgs argv with
      | Throw e => uncaught e
      | Normal args =>
          match destructure (get args "_") with
          | Throw e => uncaught e
          | Normal (cmd, sub) =>
              match main t rt w args cmd sub initial with
              | (Normal result, st) =>
                  {| stdout := [result]; stderr := []; code := 0;
                     argv_parsed := true; fetched := requests st |}
              | (Throw e, st) =>
                  {| stdout := []; stderr := [JsonError e]; code := 1;
                     argv_parsed := true; fetched := requests st |}
              end
          end
      end
  end.

End Host.
Import Host.

(** ** klaviyo *)

Module Klaviyo.

Definition BASE_URL : string := "https://a.klaviyo.com/api".
Definition REVISION : string := "2024-10-15".

(** [if (!API_KEY) { console.error(...); process.exit(1) }] *)
Definition gate (e : gmap string string) : option string :=
  if truthy (getenv e "KLAVIYO_API_KEY") then None
  else Some "KLAVIYO_API_KEY environment variable required".

Definition usage : list (string * string) :=
  [ ("profiles", "profiles [list | get --id <id> | create --email <email> | update --id <id>]");
    ("lists", "lists [list | get --id <id> | create --name <name> | delete --id <id> | add-profiles --id <list-id> --profiles <id1,id2> | remove-profiles --id <list-id> --profiles <id1,id2>]");
    ("events", "events [list | get --id <id> | create --metric <name> --email <email>]");
    ("campaigns", "campaigns [list | get --id <id>]");
    ("flows", "flows [list | get --id <id> | update --id <id> --status <status>]");
    ("metrics", "metrics [list | get --id <id>]");
    ("segments", "segments [list | get --id <id>]");
    ("templates", "templates [list | get --id <id>]");
    ("options", "--filter <filter> --page-size <n> --page-cursor <cursor>") ].

Section Script.

Context (rt : runtime) (w : world) (args : gmap string value).

Definition API_KEY : value := getenv (env w) "KLAVIYO_API_KEY".

Definition api (method path : string) (body : option json) : M output :=
  let headers :=
    [ ("Authorization", "Klaviyo-API-Key " ++ to_string API_KEY);
      ("Content-Type", "application/json");
      ("Accept", "application/json");
      ("revision", REVISION) ] in
  if truthy (get args "dry-run") then
    ret (DryRun {| d_method := method; d_url := BASE_URL ++ path;
                   d_headers := assoc_set headers "Authorization" "***";
                   d_body := body |})
  else
    await res := fetch w {| r_method := method; r_url := BASE_URL ++ path;
                            r_headers := headers; r_body := option_map JsonBody body |} in
    ret (read_body res).

(** [const params = new URLSearchParams()], one
    [if (args[flag]) params.set(name, args[flag])] per entry, then
    [qs ? '?' + qs : ''] with [qs = params.toString()]. *)
Definition query (entries : list (string * string)) : string :=
  let params :=
    fold_left (fun ps '(name, flag) =>
                 if truthy (get args flag) then params_set ps name (to_string (get args flag))
                 else ps) entries [] in
  let qs := form_urlencode rt params in
  if truthy (VStr qs) then "?" ++ qs else "".

(** One [if (args[flag]) attributes[name] = args[flag]] per entry. *)
Definition set_each (attributes : list (string * json))
    (entries : list (string * string)) : list (string * json) :=
  fold_left (fun o '(name, flag) =>
               if truthy (get args flag) then assoc_set o name (json_of (get args flag))
               else o) entries attributes.

(** [args.profiles?.split(',')] *)
Definition optional_split (v : value) : completion (option (list string)) :=
  match v with
  | VUndefined => Normal None
  | VStr s => Normal (Some (split "," s))
  | VTrue | VArr _ => Throw "args.profiles?.split is not a function"
  end.

Definition profile_refs (profileIds : list string) : json :=
  JArr (map (fun pid => JObj [("type", JStr "profile"); ("id", JStr pid)]) profileIds).

(** [for (const pair of pairs) { const [k, v] = pair.split(':');
    if (k && v) properties[k] = v }] *)
Definition add_pair (properties : list (string * json)) (pair : string)
  : list (string * json) :=
  let parts := split ":" pair in
  let k := element parts 0 in
  let v := element parts 1 in
  if truthy k && truthy v then fields_set properties (to_string k) (json_of v)
  else properties.

(** The [properties] object of [events create]. *)
Definition event_properties : completion (list (string * json)) :=
  let properties :=
    if truthy (get args "value") then [("value", JNumberOf "Number" (get args "value"))]
    else [] in
  if truthy (get args "property") then
    match get args "property" with
    | VStr s => Normal (fold_left add_pair (split "," s) properties)
    | _ => Throw "args.property.split is not a function"
    end
  else Normal properties.

Definition get_by_id (resource : string) : M output :=
  let id := get args "id" in
  required id "--id required" (api "GET" (resource ++ to_string id ++ "/") None).

Definition relationships (method : string) : M output :=
  let id := get args "id" in
  required id "--id required (list ID)"
    (await profileIds := lift (optional_split (get args "profiles")) in
     match profileIds with
     | None => ret (Error "--profiles required (comma-separated profile IDs)")
     | Some ids =>
         api method ("/lists/" ++ to_string id ++ "/relationships/profiles/")
             (Some (JObj [("data", profile_refs ids)]))
     end).

Definition main (cmd sub : value) : M output :=
  switch cmd
    [ ("profiles",
       switch sub
         [ ("list",
            api "GET" ("/profiles/" ++ query [("filter", "filter"); ("sort", "sort");
                                              ("page[size]", "page-size");
                                              ("page[cursor]", "page-cursor")]) None);
           ("get", get_by_id "/profiles/");
           ("create",
            let email := get args "email" in
            required email "--email required"
              (api "POST" "/profiles/"
                 (Some (JObj [("data", JObj [("type", JStr "profile");
                   ("attributes",
                    JObj (set_each [("email", json_of email)]
                            [("first_name", "first-name"); ("last_name", "last-name");
                             ("phone_number", "phone")]))])]))));
           ("update",
            let id := get args "id" in
            required id "--id required"
              (api "PATCH" ("/profiles/" ++ to_string id ++ "/")
                 (Some (JObj [("data", JObj [("type", JStr "profile");
                   ("id", json_of id);
                   ("attributes",
                    JObj (set_each []
                            [("email", "email"); ("first_name", "first-name");
                             ("last_name", "last-name"); ("phone_number", "phone")]))])])))) ]
         (ret (Error "Unknown profiles subcommand. Use: list, get, create, update")));
      ("lists",
       switch sub
         [ ("list", api "GET" ("/lists/" ++ query [("page[size]", "page-size")]) None);
           ("get", get_by_id "/lists/");
           ("create",
            let name := get args "name" in
            required name "--name required"
              (api "POST" "/lists/"
                 (Some (JObj [("data", JObj [("type", JStr "list");
                   ("attributes", JObj [("name", json_of name)])])]))));
           ("delete",
            let id := get args "id" in
            required id "--id required"
              (api "DELETE" ("/lists/" ++ to_string id ++ "/") None));
           ("add-profiles", relationships "POST");
           ("remove-profiles", relationships "DELETE") ]
         (ret (Error "Unknown lists subcommand. Use: list, get, create, delete, add-profiles, remove-profiles")));
      ("events",
       switch sub
         [ ("list",
            api "GET" ("/events/" ++ query [("filter", "filter");
                                            ("page[size]", "page-size")]) None);
           ("get", get_by_id "/events/");
           ("create",
            let metric := get args "metric" in
            let email := get args "email" in
            required metric "--metric required (metric name)"
              (required email "--email required"
                 (await properties := lift event_properties in
                  api "POST" "/events/"
                    (Some (JObj [("data", JObj [("type", JStr "event");
                      ("attributes", JObj
                         [ ("metric", JObj [("data", JObj [("type", JStr "metric");
                              ("attributes", JObj [("name", json_of metric)])])]);
                           ("profile", JObj [("data", JObj [("type", JStr "profile");
                              ("attributes", JObj [("email", json_of email)])])]);
                           ("properties", JObj properties);
                           ("time", JStr (now_iso w)) ])])]))))) ]
         (ret (Error "Unknown events subcommand. Use: list, get, create")));
      ("campaigns",
       switch sub
         [ ("list",
            api "GET" ("/campaigns/" ++ query [("filter", "filter");
                                               ("page[size]", "page-size")]) None);
           ("get", get_by_id "/campaigns/") ]
         (ret (Error "Unknown campaigns subcommand. Use: list, get")));
      ("flows",
       switch sub
         [ ("list",
            api "GET" ("/flows/" ++ query [("filter", "filter");
                                           ("page[size]", "page-size")]) None);
           ("get", get_by_id "/flows/");
           ("update",
            let id := get args "id" in
            required id "--id required"
              (api "PATCH" ("/flows/" ++ to_string id ++ "/")
                 (Some (JObj [("data", JObj [("type", JStr "flow");
                   ("id", json_of id);
                   ("attributes", JObj (set_each [] [("status", "status")]))])])))) ]
         (ret (Error "Unknown flows subcommand. Use: list, get, update")));
      ("metrics",
       switch sub
         [ ("list", api "GET" ("/metrics/" ++ query [("page[size]", "page-size")]) None);
           ("get", get_by_id "/metrics/") ]
         (ret (Error "Unknown metrics subcommand. Use: list, get")));
      ("segments",
       switch sub
         [ ("list", api "GET" ("/segments/" ++ query [("page[size]", "page-size")]) None);
           ("get", get_by_id "/segments/") ]
         (ret (Error "Unknown segments subcommand. Use: list, get")));
      ("templates",
       switch sub
         [ ("list",
            api "GET" ("/templates/" ++ query [("filter", "filter");
                                               ("page[size]", "page-size")]) None);
           ("get", get_by_id "/templates/") ]
         (ret (Error "Unknown templates subcommand. Use: list, get"))) ]
    (ret (ErrorUsage "Unknown command" usage)).

End Script.

Definition tool : Host.tool := {| Host.gate := gate; Host.main := main |}.

End Klaviyo.

(** ** mixpanel *)

Module Mixpanel.

Definition INGESTION_URL : string := "https://api.mixpanel.com".
Definition QUERY_URL : string := "https://mixpanel.com/api/2.0".
Definition EXPORT_URL : string := "https://data.mixpanel.com/api/2.0".

(** [if (!TOKEN && !API_KEY) { ... process.exit(1) }] *)
Definition gate (e : gmap string string) : option string :=
  if negb (truthy (getenv e "MIXPANEL_TOKEN")) && negb (truthy (getenv e "MIXPANEL_API_KEY"))
  then Some "MIXPANEL_TOKEN (for ingestion) or MIXPANEL_API_KEY + MIXPANEL_SECRET (for query/export) environment variables required"
  else None.

Definition usage : list (string * string) :=
  [ ("track", "track event --distinct-id <id> --event <name> [--properties <json>]");
    ("profiles", "profiles set --distinct-id <id> [--properties <json>]");
    ("query", "query events --project-id <id> [--event <name>] [--from-date <date>] [--to-date <date>]");
    ("funnels", "funnels get --funnel-id <id> [--from-date <date>] [--to-date <date>]");
    ("retention", "retention get [--from-date <date>] [--to-date <date>] [--born-event <event>]");
    ("export", "export events --from-date <date> --to-date <date>") ].

(** [target[k] = v] where [target] came out of [JSON.parse].  On an array
    the property is set but [JSON.stringify] prints the elements only; on a
    number, string or boolean the assignment is dropped; on [null] it
    throws. *)
Definition set_property (target : json) (k : string) (v : json) : completion json :=
  match target with
  | JObj fields => Normal (JObj (fields_set fields k v))
  | JNull => Throw ("Cannot set properties of null (setting '" ++ k ++ "')")
  | other => Normal other
  end.

Section Script.

Context (rt : runtime) (w : world) (args : gmap string value).

Definition TOKEN : value := getenv (env w) "MIXPANEL_TOKEN".
Definition API_KEY : value := getenv (env w) "MIXPANEL_API_KEY".
Definition SECRET : value := getenv (env w) "MIXPANEL_SECRET".

Definition ingestApi (method path : string) (body : option json) : M output :=
  let headers := [("Content-Type", "application/json")] in
  if truthy (get args "dry-run") then
    ret (DryRun {| d_method := method; d_url := INGESTION_URL ++ path;
                   d_headers := headers; d_body := body |})
  else
    await res := fetch w {| r_method := method; r_url := INGESTION_URL ++ path;
                            r_headers := headers; r_body := option_map JsonBody body |} in
    ret (read_body res).

Definition basic_auth_headers : list (string * string) :=
  let auth := base64 rt (to_string API_KEY ++ ":" ++ to_string SECRET) in
  [ ("Authorization", "Basic " ++ auth); ("Content-Type", "application/json") ].

Definition queryApi (method baseUrl path : string)
    (params : option (list (string * string))) : M output :=
  if negb (truthy API_KEY) || negb (truthy SECRET) then
    ret (Error "MIXPANEL_API_KEY and MIXPANEL_SECRET required for query/export operations")
  else
    let url :=
      match params with
      | Some ps => baseUrl ++ path ++ "?" ++ form_urlencode rt ps
      | None => baseUrl ++ path
      end in
    let headers := basic_auth_headers in
    if truthy (get args "dry-run") then
      ret (DryRun {| d_method := method; d_url := url;
                     d_headers := assoc_set headers "Authorization" "***";
                     d_body := None |})
    else
      await res := fetch w {| r_method := method; r_url := url;
                              r_headers := headers; r_body := None |} in
      ret (read_body res).

Definition queryApiPost (path : string) (body : json) : M output :=
  if negb (truthy API_KEY) || negb (truthy SECRET) then
    ret (Error "MIXPANEL_API_KEY and MIXPANEL_SECRET required for query/export operations")
  else
    let headers := basic_auth_headers in
    if truthy (get args "dry-run") then
      ret (DryRun {| d_method := "POST"; d_url := QUERY_URL ++ path;
                     d_headers := assoc_set headers "Authorization" "***";
                     d_body := Some body |})
    else
      await res := fetch w {| r_method := "POST"; r_url := QUERY_URL ++ path;
                              r_headers := headers; r_body := Some (JsonBody body) |} in
      ret (read_body res).

(** [args.properties ? JSON.parse(args.properties) : {}] *)
Definition parsed_properties : completion json :=
  if truthy (get args "properties")
  then JSON_parse rt (to_string (get args "properties"))
  else Normal (JObj []).

(** [params.set(name, args[flag])] for each flag that is set, after the
    entries [fixed]. *)
Definition with_optional (fixed : list (string * string))
    (entries : list (string * string)) : list (string * string) :=
  fold_left (fun ps '(name, flag) =>
               if truthy (get args flag) then params_set ps name (to_string (get args flag))
               else ps) entries fixed.

Definition main (cmd sub : value) : M output :=
  switch cmd
    [ ("track",
       switch sub
         [ ("event",
            required TOKEN "MIXPANEL_TOKEN required for tracking"
              (required (get args "distinct-id") "--distinct-id required"
                 (required (get args "event") "--event required"
                    (await properties := lift parsed_properties in
                     await properties := lift (set_property properties "token" (json_of TOKEN)) in
                     await properties := lift (set_property properties "distinct_id"
                                                 (json_of (get args "distinct-id"))) in
                     ingestApi "POST" "/track"
                       (Some (JArr [JObj [("event", json_of (get args "event"));
                                          ("properties", properties)]])))))) ]
         (ret (Error "Unknown track subcommand. Use: event")));
      ("profiles",
       switch sub
         [ ("set",
            required TOKEN "MIXPANEL_TOKEN required for profiles"
              (required (get args "distinct-id") "--distinct-id required"
                 (await properties := lift parsed_properties in
                  ingestApi "POST" "/engage"
                    (Some (JArr [JObj [("$token", json_of TOKEN);
                                       ("$distinct_id", json_of (get args "distinct-id"));
                                       ("$set", properties)]]))))) ]
         (ret (Error "Unknown profiles subcommand. Use: set")));
      ("query",
       switch sub
         [ ("events",
            required (get args "project-id") "--project-id required"
              (queryApiPost "/insights"
                 (JObj [ ("project_id", JNumberOf "parseInt" (get args "project-id"));
                         ("bookmark_id", JNull);
                         ("params", JObj
                            [ ("events", JArr [JObj [("event",
                                 json_of (or_else (get args "event") (VStr "all")))]]);
                              ("time_range", JObj
                                 [ ("from_date", json_of (or_else (get args "from-date")
                                      (VStr (String.substring 0 10 (month_ago_iso w)))));
                                   ("to_date", json_of (or_else (get args "to-date")
                                      (VStr (String.substring 0 10 (now_iso w))))) ]) ]) ]))) ]
         (ret (Error "Unknown query subcommand. Use: events")));
      ("funnels",
       switch sub
         [ ("get",
            required (get args "funnel-id") "--funnel-id required"
              (queryApi "GET" QUERY_URL "/funnels"
                 (Some (with_optional [("funnel_id", to_string (get args "funnel-id"))]
                          [("from_date", "from-date"); ("to_date", "to-date")])))) ]
         (ret (Error "Unknown funnels subcommand. Use: get")));
      ("retention",
       switch sub
         [ ("get",
            if negb (truthy (get args "from-date")) || negb (truthy (get args "to-date"))
            then ret (Error "--from-date and --to-date required (YYYY-MM-DD)")
            else
              queryApi "GET" QUERY_URL "/retention"
                (Some (with_optional [ ("from_date", to_string (get args "from-date"));
                                       ("to_date", to_string (get args "to-date"));
                                       ("retention_type", "birth") ]
                         [("born_event", "born-event")]))) ]
         (ret (Error "Unknown retention subcommand. Use: get")));
      ("export",
       switch sub
         [ ("events",
            required (get args "from-date") "--from-date required"
              (required (get args "to-date") "--to-date required"
                 (let fixed := [ ("from_date", to_string (get args "from-date"));
                                 ("to_date", to_string (get args "to-date")) ] in
                  let params :=
                    if truthy (get args "event")
                    then params_set fixed "event"
                           (JSON_stringify rt (JArr [json_of (get args "event")]))
                    else fixed in
                  queryApi "GET" EXPORT_URL "/export" (Some params)))) ]
         (ret (Error "Unknown export subcommand. Use: events"))) ]
    (ret (ErrorUsage "Unknown command" usage)).

End Script.

Definition tool : Host.tool := {| Host.gate := gate; Host.main := main |}.

End Mixpanel.

(** ** semrush *)

Module Semrush.

Definition BASE_URL : string := "https://api.semrush.com/".

Definition gate (e : gmap string string) : option string :=
  if truthy (getenv e "SEMRUSH_API_KEY") then None
  else Some "SEMRUSH_API_KEY environment variable required".

Definition usage : list (string * string) :=
  [ ("domain overview", "domain overview --domain <domain>");
    ("domain organic", "domain organic --domain <domain> [--database <db>] [--limit <n>]");
    ("domain competitors", "domain competitors --domain <domain> [--database <db>] [--limit <n>]");
    ("keywords overview", "keywords overview --phrase <phrase> [--database <db>]");
    ("keywords related", "keywords related --phrase <phrase> [--database <db>] [--limit <n>]");
    ("keywords difficulty", "keywords difficulty --phrase <phrase> [--database <db>]");
    ("backlinks overview", "backlinks overview --target <domain>");
    ("backlinks list", "backlinks list --target <domain> [--limit <n>]");
    ("databases", "us (default), uk, de, fr, ca, au, etc.") ].

Section Script.

Context (rt : runtime) (w : world) (args : gmap string value).

Definition API_KEY : value := getenv (env w) "SEMRUSH_API_KEY".

(** [row[headers[j]] = values[j] || ''] for [j] from [0] *)
Fixpoint build_row (row : list (string * string)) (headers values : list string)
  : list (string * string) :=
  match headers with
  | [] => row
  | h :: headers' =>
      let v := to_string (or_else (element values 0) (VStr "")) in
      build_row (object_put row h v) headers' (tail values)
  end.

Definition parseCSV (text : string) : list (list (string * string)) :=
  let lines := split "010" (trim rt text) in
  if Nat.ltb (List.length lines) 2 then []
  else
    match lines with
    | [] => []
    | first :: rest =>
        let headers := split ";" first in
        flat_map (fun line =>
                    if truthy (VStr (trim rt line))
                    then [build_row [] headers (split ";" line)]
                    else []) rest
    end.

Definition api (params : list (string * string)) : M output :=
  let params := params_set params "key" (to_string API_KEY) in
  let params := params_set params "export_escape" "1" in
  if truthy (get args "dry-run") then
    let maskedParams := params_set params "key" "***" in
    ret (DryRun {| d_method := "GET";
                   d_url := BASE_URL ++ "?" ++ form_urlencode rt maskedParams;
                   d_headers := []; d_body := None |})
  else
    await res := fetch w {| r_method := "GET";
                            r_url := BASE_URL ++ "?" ++ form_urlencode rt params;
                            r_headers := []; r_body := None |} in
    if negb (ok res) then ret (ErrorStatus (trim rt (text res)) (status res))
    else if startsWith (text res) "ERROR" then ret (Error (trim rt (text res)))
    else ret (Rows (parseCSV (text res))).

Definition database : value := or_else (get args "database") (VStr "us").

(** [if (args.limit) params.set('display_limit', args.limit)] *)
Definition with_limit (params : list (string * string)) : list (string * string) :=
  if truthy (get args "limit")
  then params_set params "display_limit" (to_string (get args "limit"))
  else params.

Definition main (cmd sub : value) : M output :=
  switch cmd
    [ ("domain",
       switch sub
         [ ("overview",
            api [ ("type", "domain_ranks");
                  ("export_columns", "Db,Dn,Rk,Or,Ot,Oc,Ad,At,Ac");
                  ("domain", to_string (get args "domain")) ]);
           ("organic",
            api (with_limit [ ("type", "domain_organic");
                              ("export_columns", "Ph,Po,Pp,Pd,Nq,Cp,Ur,Tr,Tc,Co,Nr");
                              ("domain", to_string (get args "domain"));
                              ("database", to_string database) ]));
           ("competitors",
            api (with_limit [ ("type", "domain_organic_organic");
                              ("export_columns", "Dn,Cr,Np,Or,Ot,Oc,Ad");
                              ("domain", to_string (get args "domain"));
                              ("database", to_string database) ])) ]
         (ret (Error "Unknown domain subcommand. Use: overview, organic, competitors")));
      ("keywords",
       switch sub
         [ ("overview",
            api [ ("type", "phrase_all");
                  ("export_columns", "Ph,Nq,Cp,Co,Nr");
                  ("phrase", to_string (get args "phrase"));
                  ("database", to_string database) ]);
           ("related",
            api (with_limit [ ("type", "phrase_related");
                              ("export_columns", "Ph,Nq,Cp,Co,Nr,Td");
                              ("phrase", to_string (get args "phrase"));
                              ("database", to_string database) ]));
           ("difficulty",
            api [ ("type", "phrase_kdi");
                  ("export_columns", "Ph,Kd");
                  ("phrase", to_string (get args "phrase"));
                  ("database", to_string database) ]) ]
         (ret (Error "Unknown keywords subcommand. Use: overview, related, difficulty")));
      ("backlinks",
       switch sub
         [ ("overview",
            api [ ("type", "backlinks_overview");
                  ("target", to_string (get args "target"));
                  ("target_type", "root_domain") ]);
           ("list",
            api (with_limit [ ("type", "backlinks");
                              ("target", to_string (get args "target"));
                              ("target_type", "root_domain");
                              ("export_columns", "source_url,source_title,target_url,anchor") ])) ]
         (ret (Error "Unknown backlinks subcommand. Use: overview, list"))) ]
    (ret (ErrorUsage "Unknown command" usage)).

End Script.

Definition tool : Host.tool := {| Host.gate := gate; Host.main := main |}.

End Semrush.

(** ** hotjar *)

Module Hotjar.

Definition BASE_URL : string := "https://api.hotjar.io/v1".

(** [if (!CLIENT_ID || !CLIENT_SECRET) { ... process.exit(1) }] *)
Definition gate (e : gmap string string) : option string :=
  if negb (truthy (getenv e "HOTJAR_CLIENT_ID"))
     || negb (truthy (getenv e "HOTJAR_CLIENT_SECRET"))
  then Some "HOTJAR_CLIENT_ID and HOTJAR_CLIENT_SECRET environment variables required"
  else None.

Definition usage : list (string * string) :=
  [ ("sites", "sites list");
    ("surveys", "surveys list --site-id <id> | surveys responses --site-id <id> --survey-id <id> [--limit <n>] [--cursor <cursor>]");
    ("heatmaps", "heatmaps list --site-id <id>");
    ("recordings", "recordings list --site-id <id> [--limit <n>] [--cursor <cursor>] [--date-from <date>] [--date-to <date>]");
    ("forms", "forms list --site-id <id>") ].

Definition token_url : string := BASE_URL ++ "/oauth/token".

(** [a || b] on optional JSON values ([None] is [undefined]) *)
Definition json_or (a b : option json) : option json :=
  match a with
  | Some j => if json_truthy j then a else b
  | None => b
  end.

Section Script.

Context (rt : runtime) (w : world) (args : gmap string value).

Definition CLIENT_ID : value := getenv (env w) "HOTJAR_CLIENT_ID".
Definition CLIENT_SECRET : value := getenv (env w) "HOTJAR_CLIENT_SECRET".

Definition token_request : request :=
  {| r_method := "POST"; r_url := token_url;
     r_headers := [("Content-Type", "application/x-www-form-urlencoded")];
     r_body := Some (TextBody
       ("grant_type=client_credentials&client_id="
        ++ encodeURIComponent rt (to_string CLIENT_ID)
        ++ "&client_secret=" ++ encodeURIComponent rt (to_string CLIENT_SECRET))) |}.

(** [cachedToken] is the slot of the process state. *)
Definition getToken : M json :=
  await cachedToken := read_slot in
  if json_truthy cachedToken then ret cachedToken
  else
    await res := fetch w token_request in
    await data := lift (parsed res) in
    await access_token := lift (property data "access_token") in
    match access_token with
    | Some t =>
        if json_truthy t then
          await _ := write_slot t in
          read_slot
        else
          await description := lift (property data "error_description") in
          await error := lift (property data "error") in
          throw (json_to_string (default JNull
                   (json_or (json_or description error)
                            (Some (JStr "Failed to obtain access token")))))
    | None =>
        await description := lift (property data "error_description") in
        await error := lift (property data "error") in
        throw (json_to_string (default JNull
                 (json_or (json_or description error)
                          (Some (JStr "Failed to obtain access token")))))
    end.

Definition api (method path : string) : M output :=
  if truthy (get args "dry-run") then
    ret (DryRun {| d_method := method; d_url := BASE_URL ++ path;
                   d_headers := [ ("Authorization", "***");
                                  ("Content-Type", "application/json");
                                  ("Accept", "application/json") ];
                   d_body := None |})
  else
    await token := getToken in
    await res := fetch w {| r_method := method; r_url := BASE_URL ++ path;
                            r_headers := [ ("Authorization", "Bearer " ++ json_to_string token);
                                           ("Content-Type", "application/json");
                                           ("Accept", "application/json") ];
                            r_body := None |} in
    ret (read_body res).

Definition siteId : value := get args "site-id".
Definition limit : value := or_else (get args "limit") (VStr "100").
Definition cursor : value := get args "cursor".

(** [new URLSearchParams({ limit })] and the [params.set] calls that follow *)
Definition paging (entries : list (string * string)) : string :=
  form_urlencode rt
    (fold_left (fun ps '(name, flag) =>
                  if truthy (get args flag)
                  then params_set ps name (to_string (get args flag))
                  else ps) entries [("limit", to_string limit)]).

Definition main (cmd sub : value) : M output :=
  switch cmd
    [ ("sites",
       switch sub
         [ ("list", api "GET" "/sites") ]
         (ret (Error "Unknown sites subcommand. Use: list")));
      ("surveys",
       required siteId "--site-id required"
         (switch sub
            [ ("list", api "GET" ("/sites/" ++ to_string siteId ++ "/surveys"));
              ("responses",
               let surveyId := get args "survey-id" in
               required surveyId "--survey-id required"
                 (api "GET" ("/sites/" ++ to_string siteId ++ "/surveys/"
                             ++ to_string surveyId ++ "/responses?"
                             ++ paging [("cursor", "cursor")]))) ]
            (ret (Error "Unknown surveys subcommand. Use: list, responses"))));
      ("heatmaps",
       required siteId "--site-id required"
         (switch sub
            [ ("list", api "GET" ("/sites/" ++ to_string siteId ++ "/heatmaps")) ]
            (ret (Error "Unknown heatmaps subcommand. Use: list"))));
      ("recordings",
       required siteId "--site-id required"
         (switch sub
            [ ("list",
               api "GET" ("/sites/" ++ to_string siteId ++ "/recordings?"
                          ++ paging [("cursor", "cursor"); ("date_from", "date-from");
                                     ("date_to", "date-to")])) ]
            (ret (Error "Unknown recordings subcommand. Use: list"))));
      ("forms",
       required siteId "--site-id required"
         (switch sub
            [ ("list", api "GET" ("/sites/" ++ to_string siteId ++ "/forms")) ]
            (ret (Error "Unknown forms subcommand. Use: list")))) ]
    (ret (ErrorUsage "Unknown command" usage)).

End Script.

Definition tool : Host.tool := {| Host.gate := gate; Host.main := main |}.

End Hotjar.

(** ** trustpilot *)

Module Trustpilot.

Definition BASE_URL : string := "https://api.trustpilot.com/v1".

Definition gate (e : gmap string string) : option string :=
  if truthy (getenv e "TRUSTPILOT_API_KEY") then None
  else Some "TRUSTPILOT_API_KEY environment variable required".

Definition usage : list (string * string) :=
  [ ("business", "business [search --query <q> | get | profile | categories | web-links]");
    ("reviews", "reviews [list | get --id <id> | private | latest | reply --id <id> --message <msg> | delete-reply --id <id>]");
    ("invitations", "invitations [create --email <e> --name <n> | link --email <e> --name <n> | templates]");
    ("tags", "tags [get --id <id> | add --id <id> --group <g> --value <v> | remove --id <id> --group <g> --value <v>]");
    ("options", "--business-unit <id> --limit <n> --stars <1-5> --language <code>") ].

Definition token_url : string :=
  BASE_URL ++ "/oauth/oauth-business-users-for-applications/accesstoken".

Definition no_unit : string := "--business-unit or TRUSTPILOT_BUSINESS_UNIT_ID required".

Section Script.

Context (rt : runtime) (w : world) (args : gmap string value).

Definition API_KEY : value := getenv (env w) "TRUSTPILOT_API_KEY".
Definition API_SECRET : value := getenv (env w) "TRUSTPILOT_API_SECRET".
Definition BUSINESS_UNIT_ID : value := getenv (env w) "TRUSTPILOT_BUSINESS_UNIT_ID".

Definition token_request : request :=
  {| r_method := "POST"; r_url := token_url;
     r_headers :=
       [ ("Authorization",
          "Basic " ++ base64 rt (to_string API_KEY ++ ":" ++ to_string API_SECRET));
         ("Content-Type", "application/x-www-form-urlencoded") ];
     r_body := Some (TextBody "grant_type=client_credentials") |}.

(** [accessToken] is the slot of the process state; [None] is the [null]
    the function returns when it has no token. *)
Definition getAccessToken : M (option json) :=
  await accessToken := read_slot in
  if json_truthy accessToken then ret (Some accessToken)
  else if negb (truthy API_SECRET) then ret None
  else
    await res := fetch w token_request in
    await data := lift (parsed res) in
    await access_token := lift (property data "access_token") in
    match access_token with
    | Some t =>
        if json_truthy t then
          await _ := write_slot t in
          await accessToken := read_slot in
          ret (Some accessToken)
        else ret None
    | None => ret None
    end.

Definition api (method path : string) (body : option json) (auth : string) : M output :=
  if truthy (get args "dry-run") then
    let maskedHeaders :=
      [ ("Content-Type", "application/json"); ("Accept", "application/json") ] in
    let maskedHeaders :=
      if String.eqb auth "bearer"
      then assoc_set maskedHeaders "Authorization" "***"
      else assoc_set maskedHeaders "apikey" "***" in
    ret (DryRun {| d_method := method; d_url := BASE_URL ++ path;
                   d_headers := maskedHeaders; d_body := body |})
  else
    let headers :=
      [ ("Content-Type", "application/json"); ("Accept", "application/json") ] in
    let send (headers : list (string * string)) : M output :=
      await res := fetch w {| r_method := method; r_url := BASE_URL ++ path;
                              r_headers := headers;
                              r_body := option_map JsonBody body |} in
      ret (read_body res) in
    if String.eqb auth "bearer" then
      await token := getAccessToken in
      match token with
      | Some t =>
          if json_truthy t
          then send (assoc_set headers "Authorization" ("Bearer " ++ json_to_string t))
          else ret (Error "TRUSTPILOT_API_SECRET required for private API endpoints")
      | None => ret (Error "TRUSTPILOT_API_SECRET required for private API endpoints")
      end
    else send (assoc_set headers "apikey" (to_string API_KEY)).

Definition businessUnitId : value := or_else (get args "business-unit") BUSINESS_UNIT_ID.

(** [args.limit ? Number(args.limit) : 20], as it is printed into a URL *)
Definition limit : string :=
  if truthy (get args "limit") then String_of_Number rt (get args "limit") else "20".

(** [new URLSearchParams(init)] followed by one
    [if (args[flag]) params.set(name, args[flag])] per entry *)
Definition params_with (init : list (string * string))
    (entries : list (string * string)) : string :=
  form_urlencode rt
    (fold_left (fun ps '(name, flag) =>
                  if truthy (get args flag)
                  then params_set ps name (to_string (get args flag))
                  else ps) entries init).

(** Properties written [name: v || undefined] are left out by
    [JSON.stringify] when [v] is falsy. *)
Definition optional_field (name : string) (v : value) : list (string * json) :=
  if truthy v then [(name, json_of v)] else [].

Definition unit_path (suffix : string) : string :=
  "/business-units/" ++ to_string businessUnitId ++ suffix.

Definition private_unit_path (suffix : string) : string :=
  "/private/business-units/" ++ to_string businessUnitId ++ suffix.

Definition main (cmd sub : value) : M output :=
  switch cmd
    [ ("business",
       switch sub
         [ ("search",
            let query := get args "query" in
            required query "--query required"
              (api "GET" ("/business-units/search?query="
                          ++ encodeURIComponent rt (to_string query)
                          ++ "&limit=" ++ limit) None "apikey"));
           ("get",
            required businessUnitId no_unit (api "GET" (unit_path "") None "apikey"));
           ("profile",
            required businessUnitId no_unit
              (api "GET" (unit_path "/profileinfo") None "apikey"));
           ("categories",
            required businessUnitId no_unit
              (api "GET" (unit_path "/categories") None "apikey"));
           ("web-links",
            required businessUnitId no_unit
              (let locale := or_else (get args "locale") (VStr "en-US") in
               api "GET" (unit_path ("/web-links?locale="
                                     ++ encodeURIComponent rt (to_string locale)))
                   None "apikey")) ]
         (ret (Error "Unknown business subcommand. Use: search, get, profile, categories, web-links")));
      ("reviews",
       switch sub
         [ ("list",
            required businessUnitId no_unit
              (api "GET"
                 (unit_path ("/reviews?"
                    ++ params_with
                         [ ("perPage", limit);
                           ("orderBy", to_string (or_else (get args "order-by")
                                                    (VStr "createdat.desc"))) ]
                         [("stars", "stars"); ("language", "language")]))
                 None "apikey"));
           ("get",
            let reviewId := get args "id" in
            required reviewId "--id required"
              (api "GET" ("/reviews/" ++ to_string reviewId) None "apikey"));
           ("private",
            required businessUnitId no_unit
              (api "GET"
                 (private_unit_path ("/reviews?"
                    ++ params_with [("perPage", limit)] [("stars", "stars")]))
                 None "bearer"));
           ("latest", api "GET" ("/reviews/latest?count=" ++ limit) None "apikey");
           ("reply",
            let reviewId := get args "id" in
            let message := get args "message" in
            required reviewId "--id required"
              (required message "--message required"
                 (api "POST" ("/private/reviews/" ++ to_string reviewId ++ "/reply")
                      (Some (JObj [("message", json_of message)])) "bearer")));
           ("delete-reply",
            let reviewId := get args "id" in
            required reviewId "--id required"
              (api "DELETE" ("/private/reviews/" ++ to_string reviewId ++ "/reply")
                   None "bearer")) ]
         (ret (Error "Unknown reviews subcommand. Use: list, get, private, latest, reply, delete-reply")));
      ("invitations",
       switch sub
         [ ("create",
            required businessUnitId no_unit
              (let email := get args "email" in
               let name := get args "name" in
               required email "--email required"
                 (required name "--name required"
                    (api "POST" (private_unit_path "/email-invitations")
                       (Some (JObj
                          ([ ("consumerEmail", json_of email);
                             ("consumerName", json_of name);
                             ("referenceNumber",
                              json_of (or_else (get args "reference") (VStr ""))) ]
                           ++ optional_field "senderEmail" (get args "sender-email")
                           ++ optional_field "replyTo" (get args "reply-to")
                           ++ optional_field "templateId" (get args "template")
                           ++ [ ("redirectUri",
                                 json_of (or_else (get args "redirect-uri")
                                            (VStr "https://trustpilot.com"))) ])))
                       "bearer"))));
           ("link",
            required businessUnitId no_unit
              (let email := get args "email" in
               let name := get args "name" in
               required email "--email required"
                 (required name "--name required"
                    (api "POST" (private_unit_path "/invitation-links")
                       (Some (JObj
                          [ ("email", json_of email);
                            ("name", json_of name);
                            ("referenceId",
                             json_of (or_else (get args "reference") (VStr "")));
                            ("redirectUri",
                             json_of (or_else (get args "redirect-uri")
                                        (VStr "https://trustpilot.com"))) ]))
                       "bearer"))));
           ("templates",
            required businessUnitId no_unit
              (api "GET" (private_unit_path "/templates") None "bearer")) ]
         (ret (Error "Unknown invitations subcommand. Use: create, link, templates")));
      ("tags",
       switch sub
         [ ("get",
            let reviewId := get args "id" in
            required reviewId "--id required"
              (api "GET" ("/private/reviews/" ++ to_string reviewId ++ "/tags")
                   None "bearer"));
           ("add",
            let reviewId := get args "id" in
            let group := get args "group" in
            let value := get args "value" in
            required reviewId "--id required"
              (if negb (truthy group) || negb (truthy value)
               then ret (Error "--group and --value required")
               else
                 api "PUT" ("/private/reviews/" ++ to_string reviewId ++ "/tags")
                   (Some (JObj [("tags", JArr [JObj [("group", json_of group);
                                                     ("value", json_of value)]])]))
                   "bearer"));
           ("remove",
            let reviewId := get args "id" in
            let group := get args "group" in
            let value := get args "value" in
            required reviewId "--id required"
              (if negb (truthy group) || negb (truthy value)
               then ret (Error "--group and --value required")
               else
                 api "DELETE" ("/private/reviews/" ++ to_string reviewId
                               ++ "/tags?group=" ++ encodeURIComponent rt (to_string group)
                               ++ "&value=" ++ encodeURIComponent rt (to_string value))
                   None "bearer")) ]
         (ret (Error "Unknown tags subcommand. Use: get, add, remove"))) ]
    (ret (ErrorUsage "Unknown command" usage)).

End Script.

Definition tool : Host.tool := {| Host.gate := gate; Host.main := main |}.

End Trustpilot.

(** ** tiktok-ads *)

Module Tiktok.

Definition BASE_URL : string := "https://business-api.tiktok.com/open_api/v1.3".

Definition gate (e : gmap string string) : option string :=
  if truthy (getenv e "TIKTOK_ACCESS_TOKEN") then None
  else Some "TIKTOK_ACCESS_TOKEN environment variable required".

Definition usage : list (string * string) :=
  [ ("advertiser", "advertiser [info]");
    ("campaigns", "campaigns [list|create|update-status] [--name <name>] [--objective <obj>] [--budget-mode BUDGET_MODE_DAY] [--budget <amount>] [--ids <id1,id2>] [--status ENABLE|DISABLE]");
    ("adgroups", "adgroups [list] [--campaign-id <id>]");
    ("reports", "reports [get] --start-date YYYY-MM-DD --end-date YYYY-MM-DD [--dimensions campaign_id] [--metrics spend,impressions,clicks,conversion] [--data-level AUCTION_CAMPAIGN]");
    ("audiences", "audiences [list]") ].

Definition no_advertiser : string :=
  "TIKTOK_ADVERTISER_ID env or --advertiser-id required".

(** [v.split(',')] on the value of a flag that was tested truthy: a flag
    given without a value is [true], which has no [split]. *)
Definition split_flag (name : string) (v : value) : completion json :=
  match v with
  | VStr s => Normal (JArr (map JStr (split "," s)))
  | _ => Throw ("args." ++ name ++ ".split is not a function")
  end.

Section Script.

Context (rt : runtime) (w : world) (args : gmap string value).

Definition TOKEN : value := getenv (env w) "TIKTOK_ACCESS_TOKEN".
Definition ADVERTISER_ID : value := getenv (env w) "TIKTOK_ADVERTISER_ID".

(** [if (body && method === 'POST') opts.body = JSON.stringify(body)] *)
Definition api (method path : string) (body : option json) : M output :=
  if truthy (get args "dry-run") then
    ret (DryRun {| d_method := method; d_url := BASE_URL ++ path;
                   d_headers := [ ("Access-Token", "***");
                                  ("Content-Type", "application/json") ];
                   d_body := body |})
  else
    await res := fetch w {| r_method := method; r_url := BASE_URL ++ path;
                            r_headers := [ ("Access-Token", to_string TOKEN);
                                           ("Content-Type", "application/json") ];
                            r_body := if String.eqb method "POST"
                                      then option_map JsonBody body else None |} in
    ret (read_body res).

Definition getAdvertiserId : value := or_else (get args "advertiser-id") ADVERTISER_ID.

(** [args[flag] ? args[flag].split(',') : fallback] *)
Definition split_or (flag : string) (fallback : list string) : completion json :=
  if truthy (get args flag) then split_flag flag (get args flag)
  else Normal (JArr (map JStr fallback)).

Definition main (cmd sub : value) : M output :=
  switch cmd
    [ ("advertiser",
       switch sub
         [ ("info",
            let advId := getAdvertiserId in
            required advId no_advertiser
              (api "GET" ("/advertiser/info/?"
                          ++ form_urlencode rt
                               [("advertiser_ids",
                                 JSON_stringify rt (JArr [json_of advId]))]) None)) ]
         (ret (Error "Unknown advertiser subcommand. Use: info")));
      ("campaigns",
       switch sub
         [ ("list",
            let advId := getAdvertiserId in
            required advId no_advertiser
              (api "GET" ("/campaign/get/?"
                          ++ form_urlencode rt
                               [ ("advertiser_id", to_string advId);
                                 ("page", "1"); ("page_size", "20") ]) None));
           ("create",
            let advId := getAdvertiserId in
            required advId no_advertiser
              (if negb (truthy (get args "name")) || negb (truthy (get args "objective"))
               then ret (Error "--name and --objective required")
               else
                 let body :=
                   [ ("advertiser_id", json_of advId);
                     ("campaign_name", json_of (get args "name"));
                     ("objective_type", json_of (get args "objective"));
                     ("budget_mode", json_of (or_else (get args "budget-mode")
                                                (VStr "BUDGET_MODE_DAY"))) ] in
                 let body :=
                   if truthy (get args "budget")
                   then assoc_set body "budget" (JNumberOf "parseFloat" (get args "budget"))
                   else body in
                 api "POST" "/campaign/create/" (Some (JObj body))));
           ("update-status",
            let advId := getAdvertiserId in
            required advId no_advertiser
              (if negb (truthy (get args "ids")) || negb (truthy (get args "status"))
               then ret (Error "--ids and --status required")
               else
                 await ids := lift (split_flag "ids" (get args "ids")) in
                 api "POST" "/campaign/status/update/"
                   (Some (JObj [ ("advertiser_id", json_of advId);
                                 ("campaign_ids", ids);
                                 ("opt_status", json_of (get args "status")) ])))) ]
         (ret (Error "Unknown campaigns subcommand. Use: list, create, update-status")));
      ("adgroups",
       switch sub
         [ ("list",
            let advId := getAdvertiserId in
            required advId no_advertiser
              (let agParams := [("advertiser_id", to_string advId)] in
               let agParams :=
                 if truthy (get args "campaign-id")
                 then params_set agParams "campaign_ids"
                        (JSON_stringify rt (JArr [json_of (get args "campaign-id")]))
                 else agParams in
               api "GET" ("/adgroup/get/?" ++ form_urlencode rt agParams) None)) ]
         (ret (Error "Unknown adgroups subcommand. Use: list")));
      ("reports",
       switch sub
         [ ("get",
            let advId := getAdvertiserId in
            required advId no_advertiser
              (if negb (truthy (get args "start-date")) || negb (truthy (get args "end-date"))
               then ret (Error "--start-date and --end-date required (YYYY-MM-DD)")
               else
                 await dimensions := lift (split_or "dimensions" ["campaign_id"]) in
                 await metrics := lift (split_or "metrics"
                                          ["spend"; "impressions"; "clicks"; "conversion"]) in
                 api "POST" "/report/integrated/get/"
                   (Some (JObj [ ("advertiser_id", json_of advId);
                                 ("report_type", JStr "BASIC");
                                 ("dimensions", dimensions);
                                 ("metrics", metrics);
                                 ("data_level", json_of (or_else (get args "data-level")
                                                           (VStr "AUCTION_CAMPAIGN")));
                                 ("start_date", json_of (get args "start-date"));
                                 ("end_date", json_of (get args "end-date")) ])))) ]
         (ret (Error "Unknown reports subcommand. Use: get")));
      ("audiences",
       switch sub
         [ ("list",
            let advId := getAdvertiserId in
            required advId no_advertiser
              (api "GET" ("/dmp/custom_audience/list/?"
                          ++ form_urlencode rt [("advertiser_id", to_string advId)])
                   None)) ]
         (ret (Error "Unknown audiences subcommand. Use: list"))) ]
    (ret (ErrorUsage "Unknown command" usage)).

End Script.

Definition tool : Host.tool := {| Host.gate := gate; Host.main := main |}.

End Tiktok.

(** ** Idioms that the scripts share *)

Module Idiom.

(** [new URLSearchParams({ name: v, ... })]: every value becomes a string. *)
Definition params_of (init : list (string * value)) : list (string * string) :=
  map (fun p => (fst p, to_string (snd p))) init.

(** [if (v) params.set(name, s)] *)
Definition set_if (v : value) (name s : string) (ps : list (string * string))
  : list (string * string) :=
  if truthy v then params_set ps name s else ps.

(** [if (args[flag]) params.set(name, args[flag])], one per entry *)
Definition set_flags (args : gmap string value) (ps : list (string * string))
    (entries : list (string * string)) : list (string * string) :=
  fold_left (fun ps '(name, flag) => set_if (get args flag) name (to_string (get args flag)) ps)
            entries ps.

(** [if (v) o[name] = j] for a name written in the script *)
Definition put_if (v : value) (name : string) (j : json) (o : list (string * json))
  : list (string * json) :=
  if truthy v then assoc_set o name j else o.

(** [if (args[flag]) o[name] = args[flag]], one per entry *)
Definition put_flags (args : gmap string value) (o : list (string * json))
    (entries : list (string * string)) : list (string * json) :=
  fold_left (fun o '(name, flag) => put_if (get args flag) name (json_of (get args flag)) o)
            entries o.

(** [qs ? `?${qs}` : ''] *)
Definition query_suffix (qs : string) : string :=
  if truthy (VStr qs) then "?" ++ qs else "".

(** [v ? c(v) : n] for a numeric conversion [c], as a JSON number *)
Definition number_or (c : string) (v : value) (n : nat) : json :=
  if truthy v then JNumberOf c v else JNat n.

(** [args.name?.split(',')]: [undefined] stays, a string is split, and
    [true] (a flag without a value) has no [split]. *)
Definition optional_split (name : string) (v : value)
  : completion (option (list string)) :=
  match v with
  | VUndefined => Normal None
  | VStr s => Normal (Some (split "," s))
  | VTrue | VArr _ => Throw ("args." ++ name ++ "?.split is not a function")
  end.

(** [args.name.split(',')] *)
Definition split_of (name : string) (v : value) : completion (list string) :=
  match v with
  | VStr s => Normal (split "," s)
  | VUndefined => Throw "Cannot read properties of undefined (reading 'split')"
  | VTrue | VArr _ => Throw ("args." ++ name ++ ".split is not a function")
  end.

(** [if (args[flag]) o[name] = args[flag].split(',').map(f)] *)
Definition put_split (args : gmap string value) (name flag : string) (f : string -> json)
    (o : list (string * json)) : completion (list (string * json)) :=
  if truthy (get args flag) then
    match split_of flag (get args flag) with
    | Normal pieces => Normal (assoc_set o name (JArr (map f pieces)))
    | Throw e => Throw e
    end
  else Normal o.

(** [if (args[flag]) o[name] = JSON.parse(args[flag])] *)
Definition put_parsed (rt : runtime) (args : gmap string value) (name flag : string)
    (o : list (string * json)) : completion (list (string * json)) :=
  if truthy (get args flag) then
    match JSON_parse rt (to_string (get args flag)) with
    | Normal j => Normal (assoc_set o name j)
    | Throw e => Throw e
    end
  else Normal o.

(** [rest] of [const [cmd, sub, ...rest] = args._] *)
Definition rest_of (args : gmap string value) : list string :=
  match get args "_" with
  | VArr items => drop 2 items
  | VStr s => drop 2 (characters s)
  | VTrue | VUndefined => []
  end.

(** [if (!v1 || !v2 || ...) { result = { error: message }; break }]
    followed by [rest] *)
Definition required_all (vs : list value) (message : string) (rest : M output)
  : M output :=
  if forallb truthy vs then rest else ret (Error message).

(** [Object.assign(o, source)] for a [source] that came out of
    [JSON.parse]: the own enumerable properties of an object, the elements
    of an array under their indices, the characters of a string under
    theirs; nothing for [null], a number or a boolean. *)
Definition object_assign (o : list (string * json)) (source : json)
  : list (string * json) :=
  let entries :=
    match source with
    | JObj fields => fields
    | JArr items => imap (fun i j => (pretty i, j)) items
    | JStr s => imap (fun i c => (pretty i, JStr c)) (characters s)
    | JNull | JBool _ | JNat _ | JNumberOf _ _ => []
    end in
  fold_left (fun o '(k, v) => object_put o k v) entries o.

(** [if (n)] for a number [n] given by its decimal text [String(n)]: a
    number is falsy exactly when it is [0], [-0] or [NaN], which print as
    [0] and [NaN]. *)
Definition number_truthy (text : string) : bool :=
  negb (String.eqb text "0" || String.eqb text "NaN").

(** [body || undefined] and [body ? ... : undefined] for a body that came
    out of [JSON.parse] *)
Definition given (j : json) : option json :=
  if json_truthy j then Some j else None.

(** [if (args[flag]) params.append(name, s)] *)
Definition append_if (v : value) (name s : string) (ps : list (string * string))
  : list (string * string) :=
  if truthy v then ps ++ [(name, s)] else ps.

(** [args[flag]?.split(',') || fallback] *)
Definition split_or (args : gmap string value) (flag : string) (fallback : list string)
  : completion (list string) :=
  match optional_split flag (get args flag) with
  | Normal (Some pieces) => Normal pieces
  | Normal None => Normal fallback
  | Throw e => Throw e
  end.

(** [for (const pair of pairs) { const [k, v] = pair.split(':');
    if (k && v) o[k] = v }] *)
Definition add_pair (o : list (string * json)) (pair : string) : list (string * json) :=
  let parts := split ":" pair in
  let k := element parts 0 in
  let v := element parts 1 in
  if truthy k && truthy v then object_put o (to_string k) (json_of v) else o.

(** A property written [name: v || undefined]: [JSON.stringify] leaves it
    out when [v] is falsy. *)
Definition or_undefined (name : string) (v : value) : list (string * json) :=
  if truthy v then [(name, json_of v)] else [].

(** [v.split(',')] for a variable [v] that is known to be truthy: a flag
    without a value is [true], which has no [split]. *)
Definition pieces (variable : string) (v : value) : completion (list string) :=
  match v with
  | VStr s => Normal (split "," s)
  | _ => Throw (variable ++ ".split is not a function")
  end.

End Idiom.
Import Idiom.

(** ** ahrefs *)

Module Ahrefs.

Definition BASE_URL : string := "https://api.ahrefs.com/v3".

Definition gate (e : gmap string string) : option string :=
  if truthy (getenv e "AHREFS_API_KEY") then None
  else Some "AHREFS_API_KEY environment variable required".

Definition usage : list (string * string) :=
  [ ("domain-rating", "domain-rating get --target <domain>");
    ("backlinks", "backlinks list --target <domain> [--mode <mode>] [--limit <n>]");
    ("refdomains", "refdomains list --target <domain> [--mode <mode>] [--limit <n>]");
    ("keywords", "keywords organic --target <domain> [--country <cc>] [--limit <n>]");
    ("top-pages", "top-pages list --target <domain> [--country <cc>] [--limit <n>]");
    ("keyword-overview", "keyword-overview get --keywords <kw1,kw2> [--country <cc>]");
    ("keyword-suggestions", "keyword-suggestions get --keyword <keyword> [--country <cc>] [--limit <n>]");
    ("serp", "serp get --keyword <keyword> [--country <cc>]");
    ("modes", "domain (default), subdomains, prefix, exact") ].

Section Script.

Context (rt : runtime) (w : world) (args : gmap string value).

Definition API_KEY : value := getenv (env w) "AHREFS_API_KEY".

Definition api (method path : string) : M output :=
  if truthy (get args "dry-run") then
    ret (DryRun {| d_method := method; d_url := BASE_URL ++ path;
                   d_headers := [ ("Authorization", "***");
                                  ("Content-Type", "application/json") ];
                   d_body := None |})
  else
    await res := fetch w {| r_method := method; r_url := BASE_URL ++ path;
                            r_headers := [ ("Authorization", "Bearer " ++ to_string API_KEY);
                                           ("Content-Type", "application/json") ];
                            r_body := None |} in
    ret (read_body res).

Definition mode : value := or_else (get args "mode") (VStr "domain").

(** [new URLSearchParams({ target: args.target, mode })] and the
    [params.set] calls of the flags given in [entries] *)
Definition explorer (path : string) (entries : list (string * string)) : M output :=
  required (get args "target") "--target required (domain or URL)"
    (api "GET" (path ++ "?"
                ++ form_urlencode rt
                     (set_flags args (params_of [("target", get args "target"); ("mode", mode)])
                                entries))).

Definition main (cmd sub : value) : M output :=
  switch cmd
    [ ("domain-rating",
       switch sub
         [ ("get",
            required (get args "target") "--target required (domain)"
              (api "GET" ("/site-explorer/domain-rating?"
                          ++ form_urlencode rt (params_of [("target", get args "target")])))) ]
         (ret (Error "Unknown domain-rating subcommand. Use: get")));
      ("backlinks",
       switch sub
         [ ("list", explorer "/site-explorer/backlinks" [("limit", "limit")]) ]
         (ret (Error "Unknown backlinks subcommand. Use: list")));
      ("refdomains",
       switch sub
         [ ("list", explorer "/site-explorer/refdomains" [("limit", "limit")]) ]
         (ret (Error "Unknown refdomains subcommand. Use: list")));
      ("keywords",
       switch sub
         [ ("organic",
            explorer "/site-explorer/organic-keywords" [("country", "country"); ("limit", "limit")]) ]
         (ret (Error "Unknown keywords subcommand. Use: organic")));
      ("top-pages",
       switch sub
         [ ("list",
            explorer "/site-explorer/top-pages" [("country", "country"); ("limit", "limit")]) ]
         (ret (Error "Unknown top-pages subcommand. Use: list")));
      ("keyword-overview",
       switch sub
         [ ("get",
            api "GET" ("/keywords-explorer/overview?"
                       ++ form_urlencode rt
                            (set_flags args (params_of [("keywords", get args "keywords")])
                                       [("country", "country")]))) ]
         (ret (Error "Unknown keyword-overview subcommand. Use: get")));
      ("keyword-suggestions",
       switch sub
         [ ("get",
            api "GET" ("/keywords-explorer/matching-terms?"
                       ++ form_urlencode rt
                            (set_flags args (params_of [("keyword", get args "keyword")])
                                       [("country", "country"); ("limit", "limit")]))) ]
         (ret (Error "Unknown keyword-suggestions subcommand. Use: get")));
      ("serp",
       switch sub
         [ ("get",
            api "GET" ("/keywords-explorer/serp-overview?"
                       ++ form_urlencode rt
                            (set_flags args (params_of [("keyword", get args "keyword")])
                                       [("country", "country")]))) ]
         (ret (Error "Unknown serp subcommand. Use: get"))) ]
    (ret (ErrorUsage "Unknown command" usage)).

End Script.

Definition tool : Host.tool := {| Host.gate := gate; Host.main := main |}.

End Ahrefs.

(** ** beehiiv *)

Module Beehiiv.

Definition BASE_URL : string := "https://api.beehiiv.com/v2".

Definition gate (e : gmap string string) : option string :=
  if truthy (getenv e "BEEHIIV_API_KEY") then None
  else Some "BEEHIIV_API_KEY environment variable required".

Definition usage : list (string * string) :=
  [ ("publications", "publications [list | get --publication <id>]");
    ("subscriptions", "subscriptions [list | get --id <id> | create --email <email> | update --id <id> | delete --id <id>] --publication <id>");
    ("posts", "posts [list | get --id <id> | create --title <title> | delete --id <id>] --publication <id>");
    ("segments", "segments [list | get --id <id>] --publication <id>");
    ("automations", "automations [list | get --id <id>] --publication <id>");
    ("referral-program", "referral-program [get] --publication <id>");
    ("options", "--publication <id> --limit <n> --email <email> --status <status> --tier <tier>") ].

Section Script.

Context (rt : runtime) (w : world) (args : gmap string value).

Definition API_KEY : value := getenv (env w) "BEEHIIV_API_KEY".

Definition api (method path : string) (body : option json) : M output :=
  if truthy (get args "dry-run") then
    ret (DryRun {| d_method := method; d_url := BASE_URL ++ path;
                   d_headers := [ ("Authorization", "***");
                                  ("Content-Type", "application/json");
                                  ("Accept", "application/json") ];
                   d_body := body |})
  else
    await res := fetch w {| r_method := method; r_url := BASE_URL ++ path;
                            r_headers := [ ("Authorization", "Bearer " ++ to_string API_KEY);
                                           ("Content-Type", "application/json");
                                           ("Accept", "application/json") ];
                            r_body := option_map JsonBody body |} in
    ret (read_body res).

Definition pubId : value := or_else (get args "publication") (get args "pub").

(** [String(limit)] with [limit = args.limit ? Number(args.limit) : 10] *)
Definition limit : string :=
  if truthy (get args "limit") then String_of_Number rt (get args "limit") else "10".

Definition publication (suffix : string) : string :=
  "/publications/" ++ to_string pubId ++ suffix.

(** [if (!pubId) ...] then [if (!args.id) ...] then the call *)
Definition by_id (method resource : string) (body : option json) : M output :=
  required pubId "--publication required"
    (required (get args "id") "--id required"
       (api method (publication (resource ++ to_string (get args "id"))) body)).

Definition main (cmd sub : value) : M output :=
  switch cmd
    [ ("publications",
       switch sub
         [ ("list", api "GET" "/publications" None);
           ("get",
            required pubId "--publication required" (api "GET" (publication "") None)) ]
         (ret (Error "Unknown publications subcommand. Use: list, get")));
      ("subscriptions",
       switch sub
         [ ("list",
            required pubId "--publication required"
              (api "GET"
                 (publication ("/subscriptions?"
                    ++ form_urlencode rt
                         (set_flags args [("limit", limit)]
                            [ ("email", "email"); ("status", "status"); ("tier", "tier");
                              ("cursor", "cursor"); ("expand[]", "expand") ])))
                 None));
           ("get", by_id "GET" "/subscriptions/" None);
           ("create",
            required pubId "--publication required"
              (let email := get args "email" in
               required email "--email required"
                 (let body := [("email", json_of email)] in
                  let body := put_if (get args "reactivate-existing") "reactivate_existing"
                                     (JBool true) body in
                  let body := put_if (get args "send-welcome-email") "send_welcome_email"
                                     (JBool true) body in
                  let body := put_flags args body
                                [ ("utm_source", "utm-source"); ("utm_medium", "utm-medium");
                                  ("utm_campaign", "utm-campaign"); ("tier", "tier");
                                  ("referring_site", "referring-site") ] in
                  api "POST" (publication "/subscriptions") (Some (JObj body)))));
           ("update",
            by_id "PUT" "/subscriptions/" (Some (JObj (put_flags args [] [("tier", "tier")]))));
           ("delete", by_id "DELETE" "/subscriptions/" None) ]
         (ret (Error "Unknown subscriptions subcommand. Use: list, get, create, update, delete")));
      ("posts",
       switch sub
         [ ("list",
            required pubId "--publication required"
              (api "GET"
                 (publication ("/posts?"
                    ++ form_urlencode rt
                         (set_flags args [("limit", limit)]
                            [("status", "status"); ("cursor", "cursor")])))
                 None));
           ("get", by_id "GET" "/posts/" None);
           ("create",
            required pubId "--publication required"
              (let title := get args "title" in
               required title "--title required"
                 (api "POST" (publication "/posts")
                    (Some (JObj (put_flags args [("title", json_of title)]
                                   [ ("subtitle", "subtitle"); ("content", "content");
                                     ("status", "status") ]))))));
           ("delete", by_id "DELETE" "/posts/" None) ]
         (ret (Error "Unknown posts subcommand. Use: list, get, create, delete")));
      ("segments",
       switch sub
         [ ("list",
            required pubId "--publication required" (api "GET" (publication "/segments") None));
           ("get", by_id "GET" "/segments/" None) ]
         (ret (Error "Unknown segments subcommand. Use: list, get")));
      ("automations",
       switch sub
         [ ("list",
            required pubId "--publication required"
              (api "GET" (publication "/automations") None));
           ("get", by_id "GET" "/automations/" None) ]
         (ret (Error "Unknown automations subcommand. Use: list, get")));
      ("referral-program",
       switch sub
         [ ("get",
            required pubId "--publication required"
              (api "GET" (publication "/referral_program") None)) ]
         (ret (Error "Unknown referral-program subcommand. Use: get"))) ]
    (ret (ErrorUsage "Unknown command" usage)).

End Script.

Definition tool : Host.tool := {| Host.gate := gate; Host.main := main |}.

End Beehiiv.

(** ** clearbit *)

Module Clearbit.

Definition gate (e : gmap string string) : option string :=
  if truthy (getenv e "CLEARBIT_API_KEY") then None
  else Some "CLEARBIT_API_KEY environment variable required".

Definition usage : list (string * string) :=
  [ ("person", "person find --email <email>");
    ("company", "company find --domain <domain>");
    ("combined", "combined find --email <email>");
    ("reveal", "reveal find --ip <ip>");
    ("name-to-domain", "name-to-domain find --name <company_name>");
    ("prospector", "prospector search --domain <domain> [--role <role>] [--seniority <level>] [--title <title>]") ].

Section Script.

Context (rt : runtime) (w : world) (args : gmap string value).

Definition API_KEY : value := getenv (env w) "CLEARBIT_API_KEY".

Definition api (method baseUrl path : string) (body : option json) : M output :=
  if truthy (get args "dry-run") then
    ret (DryRun {| d_method := method; d_url := baseUrl ++ path;
                   d_headers := [ ("Authorization", "***");
                                  ("Content-Type", "application/json");
                                  ("Accept", "application/json") ];
                   d_body := body |})
  else
    await res := fetch w {| r_method := method; r_url := baseUrl ++ path;
                            r_headers := [ ("Authorization", "Bearer " ++ to_string API_KEY);
                                           ("Content-Type", "application/json");
                                           ("Accept", "application/json") ];
                            r_body := option_map JsonBody body |} in
    ret (read_body res).

(** [if (!args[flag]) ...] then a [GET] of [path] followed by the encoded
    flag *)
Definition find (flag message baseUrl path : string) : M output :=
  let v := get args flag in
  required v message
    (api "GET" baseUrl (path ++ encodeURIComponent rt (to_string v)) None).

Definition main (cmd sub : value) : M output :=
  switch cmd
    [ ("person",
       switch sub
         [ ("find", find "email" "--email required" "https://person-stream.clearbit.com" "/v2/people/find?email=") ]
         (ret (Error "Unknown person subcommand. Use: find")));
      ("company",
       switch sub
         [ ("find",
            find "domain" "--domain required" "https://company-stream.clearbit.com" "/v2/companies/find?domain=") ]
         (ret (Error "Unknown company subcommand. Use: find")));
      ("combined",
       switch sub
         [ ("find", find "email" "--email required" "https://person-stream.clearbit.com"
                  "/v2/combined/find?email=") ]
         (ret (Error "Unknown combined subcommand. Use: find")));
      ("reveal",
       switch sub
         [ ("find", find "ip" "--ip required" "https://reveal.clearbit.com" "/v1/companies/find?ip=") ]
         (ret (Error "Unknown reveal subcommand. Use: find")));
      ("name-to-domain",
       switch sub
         [ ("find", find "name" "--name required" "https://company.clearbit.com"
                   "/v1/domains/find?name=") ]
         (ret (Error "Unknown name-to-domain subcommand. Use: find")));
      ("prospector",
       switch sub
         [ ("search",
            let domain := get args "domain" in
            required domain "--domain required"
              (api "GET" "https://prospector.clearbit.com"
                 ("/v1/people/search?"
                  ++ form_urlencode rt
                       (set_flags args (params_of [("domain", domain)])
                          [ ("role", "role"); ("seniority", "seniority"); ("title", "title");
                            ("page", "page"); ("page_size", "page-size") ]))
                 None)) ]
         (ret (Error "Unknown prospector subcommand. Use: search"))) ]
    (ret (ErrorUsage "Unknown command" usage)).

End Script.

Definition tool : Host.tool := {| Host.gate := gate; Host.main := main |}.

End Clearbit.

(** ** dataforseo *)

Module Dataforseo.

Definition BASE_URL : string := "https://api.dataforseo.com/v3".

(** [if (!LOGIN || !PASSWORD) { ... process.exit(1) }] *)
Definition gate (e : gmap string string) : option string :=
  if negb (truthy (getenv e "DATAFORSEO_LOGIN"))
     || negb (truthy (getenv e "DATAFORSEO_PASSWORD"))
  then Some "DATAFORSEO_LOGIN and DATAFORSEO_PASSWORD environment variables required"
  else None.

Definition usage : list (string * string) :=
  [ ("serp", "serp [google --keyword <kw> | locations | languages]");
    ("keywords", "keywords [volume --keywords <kw1,kw2> | for-site --target <domain> | for-keywords --keywords <kw1,kw2> | trends --keywords <kw1,kw2>]");
    ("backlinks", "backlinks [summary --target <domain> | list --target <domain> | refdomains --target <domain> | anchors --target <domain> | index]");
    ("onpage", "onpage [audit --url <url>]");
    ("labs", "labs [competitors --target <domain> | ranked-keywords --target <domain> | domain-intersection --targets <d1,d2>]");
    ("options", "--location-code <code> --language-code <code> --limit <n>") ].

(** [targets.forEach((t, i) => { payload[`target${i + 1}`] = t })] from
    index [i] on *)
Fixpoint number_targets (payload : list (string * json)) (i : nat) (targets : list string)
  : list (string * json) :=
  match targets with
  | [] => payload
  | t :: rest => number_targets (assoc_set payload ("target" ++ pretty (i + 1)) (JStr t))
                                (i + 1) rest
  end.

Section Script.

Context (rt : runtime) (w : world) (args : gmap string value).

Definition LOGIN : value := getenv (env w) "DATAFORSEO_LOGIN".
Definition PASSWORD : value := getenv (env w) "DATAFORSEO_PASSWORD".

Definition AUTH : string :=
  "Basic " ++ base64 rt (to_string LOGIN ++ ":" ++ to_string PASSWORD).

Definition api (method path : string) (body : option json) : M output :=
  if truthy (get args "dry-run") then
    ret (DryRun {| d_method := method; d_url := BASE_URL ++ path;
                   d_headers := [ ("Authorization", "***");
                                  ("Content-Type", "application/json") ];
                   d_body := body |})
  else
    await res := fetch w {| r_method := method; r_url := BASE_URL ++ path;
                            r_headers := [ ("Authorization", AUTH);
                                           ("Content-Type", "application/json") ];
                            r_body := option_map JsonBody body |} in
    ret (read_body res).

Definition location : value := or_else (get args "location") (VStr "United States").
Definition locationCode : json := number_or "Number" (get args "location-code") 2840.
Definition language : value := or_else (get args "language") (VStr "English").
Definition languageCode : value := or_else (get args "language-code") (VStr "en").
Definition limit : json := number_or "Number" (get args "limit") 100.

(** The handlers that post [{ keywords, location_code, language_code }] *)
Definition by_keywords (path : string) : M output :=
  await keywords := lift (optional_split "keywords" (get args "keywords")) in
  match keywords with
  | None => ret (Error "--keywords required (comma-separated)")
  | Some kws =>
      api "POST" path
        (Some (JArr [JObj [ ("keywords", JArr (map JStr kws));
                            ("location_code", locationCode);
                            ("language_code", json_of languageCode) ]]))
  end.

(** The handlers that check [--target] and post an object that begins with
    it *)
Definition by_target (message path : string) (fields : list (string * json)) : M output :=
  let target := get args "target" in
  required target message
    (api "POST" path (Some (JArr [JObj (("target", json_of target) :: fields)]))).

Definition main (cmd sub : value) : M output :=
  switch cmd
    [ ("serp",
       switch sub
         [ ("google",
            let keyword := get args "keyword" in
            required keyword "--keyword required"
              (api "POST" "/serp/google/organic/live/regular"
                 (Some (JArr [JObj [ ("keyword", json_of keyword);
                                     ("location_name", json_of location);
                                     ("language_name", json_of language) ]]))));
           ("locations", api "GET" "/serp/google/locations" None);
           ("languages", api "GET" "/serp/google/languages" None) ]
         (ret (Error "Unknown serp subcommand. Use: google, locations, languages")));
      ("keywords",
       switch sub
         [ ("volume", by_keywords "/keywords_data/google_ads/search_volume/live");
           ("for-site",
            by_target "--target required (domain)"
              "/keywords_data/google_ads/keywords_for_site/live"
              [ ("location_code", locationCode); ("language_code", json_of languageCode) ]);
           ("for-keywords", by_keywords "/keywords_data/google_ads/keywords_for_keywords/live");
           ("trends", by_keywords "/keywords_data/google_trends/explore/live") ]
         (ret (Error "Unknown keywords subcommand. Use: volume, for-site, for-keywords, trends")));
      ("backlinks",
       switch sub
         [ ("summary",
            by_target "--target required" "/backlinks/summary/live"
              [ ("backlinks_status_type", JStr "live") ]);
           ("list",
            by_target "--target required" "/backlinks/backlinks/live"
              [ ("mode", json_of (or_else (get args "mode") (VStr "as_is")));
                ("limit", limit);
                ("backlinks_status_type", JStr "live") ]);
           ("refdomains",
            by_target "--target required" "/backlinks/referring_domains/live"
              [ ("limit", limit) ]);
           ("anchors",
            by_target "--target required" "/backlinks/anchors/live" [ ("limit", limit) ]);
           ("index", api "GET" "/backlinks/index" None) ]
         (ret (Error "Unknown backlinks subcommand. Use: summary, list, refdomains, anchors, index")));
      ("onpage",
       switch sub
         [ ("audit",
            let url := get args "url" in
            required url "--url required"
              (api "POST" "/on_page/instant_pages"
                 (Some (JArr [JObj [ ("url", json_of url);
                                     ("enable_javascript",
                                      JBool (negb (truthy (get args "no-js")))) ]])))) ]
         (ret (Error "Unknown onpage subcommand. Use: audit")));
      ("labs",
       switch sub
         [ ("competitors",
            by_target "--target required" "/dataforseo_labs/google/competitors_domain/live"
              [ ("location_code", locationCode); ("language_code", json_of languageCode);
                ("limit", limit) ]);
           ("ranked-keywords",
            by_target "--target required" "/dataforseo_labs/google/ranked_keywords/live"
              [ ("location_code", locationCode); ("language_code", json_of languageCode);
                ("limit", limit) ]);
           ("domain-intersection",
            await targets := lift (optional_split "targets" (get args "targets")) in
            match targets with
            | Some ts =>
                if Nat.ltb (List.length ts) 2
                then ret (Error "--targets required (comma-separated, at least 2 domains)")
                else
                  let payload := [ ("location_code", locationCode);
                                   ("language_code", json_of languageCode);
                                   ("limit", limit) ] in
                  api "POST" "/dataforseo_labs/google/domain_intersection/live"
                    (Some (JArr [JObj (number_targets payload 0 ts)]))
            | None => ret (Error "--targets required (comma-separated, at least 2 domains)")
            end) ]
         (ret (Error "Unknown labs subcommand. Use: competitors, ranked-keywords, domain-intersection"))) ]
    (ret (ErrorUsage "Unknown command" usage)).

End Script.

Definition tool : Host.tool := {| Host.gate := gate; Host.main := main |}.

End Dataforseo.

(** ** demio *)

Module Demio.

Definition BASE_URL : string := "https://my.demio.com/api/v1".

(** Two checks, one after the other: the key, then the secret. *)
Definition gate (e : gmap string string) : option string :=
  if negb (truthy (getenv e "DEMIO_API_KEY"))
  then Some "DEMIO_API_KEY environment variable required"
  else if negb (truthy (getenv e "DEMIO_API_SECRET"))
  then Some "DEMIO_API_SECRET environment variable required"
  else None.

Definition usage : list (string * string) :=
  [ ("ping", "ping");
    ("events", "events [list --type <upcoming|past|all> | get --id <id> | date --event-id <id> --date-id <id>]");
    ("register", "register [create --id <event_id> --name <name> --email <email> --date-id <date_id>]");
    ("participants", "participants [list --date-id <id>]") ].

Section Script.

Context (rt : runtime) (w : world) (args : gmap string value).

Definition API_KEY : value := getenv (env w) "DEMIO_API_KEY".
Definition API_SECRET : value := getenv (env w) "DEMIO_API_SECRET".

Definition api (method path : string) (body : option json) : M output :=
  if truthy (get args "dry-run") then
    ret (DryRun {| d_method := method; d_url := BASE_URL ++ path;
                   d_headers := [ ("Api-Key", "***"); ("Api-Secret", "***");
                                  ("Content-Type", "application/json");
                                  ("Accept", "application/json") ];
                   d_body := body |})
  else
    await res := fetch w {| r_method := method; r_url := BASE_URL ++ path;
                            r_headers := [ ("Api-Key", to_string API_KEY);
                                           ("Api-Secret", to_string API_SECRET);
                                           ("Content-Type", "application/json");
                                           ("Accept", "application/json") ];
                            r_body := option_map JsonBody body |} in
    ret (read_body res).

Definition main (cmd sub : value) : M output :=
  switch cmd
    [ ("ping", api "GET" "/ping" None);
      ("events",
       switch sub
         [ ("list",
            let type := get args "type" in
            let qs := if truthy type then "?type=" ++ to_string type else "" in
            api "GET" ("/events" ++ qs) None);
           ("get",
            let id := get args "id" in
            required id "--id required" (api "GET" ("/event/" ++ to_string id) None));
           ("date",
            let eventId := get args "event-id" in
            let dateId := get args "date-id" in
            required eventId "--event-id required"
              (required dateId "--date-id required"
                 (api "GET" ("/event/" ++ to_string eventId ++ "/date/" ++ to_string dateId)
                      None))) ]
         (ret (Error "Unknown events subcommand. Use: list, get, date")));
      ("register",
       switch sub
         [ ("create",
            let id := or_else (get args "id") (get args "event-id") in
            let name := get args "name" in
            let email := get args "email" in
            required id "--id (event id) required"
              (required name "--name required"
                 (required email "--email required"
                    (let payload := [ ("id", json_of id); ("name", json_of name);
                                      ("email", json_of email) ] in
                     api "POST" "/event/register"
                       (Some (JObj (put_flags args payload
                                      [("date_id", "date-id"); ("ref_url", "ref-url")]))))))) ]
         (ret (Error "Unknown register subcommand. Use: create")));
      ("participants",
       switch sub
         [ ("list",
            let dateId := get args "date-id" in
            required dateId "--date-id required"
              (api "GET" ("/date/" ++ to_string dateId ++ "/participants") None)) ]
         (ret (Error "Unknown participants subcommand. Use: list"))) ]
    (ret (ErrorUsage "Unknown command" usage)).

End Script.

Definition tool : Host.tool := {| Host.gate := gate; Host.main := fun rt => main |}.

End Demio.

(** ** partnerstack *)

Module Partnerstack.

Definition BASE_URL : string := "https://api.partnerstack.com/api/v2".

Definition gate (e : gmap string string) : option string :=
  if negb (truthy (getenv e "PARTNERSTACK_PUBLIC_KEY"))
     || negb (truthy (getenv e "PARTNERSTACK_SECRET_KEY"))
  then Some "PARTNERSTACK_PUBLIC_KEY and PARTNERSTACK_SECRET_KEY environment variables required"
  else None.

Definition usage : list (string * string) :=
  [ ("partnerships", "partnerships [list | get --key <key> | create --email <email> --group <group-key> | update --key <key>]");
    ("customers", "customers [list | get --key <key> | create --email <email> --partner-key <key> | update --key <key> | delete --key <key>]");
    ("transactions", "transactions [list | get --key <key> | create --customer-key <key> --amount <cents> | delete --key <key>]");
    ("deals", "deals [list | get --key <key> | create --partner-key <key> --name <name> | update --key <key> | archive --key <key>]");
    ("actions", "actions [list | create --customer-key <key> --action-key <key> [--value <n>]]");
    ("rewards", "rewards [list | create --partner-key <key> --amount <cents>]");
    ("leads", "leads [list | get --key <key> | create --partner-key <key> --email <email> | update --key <key>]");
    ("groups", "groups [list]");
    ("webhooks", "webhooks [list | get --key <key> | create --target <url> [--events <evt1,evt2>] | delete --key <key>]");
    ("options", "--limit <n> --after <cursor> --before <cursor> --order-by <field>") ].

Section Script.

Context (rt : runtime) (w : world) (args : gmap string value).

Definition PUBLIC_KEY : value := getenv (env w) "PARTNERSTACK_PUBLIC_KEY".
Definition SECRET_KEY : value := getenv (env w) "PARTNERSTACK_SECRET_KEY".

Definition AUTH : string :=
  "Basic " ++ base64 rt (to_string PUBLIC_KEY ++ ":" ++ to_string SECRET_KEY).

Definition api (method path : string) (body : option json) : M output :=
  if truthy (get args "dry-run") then
    ret (DryRun {| d_method := method; d_url := BASE_URL ++ path;
                   d_headers := [ ("Authorization", "***");
                                  ("Content-Type", "application/json");
                                  ("Accept", "application/json") ];
                   d_body := body |})
  else
    await res := fetch w {| r_method := method; r_url := BASE_URL ++ path;
                            r_headers := [ ("Authorization", AUTH);
                                           ("Content-Type", "application/json");
                                           ("Accept", "application/json") ];
                            r_body := option_map JsonBody body |} in
    ret (read_body res).

Definition buildQuery : string :=
  query_suffix
    (form_urlencode rt
       (set_flags args []
          [ ("limit", "limit"); ("starting_after", "after"); ("ending_before", "before");
            ("order_by", "order-by") ])).

(** [if (!args.key) ...] then the call on [resource/key] *)
Definition by_key (message method resource : string) (body : option json) : M output :=
  let key := get args "key" in
  required key message (api method (resource ++ to_string key) body).

(** [if (args[flag]) body[name] = Number(args[flag])] *)
Definition put_number (name flag : string) (o : list (string * json)) : list (string * json) :=
  put_if (get args flag) name (JNumberOf "Number" (get args flag)) o.

Definition main (cmd sub : value) : M output :=
  switch cmd
    [ ("partnerships",
       switch sub
         [ ("list", api "GET" ("/partnerships" ++ buildQuery) None);
           ("get", by_key "--key required (partnership key)" "GET" "/partnerships/" None);
           ("create",
            let email := get args "email" in
            let group := get args "group" in
            required email "--email required"
              (required group "--group required (group key)"
                 (api "POST" "/partnerships"
                    (Some (JObj (put_flags args
                                   [("email", json_of email); ("group_key", json_of group)]
                                   [ ("name", "name"); ("first_name", "first-name");
                                     ("last_name", "last-name") ]))))));
           ("update",
            by_key "--key required (partnership key)" "PATCH" "/partnerships/"
              (Some (JObj (put_flags args [] [("name", "name"); ("group_key", "group")])))) ]
         (ret (Error "Unknown partnerships subcommand. Use: list, get, create, update")));
      ("customers",
       switch sub
         [ ("list", api "GET" ("/customers" ++ buildQuery) None);
           ("get", by_key "--key required (customer key)" "GET" "/customers/" None);
           ("create",
            let email := get args "email" in
            let partnerKey := get args "partner-key" in
            required email "--email required"
              (required partnerKey "--partner-key required"
                 (api "POST" "/customers"
                    (Some (JObj (put_flags args
                                   [ ("email", json_of email);
                                     ("partner_key", json_of partnerKey) ]
                                   [("name", "name"); ("customer_key", "customer-key")]))))));
           ("update",
            by_key "--key required (customer key)" "PATCH" "/customers/"
              (Some (JObj (put_flags args []
                             [ ("name", "name"); ("email", "email");
                               ("partner_key", "partner-key") ]))));
           ("delete", by_key "--key required (customer key)" "DELETE" "/customers/" None) ]
         (ret (Error "Unknown customers subcommand. Use: list, get, create, update, delete")));
      ("transactions",
       switch sub
         [ ("list", api "GET" ("/transactions" ++ buildQuery) None);
           ("get", by_key "--key required (transaction key)" "GET" "/transactions/" None);
           ("create",
            let customerKey := get args "customer-key" in
            let amount := get args "amount" in
            required customerKey "--customer-key required"
              (required amount "--amount required (in cents)"
                 (api "POST" "/transactions"
                    (Some (JObj (put_flags args
                                   [ ("customer_key", json_of customerKey);
                                     ("amount", JNumberOf "Number" amount) ]
                                   [ ("currency", "currency"); ("category", "category");
                                     ("product_key", "product-key") ]))))));
           ("delete", by_key "--key required (transaction key)" "DELETE" "/transactions/" None) ]
         (ret (Error "Unknown transactions subcommand. Use: list, get, create, delete")));
      ("deals",
       switch sub
         [ ("list", api "GET" ("/deals" ++ buildQuery) None);
           ("get", by_key "--key required (deal key)" "GET" "/deals/" None);
           ("create",
            let partnerKey := get args "partner-key" in
            let name := get args "name" in
            required partnerKey "--partner-key required"
              (required name "--name required"
                 (let body := [("partner_key", json_of partnerKey); ("name", json_of name)] in
                  let body := put_number "amount" "amount" body in
                  api "POST" "/deals"
                    (Some (JObj (put_flags args body
                                   [("currency", "currency"); ("stage", "stage")]))))));
           ("update",
            by_key "--key required (deal key)" "PATCH" "/deals/"
              (let body := put_flags args [] [("name", "name")] in
               let body := put_number "amount" "amount" body in
               Some (JObj (put_flags args body [("stage", "stage"); ("status", "status")]))));
           ("archive", by_key "--key required (deal key)" "DELETE" "/deals/" None) ]
         (ret (Error "Unknown deals subcommand. Use: list, get, create, update, archive")));
      ("actions",
       switch sub
         [ ("list", api "GET" ("/actions" ++ buildQuery) None);
           ("create",
            let customerKey := get args "customer-key" in
            let actionKey := get args "action-key" in
            required customerKey "--customer-key required"
              (required actionKey "--action-key required"
                 (api "POST" "/actions"
                    (Some (JObj (put_number "value" "value"
                                   [ ("customer_key", json_of customerKey);
                                     ("key", json_of actionKey) ])))))) ]
         (ret (Error "Unknown actions subcommand. Use: list, create")));
      ("rewards",
       switch sub
         [ ("list", api "GET" ("/rewards" ++ buildQuery) None);
           ("create",
            let partnerKey := get args "partner-key" in
            let amount := get args "amount" in
            required partnerKey "--partner-key required"
              (required amount "--amount required (in cents)"
                 (api "POST" "/rewards"
                    (Some (JObj (put_flags args
                                   [ ("partner_key", json_of partnerKey);
                                     ("amount", JNumberOf "Number" amount) ]
                                   [("description", "description"); ("currency", "currency")])))))) ]
         (ret (Error "Unknown rewards subcommand. Use: list, create")));
      ("leads",
       switch sub
         [ ("list", api "GET" ("/leads" ++ buildQuery) None);
           ("get", by_key "--key required (lead key)" "GET" "/leads/" None);
           ("create",
            let partnerKey := get args "partner-key" in
            let email := get args "email" in
            required partnerKey "--partner-key required"
              (required email "--email required"
                 (api "POST" "/leads"
                    (Some (JObj (put_flags args
                                   [ ("partner_key", json_of partnerKey);
                                     ("email", json_of email) ]
                                   [("name", "name"); ("company", "company")]))))));
           ("update",
            by_key "--key required (lead key)" "PATCH" "/leads/"
              (Some (JObj (put_flags args []
                             [("email", "email"); ("name", "name"); ("status", "status")])))) ]
         (ret (Error "Unknown leads subcommand. Use: list, get, create, update")));
      ("groups",
       switch sub
         [ ("list", api "GET" ("/groups" ++ buildQuery) None) ]
         (ret (Error "Unknown groups subcommand. Use: list")));
      ("webhooks",
       switch sub
         [ ("list", api "GET" ("/webhooks" ++ buildQuery) None);
           ("get", by_key "--key required (webhook key)" "GET" "/webhooks/" None);
           ("create",
            let target := get args "target" in
            required target "--target required (webhook URL)"
              (await body := lift (put_split args "events" "events" JStr
                                     [("target", json_of target)]) in
               api "POST" "/webhooks" (Some (JObj body))));
           ("delete", by_key "--key required (webhook key)" "DELETE" "/webhooks/" None) ]
         (ret (Error "Unknown webhooks subcommand. Use: list, get, create, delete"))) ]
    (ret (ErrorUsage "Unknown command" usage)).

End Script.

Definition tool : Host.tool := {| Host.gate := gate; Host.main := main |}.

End Partnerstack.

(** ** google-ads *)

Module GoogleAds.

Definition BASE_URL : string := "https://googleads.googleapis.com/v14".

Definition gate (e : gmap string string) : option string :=
  if negb (truthy (getenv e "GOOGLE_ADS_TOKEN"))
     || negb (truthy (getenv e "GOOGLE_ADS_DEVELOPER_TOKEN"))
     || negb (truthy (getenv e "GOOGLE_ADS_CUSTOMER_ID"))
  then Some "GOOGLE_ADS_TOKEN, GOOGLE_ADS_DEVELOPER_TOKEN, and GOOGLE_ADS_CUSTOMER_ID environment variables required"
  else None.

Definition usage : list (string * string) :=
  [ ("account", "account [info]");
    ("campaigns", "campaigns [list|performance|pause|enable] [--days 30] [--id <id>]");
    ("adgroups", "adgroups [performance] [--days 30] [--limit <n>]");
    ("keywords", "keywords [performance] [--days 30] [--limit 50]");
    ("budgets", "budgets [update] --id <budget_id> --amount <dollars>") ].

Section Script.

Context (rt : runtime) (w : world) (args : gmap string value).

Definition TOKEN : value := getenv (env w) "GOOGLE_ADS_TOKEN".
Definition DEV_TOKEN : value := getenv (env w) "GOOGLE_ADS_DEVELOPER_TOKEN".
Definition CUSTOMER_ID : value := getenv (env w) "GOOGLE_ADS_CUSTOMER_ID".

Definition api (method path : string) (body : option json) : M output :=
  if truthy (get args "dry-run") then
    ret (DryRun {| d_method := method; d_url := BASE_URL ++ path;
                   d_headers := [ ("Authorization", "***"); ("developer-token", "***");
                                  ("Content-Type", "application/json") ];
                   d_body := body |})
  else
    await res := fetch w {| r_method := method; r_url := BASE_URL ++ path;
                            r_headers := [ ("Authorization", "Bearer " ++ to_string TOKEN);
                                           ("developer-token", to_string DEV_TOKEN);
                                           ("Content-Type", "application/json") ];
                            r_body := option_map JsonBody body |} in
    ret (read_body res).

Definition gaql (query : string) : M output :=
  api "POST" ("/customers/" ++ to_string CUSTOMER_ID ++ "/googleAds:searchStream")
      (Some (JObj [("query", JStr query)])).

(** [d] is [parseInt(days) || 30], held by its decimal text: [d === 7]
    holds exactly when that text is [7]. *)
Definition daysToDateRange (days : value) : string :=
  let d := number_text rt "parseInt(days) || 30" days in
  if String.eqb d "7" then "LAST_7_DAYS"
  else if String.eqb d "14" then "LAST_14_DAYS"
  else if String.eqb d "30" then "LAST_30_DAYS"
  else if String.eqb d "90" then "LAST_90_DAYS"
  else "LAST_" ++ d ++ "_DAYS".

(** The mutation that sets one field of a resource. *)
Definition mutate (collection field : string) (j : json) (mask : string) : M output :=
  api "POST" ("/customers/" ++ to_string CUSTOMER_ID ++ "/" ++ collection ++ ":mutate")
      (Some (JObj
         [ ("operations",
            JArr [ JObj [ ("update",
                           JObj [ ("resourceName",
                                   JStr ("customers/" ++ to_string CUSTOMER_ID ++ "/"
                                         ++ collection ++ "/" ++ to_string (get args "id")));
                                  (field, j) ]);
                          ("updateMask", JStr mask) ] ]) ])).

Definition set_status (status : string) : M output :=
  required (get args "id") "--id required"
    (mutate "campaigns" "status" (JStr status) "status").

(** [case 'info': default:] share one body, so every subcommand of
    [account] runs the query. *)
Definition main (cmd sub : value) : M output :=
  switch cmd
    [ ("account", gaql "SELECT customer.id, customer.descriptive_name FROM customer");
      ("campaigns",
       switch sub
         [ ("list", gaql "SELECT campaign.id, campaign.name, campaign.status, campaign_budget.amount_micros FROM campaign ORDER BY campaign.id");
           ("performance",
            let dateRange := daysToDateRange (get args "days") in
            gaql ("SELECT campaign.name, metrics.impressions, metrics.clicks, metrics.cost_micros, metrics.conversions FROM campaign WHERE segments.date DURING " ++ dateRange));
           ("pause", set_status "PAUSED");
           ("enable", set_status "ENABLED") ]
         (ret (Error "Unknown campaigns subcommand. Use: list, performance, pause, enable")));
      ("adgroups",
       switch sub
         [ ("performance",
            let dateRange := daysToDateRange (get args "days") in
            let limit := if truthy (get args "limit")
                         then " LIMIT " ++ to_string (get args "limit") else "" in
            gaql ("SELECT ad_group.name, metrics.impressions, metrics.clicks, metrics.conversions FROM ad_group WHERE segments.date DURING " ++ dateRange ++ limit)) ]
         (ret (Error "Unknown adgroups subcommand. Use: performance")));
      ("keywords",
       switch sub
         [ ("performance",
            let dateRange := daysToDateRange (get args "days") in
            let limit := or_else (get args "limit") (VStr "50") in
            gaql ("SELECT ad_group_criterion.keyword.text, metrics.impressions, metrics.clicks, metrics.average_cpc FROM keyword_view WHERE segments.date DURING " ++ dateRange ++ " ORDER BY metrics.clicks DESC LIMIT " ++ to_string limit)) ]
         (ret (Error "Unknown keywords subcommand. Use: performance")));
      ("budgets",
       switch sub
         [ ("update",
            if negb (truthy (get args "id")) || negb (truthy (get args "amount"))
            then ret (Error "--id and --amount required")
            else
              let amountMicros :=
                number_text rt "Math.round(parseFloat(amount) * 1000000)" (get args "amount") in
              mutate "campaignBudgets" "amountMicros" (JStr amountMicros) "amountMicros") ]
         (ret (Error "Unknown budgets subcommand. Use: update"))) ]
    (ret (ErrorUsage "Unknown command" usage)).

End Script.

Definition tool : Host.tool := {| Host.gate := gate; Host.main := main |}.

End GoogleAds.

(** ** segment *)

Module Segment.

Definition TRACKING_URL : string := "https://api.segment.io/v1".
Definition PROFILE_URL : string := "https://profiles.segment.com/v1".

Definition gate (e : gmap string string) : option string :=
  if negb (truthy (getenv e "SEGMENT_WRITE_KEY"))
     && negb (truthy (getenv e "SEGMENT_ACCESS_TOKEN"))
  then Some "SEGMENT_WRITE_KEY (for tracking) or SEGMENT_ACCESS_TOKEN (for profiles) environment variable required"
  else None.

Definition usage : list (string * string) :=
  [ ("track", "track event --user-id <id> --event <name> [--properties <json>]");
    ("identify", "identify user --user-id <id> [--traits <json>]");
    ("page", "page view --user-id <id> [--name <name>] [--properties <json>]");
    ("batch", "batch send --events <json_array>");
    ("profiles", "profiles [traits|events] --space-id <id> --user-id <id>") ].

Section Script.

Context (rt : runtime) (w : world) (args : gmap string value).

Definition WRITE_KEY : value := getenv (env w) "SEGMENT_WRITE_KEY".
Definition ACCESS_TOKEN : value := getenv (env w) "SEGMENT_ACCESS_TOKEN".

Definition trackApi (method path : string) (body : option json) : M output :=
  if negb (truthy WRITE_KEY) then
    ret (Error "SEGMENT_WRITE_KEY required for tracking operations")
  else if truthy (get args "dry-run") then
    ret (DryRun {| d_method := method; d_url := TRACKING_URL ++ path;
                   d_headers := [ ("Authorization", "***");
                                  ("Content-Type", "application/json") ];
                   d_body := body |})
  else
    let auth := base64 rt (to_string WRITE_KEY ++ ":") in
    await res := fetch w {| r_method := method; r_url := TRACKING_URL ++ path;
                            r_headers := [ ("Authorization", "Basic " ++ auth);
                                           ("Content-Type", "application/json") ];
                            r_body := option_map JsonBody body |} in
    ret (read_body res).

Definition profileApi (method path : string) : M output :=
  if negb (truthy ACCESS_TOKEN) then
    ret (Error "SEGMENT_ACCESS_TOKEN required for profile operations")
  else if truthy (get args "dry-run") then
    ret (DryRun {| d_method := method; d_url := PROFILE_URL ++ path;
                   d_headers := [ ("Authorization", "***");
                                  ("Content-Type", "application/json") ];
                   d_body := None |})
  else
    let auth := base64 rt (to_string ACCESS_TOKEN ++ ":") in
    await res := fetch w {| r_method := method; r_url := PROFILE_URL ++ path;
                            r_headers := [ ("Authorization", "Basic " ++ auth);
                                           ("Content-Type", "application/json") ];
                            r_body := None |} in
    ret (read_body res).

Definition profile (leaf : string) : M output :=
  required (get args "space-id") "--space-id required"
    (required (get args "user-id") "--user-id required"
       (profileApi "GET"
          ("/spaces/" ++ to_string (get args "space-id")
           ++ "/collections/users/profiles/user_id:" ++ to_string (get args "user-id")
           ++ leaf))).

Definition main (cmd sub : value) : M output :=
  switch cmd
    [ ("track",
       switch sub
         [ ("event",
            required (get args "user-id") "--user-id required"
              (required (get args "event") "--event required"
                 (let body := [ ("userId", json_of (get args "user-id"));
                                ("event", json_of (get args "event")) ] in
                  await body := lift (put_parsed rt args "properties" "properties" body) in
                  trackApi "POST" "/track" (Some (JObj body))))) ]
         (ret (Error "Unknown track subcommand. Use: event")));
      ("identify",
       switch sub
         [ ("user",
            required (get args "user-id") "--user-id required"
              (let body := [("userId", json_of (get args "user-id"))] in
               await body := lift (put_parsed rt args "traits" "traits" body) in
               trackApi "POST" "/identify" (Some (JObj body)))) ]
         (ret (Error "Unknown identify subcommand. Use: user")));
      ("page",
       switch sub
         [ ("view",
            required (get args "user-id") "--user-id required"
              (let body := [("userId", json_of (get args "user-id"))] in
               let body := put_flags args body [("name", "name")] in
               await body := lift (put_parsed rt args "properties" "properties" body) in
               trackApi "POST" "/page" (Some (JObj body)))) ]
         (ret (Error "Unknown page subcommand. Use: view")));
      ("batch",
       switch sub
         [ ("send",
            required (get args "events") "--events required (JSON array)"
              (await batch := lift (JSON_parse rt (to_string (get args "events"))) in
               trackApi "POST" "/batch" (Some (JObj [("batch", batch)])))) ]
         (ret (Error "Unknown batch subcommand. Use: send")));
      ("profiles",
       switch sub
         [ ("traits", profile "/traits");
           ("events", profile "/events") ]
         (ret (Error "Unknown profiles subcommand. Use: traits, events"))) ]
    (ret (ErrorUsage "Unknown command" usage)).

End Script.

Definition tool : Host.tool := {| Host.gate := gate; Host.main := main |}.

End Segment.

(** ** kit *)

Module Kit.

Definition BASE_URL : string := "https://api.convertkit.com/v3".

Definition gate (e : gmap string string) : option string :=
  if negb (truthy (getenv e "KIT_API_SECRET")) && negb (truthy (getenv e "KIT_API_KEY"))
  then Some "KIT_API_SECRET or KIT_API_KEY environment variable required"
  else None.

Definition usage : list (string * string) :=
  [ ("subscribers", "subscribers [list|get|update|unsubscribe] [id] [--email <email>] [--first-name <name>] [--fields <json>] [--page <n>]");
    ("forms", "forms [list|subscribe] [form_id] [--email <email>] [--first-name <name>] [--fields <json>]");
    ("sequences", "sequences [list|subscribe] [sequence_id] [--email <email>] [--first-name <name>] [--fields <json>]");
    ("tags", "tags [list|subscribe|remove] [tag_id] [subscriber_id] [--email <email>] [--subscriber-id <id>]");
    ("broadcasts", "broadcasts [list|create] [--subject <subject>] [--content <html>] [--email-layout-template <template>] [--page <n>]") ].

(** [if (parsed[name]) parsed[name] = '***'] on what [JSON.parse] gave *)
Definition mask_member (parsed : json) (name : string) : completion json :=
  match property parsed name with
  | Normal (Some j) =>
      if json_truthy j then Mixpanel.set_property parsed name (JStr "***") else Normal parsed
  | Normal None => Normal parsed
  | Throw e => Throw e
  end.

Section Script.

Context (rt : runtime) (w : world) (args : gmap string value).

Definition API_SECRET : value := getenv (env w) "KIT_API_SECRET".
Definition API_KEY : value := getenv (env w) "KIT_API_KEY".

(** The credential that a call carries: [api_secret] when the call asks
    for it and the variable is set, else [api_key] when that one is set. *)
Definition credential (useSecret : bool) : option (string * value) :=
  if useSecret && truthy API_SECRET then Some ("api_secret", API_SECRET)
  else if truthy API_KEY then Some ("api_key", API_KEY)
  else None.

(** [url.toString()] for [url = new URL(s)], after
    [url.searchParams.set(name, v)] when the call is a [GET] or [DELETE]. *)
Definition url_text (method s : string) (useSecret : bool) : string :=
  if String.eqb method "GET" || String.eqb method "DELETE" then
    match credential useSecret with
    | Some (name, v) =>
        text_op rt ("searchParams.set('" ++ name ++ "', " ++ to_string v ++ ")")
                (text_op rt "new URL" s)
    | None => text_op rt "new URL" s
    end
  else text_op rt "new URL" s.

(** [authBody], the object that [opts.body] is the text of: set for a
    [POST] or [PUT] that has a body. *)
Definition authBody (method : string) (body : option (list (string * json)))
    (useSecret : bool) : option json :=
  match body with
  | Some fields =>
      if String.eqb method "POST" || String.eqb method "PUT" then
        Some (JObj match credential useSecret with
                   | Some (name, v) => assoc_set fields name (json_of v)
                   | None => fields
                   end)
      else None
  | None => None
  end.

Definition api (method path : string) (body : option (list (string * json)))
    (useSecret : bool) : M output :=
  let url := url_text method (BASE_URL ++ path) useSecret in
  let opts_body := authBody method body useSecret in
  if truthy (get args "dry-run") then
    let dryRunUrl :=
      text_op rt ("replace(" ++ to_string API_KEY ++ ", '***')")
              (text_op rt ("replace(" ++ to_string API_SECRET ++ ", '***')") url) in
    await dryRunBody :=
      match opts_body with
      | Some j =>
          await parsed := lift (JSON_parse rt (JSON_stringify rt j)) in
          await parsed := lift (mask_member parsed "api_secret") in
          await parsed := lift (mask_member parsed "api_key") in
          ret (Some parsed)
      | None => ret None
      end in
    ret (DryRun {| d_method := method; d_url := dryRunUrl;
                   d_headers := [("Content-Type", "application/json")];
                   d_body := dryRunBody |})
  else
    await res := fetch w {| r_method := method; r_url := url;
                            r_headers := [("Content-Type", "application/json")];
                            r_body := option_map JsonBody opts_body |} in
    ret (read_body res).

Definition rest (i : nat) : value := element (rest_of args) i.

(** [{ email: args.email }], then [first_name] and [fields] when given *)
Definition subscription : completion (list (string * json)) :=
  let body := [("email", json_of (get args "email"))] in
  let body := put_flags args body [("first_name", "first-name")] in
  put_parsed rt args "fields" "fields" body.

Definition subscribe (collection : string) : M output :=
  let id := rest 0 in
  await body := lift subscription in
  api "POST" (collection ++ to_string id ++ "/subscribe") (Some body) false.

Definition page : string :=
  if truthy (get args "page") then "&page=" ++ to_string (get args "page") else "".

Definition main (cmd sub : value) : M output :=
  switch cmd
    [ ("subscribers",
       switch sub
         [ ("list", let params := page in api "GET" ("/subscribers?" ++ params) None true);
           ("get", api "GET" ("/subscribers/" ++ to_string (rest 0)) None true);
           ("update",
            let body := put_flags args [] [("first_name", "first-name")] in
            await body := lift (put_parsed rt args "fields" "fields" body) in
            api "PUT" ("/subscribers/" ++ to_string (rest 0)) (Some body) true);
           ("unsubscribe",
            api "PUT" "/unsubscribe" (Some [("email", json_of (get args "email"))]) true) ]
         (ret (Error "Unknown subscribers subcommand. Use: list, get, update, unsubscribe")));
      ("forms",
       switch sub
         [ ("list", api "GET" "/forms" None false);
           ("subscribe", subscribe "/forms/") ]
         (ret (Error "Unknown forms subcommand. Use: list, subscribe")));
      ("sequences",
       switch sub
         [ ("list", api "GET" "/sequences" None false);
           ("subscribe", subscribe "/sequences/") ]
         (ret (Error "Unknown sequences subcommand. Use: list, subscribe")));
      ("tags",
       switch sub
         [ ("list", api "GET" "/tags" None false);
           ("subscribe", subscribe "/tags/");
           ("remove",
            let tagId := rest 0 in
            let subscriberId := or_else (rest 1) (get args "subscriber-id") in
            api "DELETE" ("/subscribers/" ++ to_string subscriberId ++ "/tags/"
                          ++ to_string tagId) None true) ]
         (ret (Error "Unknown tags subcommand. Use: list, subscribe, remove")));
      ("broadcasts",
       switch sub
         [ ("list", let params := page in api "GET" ("/broadcasts?" ++ params) None true);
           ("create",
            let body := [ ("subject", json_of (get args "subject"));
                          ("content", json_of (get args "content")) ] in
            api "POST" "/broadcasts"
                (Some (put_flags args body
                         [("email_layout_template", "email-layout-template")])) true) ]
         (ret (Error "Unknown broadcasts subcommand. Use: list, create"))) ]
    (ret (ErrorUsage "Unknown command" usage)).

End Script.

Definition tool : Host.tool := {| Host.gate := gate; Host.main := main |}.

End Kit.

(** ** linkedin-ads *)

Module LinkedinAds.

Definition BASE_URL : string := "https://api.linkedin.com/v2".

Definition gate (e : gmap string string) : option string :=
  if negb (truthy (getenv e "LINKEDIN_ACCESS_TOKEN"))
  then Some "LINKEDIN_ACCESS_TOKEN environment variable required"
  else None.

Definition usage : list (string * string) :=
  [ ("accounts", "accounts [list]");
    ("campaigns", "campaigns [list|create|update|analytics] [--account-id <id>] [--name <name>] [--type SPONSORED_UPDATES] [--cost-type CPC] [--unit-cost 5.00] [--daily-budget 100.00] [--id <id>] [--status ACTIVE|PAUSED]");
    ("creatives", "creatives [list] --campaign-id <id>");
    ("audiences", "audiences [count] --targeting <json>") ].

Section Script.

Context (rt : runtime) (w : world) (args : gmap string value).

Definition TOKEN : value := getenv (env w) "LINKEDIN_ACCESS_TOKEN".

Definition api (method path : string) (body : option json) : M output :=
  let headers := [ ("Authorization", "Bearer " ++ to_string TOKEN);
                   ("Content-Type", "application/json") ] in
  if truthy (get args "dry-run") then
    ret (DryRun {| d_method := method; d_url := BASE_URL ++ path;
                   d_headers := assoc_set headers "Authorization" "***";
                   d_body := body |})
  else
    await res := fetch w {| r_method := method; r_url := BASE_URL ++ path;
                            r_headers := headers;
                            r_body := option_map JsonBody body |} in
    ret (read_body res).

Definition amount (flag fallback : string) : json :=
  JObj [ ("amount", json_of (or_else (get args flag) (VStr fallback)));
         ("currencyCode", JStr "USD") ].

Definition main (cmd sub : value) : M output :=
  switch cmd
    [ ("accounts",
       switch sub
         [ ("list", api "GET" "/adAccountsV2?q=search" None) ]
         (ret (Error "Unknown accounts subcommand. Use: list")));
      ("campaigns",
       switch sub
         [ ("list",
            required (get args "account-id") "--account-id required"
              (api "GET" ("/adCampaignsV2?q=search&search.account.values[0]=urn:li:sponsoredAccount:"
                          ++ to_string (get args "account-id")) None));
           ("create",
            required_all [get args "account-id"; get args "name"]
              "--account-id and --name required"
              (let body :=
                 JObj [ ("account", JStr ("urn:li:sponsoredAccount:"
                                          ++ to_string (get args "account-id")));
                        ("name", json_of (get args "name"));
                        ("type", json_of (or_else (get args "type")
                                                  (VStr "SPONSORED_UPDATES")));
                        ("costType", json_of (or_else (get args "cost-type") (VStr "CPC")));
                        ("unitCost", amount "unit-cost" "5.00");
                        ("dailyBudget", amount "daily-budget" "100.00");
                        ("status", JStr "PAUSED") ] in
               api "POST" "/adCampaignsV2" (Some body)));
           ("update",
            required_all [get args "id"; get args "status"] "--id and --status required"
              (api "POST" ("/adCampaignsV2/" ++ to_string (get args "id"))
                 (Some (JObj [("patch",
                               JObj [("$set",
                                      JObj [("status", json_of (get args "status"))])])]))));
           ("analytics",
            required (get args "id") "--id required"
              (required_all [ get args "start-year"; get args "start-month";
                              get args "start-day"; get args "end-year";
                              get args "end-month"; get args "end-day" ]
                 "--start-year, --start-month, --start-day, --end-year, --end-month, --end-day required"
                 (let params :=
                    params_of [ ("q", VStr "analytics");
                                ("pivot", VStr "CAMPAIGN");
                                ("dateRange.start.year", get args "start-year");
                                ("dateRange.start.month", get args "start-month");
                                ("dateRange.start.day", get args "start-day");
                                ("dateRange.end.year", get args "end-year");
                                ("dateRange.end.month", get args "end-month");
                                ("dateRange.end.day", get args "end-day");
                                ("campaigns", VStr ("urn:li:sponsoredCampaign:"
                                                    ++ to_string (get args "id")));
                                ("fields",
                                 VStr "impressions,clicks,costInLocalCurrency,conversions") ] in
                  api "GET" ("/adAnalyticsV2?" ++ form_urlencode rt params) None))) ]
         (ret (Error "Unknown campaigns subcommand. Use: list, create, update, analytics")));
      ("creatives",
       switch sub
         [ ("list",
            required (get args "campaign-id") "--campaign-id required"
              (api "GET" ("/adCreativesV2?q=search&search.campaign.values[0]=urn:li:sponsoredCampaign:"
                          ++ to_string (get args "campaign-id")) None)) ]
         (ret (Error "Unknown creatives subcommand. Use: list")));
      ("audiences",
       switch sub
         [ ("count",
            required (get args "targeting") "--targeting required (JSON string)"
              match JSON_parse rt (to_string (get args "targeting")) with
              | Normal targeting =>
                  api "POST" "/audienceCountsV2" (Some (JObj [("audienceCriteria", targeting)]))
              | Throw _ => ret (Error "Invalid JSON for --targeting")
              end) ]
         (ret (Error "Unknown audiences subcommand. Use: count"))) ]
    (ret (ErrorUsage "Unknown command" usage)).

End Script.

Definition tool : Host.tool := {| Host.gate := gate; Host.main := main |}.

End LinkedinAds.

(** ** livestorm *)

Module Livestorm.

Definition BASE_URL : string := "https://api.livestorm.co/v1".

Definition gate (e : gmap string string) : option string :=
  if negb (truthy (getenv e "LIVESTORM_API_TOKEN"))
  then Some "LIVESTORM_API_TOKEN environment variable required"
  else None.

Definition usage : list (string * string) :=
  [ ("ping", "ping");
    ("events", "events [list | get --id <id> | create --title <t> | update --id <id> --title <t> | delete --id <id> | people --id <id>]");
    ("sessions", "sessions [list | get --id <id> | create --event-id <id> | delete --id <id> | people --id <id> | register --id <id> --email <e> | unregister --id <id> --email <e> | chat --id <id> | questions --id <id> | recordings --id <id>]");
    ("people", "people [list --email <e> | get --id <id>]");
    ("webhooks", "webhooks [list | create --url <url> --event <name> | delete --id <id>]");
    ("organization", "organization");
    ("options", "--page <n> --per-page <n>") ].

Section Script.

Context (rt : runtime) (w : world) (args : gmap string value).

Definition API_TOKEN : value := getenv (env w) "LIVESTORM_API_TOKEN".

Definition api (method path : string) (body : option json) : M output :=
  let headers := [ ("Authorization", to_string API_TOKEN);
                   ("Content-Type", "application/vnd.api+json");
                   ("Accept", "application/vnd.api+json") ] in
  if truthy (get args "dry-run") then
    ret (DryRun {| d_method := method; d_url := BASE_URL ++ path;
                   d_headers := assoc_set headers "Authorization" "***";
                   d_body := body |})
  else
    await res := fetch w {| r_method := method; r_url := BASE_URL ++ path;
                            r_headers := headers;
                            r_body := option_map JsonBody body |} in
    ret (read_body res).

(** [String(page)] with [page = args.page ? Number(args.page) : 1] *)
Definition page : string :=
  if truthy (get args "page") then String_of_Number rt (get args "page") else "1".

Definition perPage : string :=
  if truthy (get args "per-page") then String_of_Number rt (get args "per-page") else "25".

Definition paging : string := "?page[number]=" ++ page ++ "&page[size]=" ++ perPage.

(** [if (args[flag]) qs += `&filter[name]=${encodeURIComponent(args[flag])}`] *)
Definition filtered (qs name flag : string) : string :=
  if truthy (get args flag)
  then qs ++ "&filter[" ++ name ++ "]=" ++ encodeURIComponent rt (to_string (get args flag))
  else qs.

Definition by_id (message method : string) (path : string -> string) : M output :=
  let id := get args "id" in
  required id message (api method (path (to_string id)) None).

(** [args.slug || title.toLowerCase().replace(/[^a-z0-9]+/g, '-')]: a
    [title] given without a value is [true], which has no [toLowerCase]. *)
Definition slug (title : value) : completion json :=
  if truthy (get args "slug") then Normal (json_of (get args "slug"))
  else match title with
       | VStr s => Normal (JStr (text_op rt "toLowerCase().replace(/[^a-z0-9]+/g, '-')" s))
       | _ => Throw "title.toLowerCase is not a function"
       end.

Definition main (cmd sub : value) : M output :=
  switch cmd
    [ ("ping", api "GET" "/ping" None);
      ("events",
       switch sub
         [ ("list",
            let qs := filtered paging "title" "title" in
            api "GET" ("/events" ++ qs) None);
           ("get", by_id "--id required" "GET" (fun id => "/events/" ++ id));
           ("create",
            let title := get args "title" in
            required title "--title required"
              (await slug := lift (slug title) in
               let attributes := [("title", json_of title); ("slug", slug)] in
               let attributes := put_flags args attributes [("description", "description")] in
               let attributes :=
                 put_if (get args "estimated-duration") "estimated_duration"
                        (JNumberOf "Number" (get args "estimated-duration")) attributes in
               api "POST" "/events"
                   (Some (JObj [("data", JObj [ ("type", JStr "events");
                                                ("attributes", JObj attributes) ])]))));
           ("update",
            let id := get args "id" in
            required id "--id required"
              (let attrs := put_flags args []
                              [ ("title", "title"); ("description", "description");
                                ("slug", "slug") ] in
               api "PATCH" ("/events/" ++ to_string id)
                   (Some (JObj [("data", JObj [ ("type", JStr "events");
                                                ("id", json_of id);
                                                ("attributes", JObj attrs) ])]))));
           ("delete", by_id "--id required" "DELETE" (fun id => "/events/" ++ id));
           ("people",
            by_id "--id required" "GET" (fun id => "/events/" ++ id ++ "/people" ++ paging)) ]
         (ret (Error "Unknown events subcommand. Use: list, get, create, update, delete, people")));
      ("sessions",
       switch sub
         [ ("list", api "GET" ("/sessions" ++ paging) None);
           ("get", by_id "--id required" "GET" (fun id => "/sessions/" ++ id));
           ("create",
            let eventId := get args "event-id" in
            required eventId "--event-id required"
              (let attributes :=
                 put_flags args []
                   [ ("estimated_started_at", "estimated-started-at");
                     ("timezone", "timezone") ] in
               api "POST" ("/events/" ++ to_string eventId ++ "/sessions")
                   (Some (JObj [("data", JObj [ ("type", JStr "sessions");
                                                ("attributes", JObj attributes) ])]))));
           ("delete", by_id "--id required" "DELETE" (fun id => "/sessions/" ++ id));
           ("people",
            by_id "--id required" "GET" (fun id => "/sessions/" ++ id ++ "/people" ++ paging));
           ("register",
            let id := get args "id" in
            required id "--id (session id) required"
              (let email := get args "email" in
               required email "--email required"
                 (let fields := put_flags args [("email", json_of email)]
                                  [ ("first_name", "first-name");
                                    ("last_name", "last-name") ] in
                  api "POST" ("/sessions/" ++ to_string id ++ "/people")
                      (Some (JObj [("data",
                                    JObj [ ("type", JStr "people");
                                           ("attributes",
                                            JObj [("fields", JObj fields)]) ])])))));
           ("unregister",
            let id := get args "id" in
            required id "--id (session id) required"
              (let email := get args "email" in
               required email "--email required"
                 (api "DELETE" ("/sessions/" ++ to_string id ++ "/people?filter[email]="
                                ++ encodeURIComponent rt (to_string email)) None)));
           ("chat",
            by_id "--id required" "GET"
                  (fun id => "/sessions/" ++ id ++ "/chat-messages" ++ paging));
           ("questions",
            by_id "--id required" "GET"
                  (fun id => "/sessions/" ++ id ++ "/questions" ++ paging));
           ("recordings",
            by_id "--id required" "GET" (fun id => "/sessions/" ++ id ++ "/recordings")) ]
         (ret (Error "Unknown sessions subcommand. Use: list, get, create, delete, people, register, unregister, chat, questions, recordings")));
      ("people",
       switch sub
         [ ("list",
            let qs := filtered paging "email" "email" in
            api "GET" ("/people" ++ qs) None);
           ("get", by_id "--id required" "GET" (fun id => "/people/" ++ id)) ]
         (ret (Error "Unknown people subcommand. Use: list, get")));
      ("webhooks",
       switch sub
         [ ("list", api "GET" "/webhooks" None);
           ("create",
            let url := get args "url" in
            required url "--url required"
              (let eventName := or_else (get args "event") (VStr "attendance") in
               api "POST" "/webhooks"
                   (Some (JObj [("data",
                                 JObj [ ("type", JStr "webhooks");
                                        ("attributes",
                                         JObj [ ("target_url", json_of url);
                                                ("event_name", json_of eventName) ]) ])]))));
           ("delete", by_id "--id required" "DELETE" (fun id => "/webhooks/" ++ id)) ]
         (ret (Error "Unknown webhooks subcommand. Use: list, create, delete")));
      ("organization", api "GET" "/organization" None) ]
    (ret (ErrorUsage "Unknown command" usage)).

End Script.

Definition tool : Host.tool := {| Host.gate := gate; Host.main := main |}.

End Livestorm.

(** ** customer-io *)

Module Customerio.

Definition TRACK_URL : string := "https://track.customer.io/api/v1".
Definition APP_URL : string := "https://api.customer.io/v1".

Definition hasTrackAuth (e : gmap string string) : bool :=
  truthy (getenv e "CUSTOMERIO_SITE_ID") && truthy (getenv e "CUSTOMERIO_API_KEY").

Definition hasAppAuth (e : gmap string string) : bool :=
  truthy (getenv e "CUSTOMERIO_APP_KEY").

Definition gate (e : gmap string string) : option string :=
  if negb (hasTrackAuth e) && negb (hasAppAuth e)
  then Some "CUSTOMERIO_APP_KEY (for App API) or CUSTOMERIO_SITE_ID + CUSTOMERIO_API_KEY (for Track API) environment variables required"
  else None.

Definition usage : list (string * string) :=
  [ ("customers", "customers [identify|get|delete|track-event] <customer_id> [--email <email>] [--first-name <name>] [--plan <plan>] [--data <json>] [--name <event>]");
    ("campaigns", "campaigns [list|get|metrics|trigger] [campaign_id] [--emails <e1,e2>] [--ids <id1,id2>] [--data <json>]");
    ("send", "send email --message-id <id> --to <email> [--identifier-id <id>] [--identifier-email <email>] [--data <json>]") ].

Section Script.

Context (rt : runtime) (w : world) (args : gmap string value).

Definition APP_KEY : value := getenv (env w) "CUSTOMERIO_APP_KEY".
Definition SITE_ID : value := getenv (env w) "CUSTOMERIO_SITE_ID".
Definition API_KEY : value := getenv (env w) "CUSTOMERIO_API_KEY".

(** [null] without the Track credentials, and then never used *)
Definition basicAuth : string :=
  if hasTrackAuth (env w)
  then base64 rt (to_string SITE_ID ++ ":" ++ to_string API_KEY)
  else "null".

Definition trackApi (method path : string) (body : option json) : M output :=
  if negb (hasTrackAuth (env w)) then
    ret (Error "Track API requires CUSTOMERIO_SITE_ID and CUSTOMERIO_API_KEY environment variables")
  else if truthy (get args "dry-run") then
    ret (DryRun {| d_method := method; d_url := TRACK_URL ++ path;
                   d_headers := [ ("Authorization", "***");
                                  ("Content-Type", "application/json") ];
                   d_body := body |})
  else
    await res := fetch w {| r_method := method; r_url := TRACK_URL ++ path;
                            r_headers := [ ("Authorization", "Basic " ++ basicAuth);
                                           ("Content-Type", "application/json") ];
                            r_body := option_map JsonBody body |} in
    ret (read_body res).

Definition appApi (method path : string) (body : option json) : M output :=
  if negb (hasAppAuth (env w)) then
    ret (Error "App API requires CUSTOMERIO_APP_KEY environment variable")
  else if truthy (get args "dry-run") then
    ret (DryRun {| d_method := method; d_url := APP_URL ++ path;
                   d_headers := [ ("Authorization", "***");
                                  ("Content-Type", "application/json") ];
                   d_body := body |})
  else
    await res := fetch w {| r_method := method; r_url := APP_URL ++ path;
                            r_headers := [ ("Authorization", "Bearer " ++ to_string APP_KEY);
                                           ("Content-Type", "application/json") ];
                            r_body := option_map JsonBody body |} in
    ret (read_body res).

Definition rest (i : nat) : value := element (rest_of args) i.

(** [rest[0] || args.id] *)
Definition customerId : string := to_string (or_else (rest 0) (get args "id")).

Definition main (cmd sub : value) : M output :=
  switch cmd
    [ ("customers",
       switch sub
         [ ("identify",
            let body := put_flags args []
                          [ ("email", "email"); ("first_name", "first-name");
                            ("last_name", "last-name") ] in
            let body := put_if (get args "created-at") "created_at"
                               (JNumberOf "parseInt" (get args "created-at")) body in
            let body := put_flags args body [("plan", "plan")] in
            await body :=
              (if truthy (get args "data")
               then await data := lift (JSON_parse rt (to_string (get args "data"))) in
                    ret (object_assign body data)
               else ret body) in
            trackApi "PUT" ("/customers/" ++ customerId) (Some (JObj body)));
           ("get", appApi "GET" ("/customers/" ++ customerId ++ "/attributes") None);
           ("delete", trackApi "DELETE" ("/customers/" ++ customerId) None);
           ("track-event",
            let body := [("name", json_of (get args "name"))] in
            await body := lift (put_parsed rt args "data" "data" body) in
            trackApi "POST" ("/customers/" ++ customerId ++ "/events") (Some (JObj body))) ]
         (ret (Error "Unknown customers subcommand. Use: identify, get, delete, track-event")));
      ("campaigns",
       switch sub
         [ ("list", appApi "GET" "/campaigns" None);
           ("get", appApi "GET" ("/campaigns/" ++ to_string (rest 0)) None);
           ("metrics", appApi "GET" ("/campaigns/" ++ to_string (rest 0) ++ "/metrics") None);
           ("trigger",
            await body := lift (put_split args "emails" "emails" JStr []) in
            await body := lift (put_split args "ids" "ids" JStr body) in
            await body := lift (put_parsed rt args "data" "data" body) in
            appApi "POST" ("/campaigns/" ++ to_string (rest 0) ++ "/triggers")
                   (Some (JObj body))) ]
         (ret (Error "Unknown campaigns subcommand. Use: list, get, metrics, trigger")));
      ("send",
       switch sub
         [ ("email",
            let identifiers := put_flags args []
                                 [("id", "identifier-id"); ("email", "identifier-email")] in
            let body := [ ("transactional_message_id", json_of (get args "message-id"));
                          ("to", json_of (get args "to"));
                          ("identifiers", JObj identifiers) ] in
            await body := lift (put_parsed rt args "message_data" "data" body) in
            let body := put_flags args body
                          [("from", "from"); ("subject", "subject"); ("body", "body")] in
            appApi "POST" "/send/email" (Some (JObj body))) ]
         (ret (Error "Unknown send subcommand. Use: email"))) ]
    (ret (ErrorUsage "Unknown command" usage)).

End Script.

Definition tool : Host.tool := {| Host.gate := gate; Host.main := main |}.

End Customerio.

(** ** mention-me *)

Module MentionMe.

Definition BASE_URL : string := "https://api.mention-me.com/api/v2".

Definition gate (e : gmap string string) : option string :=
  if negb (truthy (getenv e "MENTIONME_API_KEY"))
  then Some "MENTIONME_API_KEY environment variable required"
  else None.

Definition usage : list (string * string) :=
  [ ("offers", "offers [create] [--email <email>] [--firstname <name>] [--lastname <name>] [--order-number <num>] [--order-total <total>] [--order-currency <currency>]");
    ("referrals", "referrals [get|list] [id] [--customer-id <id>]");
    ("share-links", "share-links [get] [--customer-id <id>]");
    ("rewards", "rewards [get|redeem] [--customer-id <id>] [--reward-id <id>] [--order-number <num>]");
    ("referee", "referee [create] [--email <email>] [--firstname <name>] [--referrer-code <code>] [--order-number <num>] [--order-total <total>]") ].

Section Script.

Context (rt : runtime) (w : world) (args : gmap string value).

Definition API_KEY : value := getenv (env w) "MENTIONME_API_KEY".

Definition api (method path : string) (body : option json) : M output :=
  let headers := [ ("Authorization", "Bearer " ++ to_string API_KEY);
                   ("Content-Type", "application/json") ] in
  if truthy (get args "dry-run") then
    ret (DryRun {| d_method := method; d_url := BASE_URL ++ path;
                   d_headers := assoc_set headers "Authorization" "***";
                   d_body := body |})
  else
    await res := fetch w {| r_method := method; r_url := BASE_URL ++ path;
                            r_headers := headers;
                            r_body := option_map JsonBody body |} in
    ret (read_body res).

Definition rest (i : nat) : value := element (rest_of args) i.

Definition referrer (suffix : string) : string :=
  "/referrer/" ++ to_string (get args "customer-id") ++ suffix.

Definition order_total (body : list (string * json)) : list (string * json) :=
  put_if (get args "order-total") "order_total"
         (JNumberOf "Number" (get args "order-total")) body.

Definition main (cmd sub : value) : M output :=
  switch cmd
    [ ("offers",
       switch sub
         [ ("create",
            let body := put_flags args []
                          [ ("email", "email"); ("firstname", "firstname");
                            ("lastname", "lastname"); ("order_number", "order-number") ] in
            let body := order_total body in
            let body := put_flags args body [("order_currency", "order-currency")] in
            api "POST" "/referrer-offer" (Some (JObj body))) ]
         (ret (Error "Unknown offers subcommand. Use: create")));
      ("referrals",
       switch sub
         [ ("get", api "GET" ("/referral/" ++ to_string (rest 0)) None);
           ("list", api "GET" (referrer "/referrals") None) ]
         (ret (Error "Unknown referrals subcommand. Use: get, list")));
      ("share-links",
       switch sub
         [ ("get", api "GET" (referrer "/share-links") None) ]
         (ret (Error "Unknown share-links subcommand. Use: get")));
      ("rewards",
       switch sub
         [ ("get", api "GET" (referrer "/rewards") None);
           ("redeem",
            let body := put_flags args []
                          [("reward_id", "reward-id"); ("order_number", "order-number")] in
            api "POST" (referrer "/rewards/redeem") (Some (JObj body))) ]
         (ret (Error "Unknown rewards subcommand. Use: get, redeem")));
      ("referee",
       switch sub
         [ ("create",
            let body := put_flags args []
                          [ ("email", "email"); ("firstname", "firstname");
                            ("referrer_code", "referrer-code");
                            ("order_number", "order-number") ] in
            api "POST" "/referee" (Some (JObj (order_total body)))) ]
         (ret (Error "Unknown referee subcommand. Use: create"))) ]
    (ret (ErrorUsage "Unknown command" usage)).

End Script.

Definition tool : Host.tool := {| Host.gate := gate; Host.main := fun _ => main |}.

End MentionMe.

(** ** meta-ads *)

Module MetaAds.

Definition BASE_URL : string := "https://graph.facebook.com/v18.0".

Definition gate (e : gmap string string) : option string :=
  if negb (truthy (getenv e "META_ACCESS_TOKEN"))
  then Some "META_ACCESS_TOKEN environment variable required"
  else None.

Definition usage : list (string * string) :=
  [ ("accounts", "accounts [list]");
    ("campaigns", "campaigns [list|insights|create|update] [--account-id <id>] [--id <id>] [--date-preset last_30d] [--name <name>] [--objective <obj>] [--status <status>]");
    ("adsets", "adsets [list] [--account-id <id>]");
    ("ads", "ads [list] --adset-id <id>");
    ("audiences", "audiences [list|create-lookalike] [--account-id <id>] [--source-id <id>] [--country US]") ].

Section Script.

Context (rt : runtime) (w : world) (args : gmap string value).

Definition TOKEN : value := getenv (env w) "META_ACCESS_TOKEN".
Definition DEFAULT_ACCOUNT_ID : value := getenv (env w) "META_AD_ACCOUNT_ID".

Definition api (method path : string) (body : option json) : M output :=
  let url := BASE_URL ++ path in
  let headers := [("Authorization", "Bearer " ++ to_string TOKEN)] in
  let headers := match body with
                 | Some _ => assoc_set headers "Content-Type" "application/json"
                 | None => headers
                 end in
  if truthy (get args "dry-run") then
    ret (DryRun {| d_method := method; d_url := url;
                   d_headers := assoc_set headers "Authorization" "***";
                   d_body := body |})
  else
    await res := fetch w {| r_method := method; r_url := url;
                            r_headers := headers;
                            r_body := option_map JsonBody body |} in
    ret (read_body res).

Definition getAccountId : value := or_else (get args "account-id") DEFAULT_ACCOUNT_ID.

(** The handlers that start from the account *)
Definition with_account (rest : string -> M output) : M output :=
  let accountId := getAccountId in
  required accountId "--account-id required (or set META_AD_ACCOUNT_ID)"
    (rest (to_string accountId)).

Definition main (cmd sub : value) : M output :=
  switch cmd
    [ ("accounts",
       switch sub
         [ ("list", api "GET" "/me/adaccounts?fields=id,name,account_status" None) ]
         (ret (Error "Unknown accounts subcommand. Use: list")));
      ("campaigns",
       switch sub
         [ ("list",
            with_account (fun accountId =>
              api "GET" ("/act_" ++ accountId
                         ++ "/campaigns?fields=id,name,status,objective,daily_budget") None));
           ("insights",
            required (get args "id") "--id required"
              (let datePreset := or_else (get args "date-preset") (VStr "last_30d") in
               api "GET" ("/" ++ to_string (get args "id")
                          ++ "/insights?fields=impressions,clicks,spend,actions,cost_per_action_type&date_preset="
                          ++ to_string datePreset) None));
           ("create",
            with_account (fun accountId =>
              required_all [get args "name"; get args "objective"]
                "--name and --objective required"
                (let body :=
                   JObj [ ("name", json_of (get args "name"));
                          ("objective", json_of (get args "objective"));
                          ("status", json_of (or_else (get args "status") (VStr "PAUSED")));
                          ("special_ad_categories", JArr []) ] in
                 api "POST" ("/act_" ++ accountId ++ "/campaigns") (Some body))));
           ("update",
            required_all [get args "id"; get args "status"] "--id and --status required"
              (api "POST" ("/" ++ to_string (get args "id"))
                   (Some (JObj [("status", json_of (get args "status"))])))) ]
         (ret (Error "Unknown campaigns subcommand. Use: list, insights, create, update")));
      ("adsets",
       switch sub
         [ ("list",
            with_account (fun accountId =>
              api "GET" ("/act_" ++ accountId
                         ++ "/adsets?fields=id,name,status,targeting,daily_budget,bid_amount")
                  None)) ]
         (ret (Error "Unknown adsets subcommand. Use: list")));
      ("ads",
       switch sub
         [ ("list",
            required (get args "adset-id") "--adset-id required"
              (api "GET" ("/" ++ to_string (get args "adset-id")
                          ++ "/ads?fields=id,name,status,creative") None)) ]
         (ret (Error "Unknown ads subcommand. Use: list")));
      ("audiences",
       switch sub
         [ ("list",
            with_account (fun accountId =>
              api "GET" ("/act_" ++ accountId
                         ++ "/customaudiences?fields=id,name,approximate_count") None));
           ("create-lookalike",
            with_account (fun accountId =>
              required_all [get args "source-id"; get args "country"]
                "--source-id and --country required"
                (api "POST" ("/act_" ++ accountId ++ "/customaudiences")
                   (Some (JObj
                      [ ("name", json_of (or_else (get args "name")
                                                  (VStr "Lookalike Audience")));
                        ("subtype", JStr "LOOKALIKE");
                        ("origin_audience_id", json_of (get args "source-id"));
                        ("lookalike_spec",
                         JStr (JSON_stringify rt
                                 (JObj [ ("type", JStr "similarity");
                                         ("country", json_of (get args "country")) ]))) ]))))) ]
         (ret (Error "Unknown audiences subcommand. Use: list, create-lookalike"))) ]
    (ret (ErrorUsage "Unknown command" usage)).

End Script.

Definition tool : Host.tool := {| Host.gate := gate; Host.main := main |}.

End MetaAds.

(** ** onesignal *)

Module Onesignal.

Definition BASE_URL : string := "https://api.onesignal.com".

Definition gate (e : gmap string string) : option string :=
  if negb (truthy (getenv e "ONESIGNAL_REST_API_KEY"))
  then Some "ONESIGNAL_REST_API_KEY environment variable required"
  else if negb (truthy (getenv e "ONESIGNAL_APP_ID"))
  then Some "ONESIGNAL_APP_ID environment variable required"
  else None.

Definition usage : list (string * string) :=
  [ ("notifications", "notifications [send --message <msg> --segment <s> | list | get --id <id> | cancel --id <id>]");
    ("segments", "segments [list | create --name <n> --filters <json> | delete --id <id>]");
    ("users", "users [get --alias-id <id> | create --external-id <id> --email <e> | delete --alias-id <id>]");
    ("templates", "templates [list | get --id <id> | create --name <n> --message <msg>]");
    ("app", "app [get]");
    ("options", "--limit <n> --offset <n>") ].

Section Script.

Context (rt : runtime) (w : world) (args : gmap string value).

Definition REST_API_KEY : value := getenv (env w) "ONESIGNAL_REST_API_KEY".
Definition APP_ID : value := getenv (env w) "ONESIGNAL_APP_ID".

Definition api (method path : string) (body : option json) : M output :=
  let headers := [ ("Authorization", "Basic " ++ to_string REST_API_KEY);
                   ("Content-Type", "application/json");
                   ("Accept", "application/json") ] in
  if truthy (get args "dry-run") then
    ret (DryRun {| d_method := method; d_url := BASE_URL ++ path;
                   d_headers := assoc_set headers "Authorization" "***";
                   d_body := body |})
  else
    await res := fetch w {| r_method := method; r_url := BASE_URL ++ path;
                            r_headers := headers;
                            r_body := option_map JsonBody body |} in
    ret (read_body res).

(** [String(limit)] with [limit = args.limit ? Number(args.limit) : 50] *)
Definition limit : string :=
  if truthy (get args "limit") then String_of_Number rt (get args "limit") else "50".

Definition offset : string :=
  if truthy (get args "offset") then String_of_Number rt (get args "offset") else "0".

(** [try { payload.data = JSON.parse(args.data) }
     catch { payload.data = { value: args.data } }] *)
Definition data (payload : list (string * json)) : list (string * json) :=
  if truthy (get args "data") then
    match JSON_parse rt (to_string (get args "data")) with
    | Normal j => assoc_set payload "data" j
    | Throw _ => assoc_set payload "data" (JObj [("value", json_of (get args "data"))])
    end
  else payload.

(** Whom the notification goes to: the first of [--segment], [--emails],
    [--player-ids] and [--aliases] that is given, else every subscriber. *)
Definition audience (payload : list (string * json)) : completion (list (string * json)) :=
  if truthy (get args "segment") then
    put_split args "included_segments" "segment" JStr payload
  else if truthy (get args "emails") then
    put_split args "include_email_tokens" "emails" JStr payload
  else if truthy (get args "player-ids") then
    put_split args "include_player_ids" "player-ids" JStr payload
  else if truthy (get args "aliases") then
    let channel := json_of (or_else (get args "channel") (VStr "push")) in
    match JSON_parse rt (to_string (get args "aliases")) with
    | Normal j =>
        Normal (assoc_set (assoc_set payload "include_aliases" j) "target_channel" channel)
    | Throw _ =>
        match split_of "aliases" (get args "aliases") with
        | Normal pieces =>
            Normal (assoc_set
                      (assoc_set payload "include_aliases"
                                 (JObj [("external_id", JArr (map JStr pieces))]))
                      "target_channel" channel)
        | Throw e => Throw e
        end
    end
  else Normal (assoc_set payload "included_segments" (JArr [JStr "Subscribed Users"])).

Definition by_id (method : string) (path : string -> string) : M output :=
  let id := get args "id" in
  required id "--id required" (api method (path (to_string id)) None).

Definition by_alias (method : string) : M output :=
  let aliasLabel := or_else (get args "alias-label") (VStr "external_id") in
  let aliasId := get args "alias-id" in
  required aliasId "--alias-id required"
    (api method ("/api/v1/apps/" ++ to_string APP_ID ++ "/users/by/"
                 ++ to_string aliasLabel ++ "/" ++ to_string aliasId) None).

(** [{ en: args[flag] }] under [name], when the flag is given *)
Definition english (name flag : string) (o : list (string * json)) : list (string * json) :=
  put_if (get args flag) name (JObj [("en", json_of (get args flag))]) o.

Definition main (cmd sub : value) : M output :=
  switch cmd
    [ ("notifications",
       switch sub
         [ ("send",
            let message := get args "message" in
            required message "--message required"
              (let payload := [ ("app_id", json_of APP_ID);
                                ("contents", JObj [("en", json_of message)]) ] in
               let payload := english "headings" "heading" payload in
               let payload := put_flags args payload [("url", "url")] in
               let payload := data payload in
               await payload := lift (audience payload) in
               let payload := put_flags args payload [("send_after", "send-after")] in
               let payload := put_if (get args "ttl") "ttl"
                                     (JNumberOf "Number" (get args "ttl")) payload in
               api "POST" "/api/v1/notifications" (Some (JObj payload))));
           ("list",
            api "GET" ("/api/v1/notifications?app_id=" ++ to_string APP_ID
                       ++ "&limit=" ++ limit ++ "&offset=" ++ offset) None);
           ("get",
            by_id "GET" (fun id => "/api/v1/notifications/" ++ id
                                   ++ "?app_id=" ++ to_string APP_ID));
           ("cancel",
            by_id "DELETE" (fun id => "/api/v1/notifications/" ++ id
                                      ++ "?app_id=" ++ to_string APP_ID)) ]
         (ret (Error "Unknown notifications subcommand. Use: send, list, get, cancel")));
      ("segments",
       switch sub
         [ ("list",
            api "GET" ("/api/v1/apps/" ++ to_string APP_ID ++ "/segments?offset=" ++ offset
                       ++ "&limit=" ++ limit) None);
           ("create",
            let name := get args "name" in
            required name "--name required"
              (await filters :=
                 (if truthy (get args "filters")
                  then lift (JSON_parse rt (to_string (get args "filters")))
                  else ret (JArr [JObj [ ("field", JStr "session_count");
                                         ("relation", JStr ">");
                                         ("value", JStr "0") ]])) in
               api "POST" ("/api/v1/apps/" ++ to_string APP_ID ++ "/segments")
                   (Some (JObj [("name", json_of name); ("filters", filters)]))));
           ("delete",
            by_id "DELETE" (fun id => "/api/v1/apps/" ++ to_string APP_ID
                                      ++ "/segments/" ++ id)) ]
         (ret (Error "Unknown segments subcommand. Use: list, create, delete")));
      ("users",
       switch sub
         [ ("get", by_alias "GET");
           ("create",
            let payload :=
              put_if (get args "external-id") "identity"
                     (JObj [("external_id", json_of (get args "external-id"))]) [] in
            let payload :=
              put_if (get args "email") "subscriptions"
                     (JArr [JObj [ ("type", JStr "Email");
                                   ("token", json_of (get args "email")) ]]) payload in
            if truthy (get args "tags") then
              match JSON_parse rt (to_string (get args "tags")) with
              | Normal tags =>
                  api "POST" ("/api/v1/apps/" ++ to_string APP_ID ++ "/users")
                      (Some (JObj (assoc_set payload "tags" tags)))
              | Throw _ => ret (Error "Invalid --tags JSON")
              end
            else
              api "POST" ("/api/v1/apps/" ++ to_string APP_ID ++ "/users")
                  (Some (JObj payload)));
           ("delete", by_alias "DELETE") ]
         (ret (Error "Unknown users subcommand. Use: get, create, delete")));
      ("templates",
       switch sub
         [ ("list",
            api "GET" ("/api/v1/templates?app_id=" ++ to_string APP_ID
                       ++ "&limit=" ++ limit ++ "&offset=" ++ offset) None);
           ("get",
            by_id "GET" (fun id => "/api/v1/templates/" ++ id
                                   ++ "?app_id=" ++ to_string APP_ID));
           ("create",
            let name := get args "name" in
            required name "--name required"
              (let payload := [("app_id", json_of APP_ID); ("name", json_of name)] in
               let payload := english "contents" "message" payload in
               let payload := english "headings" "heading" payload in
               api "POST" "/api/v1/templates" (Some (JObj payload)))) ]
         (ret (Error "Unknown templates subcommand. Use: list, get, create")));
      ("app",
       switch sub
         [ ("get", api "GET" ("/api/v1/apps/" ++ to_string APP_ID) None) ]
         (ret (Error "Unknown app subcommand. Use: get"))) ]
    (ret (ErrorUsage "Unknown command" usage)).

End Script.

Definition tool : Host.tool := {| Host.gate := gate; Host.main := main |}.

End Onesignal.

(** ** apollo *)

Module Apollo.

Definition BASE_URL : string := "https://api.apollo.io/api/v1".

Definition gate (e : gmap string string) : option string :=
  if negb (truthy (getenv e "APOLLO_API_KEY"))
  then Some "APOLLO_API_KEY environment variable required"
  else None.

Definition usage : json :=
  JObj
    [ ("people", JObj
        [ ("search", JStr "people search [--titles <t1,t2>] [--locations <l1,l2>] [--seniorities <s1,s2>] [--employee-ranges <1,100>] [--keywords <kw>] [--page <n>]");
          ("enrich", JStr "people enrich --email <email> | --first-name <name> --last-name <name> --domain <domain> | --linkedin <url>");
          ("bulk-enrich", JStr "people bulk-enrich --emails <e1,e2,e3>") ]);
      ("organizations", JObj
        [ ("search", JStr "organizations search [--locations <l1,l2>] [--employee-ranges <1,100>] [--keywords <kw>] [--page <n>]");
          ("enrich", JStr "organizations enrich --domain <domain>") ]) ].

Section Script.

Context (rt : runtime) (w : world) (args : gmap string value).

Definition API_KEY : value := getenv (env w) "APOLLO_API_KEY".

Definition api (method path : string) (body : option json) : M output :=
  if truthy (get args "dry-run") then
    ret (DryRun {| d_method := method; d_url := BASE_URL ++ path;
                   d_headers := [ ("x-api-key", "***");
                                  ("Content-Type", "application/json");
                                  ("Accept", "application/json") ];
                   d_body := body |})
  else
    await res := fetch w {| r_method := method; r_url := BASE_URL ++ path;
                            r_headers := [ ("x-api-key", to_string API_KEY);
                                           ("Content-Type", "application/json");
                                           ("Accept", "application/json") ];
                            r_body := option_map JsonBody body |} in
    ret (read_body res).

Definition page : json := number_or "Number" (get args "page") 1.
Definition perPage : json := number_or "Number" (get args "per-page") 25.

Definition trimmed (r : string) : json := JStr (trim rt r).

Definition main (cmd sub : value) : M output :=
  switch cmd
    [ ("people",
       switch sub
         [ ("search",
            let body := [("page", page); ("per_page", perPage)] in
            await body := lift (put_split args "person_titles" "titles" JStr body) in
            await body := lift (put_split args "person_locations" "locations" JStr body) in
            await body := lift (put_split args "person_seniorities" "seniorities" JStr body) in
            await body := lift (put_split args "organization_num_employees_ranges"
                                          "employee-ranges" trimmed body) in
            let body := put_flags args body [("q_keywords", "keywords")] in
            api "POST" "/mixed_people/api_search" (Some (JObj body)));
           ("enrich",
            let body := put_flags args []
                          [ ("email", "email"); ("first_name", "first-name");
                            ("last_name", "last-name"); ("domain", "domain");
                            ("linkedin_url", "linkedin") ] in
            if negb (truthy (get args "email")) && negb (truthy (get args "linkedin"))
               && negb (truthy (get args "first-name") && truthy (get args "domain"))
            then ret (Error "--email, --linkedin, or --first-name + --domain required")
            else api "POST" "/people/match" (Some (JObj body)));
           ("bulk-enrich",
            await emails := lift (optional_split "emails" (get args "emails")) in
            match emails with
            | None => ret (Error "--emails required (comma-separated)")
            | Some emails =>
                let details := map (fun email => JObj [("email", JStr (trim rt email))])
                                   emails in
                api "POST" "/people/bulk_match" (Some (JObj [("details", JArr details)]))
            end) ]
         (ret (Error "Unknown people subcommand. Use: search, enrich, bulk-enrich")));
      ("organizations",
       switch sub
         [ ("search",
            let body := [("page", page); ("per_page", perPage)] in
            await body := lift (put_split args "organization_locations" "locations" JStr
                                          body) in
            await body := lift (put_split args "organization_num_employees_ranges"
                                          "employee-ranges" trimmed body) in
            let body := put_flags args body [("q_keywords", "keywords")] in
            api "POST" "/mixed_companies/search" (Some (JObj body)));
           ("enrich",
            let domain := get args "domain" in
            required domain "--domain required"
              (api "POST" "/organizations/enrich"
                   (Some (JObj [("domain", json_of domain)])))) ]
         (ret (Error "Unknown organizations subcommand. Use: search, enrich"))) ]
    (ret (Json (JObj [("error", JStr "Unknown command"); ("usage", usage)]))).

End Script.

Definition tool : Host.tool := {| Host.gate := gate; Host.main := main |}.

End Apollo.

(** ** calendly *)

Module Calendly.

Definition BASE_URL : string := "https://api.calendly.com".

Definition gate (e : gmap string string) : option string :=
  if negb (truthy (getenv e "CALENDLY_API_KEY"))
  then Some "CALENDLY_API_KEY environment variable required"
  else None.

Definition usage : list (string * string) :=
  [ ("users", "users me");
    ("event-types", "event-types [list --user <uri> | get --uuid <id>]");
    ("events", "events [list --user <uri> | get --uuid <id> | cancel --uuid <id> | invitees --uuid <id>]");
    ("availability", "availability [times --event-type <uri> --start-time <iso> --end-time <iso> | busy --user <uri> --start-time <iso> --end-time <iso>]");
    ("webhooks", "webhooks [list --organization <uri> | create --url <url> --events <e1,e2> --organization <uri> | delete --uuid <id>]");
    ("org", "org [members --organization <uri>]");
    ("options", "--count <n> --page-token <token> --status <active|canceled>") ].

Section Script.

Context (rt : runtime) (w : world) (args : gmap string value).

Definition API_KEY : value := getenv (env w) "CALENDLY_API_KEY".

Definition api (method path : string) (body : option json) : M output :=
  if truthy (get args "dry-run") then
    ret (DryRun {| d_method := method; d_url := BASE_URL ++ path;
                   d_headers := [ ("Authorization", "***");
                                  ("Content-Type", "application/json");
                                  ("Accept", "application/json") ];
                   d_body := body |})
  else
    await res := fetch w {| r_method := method; r_url := BASE_URL ++ path;
                            r_headers := [ ("Authorization", "Bearer " ++ to_string API_KEY);
                                           ("Content-Type", "application/json");
                                           ("Accept", "application/json") ];
                            r_body := option_map JsonBody body |} in
    ret (read_body res).

(** [String(count)] with [count = args.count ? Number(args.count) : 20] *)
Definition count : string :=
  if truthy (get args "count") then String_of_Number rt (get args "count") else "20".

Definition by_uuid (message method : string) (path : string -> string)
    (body : option json) : M output :=
  let uuid := get args "uuid" in
  required uuid message (api method (path (to_string uuid)) body).

(** [if (!user && !org) ...], then the parameters [user] and
    [organization] of those that are given *)
Definition owned (rest : list (string * string) -> M output) : M output :=
  let user := get args "user" in
  let org := get args "organization" in
  if negb (truthy user) && negb (truthy org)
  then ret (Error "--user or --organization URI required")
  else rest (set_flags args [] [("user", "user"); ("organization", "organization")]).

(** [if (!startTime || !endTime) ...], then the three parameters *)
Definition between (name : string) (v : value) (path : string) : M output :=
  let startTime := get args "start-time" in
  let endTime := get args "end-time" in
  required_all [startTime; endTime] "--start-time and --end-time required (ISO 8601)"
    (let params := params_of [(name, v); ("start_time", startTime);
                              ("end_time", endTime)] in
     api "GET" (path ++ form_urlencode rt params) None).

Definition main (cmd sub : value) : M output :=
  switch cmd
    [ ("users",
       switch sub
         [ ("me", api "GET" "/users/me" None) ]
         (ret (Error "Unknown users subcommand. Use: me")));
      ("event-types",
       switch sub
         [ ("list",
            owned (fun params =>
              let params := set_flags args params [("active", "active")] in
              let params := params_set params "count" count in
              let params := set_flags args params [("page_token", "page-token")] in
              api "GET" ("/event_types?" ++ form_urlencode rt params) None));
           ("get", by_uuid "--uuid required" "GET" (fun uuid => "/event_types/" ++ uuid) None) ]
         (ret (Error "Unknown event-types subcommand. Use: list, get")));
      ("events",
       switch sub
         [ ("list",
            owned (fun params =>
              let params := set_flags args params
                              [ ("min_start_time", "min-start");
                                ("max_start_time", "max-start"); ("status", "status") ] in
              let params := params_set params "count" count in
              let params := set_flags args params
                              [("page_token", "page-token"); ("sort", "sort")] in
              api "GET" ("/scheduled_events?" ++ form_urlencode rt params) None));
           ("get",
            by_uuid "--uuid required" "GET" (fun uuid => "/scheduled_events/" ++ uuid) None);
           ("cancel",
            by_uuid "--uuid required" "POST"
                    (fun uuid => "/scheduled_events/" ++ uuid ++ "/cancellation")
                    (Some (JObj (put_flags args [] [("reason", "reason")]))));
           ("invitees",
            let params := params_set [] "count" count in
            let params := set_flags args params
                            [ ("page_token", "page-token"); ("email", "email");
                              ("status", "status") ] in
            by_uuid "--uuid required (event UUID)" "GET"
                    (fun uuid => "/scheduled_events/" ++ uuid ++ "/invitees?"
                                 ++ form_urlencode rt params) None) ]
         (ret (Error "Unknown events subcommand. Use: list, get, cancel, invitees")));
      ("availability",
       switch sub
         [ ("times",
            let eventType := get args "event-type" in
            required eventType "--event-type URI required"
              (between "event_type" eventType "/event_type_available_times?"));
           ("busy",
            let user := get args "user" in
            required user "--user URI required"
              (between "user" user "/user_busy_times?")) ]
         (ret (Error "Unknown availability subcommand. Use: times, busy")));
      ("webhooks",
       switch sub
         [ ("list",
            let org := get args "organization" in
            let scope := or_else (get args "scope") (VStr "organization") in
            required org "--organization URI required"
              (let params := params_of [("organization", org); ("scope", scope)] in
               let params := params_set params "count" count in
               let params := set_flags args params [("page_token", "page-token")] in
               api "GET" ("/webhook_subscriptions?" ++ form_urlencode rt params) None));
           ("create",
            let url := get args "url" in
            await events := lift (optional_split "events" (get args "events")) in
            let org := get args "organization" in
            let scope := or_else (get args "scope") (VStr "organization") in
            match events with
            | Some events =>
                required_all [url; org]
                  "--url, --events (comma-separated), and --organization required"
                  (let body := [ ("url", json_of url);
                                 ("events", JArr (map JStr events));
                                 ("organization", json_of org);
                                 ("scope", json_of scope) ] in
                   api "POST" "/webhook_subscriptions"
                       (Some (JObj (put_flags args body [("user", "user")]))))
            | None =>
                ret (Error "--url, --events (comma-separated), and --organization required")
            end);
           ("delete",
            by_uuid "--uuid required" "DELETE"
                    (fun uuid => "/webhook_subscriptions/" ++ uuid) None) ]
         (ret (Error "Unknown webhooks subcommand. Use: list, create, delete")));
      ("org",
       switch sub
         [ ("members",
            let org := get args "organization" in
            required org "--organization URI required"
              (let params := params_of [("organization", org)] in
               let params := params_set params "count" count in
               let params := set_flags args params [("page_token", "page-token")] in
               api "GET" ("/organization_memberships?" ++ form_urlencode rt params) None)) ]
         (ret (Error "Unknown org subcommand. Use: members"))) ]
    (ret (ErrorUsage "Unknown command" usage)).

End Script.

Definition tool : Host.tool := {| Host.gate := gate; Host.main := main |}.

End Calendly.

(** ** keywords-everywhere *)

Module KeywordsEverywhere.

Definition BASE_URL : string := "https://api.keywordseverywhere.com/v1".

Definition gate (e : gmap string string) : option string :=
  if negb (truthy (getenv e "KEYWORDS_EVERYWHERE_API_KEY"))
  then Some "KEYWORDS_EVERYWHERE_API_KEY environment variable required"
  else None.

Definition usage : list (string * string) :=
  [ ("keywords", "keywords [data|related|pasf] --kw <kw1,kw2,...>");
    ("domain", "domain [keywords|traffic|backlinks|unique-backlinks] --domain <domain>");
    ("url", "url [keywords|traffic|backlinks|unique-backlinks] --url <url>");
    ("account", "account [credits|countries|currencies]");
    ("options", "--country <us> --currency <USD> --data-source <gkp>") ].

Section Script.

Context (rt : runtime) (w : world) (args : gmap string value).

Definition API_KEY : value := getenv (env w) "KEYWORDS_EVERYWHERE_API_KEY".

Definition api (method path : string) (body : option json) : M output :=
  let headers := [ ("Authorization", "Bearer " ++ to_string API_KEY);
                   ("Content-Type", "application/json");
                   ("Accept", "application/json") ] in
  if truthy (get args "dry-run") then
    ret (DryRun {| d_method := method; d_url := BASE_URL ++ path;
                   d_headers := assoc_set headers "Authorization" "***";
                   d_body := body |})
  else
    await res := fetch w {| r_method := method; r_url := BASE_URL ++ path;
                            r_headers := headers;
                            r_body := option_map JsonBody body |} in
    ret (read_body res).

Definition country : json := json_of (or_else (get args "country") (VStr "us")).
Definition currency : json := json_of (or_else (get args "currency") (VStr "USD")).
Definition dataSource : json := json_of (or_else (get args "data-source") (VStr "gkp")).

Definition by_keywords (message path : string) : M output :=
  await kw := lift (optional_split "kw" (get args "kw")) in
  match kw with
  | None => ret (Error message)
  | Some kw =>
      api "POST" path
          (Some (JObj [ ("country", country); ("currency", currency);
                        ("dataSource", dataSource); ("kw", JArr (map JStr kw)) ]))
  end.

(** [if (!args[flag]) ...], then the call whose body ends with that flag *)
Definition about (flag message path : string) (fields : list (string * json)) : M output :=
  let v := get args flag in
  required v message (api "POST" path (Some (JObj (fields ++ [(flag, json_of v)])))).

Definition main (cmd sub : value) : M output :=
  switch cmd
    [ ("keywords",
       switch sub
         [ ("data",
            by_keywords "--kw required (comma-separated keywords, max 100)"
                        "/get_keyword_data");
           ("related",
            by_keywords "--kw required (comma-separated keywords)" "/get_related_keywords");
           ("pasf",
            by_keywords "--kw required (comma-separated keywords)" "/get_pasf_keywords") ]
         (ret (Error "Unknown keywords subcommand. Use: data, related, pasf")));
      ("domain",
       switch sub
         [ ("keywords",
            about "domain" "--domain required" "/get_domain_keywords"
                  [("country", country); ("currency", currency)]);
           ("traffic",
            about "domain" "--domain required" "/get_domain_traffic" [("country", country)]);
           ("backlinks", about "domain" "--domain required" "/get_domain_backlinks" []);
           ("unique-backlinks",
            about "domain" "--domain required" "/get_unique_domain_backlinks" []) ]
         (ret (Error "Unknown domain subcommand. Use: keywords, traffic, backlinks, unique-backlinks")));
      ("url",
       switch sub
         [ ("keywords",
            about "url" "--url required" "/get_url_keywords"
                  [("country", country); ("currency", currency)]);
           ("traffic", about "url" "--url required" "/get_url_traffic" [("country", country)]);
           ("backlinks", about "url" "--url required" "/get_page_backlinks" []);
           ("unique-backlinks",
            about "url" "--url required" "/get_unique_page_backlinks" []) ]
         (ret (Error "Unknown url subcommand. Use: keywords, traffic, backlinks, unique-backlinks")));
      ("account",
       switch sub
         [ ("credits", api "GET" "/get_credits" None);
           ("countries", api "GET" "/get_countries" None);
           ("currencies", api "GET" "/get_currencies" None) ]
         (ret (Error "Unknown account subcommand. Use: credits, countries, currencies"))) ]
    (ret (ErrorUsage "Unknown command" usage)).

End Script.

Definition tool : Host.tool := {| Host.gate := gate; Host.main := fun _ => main |}.

End KeywordsEverywhere.

(** ** activecampaign *)

Module Activecampaign.

Definition gate (e : gmap string string) : option string :=
  if negb (truthy (getenv e "ACTIVECAMPAIGN_API_KEY"))
  then Some "ACTIVECAMPAIGN_API_KEY environment variable required"
  else if negb (truthy (getenv e "ACTIVECAMPAIGN_API_URL"))
  then Some "ACTIVECAMPAIGN_API_URL environment variable required (e.g. https://yourname.api-us1.com)"
  else None.

Definition usage : list (string * string) :=
  [ ("contacts", "contacts [list | get --id <id> | create --email <email> | update --id <id> | delete --id <id> | sync --email <email>]");
    ("lists", "lists [list | get --id <id> | create --name <name> | delete --id <id> | subscribe --list-id <lid> --contact-id <cid> | unsubscribe --list-id <lid> --contact-id <cid>]");
    ("campaigns", "campaigns [list | get --id <id>]");
    ("deals", "deals [list | get --id <id> | create --title <title> | update --id <id> | delete --id <id>]");
    ("automations", "automations [list | get --id <id> | add-contact --id <aid> --email <email>]");
    ("tags", "tags [list | get --id <id> | create --name <name> | delete --id <id> | add-to-contact --tag-id <tid> --contact-id <cid>]");
    ("pipelines", "pipelines [list | get --id <id>]");
    ("webhooks", "webhooks [list | get --id <id> | create --name <name> --url <url> | delete --id <id>]");
    ("users", "users [me | list]");
    ("options", "--limit <n> --offset <n> --search <query> --email <email>") ].

Section Script.

Context (rt : runtime) (w : world) (args : gmap string value).

Definition API_KEY : value := getenv (env w) "ACTIVECAMPAIGN_API_KEY".
Definition API_URL : value := getenv (env w) "ACTIVECAMPAIGN_API_URL".

Definition BASE_URL : string :=
  text_op rt "replace(/\/$/, '')" (to_string API_URL) ++ "/api/3".

Definition api (method path : string) (body : option json) : M output :=
  if truthy (get args "dry-run") then
    ret (DryRun {| d_method := method; d_url := BASE_URL ++ path;
                   d_headers := [ ("Api-Token", "***");
                                  ("Content-Type", "application/json");
                                  ("Accept", "application/json") ];
                   d_body := body |})
  else
    await res := fetch w {| r_method := method; r_url := BASE_URL ++ path;
                            r_headers := [ ("Api-Token", to_string API_KEY);
                                           ("Content-Type", "application/json");
                                           ("Accept", "application/json") ];
                            r_body := option_map JsonBody body |} in
    ret (read_body res).

(** [String(limit)] with [limit = args.limit ? Number(args.limit) : 20] *)
Definition limit : string :=
  if truthy (get args "limit") then String_of_Number rt (get args "limit") else "20".

Definition offset : string :=
  if truthy (get args "offset") then String_of_Number rt (get args "offset") else "0".

(** The parameters [limit] and [offset], then those of the flags given *)
Definition listing (path : string) (entries : list (string * string)) : M output :=
  let params := params_set [] "limit" limit in
  let params := params_set params "offset" offset in
  let params := set_flags args params entries in
  api "GET" (path ++ form_urlencode rt params) None.

Definition by_id (message method path : string) (body : option json) : M output :=
  let id := get args "id" in
  required id message (api method (path ++ to_string id) body).

Definition person : list (string * string) :=
  [("firstName", "first-name"); ("lastName", "last-name"); ("phone", "phone")].

Definition with_email (path : string) : M output :=
  let email := get args "email" in
  required email "--email required"
    (let contact := put_flags args [("email", json_of email)] person in
     api "POST" path (Some (JObj [("contact", JObj contact)]))).

Definition membership (status : nat) : M output :=
  let listId := or_else (get args "list-id") (get args "id") in
  let contactId := get args "contact-id" in
  required listId "--list-id required"
    (required contactId "--contact-id required"
       (api "POST" "/contactLists"
            (Some (JObj [("contactList",
                          JObj [ ("list", json_of listId);
                                 ("contact", json_of contactId);
                                 ("status", JNat status) ])])))).

Definition number_flag (name flag : string) (o : list (string * json))
  : list (string * json) :=
  put_if (get args flag) name (JNumberOf "Number" (get args flag)) o.

Definition main (cmd sub : value) : M output :=
  switch cmd
    [ ("contacts",
       switch sub
         [ ("list",
            listing "/contacts?"
                    [ ("email", "email"); ("search", "search"); ("listid", "list-id");
                      ("status", "status") ]);
           ("get", by_id "--id required" "GET" "/contacts/" None);
           ("create", with_email "/contacts");
           ("update",
            by_id "--id required" "PUT" "/contacts/"
                  (Some (JObj [("contact",
                                JObj (put_flags args [] (("email", "email") :: person)))])));
           ("delete", by_id "--id required" "DELETE" "/contacts/" None);
           ("sync", with_email "/contact/sync") ]
         (ret (Error "Unknown contacts subcommand. Use: list, get, create, update, delete, sync")));
      ("lists",
       switch sub
         [ ("list", listing "/lists?" []);
           ("get", by_id "--id required" "GET" "/lists/" None);
           ("create",
            let name := get args "name" in
            required name "--name required"
              (let list := put_flags args [("name", json_of name)]
                             [ ("stringid", "string-id"); ("sender_url", "sender-url");
                               ("sender_reminder", "sender-reminder") ] in
               api "POST" "/lists" (Some (JObj [("list", JObj list)]))));
           ("delete", by_id "--id required" "DELETE" "/lists/" None);
           ("subscribe", membership 1);
           ("unsubscribe", membership 2) ]
         (ret (Error "Unknown lists subcommand. Use: list, get, create, delete, subscribe, unsubscribe")));
      ("campaigns",
       switch sub
         [ ("list", listing "/campaigns?" []);
           ("get", by_id "--id required" "GET" "/campaigns/" None) ]
         (ret (Error "Unknown campaigns subcommand. Use: list, get")));
      ("deals",
       switch sub
         [ ("list",
            listing "/deals?"
                    [ ("search", "search"); ("filters[stage]", "stage");
                      ("filters[owner]", "owner") ]);
           ("get", by_id "--id required" "GET" "/deals/" None);
           ("create",
            let title := get args "title" in
            required title "--title required"
              (let deal := number_flag "value" "value" [("title", json_of title)] in
               let deal := put_flags args deal
                             [ ("currency", "currency"); ("group", "pipeline");
                               ("stage", "stage"); ("owner", "owner");
                               ("contact", "contact-id") ] in
               api "POST" "/deals" (Some (JObj [("deal", JObj deal)]))));
           ("update",
            by_id "--id required" "PUT" "/deals/"
                  (let deal := put_flags args [] [("title", "title")] in
                   let deal := number_flag "value" "value" deal in
                   let deal := put_flags args deal [("stage", "stage"); ("owner", "owner")] in
                   let deal := number_flag "status" "status" deal in
                   Some (JObj [("deal", JObj deal)])));
           ("delete", by_id "--id required" "DELETE" "/deals/" None) ]
         (ret (Error "Unknown deals subcommand. Use: list, get, create, update, delete")));
      ("automations",
       switch sub
         [ ("list", listing "/automations?" []);
           ("get", by_id "--id required" "GET" "/automations/" None);
           ("add-contact",
            let automationId := get args "id" in
            let contactEmail := get args "email" in
            required automationId "--id required (automation ID)"
              (required contactEmail "--email required"
                 (api "POST" "/contactAutomations"
                      (Some (JObj [("contactAutomation",
                                    JObj [ ("contact", json_of contactEmail);
                                           ("automation", json_of automationId) ])]))))) ]
         (ret (Error "Unknown automations subcommand. Use: list, get, add-contact")));
      ("tags",
       switch sub
         [ ("list", listing "/tags?" [("search", "search")]);
           ("get", by_id "--id required" "GET" "/tags/" None);
           ("create",
            let name := get args "name" in
            required name "--name required"
              (api "POST" "/tags"
                   (Some (JObj [("tag",
                                 JObj [ ("tag", json_of name);
                                        ("tagType",
                                         json_of (or_else (get args "type")
                                                          (VStr "contact"))) ])]))));
           ("delete", by_id "--id required" "DELETE" "/tags/" None);
           ("add-to-contact",
            let tagId := get args "tag-id" in
            let contactId := get args "contact-id" in
            required tagId "--tag-id required"
              (required contactId "--contact-id required"
                 (api "POST" "/contactTags"
                      (Some (JObj [("contactTag",
                                    JObj [ ("contact", json_of contactId);
                                           ("tag", json_of tagId) ])])))));
           ("remove-from-contact",
            by_id "--id required (contactTag ID)" "DELETE" "/contactTags/" None) ]
         (ret (Error "Unknown tags subcommand. Use: list, get, create, delete, add-to-contact, remove-from-contact")));
      ("pipelines",
       switch sub
         [ ("list", listing "/dealGroups?" []);
           ("get", by_id "--id required" "GET" "/dealGroups/" None) ]
         (ret (Error "Unknown pipelines subcommand. Use: list, get")));
      ("webhooks",
       switch sub
         [ ("list", listing "/webhooks?" []);
           ("get", by_id "--id required" "GET" "/webhooks/" None);
           ("create",
            let name := get args "name" in
            let url := get args "url" in
            required name "--name required"
              (required url "--url required"
                 (await events := lift (split_or args "events" ["subscribe"]) in
                  await sources := lift (split_or args "sources"
                                                  ["public"; "admin"; "api"; "system"]) in
                  api "POST" "/webhooks"
                      (Some (JObj [("webhook",
                                    JObj [ ("name", json_of name); ("url", json_of url);
                                           ("events", JArr (map JStr events));
                                           ("sources", JArr (map JStr sources)) ])])))));
           ("delete", by_id "--id required" "DELETE" "/webhooks/" None) ]
         (ret (Error "Unknown webhooks subcommand. Use: list, get, create, delete")));
      ("users",
       switch sub
         [ ("me", api "GET" "/users/me" None);
           ("list", api "GET" "/users" None) ]
         (ret (Error "Unknown users subcommand. Use: me, list"))) ]
    (ret (ErrorUsage "Unknown command" usage)).

End Script.

Definition tool : Host.tool := {| Host.gate := gate; Host.main := main |}.

End Activecampaign.

(** ** intercom *)

Module Intercom.

Definition BASE_URL : string := "https://api.intercom.io".

Definition gate (e : gmap string string) : option string :=
  if negb (truthy (getenv e "INTERCOM_API_KEY"))
  then Some "INTERCOM_API_KEY environment variable required"
  else None.

Definition usage : list (string * string) :=
  [ ("contacts", "contacts [list | get --id <id> | create --email <email> | update --id <id> | search --field <f> --value <v> | delete --id <id> | tag --id <id> --tag-id <id> | untag --id <id> --tag-id <id>]");
    ("conversations", "conversations [list | get --id <id> | search --field <f> --value <v> | reply --id <id> --body <text> --admin-id <id> | close --id <id> --admin-id <id>]");
    ("messages", "messages [create --body <text> --admin-id <id> --to <user_id>]");
    ("companies", "companies [list | get --id <id> | create --company-id <id> --name <name> | update --id <id>]");
    ("tags", "tags [list | create --name <name> | delete --id <id>]");
    ("articles", "articles [list | get --id <id> | create --title <title> --author-id <id> | update --id <id> | delete --id <id>]");
    ("admins", "admins [list | get --id <id>]");
    ("events", "events [create --name <name> --user-id <id> | list --user-id <id>]");
    ("options", "--per-page <n> --starting-after <cursor> --page <n>") ].

Section Script.

Context (rt : runtime) (w : world) (args : gmap string value).

Definition API_KEY : value := getenv (env w) "INTERCOM_API_KEY".

Definition api (method path : string) (body : option json) : M output :=
  if truthy (get args "dry-run") then
    ret (DryRun {| d_method := method; d_url := BASE_URL ++ path;
                   d_headers := [ ("Authorization", "***");
                                  ("Content-Type", "application/json");
                                  ("Accept", "application/json");
                                  ("Intercom-Version", "2.11") ];
                   d_body := body |})
  else
    await res := fetch w {| r_method := method; r_url := BASE_URL ++ path;
                            r_headers := [ ("Authorization", "Bearer " ++ to_string API_KEY);
                                           ("Content-Type", "application/json");
                                           ("Accept", "application/json");
                                           ("Intercom-Version", "2.11") ];
                            r_body := option_map JsonBody body |} in
    ret (read_body res).

(** [perPage = args['per-page'] ? Number(args['per-page']) : undefined]:
    whether [if (perPage)] holds, and [String(perPage)] when it does *)
Definition perPage_given : bool :=
  truthy (get args "per-page") && number_truthy (String_of_Number rt (get args "per-page")).

Definition perPage_text : string := String_of_Number rt (get args "per-page").

Definition perPage_json : json := JNumberOf "Number" (get args "per-page").

Definition per_page (params : list (string * string)) : list (string * string) :=
  if perPage_given then params_set params "per_page" perPage_text else params.

Definition pagination (body : list (string * json)) : list (string * json) :=
  if perPage_given then assoc_set body "pagination" (JObj [("per_page", perPage_json)])
  else body.

Definition listing (path : string) (entries : list (string * string)) : M output :=
  let params := per_page [] in
  let params := set_flags args params entries in
  let qs := form_urlencode rt params in
  api "GET" (path ++ query_suffix qs) None.

Definition by_id (method path : string) (body : option json) : M output :=
  let id := get args "id" in
  required id "--id required" (api method (path ++ to_string id) body).

Definition query (field operator value : value) : list (string * json) :=
  [("query", JObj [ ("field", json_of field); ("operator", json_of operator);
                    ("value", json_of value) ])].

(** [Math.floor(Date.now() / 1000)]: the clock is read as its ISO text. *)
Definition created_at : json :=
  if truthy (get args "created-at") then JNumberOf "Number" (get args "created-at")
  else JNumberOf "Math.floor(Date.parse(iso) / 1000)" (VStr (now_iso w)).

Definition main (cmd sub : value) : M output :=
  switch cmd
    [ ("contacts",
       switch sub
         [ ("list", listing "/contacts" [("starting_after", "starting-after")]);
           ("get", by_id "GET" "/contacts/" None);
           ("create",
            let email := get args "email" in
            required email "--email required"
              (let body := [ ("role", json_of (or_else (get args "role") (VStr "user")));
                             ("email", json_of email) ] in
               api "POST" "/contacts"
                   (Some (JObj (put_flags args body [("name", "name"); ("phone", "phone")])))));
           ("update",
            by_id "PUT" "/contacts/"
                  (Some (JObj (put_flags args []
                                 [ ("name", "name"); ("email", "email"); ("phone", "phone");
                                   ("role", "role") ]))));
           ("search",
            let field := get args "field" in
            let operator := or_else (get args "operator") (VStr "=") in
            let value := get args "value" in
            required_all [field; value] "--field and --value required"
              (api "POST" "/contacts/search"
                   (Some (JObj (pagination (query field operator value))))));
           ("delete", by_id "DELETE" "/contacts/" None);
           ("tag",
            let id := get args "id" in
            let tagId := get args "tag-id" in
            required_all [id; tagId] "--id (contact ID) and --tag-id required"
              (api "POST" ("/contacts/" ++ to_string id ++ "/tags")
                   (Some (JObj [("id", json_of tagId)]))));
           ("untag",
            let id := get args "id" in
            let tagId := get args "tag-id" in
            required_all [id; tagId] "--id (contact ID) and --tag-id required"
              (api "DELETE" ("/contacts/" ++ to_string id ++ "/tags/" ++ to_string tagId)
                   None)) ]
         (ret (Error "Unknown contacts subcommand. Use: list, get, create, update, search, delete, tag, untag")));
      ("conversations",
       switch sub
         [ ("list", listing "/conversations" [("starting_after", "starting-after")]);
           ("get", by_id "GET" "/conversations/" None);
           ("search",
            let field := get args "field" in
            let operator := or_else (get args "operator") (VStr "=") in
            let value := get args "value" in
            if negb (truthy field) || match value with VUndefined => true | _ => false end
            then ret (Error "--field and --value required")
            else api "POST" "/conversations/search"
                     (Some (JObj (pagination (query field operator value)))));
           ("reply",
            let id := get args "id" in
            let body := get args "body" in
            let adminId := get args "admin-id" in
            required_all [id; body; adminId] "--id, --body, and --admin-id required"
              (api "POST" ("/conversations/" ++ to_string id ++ "/reply")
                   (Some (JObj [ ("message_type", JStr "comment");
                                 ("type", JStr "admin");
                                 ("admin_id", json_of adminId);
                                 ("body", json_of body) ]))));
           ("close",
            let id := get args "id" in
            let adminId := get args "admin-id" in
            required_all [id; adminId] "--id and --admin-id required"
              (api "POST" ("/conversations/" ++ to_string id ++ "/parts")
                   (Some (JObj [ ("message_type", JStr "close");
                                 ("type", JStr "admin");
                                 ("admin_id", json_of adminId);
                                 ("body", json_of (or_else (get args "body")
                                                           (VStr ""))) ])))) ]
         (ret (Error "Unknown conversations subcommand. Use: list, get, search, reply, close")));
      ("messages",
       switch sub
         [ ("create",
            let messageType := or_else (get args "type") (VStr "inapp") in
            let body := get args "body" in
            let adminId := get args "admin-id" in
            let to := get args "to" in
            required_all [body; adminId; to] "--body, --admin-id, and --to (user ID) required"
              (api "POST" "/messages"
                   (Some (JObj [ ("message_type", json_of messageType);
                                 ("body", json_of body);
                                 ("from", JObj [("type", JStr "admin");
                                                ("id", json_of adminId)]);
                                 ("to", JObj [("type", JStr "user");
                                              ("id", json_of to)]) ])))) ]
         (ret (Error "Unknown messages subcommand. Use: create --body <text> --admin-id <id> --to <user_id> [--type inapp|email]")));
      ("companies",
       switch sub
         [ ("list", listing "/companies" [("page", "page")]);
           ("get", by_id "GET" "/companies/" None);
           ("create",
            let companyId := get args "company-id" in
            let name := get args "name" in
            required companyId "--company-id required"
              (let body := [("company_id", json_of companyId)] in
               api "POST" "/companies"
                   (Some (JObj (put_flags args body
                                  [ ("name", "name"); ("plan", "plan");
                                    ("industry", "industry") ])))));
           ("update",
            by_id "PUT" "/companies/"
                  (Some (JObj (put_flags args []
                                 [ ("name", "name"); ("plan", "plan");
                                   ("industry", "industry") ])))) ]
         (ret (Error "Unknown companies subcommand. Use: list, get, create, update")));
      ("tags",
       switch sub
         [ ("list", api "GET" "/tags" None);
           ("create",
            let name := get args "name" in
            required name "--name required"
              (api "POST" "/tags" (Some (JObj [("name", json_of name)]))));
           ("delete", by_id "DELETE" "/tags/" None) ]
         (ret (Error "Unknown tags subcommand. Use: list, create, delete")));
      ("articles",
       switch sub
         [ ("list", listing "/articles" [("page", "page")]);
           ("get", by_id "GET" "/articles/" None);
           ("create",
            let title := get args "title" in
            let authorId := get args "author-id" in
            required_all [title; authorId] "--title and --author-id required"
              (let body := [ ("title", json_of title);
                             ("author_id", JNumberOf "Number" authorId);
                             ("state", json_of (or_else (get args "state")
                                                        (VStr "draft"))) ] in
               api "POST" "/articles" (Some (JObj (put_flags args body [("body", "body")])))));
           ("update",
            by_id "PUT" "/articles/"
                  (Some (JObj (put_flags args []
                                 [("title", "title"); ("body", "body"); ("state", "state")]))));
           ("delete", by_id "DELETE" "/articles/" None) ]
         (ret (Error "Unknown articles subcommand. Use: list, get, create, update, delete")));
      ("admins",
       switch sub
         [ ("list", api "GET" "/admins" None);
           ("get", by_id "GET" "/admins/" None) ]
         (ret (Error "Unknown admins subcommand. Use: list, get")));
      ("events",
       switch sub
         [ ("create",
            let eventName := get args "name" in
            let userId := get args "user-id" in
            required_all [eventName; userId] "--name and --user-id required"
              (let body := [ ("event_name", json_of eventName);
                             ("user_id", json_of userId);
                             ("created_at", created_at) ] in
               let body :=
                 if truthy (get args "metadata") then
                   match JSON_parse rt (to_string (get args "metadata")) with
                   | Normal j => assoc_set body "metadata" j
                   | Throw _ => assoc_set body "metadata" (JObj [])
                   end
                 else body in
               api "POST" "/events" (Some (JObj body))));
           ("list",
            let userId := get args "user-id" in
            required userId "--user-id required"
              (let params := params_of [("type", VStr "user"); ("user_id", userId)] in
               let params := per_page params in
               api "GET" ("/events?" ++ form_urlencode rt params) None)) ]
         (ret (Error "Unknown events subcommand. Use: create, list"))) ]
    (ret (ErrorUsage "Unknown command" usage)).

End Script.

Definition tool : Host.tool := {| Host.gate := gate; Host.main := main |}.

End Intercom.

(** ** g2 *)

Module G2.

Definition BASE_URL : string := "https://data.g2.com/api/v1".

Definition gate (e : gmap string string) : option string :=
  if negb (truthy (getenv e "G2_API_TOKEN"))
  then Some "G2_API_TOKEN environment variable required"
  else None.

Definition usage : list (string * string) :=
  [ ("reviews", "reviews [list --product-id <id> | get --id <id>]");
    ("products", "products [list --name <name> | get --id <id>]");
    ("reports", "reports [list | get --id <id>]");
    ("competitors", "competitors [list --product-id <id>]");
    ("categories", "categories [list --name <name> | get --id <id>]");
    ("tracking", "tracking [visitors --start <date> --end <date>]");
    ("options", "--page <n> --per-page <n>") ].

Section Script.

Context (rt : runtime) (w : world) (args : gmap string value).

Definition API_TOKEN : value := getenv (env w) "G2_API_TOKEN".

Definition api (method path : string) (body : option json) : M output :=
  if truthy (get args "dry-run") then
    ret (DryRun {| d_method := method; d_url := BASE_URL ++ path;
                   d_headers := [ ("Authorization", "***");
                                  ("Content-Type", "application/vnd.api+json");
                                  ("Accept", "application/vnd.api+json") ];
                   d_body := body |})
  else
    await res := fetch w {| r_method := method; r_url := BASE_URL ++ path;
                            r_headers := [ ("Authorization",
                                            "Token token=" ++ to_string API_TOKEN);
                                           ("Content-Type", "application/vnd.api+json");
                                           ("Accept", "application/vnd.api+json") ];
                            r_body := option_map JsonBody body |} in
    ret (read_body res).

(** [String(page)] with [page = args.page ? Number(args.page) : 1] *)
Definition page : string :=
  if truthy (get args "page") then String_of_Number rt (get args "page") else "1".

Definition perPage : string :=
  if truthy (get args "per-page") then String_of_Number rt (get args "per-page") else "25".

Definition productId : value := or_else (get args "product-id") (get args "product").

Definition paging : string := "?page[size]=" ++ perPage ++ "&page[number]=" ++ page.

(** [if (args[flag]) qs += `&filter[name]=${encodeURIComponent(args[flag])}`] *)
Definition filtered (qs name flag : string) : string :=
  if truthy (get args flag)
  then qs ++ "&filter[" ++ name ++ "]=" ++ encodeURIComponent rt (to_string (get args flag))
  else qs.

Definition by_id (path : string) : M output :=
  let id := get args "id" in
  required id "--id required" (api "GET" (path ++ to_string id) None).

Definition main (cmd sub : value) : M output :=
  switch cmd
    [ ("reviews",
       switch sub
         [ ("list",
            let qs := paging in
            let qs := if truthy productId
                      then qs ++ "&filter[product_id]=" ++ to_string productId else qs in
            let qs := filtered qs "state" "state" in
            api "GET" ("/survey-responses" ++ qs) None);
           ("get", by_id "/survey-responses/") ]
         (ret (Error "Unknown reviews subcommand. Use: list, get")));
      ("products",
       switch sub
         [ ("list", api "GET" ("/products" ++ filtered paging "name" "name") None);
           ("get", by_id "/products/") ]
         (ret (Error "Unknown products subcommand. Use: list, get")));
      ("reports",
       switch sub
         [ ("list", api "GET" ("/reports" ++ paging) None);
           ("get", by_id "/reports/") ]
         (ret (Error "Unknown reports subcommand. Use: list, get")));
      ("competitors",
       switch sub
         [ ("list",
            required productId "--product-id required"
              (let qs := paging ++ "&filter[product_id]=" ++ to_string productId in
               api "GET" ("/competitor-comparisons" ++ qs) None)) ]
         (ret (Error "Unknown competitors subcommand. Use: list")));
      ("categories",
       switch sub
         [ ("list", api "GET" ("/categories" ++ filtered paging "name" "name") None);
           ("get", by_id "/categories/") ]
         (ret (Error "Unknown categories subcommand. Use: list, get")));
      ("tracking",
       switch sub
         [ ("visitors",
            let qs := filtered paging "start_date" "start" in
            let qs := filtered qs "end_date" "end" in
            api "GET" ("/tracking-events" ++ qs) None) ]
         (ret (Error "Unknown tracking subcommand. Use: visitors"))) ]
    (ret (ErrorUsage "Unknown command" usage)).

End Script.

Definition tool : Host.tool := {| Host.gate := gate; Host.main := main |}.

End G2.

(** ** rewardful *)

Module Rewardful.

Definition BASE_URL : string := "https://api.getrewardful.com/v1".

Definition gate (e : gmap string string) : option string :=
  if negb (truthy (getenv e "REWARDFUL_API_KEY"))
  then Some "REWARDFUL_API_KEY environment variable required"
  else None.

Definition usage : list (string * string) :=
  [ ("affiliates", "affiliates [list|get|search|update] [id] [--email <email>] [--id <id>] [--first-name <name>] [--last-name <name>] [--paypal-email <email>]");
    ("referrals", "referrals [list|get] [--affiliate-id <id>] [--stripe-customer-id <id>]");
    ("commissions", "commissions [list|get] [id] [--affiliate-id <id>]");
    ("links", "links [create] [--affiliate-id <id>] [--token <token>] [--url <url>]") ].

Section Script.

Context (rt : runtime) (w : world) (args : gmap string value).

Definition API_KEY : value := getenv (env w) "REWARDFUL_API_KEY".

Definition api (method path : string) (body : option json) : M output :=
  if truthy (get args "dry-run") then
    ret (DryRun {| d_method := method; d_url := BASE_URL ++ path;
                   d_headers := [ ("Authorization", "***");
                                  ("Content-Type", "application/json") ];
                   d_body := body |})
  else
    await res := fetch w {| r_method := method; r_url := BASE_URL ++ path;
                            r_headers := [ ("Authorization", "Bearer " ++ to_string API_KEY);
                                           ("Content-Type", "application/json") ];
                            r_body := option_map JsonBody body |} in
    ret (read_body res).

Definition rest (i : nat) : value := element (rest_of args) i.

(** [GET] with the one parameter that the flag gives *)
Definition filtered (path name flag : string) : M output :=
  let params := set_flags args [] [(name, flag)] in
  api "GET" (path ++ form_urlencode rt params) None.

Definition main (cmd sub : value) : M output :=
  switch cmd
    [ ("affiliates",
       switch sub
         [ ("list", filtered "/affiliates?" "page" "page");
           ("get", api "GET" ("/affiliates/" ++ to_string (rest 0)) None);
           ("search", filtered "/affiliates?" "email" "email");
           ("update",
            let body := put_flags args []
                          [ ("first_name", "first-name"); ("last_name", "last-name");
                            ("paypal_email", "paypal-email") ] in
            api "PUT" ("/affiliates/" ++ to_string (get args "id")) (Some (JObj body))) ]
         (ret (Error "Unknown affiliates subcommand. Use: list, get, search, update")));
      ("referrals",
       switch sub
         [ ("list", filtered "/referrals?" "affiliate_id" "affiliate-id");
           ("get", filtered "/referrals?" "stripe_customer_id" "stripe-customer-id") ]
         (ret (Error "Unknown referrals subcommand. Use: list, get")));
      ("commissions",
       switch sub
         [ ("list", filtered "/commissions?" "affiliate_id" "affiliate-id");
           ("get", api "GET" ("/commissions/" ++ to_string (rest 0)) None) ]
         (ret (Error "Unknown commissions subcommand. Use: list, get")));
      ("links",
       switch sub
         [ ("create",
            let body := put_flags args [] [("token", "token"); ("url", "url")] in
            api "POST" ("/affiliates/" ++ to_string (get args "affiliate-id") ++ "/links")
                (Some (JObj body))) ]
         (ret (Error "Unknown links subcommand. Use: create"))) ]
    (ret (ErrorUsage "Unknown command" usage)).

End Script.

Definition tool : Host.tool := {| Host.gate := gate; Host.main := main |}.

End Rewardful.

(** ** paddle *)

Module Paddle.

Definition gate (e : gmap string string) : option string :=
  if negb (truthy (getenv e "PADDLE_API_KEY"))
  then Some "PADDLE_API_KEY environment variable required"
  else None.

Definition usage : list (string * string) :=
  [ ("products", "products [list | get --id <id> | create --name <n> --tax-category <cat> | update --id <id>]");
    ("prices", "prices [list | get --id <id> | create --product-id <id> --amount <amt> [--currency USD] [--interval month --frequency 1] | update --id <id>]");
    ("customers", "customers [list | get --id <id> | create --email <email> [--name <name>] | update --id <id>]");
    ("subscriptions", "subscriptions [list | get --id <id> | update --id <id> | cancel --id <id> [--effective-from next_billing_period] | pause --id <id> | resume --id <id>]");
    ("transactions", "transactions [list | get --id <id> | create --items <json>]");
    ("discounts", "discounts [list | get --id <id> | create --amount <amt> --type <type> [--code <code>]]");
    ("adjustments", "adjustments [list | create --transaction-id <id> --action <action> --reason <reason> --items <json>]");
    ("events", "events [list | types]");
    ("notifications", "notifications [list | get --id <id> | replay --id <id>]");
    ("env", "Set PADDLE_SANDBOX=true for sandbox environment") ].

Section Script.

Context (rt : runtime) (w : world) (args : gmap string value).

Definition API_KEY : value := getenv (env w) "PADDLE_API_KEY".

Definition BASE_URL : string :=
  if value_is (getenv (env w) "PADDLE_SANDBOX") "true"
  then "https://sandbox-api.paddle.com"
  else "https://api.paddle.com".

Definition api (method path : string) (body : option json) : M output :=
  if truthy (get args "dry-run") then
    ret (DryRun {| d_method := method; d_url := BASE_URL ++ path;
                   d_headers := [ ("Authorization", "***");
                                  ("Content-Type", "application/json");
                                  ("Accept", "application/json") ];
                   d_body := body |})
  else
    await res := fetch w {| r_method := method; r_url := BASE_URL ++ path;
                            r_headers := [ ("Authorization", "Bearer " ++ to_string API_KEY);
                                           ("Content-Type", "application/json");
                                           ("Accept", "application/json") ];
                            r_body := option_map JsonBody body |} in
    ret (read_body res).

Definition buildQuery : string :=
  query_suffix
    (form_urlencode rt
       (set_flags args []
          [ ("status", "status"); ("after", "after"); ("per_page", "per-page");
            ("order_by", "order-by") ])).

Definition by_id (method : string) (path : string -> string) (body : option json)
  : M output :=
  let id := get args "id" in
  required id "--id required" (api method (path (to_string id)) body).

Definition main (cmd sub : value) : M output :=
  switch cmd
    [ ("products",
       switch sub
         [ ("list", api "GET" ("/products" ++ buildQuery) None);
           ("get", by_id "GET" (fun id => "/products/" ++ id) None);
           ("create",
            let name := get args "name" in
            let taxCategory := get args "tax-category" in
            required name "--name required"
              (required taxCategory
                 "--tax-category required (e.g. standard, digital-goods, saas)"
                 (let body := [ ("name", json_of name);
                                ("tax_category", json_of taxCategory) ] in
                  api "POST" "/products"
                      (Some (JObj (put_flags args body
                                     [ ("description", "description");
                                       ("image_url", "image-url") ]))))));
           ("update",
            by_id "PATCH" (fun id => "/products/" ++ id)
                  (Some (JObj (put_flags args []
                                 [ ("name", "name"); ("description", "description");
                                   ("status", "status");
                                   ("tax_category", "tax-category") ])))) ]
         (ret (Error "Unknown products subcommand. Use: list, get, create, update")));
      ("prices",
       switch sub
         [ ("list", api "GET" ("/prices" ++ buildQuery) None);
           ("get", by_id "GET" (fun id => "/prices/" ++ id) None);
           ("create",
            let productId := get args "product-id" in
            let amount := get args "amount" in
            let currency := or_else (get args "currency") (VStr "USD") in
            required productId "--product-id required"
              (required amount "--amount required (in lowest denomination, e.g. cents)"
                 (let body :=
                    [ ("product_id", json_of productId);
                      ("description", json_of (or_else (get args "description")
                                                       (VStr "Price")));
                      ("unit_price", JObj [ ("amount", json_of amount);
                                            ("currency_code", json_of currency) ]) ] in
                  let body :=
                    if truthy (get args "interval") && truthy (get args "frequency")
                    then assoc_set body "billing_cycle"
                           (JObj [ ("interval", json_of (get args "interval"));
                                   ("frequency", JNumberOf "Number" (get args "frequency")) ])
                    else body in
                  api "POST" "/prices" (Some (JObj body)))));
           ("update",
            by_id "PATCH" (fun id => "/prices/" ++ id)
                  (let body := put_flags args [] [("description", "description")] in
                   let body :=
                     if truthy (get args "amount") && truthy (get args "currency")
                     then assoc_set body "unit_price"
                            (JObj [ ("amount", json_of (get args "amount"));
                                    ("currency_code", json_of (get args "currency")) ])
                     else body in
                   Some (JObj (put_flags args body [("status", "status")])))) ]
         (ret (Error "Unknown prices subcommand. Use: list, get, create, update")));
      ("customers",
       switch sub
         [ ("list", api "GET" ("/customers" ++ buildQuery) None);
           ("get", by_id "GET" (fun id => "/customers/" ++ id) None);
           ("create",
            let email := get args "email" in
            required email "--email required"
              (api "POST" "/customers"
                   (Some (JObj (put_flags args [("email", json_of email)]
                                  [("name", "name")])))));
           ("update",
            by_id "PATCH" (fun id => "/customers/" ++ id)
                  (Some (JObj (put_flags args []
                                 [ ("name", "name"); ("email", "email");
                                   ("status", "status") ])))) ]
         (ret (Error "Unknown customers subcommand. Use: list, get, create, update")));
      ("subscriptions",
       switch sub
         [ ("list", api "GET" ("/subscriptions" ++ buildQuery) None);
           ("get", by_id "GET" (fun id => "/subscriptions/" ++ id) None);
           ("update",
            let id := get args "id" in
            required id "--id required"
              (let body := put_flags args []
                             [("proration_billing_mode", "proration-billing-mode")] in
               await body := lift (put_parsed rt args "scheduled_change" "scheduled-change"
                                              body) in
               api "PATCH" ("/subscriptions/" ++ to_string id) (Some (JObj body))));
           ("cancel",
            by_id "POST" (fun id => "/subscriptions/" ++ id ++ "/cancel")
                  (Some (JObj [("effective_from",
                                json_of (or_else (get args "effective-from")
                                                 (VStr "next_billing_period")))])));
           ("pause",
            by_id "POST" (fun id => "/subscriptions/" ++ id ++ "/pause")
                  (Some (JObj (put_flags args [] [("resume_at", "resume-at")]))));
           ("resume",
            by_id "POST" (fun id => "/subscriptions/" ++ id ++ "/resume")
                  (Some (JObj [("effective_from",
                                json_of (or_else (get args "effective-from")
                                                 (VStr "immediately")))]))) ]
         (ret (Error "Unknown subscriptions subcommand. Use: list, get, update, cancel, pause, resume")));
      ("transactions",
       switch sub
         [ ("list", api "GET" ("/transactions" ++ buildQuery) None);
           ("get", by_id "GET" (fun id => "/transactions/" ++ id) None);
           ("create",
            let items := get args "items" in
            required items "--items required (JSON array of {price_id, quantity})"
              (await parsed := lift (JSON_parse rt (to_string items)) in
               let body := [("items", parsed)] in
               api "POST" "/transactions"
                   (Some (JObj (put_flags args body [("customer_id", "customer-id")]))))) ]
         (ret (Error "Unknown transactions subcommand. Use: list, get, create")));
      ("discounts",
       switch sub
         [ ("list", api "GET" ("/discounts" ++ buildQuery) None);
           ("get", by_id "GET" (fun id => "/discounts/" ++ id) None);
           ("create",
            let amount := get args "amount" in
            let type := get args "type" in
            required amount "--amount required"
              (required type "--type required (flat, flat_per_seat, percentage)"
                 (let body := [ ("amount", json_of amount);
                                ("type", json_of type);
                                ("description", json_of (or_else (get args "description")
                                                                 (VStr "Discount"))) ] in
                  let body := put_flags args body [("code", "code")] in
                  let body := put_if (get args "max-uses") "maximum_recurring_intervals"
                                     (JNumberOf "Number" (get args "max-uses")) body in
                  api "POST" "/discounts"
                      (Some (JObj (put_flags args body
                                     [("currency_code", "currency-code")])))))) ]
         (ret (Error "Unknown discounts subcommand. Use: list, get, create")));
      ("adjustments",
       switch sub
         [ ("list", api "GET" ("/adjustments" ++ buildQuery) None);
           ("create",
            let transactionId := get args "transaction-id" in
            let action := get args "action" in
            let items := get args "items" in
            let reason := get args "reason" in
            required transactionId "--transaction-id required"
              (required action "--action required (refund, credit, chargeback)"
                 (required reason "--reason required"
                    (required items
                       "--items required (JSON array of {item_id, type, amount})"
                       (await parsed := lift (JSON_parse rt (to_string items)) in
                        api "POST" "/adjustments"
                            (Some (JObj [ ("transaction_id", json_of transactionId);
                                          ("action", json_of action);
                                          ("reason", json_of reason);
                                          ("items", parsed) ]))))))) ]
         (ret (Error "Unknown adjustments subcommand. Use: list, create")));
      ("events",
       switch sub
         [ ("list", api "GET" ("/events" ++ buildQuery) None);
           ("types", api "GET" "/event-types" None) ]
         (ret (Error "Unknown events subcommand. Use: list, types")));
      ("notifications",
       switch sub
         [ ("list", api "GET" ("/notifications" ++ buildQuery) None);
           ("get", by_id "GET" (fun id => "/notifications/" ++ id) None);
           ("replay", by_id "POST" (fun id => "/notifications/" ++ id ++ "/replay") None) ]
         (ret (Error "Unknown notifications subcommand. Use: list, get, replay"))) ]
    (ret (ErrorUsage "Unknown command" usage)).

End Script.

Definition tool : Host.tool := {| Host.gate := gate; Host.main := main |}.

End Paddle.

(** ** google-search-console *)

Module SearchConsole.

Definition BASE_URL : string := "https://searchconsole.googleapis.com".

Definition gate (e : gmap string string) : option string :=
  if negb (truthy (getenv e "GSC_ACCESS_TOKEN"))
  then Some "GSC_ACCESS_TOKEN environment variable required"
  else None.

Definition usage : list (string * string) :=
  [ ("search query", "search query --site-url <url> [--start-date <date>] [--end-date <date>] [--limit <n>]");
    ("search pages", "search pages --site-url <url> [--start-date <date>] [--end-date <date>] [--limit <n>]");
    ("search countries", "search countries --site-url <url> [--start-date <date>] [--end-date <date>] [--limit <n>]");
    ("inspect url", "inspect url --site-url <url> --url <page-url>");
    ("sitemaps list", "sitemaps list --site-url <url>");
    ("sitemaps submit", "sitemaps submit --site-url <url> --sitemap-url <sitemap-url>") ].

(** [!result.body && !result.error] on what [api] returned: the members
    of a descriptor, of a parsed answer, or of [{ status, body }]. *)
Definition member (result : output) (name : string) : completion bool :=
  match result with
  | DryRun d =>
      Normal (if String.eqb name "body"
              then match d_body d with Some j => json_truthy j | None => false end
              else false)
  | Json j =>
      match property j name with
      | Normal (Some v) => Normal (json_truthy v)
      | Normal None => Normal false
      | Throw e => Throw e
      end
  | StatusBody _ text => Normal (String.eqb name "body" && truthy (VStr text))
  | Error message | ErrorUsage message _ | ErrorStatus message _ =>
      Normal (String.eqb name "error" && truthy (VStr message))
  | Rows _ => Normal false
  end.

Section Script.

Context (rt : runtime) (w : world) (args : gmap string value).

Definition ACCESS_TOKEN : value := getenv (env w) "GSC_ACCESS_TOKEN".

Definition api (method path : string) (body : option json) : M output :=
  if truthy (get args "dry-run") then
    ret (DryRun {| d_method := method; d_url := BASE_URL ++ path;
                   d_headers := [ ("Authorization", "***");
                                  ("Content-Type", "application/json") ];
                   d_body := body |})
  else
    await res := fetch w {| r_method := method; r_url := BASE_URL ++ path;
                            r_headers := [ ("Authorization",
                                            "Bearer " ++ to_string ACCESS_TOKEN);
                                           ("Content-Type", "application/json") ];
                            r_body := option_map JsonBody body |} in
    ret (read_body res).

(** [getDefaultDates()]: the days three days and thirty-one days before
    now, in the calendar of the runtime; the clock is read as its ISO
    text. *)
Definition getDefaultDates : string * string :=
  (text_op rt "start.toISOString().split('T')[0]" (now_iso w),
   text_op rt "end.toISOString().split('T')[0]" (now_iso w)).

Definition siteUrl : value := get args "site-url".

Definition analytics (encodedSiteUrl : string) (body : list (string * json))
    (dimensions : list string) : M output :=
  let body := assoc_set body "dimensions" (JArr (map JStr dimensions)) in
  api "POST" ("/webmasters/v3/sites/" ++ encodedSiteUrl ++ "/searchAnalytics/query")
      (Some (JObj body)).

Definition main (cmd sub : value) : M output :=
  switch cmd
    [ ("search",
       required siteUrl "--site-url is required for search commands"
         (let encodedSiteUrl := encodeURIComponent rt (to_string siteUrl) in
          let defaults := getDefaultDates in
          let body :=
            [ ("startDate", json_of (or_else (get args "start-date") (VStr (fst defaults))));
              ("endDate", json_of (or_else (get args "end-date") (VStr (snd defaults))));
              ("rowLimit", JNumberOf "parseInt(s, 10)"
                                     (or_else (get args "limit") (VStr "100"))) ] in
          switch sub
            [ ("query", analytics encodedSiteUrl body ["query"]);
              ("pages", analytics encodedSiteUrl body ["page"]);
              ("countries", analytics encodedSiteUrl body ["country"; "query"]) ]
            (ret (Error "Unknown search subcommand. Use: query, pages, countries"))));
      ("inspect",
       required siteUrl "--site-url is required for inspect commands"
         (switch sub
            [ ("url",
               api "POST" "/v1/urlInspection/index:inspect"
                   (Some (JObj [ ("inspectionUrl", json_of (get args "url"));
                                 ("siteUrl", json_of siteUrl) ]))) ]
            (ret (Error "Unknown inspect subcommand. Use: url"))));
      ("sitemaps",
       required siteUrl "--site-url is required for sitemaps commands"
         (let encodedSiteUrl := encodeURIComponent rt (to_string siteUrl) in
          switch sub
            [ ("list",
               api "GET" ("/webmasters/v3/sites/" ++ encodedSiteUrl ++ "/sitemaps") None);
              ("submit",
               let sitemapUrl := encodeURIComponent rt (to_string (get args "sitemap-url")) in
               await result :=
                 api "PUT" ("/webmasters/v3/sites/" ++ encodedSiteUrl ++ "/sitemaps/"
                            ++ sitemapUrl) None in
               await body := lift (member result "body") in
               if body then ret result
               else
                 await error := lift (member result "error") in
                 if error then ret result
                 else ret (Json (JObj [ ("success", JBool true);
                                        ("message",
                                         JStr "Sitemap submitted successfully") ]))) ]
            (ret (Error "Unknown sitemaps subcommand. Use: list, submit")))) ]
    (ret (ErrorUsage "Unknown command" usage)).

End Script.

Definition tool : Host.tool := {| Host.gate := gate; Host.main := main |}.

End SearchConsole.

(** ** brevo *)

Module Brevo.

Definition BASE_URL : string := "https://api.brevo.com/v3".

Definition gate (e : gmap string string) : option string :=
  if negb (truthy (getenv e "BREVO_API_KEY"))
  then Some "BREVO_API_KEY environment variable required"
  else None.

Definition usage : list (string * string) :=
  [ ("account", "account [get]");
    ("contacts", "contacts [list | get --email <email> | create --email <email> | update --email <email> | delete --email <email> | import --emails <e1,e2>]");
    ("lists", "lists [list | get --id <id> | create --name <name> | delete --id <id> | contacts --id <id> | add-contacts --id <id> --emails <e1,e2> | remove-contacts --id <id> --emails <e1,e2>]");
    ("email", "email [send --from <from> --to <to> --subject <subj>]");
    ("campaigns", "campaigns [list | get --id <id> | create --name <name> | send-now --id <id> | send-test --id <id> --emails <e1,e2>]");
    ("sms", "sms [send --from <name> --to <phone> --content <msg> | campaigns]");
    ("senders", "senders [list | create --name <name> --email <email>]");
    ("options", "--limit <n> --offset <n> --status <status>") ].

Section Script.

Context (rt : runtime) (w : world) (args : gmap string value).

Definition API_KEY : value := getenv (env w) "BREVO_API_KEY".

Definition api (method path : string) (body : option json) : M output :=
  if truthy (get args "dry-run") then
    ret (DryRun {| d_method := method; d_url := BASE_URL ++ path;
                   d_headers := [ ("api-key", "***");
                                  ("Content-Type", "application/json");
                                  ("Accept", "application/json") ];
                   d_body := body |})
  else
    await res := fetch w {| r_method := method; r_url := BASE_URL ++ path;
                            r_headers := [ ("api-key", to_string API_KEY);
                                           ("Content-Type", "application/json");
                                           ("Accept", "application/json") ];
                            r_body := option_map JsonBody body |} in
    ret (read_body res).

(** [String(limit)] with [limit = args.limit ? Number(args.limit) : 50] *)
Definition limit : string :=
  if truthy (get args "limit") then String_of_Number rt (get args "limit") else "50".

Definition offset : string :=
  if truthy (get args "offset") then String_of_Number rt (get args "offset") else "0".

Definition listing (path : string) (entries : list (string * string)) : M output :=
  let params := params_set [] "limit" limit in
  let params := params_set params "offset" offset in
  let params := set_flags args params entries in
  api "GET" (path ++ form_urlencode rt params) None.

Definition by_id (method : string) (path : string -> string) (body : option json)
  : M output :=
  let id := get args "id" in
  required id "--id required" (api method (path (to_string id)) body).

(** [const id = args.id || args.email], sent encoded *)
Definition by_contact (method : string) (body : completion (option json)) : M output :=
  let id := or_else (get args "id") (get args "email") in
  required id "--id or --email required"
    (await body := lift body in
     api method ("/contacts/" ++ encodeURIComponent rt (to_string id)) body).

(** [body.attributes], set when a first or a last name is given *)
Definition attributes (body : list (string * json)) : list (string * json) :=
  if truthy (get args "first-name") || truthy (get args "last-name")
  then assoc_set body "attributes"
         (JObj (put_flags args [] [("FIRSTNAME", "first-name"); ("LASTNAME", "last-name")]))
  else body.

Definition number_of (piece : string) : json := JNumberOf "Number" (VStr piece).

(** [if (args[flag]) body[name] = args[flag].split(',').map(Number)] *)
Definition ids (name flag : string) (body : list (string * json))
  : completion (list (string * json)) :=
  put_split args name flag number_of body.

Definition address (e : string) : json := JObj [("email", JStr (trim rt e))].

(** [args.emails?.split(',')], required *)
Definition with_emails (rest : list string -> M output) : M output :=
  await emails := lift (optional_split "emails" (get args "emails")) in
  match emails with
  | None => ret (Error "--emails required (comma-separated)")
  | Some emails => rest emails
  end.

(** [{ email }] with [name] when [--sender-name] is given *)
Definition sender (email : value) : json :=
  JObj (put_flags args [("email", json_of email)] [("name", "sender-name")]).

Definition main (cmd sub : value) : M output :=
  switch cmd
    [ ("account",
       switch sub
         [ ("get", api "GET" "/account" None) ]
         (ret (Error "Unknown account subcommand. Use: get")));
      ("contacts",
       switch sub
         [ ("list", listing "/contacts?" [("sort", "sort")]);
           ("get", by_contact "GET" (Normal None));
           ("create",
            let email := get args "email" in
            required email "--email required"
              (let body := attributes [("email", json_of email)] in
               await body := lift (ids "listIds" "list-ids" body) in
               api "POST" "/contacts" (Some (JObj body))));
           ("update",
            by_contact "PUT"
              match ids "listIds" "list-ids" (attributes []) with
              | Normal body =>
                  match ids "unlinkListIds" "unlink-list-ids" body with
                  | Normal body => Normal (Some (JObj body))
                  | Throw e => Throw e
                  end
              | Throw e => Throw e
              end);
           ("delete", by_contact "DELETE" (Normal None));
           ("import",
            with_emails (fun emails =>
              let body := [("jsonBody", JArr (map address emails))] in
              await body := lift (ids "listIds" "list-ids" body) in
              api "POST" "/contacts/import" (Some (JObj body)))) ]
         (ret (Error "Unknown contacts subcommand. Use: list, get, create, update, delete, import")));
      ("lists",
       switch sub
         [ ("list", listing "/contacts/lists?" [("sort", "sort")]);
           ("get", by_id "GET" (fun id => "/contacts/lists/" ++ id) None);
           ("create",
            let name := get args "name" in
            required name "--name required"
              (api "POST" "/contacts/lists"
                   (Some (JObj [ ("name", json_of name);
                                 ("folderId", number_or "Number" (get args "folder") 1) ]))));
           ("update",
            by_id "PUT" (fun id => "/contacts/lists/" ++ id)
                  (let body := put_flags args [] [("name", "name")] in
                   Some (JObj (put_if (get args "folder") "folderId"
                                      (JNumberOf "Number" (get args "folder")) body))));
           ("delete", by_id "DELETE" (fun id => "/contacts/lists/" ++ id) None);
           ("contacts",
            let id := get args "id" in
            required id "--id required"
              (listing ("/contacts/lists/" ++ to_string id ++ "/contacts?") []));
           ("add-contacts",
            let id := get args "id" in
            required id "--id required"
              (with_emails (fun emails =>
                 api "POST" ("/contacts/lists/" ++ to_string id ++ "/contacts/add")
                     (Some (JObj [("emails", JArr (map JStr emails))])))));
           ("remove-contacts",
            let id := get args "id" in
            required id "--id required"
              (with_emails (fun emails =>
                 api "POST" ("/contacts/lists/" ++ to_string id ++ "/contacts/remove")
                     (Some (JObj [("emails", JArr (map JStr emails))]))))) ]
         (ret (Error "Unknown lists subcommand. Use: list, get, create, update, delete, contacts, add-contacts, remove-contacts")));
      ("email",
       switch sub
         [ ("send",
            let senderEmail := get args "from" in
            let to := get args "to" in
            let subject := get args "subject" in
            required senderEmail "--from required"
              (required to "--to required"
                 (required subject "--subject required"
                    (await recipients :=
                       lift match to with
                            | VStr s => Normal (map address (split "," s))
                            | _ => Throw "to.split is not a function"
                            end in
                     let body := [ ("sender", sender senderEmail);
                                   ("to", JArr recipients);
                                   ("subject", json_of subject) ] in
                     let body := put_flags args body
                                   [("htmlContent", "html"); ("textContent", "text")] in
                     let body :=
                       if negb (truthy (get args "html")) && negb (truthy (get args "text"))
                       then assoc_set body "textContent" (JStr "") else body in
                     let body :=
                       put_if (get args "reply-to") "replyTo"
                              (JObj [("email", json_of (get args "reply-to"))]) body in
                     await body := lift (put_split args "tags" "tags" JStr body) in
                     api "POST" "/smtp/email" (Some (JObj body)))))) ]
         (ret (Error "Unknown email subcommand. Use: send")));
      ("campaigns",
       switch sub
         [ ("list",
            listing "/emailCampaigns?"
                    [("type", "type"); ("status", "status"); ("sort", "sort")]);
           ("get", by_id "GET" (fun id => "/emailCampaigns/" ++ id) None);
           ("create",
            let name := get args "name" in
            required name "--name required"
              (let body := [ ("name", json_of name);
                             ("sender", sender (or_else (get args "from") (VStr "")));
                             ("subject", json_of (or_else (get args "subject")
                                                          (VStr ""))) ] in
               let body := put_flags args body [("htmlContent", "html")] in
               await recipients := lift (ids "listIds" "list-ids" []) in
               let body := put_if (get args "list-ids") "recipients" (JObj recipients) body in
               api "POST" "/emailCampaigns" (Some (JObj body))));
           ("update",
            by_id "PUT" (fun id => "/emailCampaigns/" ++ id)
                  (Some (JObj (put_flags args []
                                 [ ("name", "name"); ("subject", "subject");
                                   ("htmlContent", "html") ]))));
           ("delete", by_id "DELETE" (fun id => "/emailCampaigns/" ++ id) None);
           ("send-now",
            by_id "POST" (fun id => "/emailCampaigns/" ++ id ++ "/sendNow") None);
           ("send-test",
            let id := get args "id" in
            required id "--id required"
              (with_emails (fun emails =>
                 api "POST" ("/emailCampaigns/" ++ to_string id ++ "/sendTest")
                     (Some (JObj [("emailTo", JArr (map JStr emails))]))))) ]
         (ret (Error "Unknown campaigns subcommand. Use: list, get, create, update, delete, send-now, send-test")));
      ("sms",
       switch sub
         [ ("send",
            let sender := get args "from" in
            let recipient := get args "to" in
            let content := get args "content" in
            required sender "--from required (sender name)"
              (required recipient "--to required (phone number)"
                 (required content "--content required"
                    (api "POST" "/transactionalSMS/sms"
                         (Some (JObj [ ("sender", json_of sender);
                                       ("recipient", json_of recipient);
                                       ("content", json_of content);
                                       ("type", json_of (or_else (get args "type")
                                                                 (VStr "transactional"))) ]))))));
           ("campaigns", listing "/smsCampaigns?" [("status", "status")]) ]
         (ret (Error "Unknown sms subcommand. Use: send, campaigns")));
      ("senders",
       switch sub
         [ ("list", api "GET" "/senders" None);
           ("create",
            let name := get args "name" in
            let email := get args "email" in
            required name "--name required"
              (required email "--email required"
                 (api "POST" "/senders"
                      (Some (JObj [("name", json_of name); ("email", json_of email)]))))) ]
         (ret (Error "Unknown senders subcommand. Use: list, create"))) ]
    (ret (ErrorUsage "Unknown command" usage)).

End Script.

Definition tool : Host.tool := {| Host.gate := gate; Host.main := main |}.

End Brevo.

(** ** dub *)

Module Dub.

Definition BASE_URL : string := "https://api.dub.co".

Definition gate (e : gmap string string) : option string :=
  if negb (truthy (getenv e "DUB_API_KEY"))
  then Some "DUB_API_KEY environment variable required"
  else None.

Definition usage : list (string * string) :=
  [ ("links", "links [create|list|get|update|delete|bulk-create] [--url <url>] [--domain <domain>] [--key <key>] [--tags <tags>] [--id <id>] [--page <page>] [--links <json>]");
    ("analytics", "analytics [get|country|device] [--domain <domain>] [--key <key>] [--interval <interval>]") ].

Section Script.

Context (rt : runtime) (w : world) (args : gmap string value).

Definition API_KEY : value := getenv (env w) "DUB_API_KEY".

Definition api (method path : string) (body : option json) : M output :=
  if truthy (get args "dry-run") then
    ret (DryRun {| d_method := method; d_url := BASE_URL ++ path;
                   d_headers := [ ("Authorization", "***");
                                  ("Content-Type", "application/json") ];
                   d_body := body |})
  else
    await res := fetch w {| r_method := method; r_url := BASE_URL ++ path;
                            r_headers := [ ("Authorization", "Bearer " ++ to_string API_KEY);
                                           ("Content-Type", "application/json") ];
                            r_body := option_map JsonBody body |} in
    ret (read_body res).

Definition filtered (path : string) (entries : list (string * string)) : M output :=
  let params := set_flags args [] entries in
  api "GET" (path ++ form_urlencode rt params) None.

Definition main (cmd sub : value) : M output :=
  switch cmd
    [ ("links",
       switch sub
         [ ("create",
            let body := put_flags args [] [("url", "url"); ("domain", "domain");
                                           ("key", "key")] in
            await body := lift (put_split args "tags" "tags" JStr body) in
            api "POST" "/links" (Some (JObj body)));
           ("list", filtered "/links?" [("domain", "domain"); ("page", "page")]);
           ("get", filtered "/links?" [("domain", "domain"); ("key", "key")]);
           ("update",
            let body := put_flags args [] [("url", "url")] in
            await body := lift (put_split args "tags" "tags" JStr body) in
            api "PATCH" ("/links/" ++ to_string (get args "id")) (Some (JObj body)));
           ("delete", api "DELETE" ("/links/" ++ to_string (get args "id")) None);
           ("bulk-create",
            await links := lift (JSON_parse rt (to_string (or_else (get args "links")
                                                                   (VStr "[]")))) in
            api "POST" "/links/bulk" (given links)) ]
         (ret (Error "Unknown links subcommand. Use: create, list, get, update, delete, bulk-create")));
      ("analytics",
       switch sub
         [ ("get",
            filtered "/analytics?"
                     [("domain", "domain"); ("key", "key"); ("interval", "interval")]);
           ("country", filtered "/analytics/country?" [("domain", "domain"); ("key", "key")]);
           ("device", filtered "/analytics/device?" [("domain", "domain"); ("key", "key")]) ]
         (ret (Error "Unknown analytics subcommand. Use: get, country, device"))) ]
    (ret (ErrorUsage "Unknown command" usage)).

End Script.

Definition tool : Host.tool := {| Host.gate := gate; Host.main := main |}.

End Dub.

(** ** buffer *)

Module Buffer.

Definition BASE_URL : string := "https://api.bufferapp.com/1".

Definition gate (e : gmap string string) : option string :=
  if negb (truthy (getenv e "BUFFER_API_KEY"))
  then Some "BUFFER_API_KEY environment variable required"
  else None.

Definition usage : list (string * string) :=
  [ ("user", "user [info | deauthorize]");
    ("profiles", "profiles [list | get --id <id> | schedules --id <id>]");
    ("updates", "updates [get --id <id> | pending --id <profile-id> | sent --id <profile-id> | create --profile-ids <ids> --text <text> [--scheduled-at <time>] [--now] | update --id <id> --text <text> | share --id <id> | destroy --id <id> | reorder --id <profile-id> --order <id1,id2> | shuffle --id <profile-id>]");
    ("info", "info") ].

Section Script.

Context (rt : runtime) (w : world) (args : gmap string value).

Definition API_KEY : value := getenv (env w) "BUFFER_API_KEY".

(** [new URLSearchParams(body).toString()] for a body object *)
Definition form_of (fields : list (string * json)) : string :=
  form_urlencode rt (map (fun p => (fst p, json_to_string (snd p))) fields).

Definition api (method path : string) (body : option (list (string * json)))
  : M output :=
  let headers := [ ("Authorization", "Bearer " ++ to_string API_KEY);
                   ("Accept", "application/json") ] in
  let headers :=
    match body with
    | Some _ => if negb (String.eqb method "GET")
                then assoc_set headers "Content-Type" "application/x-www-form-urlencoded"
                else headers
    | None => headers
    end in
  if truthy (get args "dry-run") then
    ret (DryRun {| d_method := method; d_url := BASE_URL ++ path;
                   d_headers := assoc_set headers "Authorization" "***";
                   d_body := option_map JObj body |})
  else
    await res := fetch w {| r_method := method; r_url := BASE_URL ++ path;
                            r_headers := headers;
                            r_body := option_map (fun fields => TextBody (form_of fields))
                                                 body |} in
    ret (read_body res).

Definition apiJson (method path : string) (body : option json) : M output :=
  if truthy (get args "dry-run") then
    ret (DryRun {| d_method := method; d_url := BASE_URL ++ path;
                   d_headers := [ ("Authorization", "***");
                                  ("Content-Type", "application/json");
                                  ("Accept", "application/json") ];
                   d_body := body |})
  else
    await res := fetch w {| r_method := method; r_url := BASE_URL ++ path;
                            r_headers := [ ("Authorization", "Bearer " ++ to_string API_KEY);
                                           ("Content-Type", "application/json");
                                           ("Accept", "application/json") ];
                            r_body := option_map JsonBody body |} in
    ret (read_body res).

(** The form posts that [main] sends itself *)
Definition post_form (url : string) (formBody : list (string * string)) : M output :=
  if truthy (get args "dry-run") then
    ret (DryRun {| d_method := "POST"; d_url := url;
                   d_headers := [ ("Authorization", "***");
                                  ("Content-Type", "application/x-www-form-urlencoded");
                                  ("Accept", "application/json") ];
                   d_body := Some (JStr (form_urlencode rt formBody)) |})
  else
    await res := fetch w {| r_method := "POST"; r_url := url;
                            r_headers := [ ("Authorization", "Bearer " ++ to_string API_KEY);
                                           ("Content-Type",
                                            "application/x-www-form-urlencoded");
                                           ("Accept", "application/json") ];
                            r_body := Some (TextBody (form_urlencode rt formBody)) |} in
    ret (read_body res).

Definition by_id (message method : string) (path : string -> string) : M output :=
  let id := get args "id" in
  required id message (api method (path (to_string id)) None).

Definition updates_of (leaf : string) : M output :=
  let id := get args "id" in
  required id "--id required (profile ID)"
    (let params := set_flags args [] [("page", "page"); ("count", "count");
                                      ("since", "since")] in
     let qs := query_suffix (form_urlencode rt params) in
     api "GET" ("/profiles/" ++ to_string id ++ leaf ++ qs) None).

Definition main (cmd sub : value) : M output :=
  switch cmd
    [ ("user",
       switch sub
         [ ("info", api "GET" "/user.json" None);
           ("deauthorize", api "POST" "/user/deauthorize.json" None) ]
         (ret (Error "Unknown user subcommand. Use: info, deauthorize")));
      ("profiles",
       switch sub
         [ ("list", api "GET" "/profiles.json" None);
           ("get", by_id "--id required" "GET" (fun id => "/profiles/" ++ id ++ ".json"));
           ("schedules",
            by_id "--id required (profile ID)" "GET"
                  (fun id => "/profiles/" ++ id ++ "/schedules.json")) ]
         (ret (Error "Unknown profiles subcommand. Use: list, get, schedules")));
      ("updates",
       switch sub
         [ ("get",
            by_id "--id required (update ID)" "GET" (fun id => "/updates/" ++ id ++ ".json"));
           ("pending", updates_of "/updates/pending.json");
           ("sent", updates_of "/updates/sent.json");
           ("create",
            let profileIds := get args "profile-ids" in
            let text := get args "text" in
            required profileIds "--profile-ids required (comma-separated)"
              (required text "--text required"
                 (await ids := lift (pieces "profileIds" profileIds) in
                  let formBody := [("text", to_string text)] in
                  let formBody :=
                    (formBody ++ map (fun id => ("profile_ids[]", trim rt id)) ids)%list in
                  let formBody :=
                    append_if (get args "scheduled-at") "scheduled_at"
                              (to_string (get args "scheduled-at")) formBody in
                  let formBody := append_if (get args "now") "now" "true" formBody in
                  let formBody := append_if (get args "top") "top" "true" formBody in
                  let formBody := append_if (get args "shorten") "shorten" "true" formBody in
                  post_form (BASE_URL ++ "/updates/create.json") formBody)));
           ("update",
            let id := get args "id" in
            let text := get args "text" in
            required id "--id required (update ID)"
              (required text "--text required"
                 (let body := put_flags args [("text", json_of text)]
                                [("scheduled_at", "scheduled-at")] in
                  api "POST" ("/updates/" ++ to_string id ++ "/update.json") (Some body))));
           ("share",
            by_id "--id required (update ID)" "POST"
                  (fun id => "/updates/" ++ id ++ "/share.json"));
           ("destroy",
            by_id "--id required (update ID)" "POST"
                  (fun id => "/updates/" ++ id ++ "/destroy.json"));
           ("reorder",
            let id := get args "id" in
            let order := get args "order" in
            required id "--id required (profile ID)"
              (required order "--order required (comma-separated update IDs)"
                 (await uids := lift (pieces "order" order) in
                  let formBody := map (fun uid => ("order[]", trim rt uid)) uids in
                  post_form (BASE_URL ++ "/profiles/" ++ to_string id
                             ++ "/updates/reorder.json") formBody)));
           ("shuffle",
            by_id "--id required (profile ID)" "POST"
                  (fun id => "/profiles/" ++ id ++ "/updates/shuffle.json")) ]
         (ret (Error "Unknown updates subcommand. Use: get, pending, sent, create, update, share, destroy, reorder, shuffle")));
      ("info", api "GET" "/info/configuration.json" None) ]
    (ret (ErrorUsage "Unknown command" usage)).

End Script.

Definition tool : Host.tool := {| Host.gate := gate; Host.main := main |}.

End Buffer.

(** ** ga4 *)

Module Ga4.

Definition DATA_API : string := "https://analyticsdata.googleapis.com/v1beta".
Definition ADMIN_API : string := "https://analyticsadmin.googleapis.com/v1beta".
Definition MP_URL : string := "https://www.google-analytics.com/mp/collect".

Definition gate (e : gmap string string) : option string :=
  if negb (truthy (getenv e "GA4_ACCESS_TOKEN"))
  then Some "GA4_ACCESS_TOKEN environment variable required"
  else None.

Definition usage : list (string * string) :=
  [ ("reports", "reports run --property <id> [--start-date <date>] [--end-date <date>] [--dimensions <dims>] [--metrics <metrics>]");
    ("realtime", "realtime run --property <id> [--dimensions <dims>] [--metrics <metrics>]");
    ("conversions", "conversions [list|create] --property <id> [--event-name <name>]");
    ("events", "events send --measurement-id <id> --api-secret <secret> --client-id <id> --event-name <name> [--params <json>]") ].

Section Script.

Context (rt : runtime) (w : world) (args : gmap string value).

Definition ACCESS_TOKEN : value := getenv (env w) "GA4_ACCESS_TOKEN".

Definition api (method baseUrl path : string) (body : option json) : M output :=
  if truthy (get args "dry-run") then
    ret (DryRun {| d_method := method; d_url := baseUrl ++ path;
                   d_headers := [ ("Authorization", "***");
                                  ("Content-Type", "application/json") ];
                   d_body := body |})
  else
    await res := fetch w {| r_method := method; r_url := baseUrl ++ path;
                            r_headers := [ ("Authorization",
                                            "Bearer " ++ to_string ACCESS_TOKEN);
                                           ("Content-Type", "application/json") ];
                            r_body := option_map JsonBody body |} in
    ret (read_body res).

Definition mpApi (measurementId apiSecret : value) (body : json) : M output :=
  let params := params_of [("measurement_id", measurementId); ("api_secret", apiSecret)] in
  if truthy (get args "dry-run") then
    ret (DryRun {| d_method := "POST";
                   d_url := MP_URL ++ "?"
                            ++ form_urlencode rt
                                 (params_of [ ("measurement_id", measurementId);
                                              ("api_secret", VStr "***") ]);
                   d_headers := [("Content-Type", "application/json")];
                   d_body := Some body |})
  else
    await res := fetch w {| r_method := "POST";
                            r_url := MP_URL ++ "?" ++ form_urlencode rt params;
                            r_headers := [("Content-Type", "application/json")];
                            r_body := Some (JsonBody body) |} in
    if negb (truthy (VStr (text res)))
    then ret (Json (JObj [("status", JNat (status res)); ("success", JBool (ok res))]))
    else ret (read_body res).

Definition named (d : string) : json := JObj [("name", JStr (trim rt d))].

(** [dimensions] and [metrics], each a list of names when given *)
Definition selection (body : list (string * json)) : completion (list (string * json)) :=
  match put_split args "dimensions" "dimensions" named body with
  | Normal body => put_split args "metrics" "metrics" named body
  | Throw e => Throw e
  end.

Definition with_property (rest : string -> M output) : M output :=
  let property := get args "property" in
  required property "--property required" (rest (to_string property)).

Definition main (cmd sub : value) : M output :=
  switch cmd
    [ ("reports",
       switch sub
         [ ("run",
            with_property (fun property =>
              let body :=
                [("dateRanges",
                  JArr [JObj [ ("startDate", json_of (or_else (get args "start-date")
                                                               (VStr "30daysAgo")));
                               ("endDate", json_of (or_else (get args "end-date")
                                                             (VStr "today"))) ]])] in
              await body := lift (selection body) in
              api "POST" DATA_API ("/properties/" ++ property ++ ":runReport")
                  (Some (JObj body)))) ]
         (ret (Error "Unknown reports subcommand. Use: run")));
      ("realtime",
       switch sub
         [ ("run",
            with_property (fun property =>
              await body := lift (selection []) in
              api "POST" DATA_API ("/properties/" ++ property ++ ":runRealtimeReport")
                  (Some (JObj body)))) ]
         (ret (Error "Unknown realtime subcommand. Use: run")));
      ("conversions",
       switch sub
         [ ("list",
            with_property (fun property =>
              api "GET" ADMIN_API ("/properties/" ++ property ++ "/conversionEvents") None));
           ("create",
            with_property (fun property =>
              required (get args "event-name") "--event-name required"
                (api "POST" ADMIN_API ("/properties/" ++ property ++ "/conversionEvents")
                     (Some (JObj [("eventName", json_of (get args "event-name"))]))))) ]
         (ret (Error "Unknown conversions subcommand. Use: list, create")));
      ("events",
       switch sub
         [ ("send",
            required (get args "measurement-id") "--measurement-id required"
              (required (get args "api-secret") "--api-secret required"
                 (required (get args "client-id") "--client-id required"
                    (required (get args "event-name") "--event-name required"
                       (await eventParams :=
                          (if truthy (get args "params")
                           then lift (JSON_parse rt (to_string (get args "params")))
                           else ret (JObj [])) in
                        let body :=
                          JObj [ ("client_id", json_of (get args "client-id"));
                                 ("events",
                                  JArr [JObj [ ("name", json_of (get args "event-name"));
                                               ("params", eventParams) ]]) ] in
                        mpApi (get args "measurement-id") (get args "api-secret") body))))) ]
         (ret (Error "Unknown events subcommand. Use: send"))) ]
    (ret (ErrorUsage "Unknown command" usage)).

End Script.

Definition tool : Host.tool := {| Host.gate := gate; Host.main := main |}.

End Ga4.

(** ** mailchimp *)

Module Mailchimp.

Definition gate (e : gmap string string) : option string :=
  if negb (truthy (getenv e "MAILCHIMP_API_KEY"))
  then Some "MAILCHIMP_API_KEY environment variable required"
  else None.

Definition usage : list (string * string) :=
  [ ("lists", "lists [list|get] [id] [--count <n>] [--offset <n>]");
    ("members", "members [list|add|update] [subscriber_hash] --list-id <id> [--email <email>] [--status <status>] [--first-name <name>] [--last-name <name>] [--tags <t1,t2>]");
    ("campaigns", "campaigns [list|get|create|send] [id] [--list-id <id>] [--subject <subject>] [--from-name <name>] [--reply-to <email>]");
    ("reports", "reports get <campaign_id>");
    ("automations", "automations list [--count <n>] [--offset <n>]") ].

Section Script.

Context (rt : runtime) (w : world) (args : gmap string value).

Definition API_KEY : value := getenv (env w) "MAILCHIMP_API_KEY".

(** [API_KEY.split('-').pop()] *)
Definition dc : string :=
  match last (split "-" (to_string API_KEY)) with
  | Some piece => piece
  | None => "undefined"
  end.

Definition BASE_URL : string := "https://" ++ dc ++ ".api.mailchimp.com/3.0".

Definition api (method path : string) (body : option json) : M output :=
  let headers := [ ("Authorization", "Bearer " ++ to_string API_KEY);
                   ("Content-Type", "application/json") ] in
  if truthy (get args "dry-run") then
    ret (DryRun {| d_method := method; d_url := BASE_URL ++ path;
                   d_headers := assoc_set headers "Authorization" "***";
                   d_body := body |})
  else
    await res := fetch w {| r_method := method; r_url := BASE_URL ++ path;
                            r_headers := headers;
                            r_body := option_map JsonBody body |} in
    ret (read_body res).

Definition rest (i : nat) : value := element (rest_of args) i.

Definition filtered (path : string) (entries : list (string * string)) : M output :=
  let params := set_flags args [] entries in
  api "GET" (path ++ form_urlencode rt params) None.

(** [body.merge_fields], set when a first or a last name is given *)
Definition merge_fields (body : list (string * json)) : list (string * json) :=
  if truthy (get args "first-name") || truthy (get args "last-name")
  then assoc_set body "merge_fields"
         (JObj (put_flags args [] [("FNAME", "first-name"); ("LNAME", "last-name")]))
  else body.

Definition main (cmd sub : value) : M output :=
  switch cmd
    [ ("lists",
       switch sub
         [ ("list", filtered "/lists?" [("count", "count"); ("offset", "offset")]);
           ("get", api "GET" ("/lists/" ++ to_string (rest 0)) None) ]
         (ret (Error "Unknown lists subcommand. Use: list, get")));
      ("members",
       switch sub
         [ ("list",
            required (get args "list-id") "--list-id is required for members list"
              (filtered ("/lists/" ++ to_string (get args "list-id") ++ "/members?")
                        [("count", "count"); ("offset", "offset"); ("status", "status")]));
           ("add",
            required (get args "list-id") "--list-id is required for members add"
              (let body := [ ("email_address", json_of (get args "email"));
                             ("status", json_of (or_else (get args "status")
                                                         (VStr "subscribed"))) ] in
               let body := merge_fields body in
               await body := lift (put_split args "tags" "tags" JStr body) in
               api "POST" ("/lists/" ++ to_string (get args "list-id") ++ "/members")
                   (Some (JObj body))));
           ("update",
            required (get args "list-id") "--list-id is required for members update"
              (let subscriberHash := rest 0 in
               let body := put_flags args [] [("status", "status")] in
               let body := merge_fields body in
               await body := lift (put_split args "tags" "tags" JStr body) in
               api "PATCH" ("/lists/" ++ to_string (get args "list-id") ++ "/members/"
                            ++ to_string subscriberHash) (Some (JObj body)))) ]
         (ret (Error "Unknown members subcommand. Use: list, add, update")));
      ("campaigns",
       switch sub
         [ ("list",
            filtered "/campaigns?"
                     [ ("count", "count"); ("offset", "offset"); ("status", "status");
                       ("type", "type") ]);
           ("get", api "GET" ("/campaigns/" ++ to_string (rest 0)) None);
           ("create",
            let settings := put_flags args []
                              [ ("subject_line", "subject"); ("from_name", "from-name");
                                ("reply_to", "reply-to"); ("title", "title") ] in
            api "POST" "/campaigns"
                (Some (JObj [ ("type", json_of (or_else (get args "type") (VStr "regular")));
                              ("recipients",
                               JObj [("list_id", json_of (get args "list-id"))]);
                              ("settings", JObj settings) ])));
           ("send",
            api "POST" ("/campaigns/" ++ to_string (rest 0) ++ "/actions/send") None) ]
         (ret (Error "Unknown campaigns subcommand. Use: list, get, create, send")));
      ("reports",
       switch sub
         [ ("get", api "GET" ("/reports/" ++ to_string (rest 0)) None) ]
         (ret (Error "Unknown reports subcommand. Use: get")));
      ("automations",
       switch sub
         [ ("list", filtered "/automations?" [("count", "count"); ("offset", "offset")]) ]
         (ret (Error "Unknown automations subcommand. Use: list"))) ]
    (ret (ErrorUsage "Unknown command" usage)).

End Script.

Definition tool : Host.tool := {| Host.gate := gate; Host.main := main |}.

End Mailchimp.

(** ** tolt *)

Module Tolt.

Definition BASE_URL : string := "https://api.tolt.io/v1".

Definition gate (e : gmap string string) : option string :=
  if negb (truthy (getenv e "TOLT_API_KEY"))
  then Some "TOLT_API_KEY environment variable required"
  else None.

Definition usage : list (string * string) :=
  [ ("affiliates", "affiliates [list|get|create|update] [id] [--email <email>] [--name <name>] [--id <id>] [--commission-rate <rate>] [--payout-method <method>] [--paypal-email <email>]");
    ("referrals", "referrals [list|get] [--affiliate-id <id>] [--customer-id <id>]");
    ("commissions", "commissions [list] [--affiliate-id <id>]");
    ("payouts", "payouts [list] [--affiliate-id <id>]") ].

Section Script.

Context (rt : runtime) (w : world) (args : gmap string value).

Definition API_KEY : value := getenv (env w) "TOLT_API_KEY".

Definition api (method path : string) (body : option json) : M output :=
  if truthy (get args "dry-run") then
    ret (DryRun {| d_method := method; d_url := BASE_URL ++ path;
                   d_headers := [ ("Authorization", "***");
                                  ("Content-Type", "application/json") ];
                   d_body := body |})
  else
    await res := fetch w {| r_method := method; r_url := BASE_URL ++ path;
                            r_headers := [ ("Authorization", "Bearer " ++ to_string API_KEY);
                                           ("Content-Type", "application/json") ];
                            r_body := option_map JsonBody body |} in
    ret (read_body res).

Definition rest (i : nat) : value := element (rest_of args) i.

Definition filtered (path name flag : string) : M output :=
  let params := set_flags args [] [(name, flag)] in
  api "GET" (path ++ form_urlencode rt params) None.

Definition main (cmd sub : value) : M output :=
  switch cmd
    [ ("affiliates",
       switch sub
         [ ("list", api "GET" "/affiliates" None);
           ("get", api "GET" ("/affiliates/" ++ to_string (rest 0)) None);
           ("create",
            api "POST" "/affiliates"
                (Some (JObj (put_flags args [] [("email", "email"); ("name", "name")]))));
           ("update",
            let body := put_if (get args "commission-rate") "commission_rate"
                               (JNumberOf "Number" (get args "commission-rate")) [] in
            let body := put_flags args body
                          [ ("payout_method", "payout-method");
                            ("paypal_email", "paypal-email") ] in
            api "PATCH" ("/affiliates/" ++ to_string (get args "id")) (Some (JObj body))) ]
         (ret (Error "Unknown affiliates subcommand. Use: list, get, create, update")));
      ("referrals",
       switch sub
         [ ("list", filtered "/referrals?" "affiliate_id" "affiliate-id");
           ("get", filtered "/referrals?" "customer_id" "customer-id") ]
         (ret (Error "Unknown referrals subcommand. Use: list, get")));
      ("commissions",
       switch sub
         [ ("list", filtered "/commissions?" "affiliate_id" "affiliate-id") ]
         (ret (Error "Unknown commissions subcommand. Use: list")));
      ("payouts",
       switch sub
         [ ("list", filtered "/payouts?" "affiliate_id" "affiliate-id") ]
         (ret (Error "Unknown payouts subcommand. Use: list"))) ]
    (ret (ErrorUsage "Unknown command" usage)).

End Script.

Definition tool : Host.tool := {| Host.gate := gate; Host.main := main |}.

End Tolt.

(** ** adobe-analytics *)

Module Adobe.

Definition gate (e : gmap string string) : option string :=
  if negb (truthy (getenv e "ADOBE_ACCESS_TOKEN"))
     || negb (truthy (getenv e "ADOBE_CLIENT_ID"))
     || negb (truthy (getenv e "ADOBE_COMPANY_ID"))
  then Some "ADOBE_ACCESS_TOKEN, ADOBE_CLIENT_ID, and ADOBE_COMPANY_ID environment variables required"
  else None.

Definition usage : list (string * string) :=
  [ ("reportsuites", "reportsuites list");
    ("dimensions", "dimensions list --rsid <report_suite_id>");
    ("metrics", "metrics list --rsid <report_suite_id>");
    ("reports", "reports run --rsid <report_suite_id> --start-date <YYYY-MM-DD> --end-date <YYYY-MM-DD> --metrics <metrics> [--dimension <dimension>]");
    ("segments", "segments list [--rsid <report_suite_id>]") ].

Section Script.

Context (rt : runtime) (w : world) (args : gmap string value).

Definition ACCESS_TOKEN : value := getenv (env w) "ADOBE_ACCESS_TOKEN".
Definition CLIENT_ID : value := getenv (env w) "ADOBE_CLIENT_ID".
Definition COMPANY_ID : value := getenv (env w) "ADOBE_COMPANY_ID".

Definition BASE_URL : string := "https://analytics.adobe.io/api/" ++ to_string COMPANY_ID.

Definition api (method path : string) (body : option json) : M output :=
  if truthy (get args "dry-run") then
    ret (DryRun {| d_method := method; d_url := BASE_URL ++ path;
                   d_headers := [ ("Authorization", "***"); ("x-api-key", "***");
                                  ("Content-Type", "application/json") ];
                   d_body := body |})
  else
    await res := fetch w {| r_method := method; r_url := BASE_URL ++ path;
                            r_headers := [ ("Authorization",
                                            "Bearer " ++ to_string ACCESS_TOKEN);
                                           ("x-api-key", to_string CLIENT_ID);
                                           ("Content-Type", "application/json") ];
                            r_body := option_map JsonBody body |} in
    ret (read_body res).

Definition of_suite (path : string) : M output :=
  required (get args "rsid") "--rsid required"
    (let params := params_set [] "rsid" (to_string (get args "rsid")) in
     api "GET" (path ++ form_urlencode rt params) None).

Definition main (cmd sub : value) : M output :=
  switch cmd
    [ ("reportsuites",
       switch sub
         [ ("list", api "GET" "/reportsuites" None) ]
         (ret (Error "Unknown reportsuites subcommand. Use: list")));
      ("dimensions",
       switch sub
         [ ("list", of_suite "/dimensions?") ]
         (ret (Error "Unknown dimensions subcommand. Use: list")));
      ("metrics",
       switch sub
         [ ("list", of_suite "/metrics?") ]
         (ret (Error "Unknown metrics subcommand. Use: list")));
      ("reports",
       switch sub
         [ ("run",
            required (get args "rsid") "--rsid required"
              (required (get args "start-date") "--start-date required"
                 (required (get args "end-date") "--end-date required"
                    (required (get args "metrics") "--metrics required (comma-separated)"
                       (await metrics := lift (split_of "metrics" (get args "metrics")) in
                        let body :=
                          [ ("rsid", json_of (get args "rsid"));
                            ("globalFilters",
                             JArr [JObj [ ("type", JStr "dateRange");
                                          ("dateRange",
                                           JStr (to_string (get args "start-date")
                                                 ++ "T00:00:00/"
                                                 ++ to_string (get args "end-date")
                                                 ++ "T23:59:59")) ]]);
                            ("metricContainer",
                             JObj [("metrics",
                                    JArr (map (fun m => JObj [("id", JStr (trim rt m))])
                                              metrics))]) ] in
                        api "POST" "/reports"
                            (Some (JObj (put_flags args body
                                           [("dimension", "dimension")])))))))) ]
         (ret (Error "Unknown reports subcommand. Use: run")));
      ("segments",
       switch sub
         [ ("list",
            let params := set_flags args [] [("rsid", "rsid")] in
            api "GET" ("/segments?" ++ form_urlencode rt params) None) ]
         (ret (Error "Unknown segments subcommand. Use: list"))) ]
    (ret (ErrorUsage "Unknown command" usage)).

End Script.

Definition tool : Host.tool := {| Host.gate := gate; Host.main := main |}.

End Adobe.

(** ** plausible *)

Module Plausible.

Definition gate (e : gmap string string) : option string :=
  if negb (truthy (getenv e "PLAUSIBLE_API_KEY"))
  then Some "PLAUSIBLE_API_KEY environment variable required"
  else None.

Definition usage : json :=
  JObj
    [ ("stats", JObj
        [ ("aggregate", JStr "stats aggregate --site-id <domain> [--date-range <30d>] [--metrics <m1,m2>]");
          ("timeseries", JStr "stats timeseries --site-id <domain> [--date-range <30d>] [--period <time:day>]");
          ("pages", JStr "stats pages --site-id <domain> [--date-range <30d>] [--limit <n>]");
          ("sources", JStr "stats sources --site-id <domain> [--date-range <30d>]");
          ("countries", JStr "stats countries --site-id <domain> [--date-range <30d>]");
          ("devices", JStr "stats devices --site-id <domain> [--date-range <30d>]");
          ("utm", JStr "stats utm --site-id <domain> [--param <utm_source>] [--date-range <30d>]");
          ("query", JStr "stats query --site-id <domain> --metrics <m1,m2> [--dimensions <d1,d2>] [--filters <json>]");
          ("realtime", JStr "stats realtime --site-id <domain>") ]);
      ("sites", JStr "sites [list | get --site-id <domain> | create --domain <domain> | delete --site-id <domain>]");
      ("goals", JStr "goals [list | create --goal-type <event|page> --event-name <name> | delete --goal-id <id>] --site-id <domain>");
      ("options", JStr "--date-range <day|7d|30d|month|6mo|12mo|year> --limit <n>");
      ("env", JStr "PLAUSIBLE_BASE_URL for self-hosted instances (default: https://plausible.io)") ].

Section Script.

Context (rt : runtime) (w : world) (args : gmap string value).

Definition API_KEY : value := getenv (env w) "PLAUSIBLE_API_KEY".

Definition BASE_URL : string :=
  to_string (or_else (getenv (env w) "PLAUSIBLE_BASE_URL") (VStr "https://plausible.io")).

Definition api (method path : string) (body : option json) : M output :=
  if truthy (get args "dry-run") then
    ret (DryRun {| d_method := method; d_url := BASE_URL ++ path;
                   d_headers := [ ("Authorization", "***");
                                  ("Content-Type", "application/json");
                                  ("Accept", "application/json") ];
                   d_body := body |})
  else
    await res := fetch w {| r_method := method; r_url := BASE_URL ++ path;
                            r_headers := [ ("Authorization", "Bearer " ++ to_string API_KEY);
                                           ("Content-Type", "application/json");
                                           ("Accept", "application/json") ];
                            r_body := option_map JsonBody body |} in
    ret (read_body res).

Definition siteId : value := get args "site-id".
Definition dateRange : json := json_of (or_else (get args "date-range") (VStr "30d")).
Definition limit : json := number_or "Number" (get args "limit") 100.

(** The query for the metrics given or else the fallback ones, with the
    further members of the body *)
Definition breakdown (fallback : list string) (more : list (string * json)) : M output :=
  await metrics := lift (split_or args "metrics" fallback) in
  api "POST" "/api/v2/query"
      (Some (JObj ([ ("site_id", json_of siteId);
                     ("metrics", JArr (map JStr metrics));
                     ("date_range", dateRange) ] ++ more)%list)).

Definition paged (dimension : string) : list (string * json) :=
  [ ("dimensions", JArr [JStr dimension]);
    ("pagination", JObj [("limit", limit)]) ].

Definition main (cmd sub : value) : M output :=
  switch cmd
    [ ("stats",
       required siteId "--site-id required (your domain, e.g. example.com)"
         (switch sub
            [ ("aggregate",
               breakdown ["visitors"; "pageviews"; "bounce_rate"; "visit_duration"] []);
              ("timeseries",
               let period := or_else (get args "period") (VStr "time:day") in
               breakdown ["visitors"; "pageviews"]
                         [("dimensions", JArr [json_of period])]);
              ("pages", breakdown ["visitors"; "pageviews"] (paged "event:page"));
              ("sources", breakdown ["visitors"; "bounce_rate"] (paged "visit:source"));
              ("countries", breakdown ["visitors"; "percentage"] (paged "visit:country"));
              ("devices", breakdown ["visitors"; "percentage"] (paged "visit:device"));
              ("utm",
               let param := or_else (get args "param") (VStr "utm_source") in
               breakdown ["visitors"; "bounce_rate"] (paged ("visit:" ++ to_string param)));
              ("query",
               await metrics := lift (optional_split "metrics" (get args "metrics")) in
               match metrics with
               | None => ret (Error "--metrics required (comma-separated)")
               | Some metrics =>
                   let body := [ ("site_id", json_of siteId);
                                 ("metrics", JArr (map JStr metrics));
                                 ("date_range", dateRange) ] in
                   await body := lift (put_split args "dimensions" "dimensions" JStr body) in
                   let send (body : list (string * json)) :=
                     api "POST" "/api/v2/query"
                         (Some (JObj (assoc_set body "pagination"
                                                (JObj [("limit", limit)])))) in
                   if truthy (get args "filters") then
                     match JSON_parse rt (to_string (get args "filters")) with
                     | Normal filters => send (assoc_set body "filters" filters)
                     | Throw _ => ret (Error "--filters must be valid JSON")
                     end
                   else send body
               end);
              ("realtime",
               api "GET" ("/api/v1/stats/realtime/visitors?site_id="
                          ++ encodeURIComponent rt (to_string siteId)) None) ]
            (ret (Error "Unknown stats subcommand. Use: aggregate, timeseries, pages, sources, countries, devices, utm, query, realtime"))));
      ("sites",
       switch sub
         [ ("list", api "GET" "/api/v1/sites" None);
           ("get",
            required siteId "--site-id required"
              (api "GET" ("/api/v1/sites/" ++ encodeURIComponent rt (to_string siteId))
                   None));
           ("create",
            let domain := get args "domain" in
            required domain "--domain required"
              (api "POST" "/api/v1/sites"
                   (Some (JObj (put_flags args [("domain", json_of domain)]
                                  [("timezone", "timezone")])))));
           ("delete",
            required siteId "--site-id required"
              (api "DELETE" ("/api/v1/sites/" ++ encodeURIComponent rt (to_string siteId))
                   None)) ]
         (ret (Error "Unknown sites subcommand. Use: list, get, create, delete")));
      ("goals",
       required siteId "--site-id required"
         (switch sub
            [ ("list",
               api "GET" ("/api/v1/sites/goals?site_id="
                          ++ encodeURIComponent rt (to_string siteId)) None);
              ("create",
               let goalType := get args "goal-type" in
               required goalType "--goal-type required (event or page)"
                 (let body := [ ("site_id", json_of siteId);
                                ("goal_type", json_of goalType) ] in
                  if value_is goalType "event" then
                    required (get args "event-name") "--event-name required for event goals"
                      (api "PUT" "/api/v1/sites/goals"
                           (Some (JObj (assoc_set body "event_name"
                                                  (json_of (get args "event-name"))))))
                  else if value_is goalType "page" then
                    required (get args "page-path") "--page-path required for page goals"
                      (api "PUT" "/api/v1/sites/goals"
                           (Some (JObj (assoc_set body "page_path"
                                                  (json_of (get args "page-path"))))))
                  else api "PUT" "/api/v1/sites/goals" (Some (JObj body))));
              ("delete",
               let goalId := get args "goal-id" in
               required goalId "--goal-id required"
                 (api "DELETE" ("/api/v1/sites/goals/" ++ to_string goalId)
                      (Some (JObj [("site_id", json_of siteId)])))) ]
            (ret (Error "Unknown goals subcommand. Use: list, create, delete")))) ]
    (ret (Json (JObj [("error", JStr "Unknown command"); ("usage", usage)]))).

End Script.

Definition tool : Host.tool := {| Host.gate := gate; Host.main := main |}.

End Plausible.

(** ** postmark *)

Module Postmark.

Definition BASE_URL : string := "https://api.postmarkapp.com".

Definition gate (e : gmap string string) : option string :=
  if negb (truthy (getenv e "POSTMARK_API_KEY"))
  then Some "POSTMARK_API_KEY environment variable required"
  else None.

Definition usage : list (string * string) :=
  [ ("email", "email [send --from <from> --to <to> --subject <subj> | send-template --from <from> --to <to> --template <id> | send-batch --from <from> --to <to1,to2> --subject <subj>]");
    ("templates", "templates [list | get --id <id> | create --name <name> | delete --id <id>]");
    ("bounces", "bounces [list | get --id <id> | stats | activate --id <id>]");
    ("messages", "messages [outbound | inbound | get --id <id>]");
    ("stats", "stats [overview | sends | bounces | opens | clicks | spam]");
    ("server", "server [get]");
    ("suppressions", "suppressions [list | create --email <email> | delete --email <email>]");
    ("options", "--tag <tag> --from <date> --to <date> --stream <stream-id>") ].

Section Script.

Context (rt : runtime) (w : world) (args : gmap string value).

Definition API_KEY : value := getenv (env w) "POSTMARK_API_KEY".

Definition token_header (useAccountToken : bool) : string :=
  if useAccountToken then "X-Postmark-Account-Token" else "X-Postmark-Server-Token".

Definition api (method path : string) (body : option json) (useAccountToken : bool)
  : M output :=
  if truthy (get args "dry-run") then
    let maskedHeaders := [ ("Content-Type", "application/json");
                           ("Accept", "application/json") ] in
    let maskedHeaders := assoc_set maskedHeaders (token_header useAccountToken) "***" in
    ret (DryRun {| d_method := method; d_url := BASE_URL ++ path;
                   d_headers := maskedHeaders;
                   d_body := body |})
  else
    let headers := [ ("Content-Type", "application/json");
                     ("Accept", "application/json") ] in
    let headers := assoc_set headers (token_header useAccountToken) (to_string API_KEY) in
    await res := fetch w {| r_method := method; r_url := BASE_URL ++ path;
                            r_headers := headers;
                            r_body := option_map JsonBody body |} in
    ret (read_body res).

(** Every call leaves [useAccountToken] out. *)
Definition call (method path : string) (body : option json) : M output :=
  api method path body false.

Definition by_id (message method : string) (path : string -> string) : M output :=
  let id := get args "id" in
  required id message (call method (path (to_string id)) None).

(** [count] and [offset] with their fallbacks, then the flags given *)
Definition listing (path count_name offset_name count : string)
    (entries : list (string * string)) : M output :=
  let params := params_set [] count_name
                           (to_string (or_else (get args "count") (VStr count))) in
  let params := params_set params offset_name
                           (to_string (or_else (get args "offset") (VStr "0"))) in
  let params := set_flags args params entries in
  call "GET" (path ++ form_urlencode rt params) None.

Definition statistics (path : string) : M output :=
  let params := set_flags args [] [("tag", "tag"); ("fromdate", "from"); ("todate", "to")] in
  call "GET" (path ++ form_urlencode rt params) None.

Definition suppress (leaf : string) : M output :=
  let email := get args "email" in
  required email "--email required"
    (let stream := or_else (get args "stream") (VStr "outbound") in
     await addresses := lift (pieces "email" email) in
     call "POST" ("/message-streams/" ++ to_string stream ++ leaf)
          (Some (JObj [("Suppressions",
                        JArr (map (fun e => JObj [("EmailAddress", JStr (trim rt e))])
                                  addresses))]))).

Definition main (cmd sub : value) : M output :=
  switch cmd
    [ ("email",
       switch sub
         [ ("send",
            let from := get args "from" in
            let to := get args "to" in
            let subject := get args "subject" in
            required from "--from required"
              (required to "--to required"
                 (required subject "--subject required"
                    (let body := [ ("From", json_of from); ("To", json_of to);
                                   ("Subject", json_of subject) ] in
                     let body := put_flags args body
                                   [("HtmlBody", "html"); ("TextBody", "text")] in
                     let body :=
                       if negb (truthy (get args "html")) && negb (truthy (get args "text"))
                       then assoc_set body "TextBody" (JStr "") else body in
                     let body := put_flags args body
                                   [("Tag", "tag"); ("MessageStream", "stream")] in
                     let body := put_if (get args "track-opens") "TrackOpens" (JBool true)
                                        body in
                     let body := put_flags args body
                                   [ ("TrackLinks", "track-links"); ("Cc", "cc");
                                     ("Bcc", "bcc"); ("ReplyTo", "reply-to") ] in
                     call "POST" "/email" (Some (JObj body))))));
           ("send-template",
            let from := get args "from" in
            let to := get args "to" in
            let template := get args "template" in
            required from "--from required"
              (required to "--to required"
                 (required template "--template required (template ID or alias)"
                    (let body := [ ("From", json_of from); ("To", json_of to);
                                   ("TemplateModel", JObj []) ] in
                     let body :=
                       if negb (String.eqb (String_of_Number rt template) "NaN")
                       then assoc_set body "TemplateId" (JNumberOf "Number" template)
                       else assoc_set body "TemplateAlias" (json_of template) in
                     await model :=
                       (if truthy (get args "model")
                        then await pairs := lift (split_of "model" (get args "model")) in
                             ret (fold_left add_pair pairs [])
                        else ret []) in
                     let body := assoc_set body "TemplateModel" (JObj model) in
                     let body := put_flags args body
                                   [("MessageStream", "stream"); ("Tag", "tag")] in
                     call "POST" "/email/withTemplate" (Some (JObj body))))));
           ("send-batch",
            let from := get args "from" in
            let to := get args "to" in
            let subject := get args "subject" in
            required_all [from; to; subject]
              "--from, --to (comma-separated), and --subject required"
              (await recipients := lift (pieces "to" to) in
               let messages :=
                 map (fun recipient =>
                        JObj ([ ("From", json_of from);
                                ("To", JStr (trim rt recipient));
                                ("Subject", json_of subject);
                                ("TextBody", json_of (or_else (get args "text")
                                                              (VStr ""))) ]
                              ++ or_undefined "HtmlBody" (get args "html")
                              ++ or_undefined "MessageStream" (get args "stream")
                              ++ or_undefined "Tag" (get args "tag"))%list)
                     recipients in
               call "POST" "/email/batch" (Some (JArr messages)))) ]
         (ret (Error "Unknown email subcommand. Use: send, send-template, send-batch")));
      ("templates",
       switch sub
         [ ("list", listing "/templates?" "Count" "Offset" "100" [("TemplateType", "type")]);
           ("get",
            by_id "--id required (template ID or alias)" "GET"
                  (fun id => "/templates/" ++ id));
           ("create",
            let name := get args "name" in
            required name "--name required"
              (let body := [ ("Name", json_of name);
                             ("Subject", json_of (or_else (get args "subject")
                                                          (VStr ""))) ] in
               call "POST" "/templates"
                    (Some (JObj (put_flags args body
                                   [ ("HtmlBody", "html"); ("TextBody", "text");
                                     ("Alias", "alias"); ("TemplateType", "type") ])))));
           ("delete",
            by_id "--id required (template ID or alias)" "DELETE"
                  (fun id => "/templates/" ++ id)) ]
         (ret (Error "Unknown templates subcommand. Use: list, get, create, delete")));
      ("bounces",
       switch sub
         [ ("list",
            listing "/bounces?" "count" "offset" "50"
                    [("type", "type"); ("inactive", "inactive"); ("emailFilter", "email")]);
           ("get", by_id "--id required" "GET" (fun id => "/bounces/" ++ id));
           ("stats", call "GET" "/deliverystats" None);
           ("activate",
            by_id "--id required" "PUT" (fun id => "/bounces/" ++ id ++ "/activate")) ]
         (ret (Error "Unknown bounces subcommand. Use: list, get, stats, activate")));
      ("messages",
       switch sub
         [ ("outbound",
            listing "/messages/outbound?" "count" "offset" "50"
                    [("recipient", "recipient"); ("tag", "tag"); ("status", "status")]);
           ("inbound",
            listing "/messages/inbound?" "count" "offset" "50"
                    [("recipient", "recipient"); ("status", "status")]);
           ("get",
            by_id "--id required (message ID)" "GET"
                  (fun id => "/messages/outbound/" ++ id ++ "/details")) ]
         (ret (Error "Unknown messages subcommand. Use: outbound, inbound, get")));
      ("stats",
       switch sub
         [ ("overview", statistics "/stats/outbound?");
           ("sends", statistics "/stats/outbound/sends?");
           ("bounces", statistics "/stats/outbound/bounces?");
           ("opens", statistics "/stats/outbound/opens?");
           ("clicks", statistics "/stats/outbound/clicks?");
           ("spam", statistics "/stats/outbound/spam?") ]
         (ret (Error "Unknown stats subcommand. Use: overview, sends, bounces, opens, clicks, spam")));
      ("server",
       switch sub
         [ ("get", call "GET" "/server" None) ]
         (ret (Error "Unknown server subcommand. Use: get")));
      ("suppressions",
       switch sub
         [ ("list",
            call "GET" ("/message-streams/"
                        ++ to_string (or_else (get args "stream") (VStr "outbound"))
                        ++ "/suppressions/dump") None);
           ("create", suppress "/suppressions");
           ("delete", suppress "/suppressions/delete") ]
         (ret (Error "Unknown suppressions subcommand. Use: list, create, delete"))) ]
    (ret (ErrorUsage "Unknown command" usage)).

End Script.

Definition tool : Host.tool := {| Host.gate := gate; Host.main := main |}.

End Postmark.

(** ** resend *)

Module Resend.

Definition BASE_URL : string := "https://api.resend.com".

Definition gate (e : gmap string string) : option string :=
  if negb (truthy (getenv e "RESEND_API_KEY"))
  then Some "RESEND_API_KEY environment variable required"
  else None.

Definition usage : list (string * string) :=
  [ ("send", "send --from <email> --to <email> --subject <subject> --html <html>");
    ("emails", "emails [list|get|cancel] [id]");
    ("domains", "domains [list|get|create|verify|delete] [id] [--name <name>]");
    ("api-keys", "api-keys [list|create|delete] [id] [--name <name>]");
    ("audiences", "audiences [list|get|create|delete] [id] [--name <name>]");
    ("contacts", "contacts <audience_id> [list|get|create|update|delete] [contact_id] [--email <email>]");
    ("webhooks", "webhooks [list|get|create|delete] [id] [--endpoint <url>]");
    ("batch", "batch --emails <json_array>");
    ("templates", "templates [list|get|create|update|delete|publish|duplicate] [id] [--name <name>] [--html <html>] [--variables <json>]");
    ("broadcasts", "broadcasts [list|get|create|send|delete] [id] [--segment-id <id>] [--from <email>] [--subject <subject>]");
    ("segments", "segments [list|get|create|delete] [id] [--name <name>]") ].

Section Script.

Context (rt : runtime) (w : world) (args : gmap string value).

Definition API_KEY : value := getenv (env w) "RESEND_API_KEY".

Definition api (method path : string) (body : option json) : M output :=
  if truthy (get args "dry-run") then
    ret (DryRun {| d_method := method; d_url := BASE_URL ++ path;
                   d_headers := [ ("Authorization", "***");
                                  ("Content-Type", "application/json") ];
                   d_body := body |})
  else
    await res := fetch w {| r_method := method; r_url := BASE_URL ++ path;
                            r_headers := [ ("Authorization", "Bearer " ++ to_string API_KEY);
                                           ("Content-Type", "application/json") ];
                            r_body := option_map JsonBody body |} in
    ret (read_body res).

Definition rest (i : nat) : value := element (rest_of args) i.

Definition listing (path : string) (entries : list (string * string)) : M output :=
  let params := set_flags args [] entries in
  api "GET" (path ++ form_urlencode rt params) None.

(** [{ name, value }] with [const [name, value] = t.split(':')] *)
Definition tag (t : string) : json :=
  let parts := split ":" t in
  JObj [("name", json_of (element parts 0)); ("value", json_of (element parts 1))].

Definition content : list (string * string) :=
  [ ("alias", "alias"); ("from", "from"); ("subject", "subject");
    ("reply_to", "reply-to"); ("text", "text") ].

Definition unsubscribed : json := JBool (value_is (get args "unsubscribed") "true").

Definition main (cmd sub : value) : M output :=
  switch cmd
    [ ("send",
       await to := lift (optional_split "to" (get args "to")) in
       let body := [ ("from", json_of (get args "from"));
                     ("to", match to with
                            | Some pieces => JArr (map JStr pieces)
                            | None => JNull
                            end);
                     ("subject", json_of (get args "subject")) ] in
       let body := put_flags args body [("html", "html"); ("text", "text")] in
       await body := lift (put_split args "cc" "cc" JStr body) in
       await body := lift (put_split args "bcc" "bcc" JStr body) in
       let body := put_flags args body
                     [("reply_to", "reply-to"); ("scheduled_at", "scheduled-at")] in
       await body := lift (put_split args "tags" "tags" tag body) in
       api "POST" "/emails" (Some (JObj body)));
      ("emails",
       switch sub
         [ ("list", listing "/emails?" [("limit", "limit")]);
           ("get", api "GET" ("/emails/" ++ to_string (rest 0)) None);
           ("cancel", api "POST" ("/emails/" ++ to_string (rest 0) ++ "/cancel") None) ]
         (ret (Error "Unknown emails subcommand. Use: list, get, cancel")));
      ("domains",
       switch sub
         [ ("list", listing "/domains?" [("limit", "limit")]);
           ("get", api "GET" ("/domains/" ++ to_string (rest 0)) None);
           ("create",
            api "POST" "/domains"
                (Some (JObj [ ("name", json_of (get args "name"));
                              ("region", json_of (get args "region")) ])));
           ("verify", api "POST" ("/domains/" ++ to_string (rest 0) ++ "/verify") None);
           ("delete", api "DELETE" ("/domains/" ++ to_string (rest 0)) None) ]
         (ret (Error "Unknown domains subcommand. Use: list, get, create, verify, delete")));
      ("api-keys",
       switch sub
         [ ("list", api "GET" "/api-keys" None);
           ("create",
            let body := [("name", json_of (get args "name"))] in
            api "POST" "/api-keys"
                (Some (JObj (put_flags args body
                               [("permission", "permission"); ("domain_id", "domain_id")]))));
           ("delete", api "DELETE" ("/api-keys/" ++ to_string (rest 0)) None) ]
         (ret (Error "Unknown api-keys subcommand. Use: list, create, delete")));
      ("audiences",
       switch sub
         [ ("list", api "GET" "/audiences" None);
           ("get", api "GET" ("/audiences/" ++ to_string (rest 0)) None);
           ("create",
            api "POST" "/audiences" (Some (JObj [("name", json_of (get args "name"))])));
           ("delete", api "DELETE" ("/audiences/" ++ to_string (rest 0)) None) ]
         (ret (Error "Unknown audiences subcommand. Use: list, get, create, delete")));
      ("contacts",
       let audienceId := to_string sub in
       let action := rest 0 in
       let contactId := to_string (rest 1) in
       switch action
         [ ("list",
            listing ("/audiences/" ++ audienceId ++ "/contacts?") [("limit", "limit")]);
           ("get",
            api "GET" ("/audiences/" ++ audienceId ++ "/contacts/" ++ contactId) None);
           ("create",
            let body := [("email", json_of (get args "email"))] in
            let body := put_flags args body
                          [("first_name", "first-name"); ("last_name", "last-name")] in
            let body := put_if (get args "unsubscribed") "unsubscribed" unsubscribed body in
            api "POST" ("/audiences/" ++ audienceId ++ "/contacts") (Some (JObj body)));
           ("update",
            let body := put_flags args []
                          [("first_name", "first-name"); ("last_name", "last-name")] in
            let body := match get args "unsubscribed" with
                        | VUndefined => body
                        | _ => assoc_set body "unsubscribed" unsubscribed
                        end in
            api "PATCH" ("/audiences/" ++ audienceId ++ "/contacts/" ++ contactId)
                (Some (JObj body)));
           ("delete",
            api "DELETE" ("/audiences/" ++ audienceId ++ "/contacts/" ++ contactId) None) ]
         (ret (Error "Unknown contacts action. Use: list, get, create, update, delete")));
      ("webhooks",
       switch sub
         [ ("list", api "GET" "/webhooks" None);
           ("get", api "GET" ("/webhooks/" ++ to_string (rest 0)) None);
           ("create",
            await events := lift (split_or args "events"
                                           ["email.sent"; "email.delivered";
                                            "email.bounced"]) in
            api "POST" "/webhooks"
                (Some (JObj [ ("endpoint_url", json_of (get args "endpoint"));
                              ("events", JArr (map JStr events)) ])));
           ("delete", api "DELETE" ("/webhooks/" ++ to_string (rest 0)) None) ]
         (ret (Error "Unknown webhooks subcommand. Use: list, get, create, delete")));
      ("batch",
       await emails := lift (JSON_parse rt (to_string (or_else (get args "emails")
                                                               (VStr "[]")))) in
       api "POST" "/emails/batch" (given emails));
      ("templates",
       switch sub
         [ ("list",
            listing "/templates?" [("limit", "limit"); ("after", "after");
                                   ("before", "before")]);
           ("get", api "GET" ("/templates/" ++ to_string (rest 0)) None);
           ("create",
            let body := [ ("name", json_of (get args "name"));
                          ("html", json_of (get args "html")) ] in
            let body := put_flags args body content in
            await body := lift (put_parsed rt args "variables" "variables" body) in
            api "POST" "/templates" (Some (JObj body)));
           ("update",
            let body := put_flags args [] (("name", "name") :: ("html", "html") :: content) in
            await body := lift (put_parsed rt args "variables" "variables" body) in
            api "PATCH" ("/templates/" ++ to_string (rest 0)) (Some (JObj body)));
           ("delete", api "DELETE" ("/templates/" ++ to_string (rest 0)) None);
           ("publish", api "POST" ("/templates/" ++ to_string (rest 0) ++ "/publish") None);
           ("duplicate",
            api "POST" ("/templates/" ++ to_string (rest 0) ++ "/duplicate") None) ]
         (ret (Error "Unknown templates subcommand. Use: list, get, create, update, delete, publish, duplicate")));
      ("broadcasts",
       switch sub
         [ ("list", listing "/broadcasts?" [("limit", "limit")]);
           ("get", api "GET" ("/broadcasts/" ++ to_string (rest 0)) None);
           ("create",
            let body := [ ("segment_id", json_of (get args "segment-id"));
                          ("from", json_of (get args "from"));
                          ("subject", json_of (get args "subject")) ] in
            api "POST" "/broadcasts"
                (Some (JObj (put_flags args body
                               [ ("html", "html"); ("text", "text");
                                 ("reply_to", "reply-to"); ("name", "name") ]))));
           ("send",
            api "POST" ("/broadcasts/" ++ to_string (rest 0) ++ "/send")
                (Some (JObj (put_flags args [] [("scheduled_at", "scheduled-at")]))));
           ("delete", api "DELETE" ("/broadcasts/" ++ to_string (rest 0)) None) ]
         (ret (Error "Unknown broadcasts subcommand. Use: list, get, create, send, delete")));
      ("segments",
       switch sub
         [ ("list", listing "/segments?" [("limit", "limit")]);
           ("get", api "GET" ("/segments/" ++ to_string (rest 0)) None);
           ("create",
            api "POST" "/segments" (Some (JObj [("name", json_of (get args "name"))])));
           ("delete", api "DELETE" ("/segments/" ++ to_string (rest 0)) None) ]
         (ret (Error "Unknown segments subcommand. Use: list, get, create, delete"))) ]
    (ret (ErrorUsage "Unknown command" usage)).

End Script.

Definition tool : Host.tool := {| Host.gate := gate; Host.main := main |}.

End Resend.

(** ** savvycal *)

Module Savvycal.

Definition BASE_URL : string := "https://api.savvycal.com/v1".

Definition gate (e : gmap string string) : option string :=
  if negb (truthy (getenv e "SAVVYCAL_API_KEY"))
  then Some "SAVVYCAL_API_KEY environment variable required"
  else None.

Definition usage : list (string * string) :=
  [ ("me", "me");
    ("links", "links [list | get --id <id> | create --name <name> | update --id <id> | delete --id <id> | duplicate --id <id> | toggle --id <id> | slots --id <id>]");
    ("events", "events [list | get --id <id> | create --link-id <id> --start-at <iso> --name <name> --email <email> | cancel --id <id>]");
    ("webhooks", "webhooks [list | create --url <url> --events <e1,e2> | delete --id <id>]");
    ("options", "--limit <n> --after <cursor> --before <cursor>") ].

Section Script.

Context (rt : runtime) (w : world) (args : gmap string value).

Definition API_KEY : value := getenv (env w) "SAVVYCAL_API_KEY".

Definition api (method path : string) (body : option json) : M output :=
  if truthy (get args "dry-run") then
    ret (DryRun {| d_method := method; d_url := BASE_URL ++ path;
                   d_headers := [ ("Authorization", "***");
                                  ("Content-Type", "application/json");
                                  ("Accept", "application/json") ];
                   d_body := body |})
  else
    await res := fetch w {| r_method := method; r_url := BASE_URL ++ path;
                            r_headers := [ ("Authorization", "Bearer " ++ to_string API_KEY);
                                           ("Content-Type", "application/json");
                                           ("Accept", "application/json") ];
                            r_body := option_map JsonBody body |} in
    ret (read_body res).

(** [String(limit)] with [limit = args.limit ? Number(args.limit) : 20] *)
Definition limit : string :=
  if truthy (get args "limit") then String_of_Number rt (get args "limit") else "20".

Definition listing (path : string) : M output :=
  let params := params_set [] "limit" limit in
  let params := set_flags args params [("after", "after"); ("before", "before")] in
  api "GET" (path ++ form_urlencode rt params) None.

Definition by_id (method : string) (path : string -> string) (body : option json)
  : M output :=
  let id := get args "id" in
  required id "--id required" (api method (path (to_string id)) body).

Definition duration (body : list (string * json)) : list (string * json) :=
  put_if (get args "duration") "duration_minutes"
         (JNumberOf "Number" (get args "duration")) body.

Definition main (cmd sub : value) : M output :=
  switch cmd
    [ ("me", api "GET" "/me" None);
      ("links",
       switch sub
         [ ("list", listing "/scheduling-links?");
           ("get", by_id "GET" (fun id => "/scheduling-links/" ++ id) None);
           ("create",
            let name := get args "name" in
            required name "--name required"
              (let body := put_flags args [("name", json_of name)] [("slug", "slug")] in
               api "POST" "/scheduling-links" (Some (JObj (duration body)))));
           ("update",
            by_id "PATCH" (fun id => "/scheduling-links/" ++ id)
                  (Some (JObj (duration (put_flags args []
                                           [("name", "name"); ("slug", "slug")])))));
           ("delete", by_id "DELETE" (fun id => "/scheduling-links/" ++ id) None);
           ("duplicate",
            by_id "POST" (fun id => "/scheduling-links/" ++ id ++ "/duplicate") None);
           ("toggle", by_id "POST" (fun id => "/scheduling-links/" ++ id ++ "/toggle") None);
           ("slots",
            let params := set_flags args []
                            [("start_time", "start-time"); ("end_time", "end-time")] in
            let qs := form_urlencode rt params in
            by_id "GET" (fun id => "/scheduling-links/" ++ id ++ "/slots" ++ query_suffix qs)
                  None) ]
         (ret (Error "Unknown links subcommand. Use: list, get, create, update, delete, duplicate, toggle, slots")));
      ("events",
       switch sub
         [ ("list", listing "/events?");
           ("get", by_id "GET" (fun id => "/events/" ++ id) None);
           ("create",
            let linkId := get args "link-id" in
            let startAt := get args "start-at" in
            let name := get args "name" in
            let email := get args "email" in
            required_all [linkId; startAt; name; email]
              "--link-id, --start-at, --name, and --email required"
              (api "POST" "/events"
                   (Some (JObj [ ("scheduling_link_id", json_of linkId);
                                 ("start_at", json_of startAt);
                                 ("name", json_of name);
                                 ("email", json_of email) ]))));
           ("cancel", by_id "POST" (fun id => "/events/" ++ id ++ "/cancel") None) ]
         (ret (Error "Unknown events subcommand. Use: list, get, create, cancel")));
      ("webhooks",
       switch sub
         [ ("list", listing "/webhooks?");
           ("create",
            let url := get args "url" in
            await events := lift (optional_split "events" (get args "events")) in
            match events with
            | Some events =>
                required url "--url and --events (comma-separated) required"
                  (api "POST" "/webhooks"
                       (Some (JObj [ ("url", json_of url);
                                     ("events", JArr (map JStr events)) ])))
            | None => ret (Error "--url and --events (comma-separated) required")
            end);
           ("delete", by_id "DELETE" (fun id => "/webhooks/" ++ id) None) ]
         (ret (Error "Unknown webhooks subcommand. Use: list, create, delete"))) ]
    (ret (ErrorUsage "Unknown command" usage)).

End Script.

Definition tool : Host.tool := {| Host.gate := gate; Host.main := main |}.

End Savvycal.

(** ** sendgrid *)

Module Sendgrid.

Definition BASE_URL : string := "https://api.sendgrid.com/v3".

Definition gate (e : gmap string string) : option string :=
  if negb (truthy (getenv e "SENDGRID_API_KEY"))
  then Some "SENDGRID_API_KEY environment variable required"
  else None.

Definition usage : list (string * string) :=
  [ ("send", "send --from <email> --to <email> --subject <subject> --html <html> [--text <text>] [--template-id <id>] [--template-data <json>]");
    ("contacts", "contacts [list|add|search] [--email <email>] [--first-name <name>] [--last-name <name>] [--list-ids <ids>] [--query <sgql>]");
    ("campaigns", "campaigns [list|get] [id] [--limit <n>]");
    ("stats", "stats get [--start-date <YYYY-MM-DD>] [--end-date <YYYY-MM-DD>]");
    ("bounces", "bounces list [--start-time <ts>] [--end-time <ts>] [--limit <n>]");
    ("spam-reports", "spam-reports list [--start-time <ts>] [--end-time <ts>] [--limit <n>]");
    ("validate", "validate <email> OR validate email --email <email>") ].

Section Script.

Context (rt : runtime) (w : world) (args : gmap string value).

Definition API_KEY : value := getenv (env w) "SENDGRID_API_KEY".

Definition api (method path : string) (body : option json) : M output :=
  if truthy (get args "dry-run") then
    ret (DryRun {| d_method := method; d_url := BASE_URL ++ path;
                   d_headers := [ ("Authorization", "***");
                                  ("Content-Type", "application/json") ];
                   d_body := body |})
  else
    await res := fetch w {| r_method := method; r_url := BASE_URL ++ path;
                            r_headers := [ ("Authorization", "Bearer " ++ to_string API_KEY);
                                           ("Content-Type", "application/json") ];
                            r_body := option_map JsonBody body |} in
    ret (read_body res).

Definition rest (i : nat) : value := element (rest_of args) i.

Definition address (e : string) : json := JObj [("email", JStr (trim rt e))].

Definition filtered (path : string) (entries : list (string * string)) : M output :=
  let params := set_flags args [] entries in
  api "GET" (path ++ form_urlencode rt params) None.

(** [const content = []], a part pushed for [--text] and for [--html] *)
Definition content : list json :=
  (if truthy (get args "text")
   then [JObj [("type", JStr "text/plain"); ("value", json_of (get args "text"))]]
   else [])
  ++ (if truthy (get args "html")
      then [JObj [("type", JStr "text/html"); ("value", json_of (get args "html"))]]
      else []).

Definition send : M output :=
  await to := lift (split_of "to" (get args "to")) in
  let personalization := [("to", JArr (map address to))] in
  let body := [ ("from", JObj [("email", json_of (get args "from"))]);
                ("subject", json_of (get args "subject")) ] in
  await shaped :=
    (if truthy (get args "template-id") then
       let body := assoc_set body "template_id" (json_of (get args "template-id")) in
       await personalization :=
         lift (put_parsed rt args "dynamic_template_data" "template-data"
                          personalization) in
       ret (personalization, body)
     else
       ret (personalization,
            match content with
            | [] => body
            | _ :: _ => assoc_set body "content" (JArr content)
            end)) in
  let personalization := fst shaped in
  let body := snd shaped in
  await personalization := lift (put_split args "cc" "cc" address personalization) in
  await personalization := lift (put_split args "bcc" "bcc" address personalization) in
  let body := put_if (get args "reply-to") "reply_to"
                     (JObj [("email", json_of (get args "reply-to"))]) body in
  api "POST" "/mail/send"
      (Some (JObj (("personalizations", JArr [JObj personalization]) :: body))).

(** In [validate] the [default:] case sends the subcommand itself as the
    address. *)
Definition main (cmd sub : value) : M output :=
  switch cmd
    [ ("send", send);
      ("contacts",
       switch sub
         [ ("list", api "GET" "/marketing/contacts" None);
           ("add",
            let contact := put_flags args [("email", json_of (get args "email"))]
                             [("first_name", "first-name"); ("last_name", "last-name")] in
            let body := [("contacts", JArr [JObj contact])] in
            await body := lift (put_split args "list_ids" "list-ids" JStr body) in
            api "PUT" "/marketing/contacts" (Some (JObj body)));
           ("search",
            api "POST" "/marketing/contacts/search"
                (Some (JObj [("query", json_of (get args "query"))]))) ]
         (ret (Error "Unknown contacts subcommand. Use: list, add, search")));
      ("campaigns",
       switch sub
         [ ("list", filtered "/marketing/campaigns?" [("page_size", "limit")]);
           ("get", api "GET" ("/marketing/campaigns/" ++ to_string (rest 0)) None) ]
         (ret (Error "Unknown campaigns subcommand. Use: list, get")));
      ("stats",
       switch sub
         [ ("get",
            filtered "/stats?" [("start_date", "start-date"); ("end_date", "end-date")]) ]
         (ret (Error "Unknown stats subcommand. Use: get")));
      ("bounces",
       switch sub
         [ ("list",
            filtered "/suppression/bounces?"
                     [ ("start_time", "start-time"); ("end_time", "end-time");
                       ("limit", "limit") ]) ]
         (ret (Error "Unknown bounces subcommand. Use: list")));
      ("spam-reports",
       switch sub
         [ ("list",
            filtered "/suppression/spam_reports?"
                     [ ("start_time", "start-time"); ("end_time", "end-time");
                       ("limit", "limit") ]) ]
         (ret (Error "Unknown spam-reports subcommand. Use: list")));
      ("validate",
       switch sub
         [ ("email",
            api "POST" "/validations/email"
                (Some (JObj [("email", json_of (or_else (get args "email") (rest 0)))]))) ]
         (api "POST" "/validations/email" (Some (JObj [("email", json_of sub)])))) ]
    (ret (ErrorUsage "Unknown command" usage)).

End Script.

Definition tool : Host.tool := {| Host.gate := gate; Host.main := main |}.

End Sendgrid.

(** ** amplitude *)

Module Amplitude.

Definition INGESTION_URL : string := "https://api2.amplitude.com".
Definition QUERY_URL : string := "https://amplitude.com/api/2".

Definition gate (e : gmap string string) : option string :=
  if negb (truthy (getenv e "AMPLITUDE_API_KEY"))
  then Some "AMPLITUDE_API_KEY environment variable required"
  else None.

Definition usage : list (string * string) :=
  [ ("track", "track [event --user-id <id> --event-type <type> [--properties <json>] | batch --events <json>]");
    ("users", "users activity --user-id <id>");
    ("export", "export events --start <YYYYMMDDThh> --end <YYYYMMDDThh>");
    ("retention", "retention get --start <YYYYMMDD> --end <YYYYMMDD> [--event <type>]") ].

Section Script.

Context (rt : runtime) (w : world) (args : gmap string value).

Definition API_KEY : value := getenv (env w) "AMPLITUDE_API_KEY".
Definition SECRET_KEY : value := getenv (env w) "AMPLITUDE_SECRET_KEY".

Definition ingestApi (method path : string) (body : option json) : M output :=
  if truthy (get args "dry-run") then
    ret (DryRun {| d_method := method; d_url := INGESTION_URL ++ path;
                   d_headers := [("Content-Type", "application/json")];
                   d_body := body |})
  else
    await res := fetch w {| r_method := method; r_url := INGESTION_URL ++ path;
                            r_headers := [("Content-Type", "application/json")];
                            r_body := option_map JsonBody body |} in
    ret (read_body res).

(** [params] is a [URLSearchParams] object at every call, hence truthy. *)
Definition queryApi (method path : string) (params : list (string * string)) : M output :=
  if negb (truthy SECRET_KEY) then
    ret (Error "AMPLITUDE_SECRET_KEY required for query/export operations")
  else
    let url := QUERY_URL ++ path ++ "?" ++ form_urlencode rt params in
    if truthy (get args "dry-run") then
      ret (DryRun {| d_method := method; d_url := url;
                     d_headers := [ ("Authorization", "***");
                                    ("Content-Type", "application/json") ];
                     d_body := None |})
    else
      let auth := base64 rt (to_string API_KEY ++ ":" ++ to_string SECRET_KEY) in
      await res := fetch w {| r_method := method; r_url := url;
                              r_headers := [ ("Authorization", "Basic " ++ auth);
                                             ("Content-Type", "application/json") ];
                              r_body := None |} in
      ret (read_body res).

(** [--start] and [--end], required with the example given, as the first
    two parameters *)
Definition period (start_message end_message : string)
    (rest : list (string * string) -> M output) : M output :=
  required (get args "start") start_message
    (required (get args "end") end_message
       (let params := params_set [] "start" (to_string (get args "start")) in
        let params := params_set params "end" (to_string (get args "end")) in
        rest params)).

Definition main (cmd sub : value) : M output :=
  switch cmd
    [ ("track",
       switch sub
         [ ("event",
            required (get args "user-id") "--user-id required"
              (required (get args "event-type") "--event-type required"
                 (let event := [ ("user_id", json_of (get args "user-id"));
                                 ("event_type", json_of (get args "event-type")) ] in
                  await event := lift (put_parsed rt args "event_properties" "properties"
                                                  event) in
                  ingestApi "POST" "/2/httpapi"
                            (Some (JObj [ ("api_key", json_of API_KEY);
                                          ("events", JArr [JObj event]) ])))));
           ("batch",
            required (get args "events") "--events required (JSON array)"
              (await events := lift (JSON_parse rt (to_string (get args "events"))) in
               ingestApi "POST" "/batch"
                         (Some (JObj [ ("api_key", json_of API_KEY);
                                       ("events", events) ])))) ]
         (ret (Error "Unknown track subcommand. Use: event, batch")));
      ("users",
       switch sub
         [ ("activity",
            required (get args "user-id") "--user-id required"
              (let params := params_set [] "user" (to_string (get args "user-id")) in
               queryApi "GET" "/useractivity" params)) ]
         (ret (Error "Unknown users subcommand. Use: activity")));
      ("export",
       switch sub
         [ ("events",
            period "--start required (e.g. 20240101T00)" "--end required (e.g. 20240131T23)"
                   (fun params => queryApi "GET" "/export" params)) ]
         (ret (Error "Unknown export subcommand. Use: events")));
      ("retention",
       switch sub
         [ ("get",
            period "--start required (e.g. 20240101)" "--end required (e.g. 20240131)"
                   (fun params =>
                      let params :=
                        set_if (get args "event") "e"
                               (JSON_stringify rt
                                  (JObj [("event_type", json_of (get args "event"))]))
                               params in
                      queryApi "GET" "/retention" params)) ]
         (ret (Error "Unknown retention subcommand. Use: get"))) ]
    (ret (ErrorUsage "Unknown command" usage)).

End Script.

Definition tool : Host.tool := {| Host.gate := gate; Host.main := main |}.

End Amplitude.

(** ** typeform *)

Module Typeform.

Definition BASE_URL : string := "https://api.typeform.com".

Definition gate (e : gmap string string) : option string :=
  if negb (truthy (getenv e "TYPEFORM_API_KEY"))
  then Some "TYPEFORM_API_KEY environment variable required"
  else None.

Definition usage : list (string * string) :=
  [ ("forms", "forms [list | get --id <id> | create --title <title> | update --id <id> --title <title> | delete --id <id>]");
    ("responses", "responses [list --id <form_id> | delete --id <form_id> --response-ids <id1,id2>]");
    ("webhooks", "webhooks [list --id <form_id> | get --id <form_id> --tag <tag> | create --id <form_id> --tag <tag> --url <url> | delete --id <form_id> --tag <tag>]");
    ("themes", "themes [list | get --id <id> | create --name <name> | delete --id <id>]");
    ("images", "images [list | get --id <id>]");
    ("workspaces", "workspaces [list | get --id <id>]");
    ("options", "--page-size <n> --page <n> --since <iso> --until <iso> --query <text>") ].

Section Script.

Context (rt : runtime) (w : world) (args : gmap string value).

Definition API_KEY : value := getenv (env w) "TYPEFORM_API_KEY".

Definition api (method path : string) (body : option json) : M output :=
  if truthy (get args "dry-run") then
    ret (DryRun {| d_method := method; d_url := BASE_URL ++ path;
                   d_headers := [ ("Authorization", "***");
                                  ("Content-Type", "application/json");
                                  ("Accept", "application/json") ];
                   d_body := body |})
  else
    await res := fetch w {| r_method := method; r_url := BASE_URL ++ path;
                            r_headers := [ ("Authorization", "Bearer " ++ to_string API_KEY);
                                           ("Content-Type", "application/json");
                                           ("Accept", "application/json") ];
                            r_body := option_map JsonBody body |} in
    ret (read_body res).

(** [pageSize = args['page-size'] ? Number(args['page-size']) : undefined]
    and [if (pageSize) params.set('page_size', String(pageSize))] *)
Definition page_size (params : list (string * string)) : list (string * string) :=
  if truthy (get args "page-size")
     && number_truthy (String_of_Number rt (get args "page-size"))
  then params_set params "page_size" (String_of_Number rt (get args "page-size"))
  else params.

Definition listing (path : string) (entries : list (string * string)) : M output :=
  let params := set_flags args (page_size []) entries in
  let qs := form_urlencode rt params in
  api "GET" (path ++ query_suffix qs) None.

Definition by_id (message method : string) (path : string -> string) (body : option json)
  : M output :=
  let id := get args "id" in
  required id message (api method (path (to_string id)) body).

Definition webhook (method : string) : M output :=
  let id := get args "id" in
  let tag := get args "tag" in
  required_all [id; tag] "--id (form ID) and --tag required"
    (api method ("/forms/" ++ to_string id ++ "/webhooks/" ++ to_string tag) None).

Definition main (cmd sub : value) : M output :=
  switch cmd
    [ ("forms",
       switch sub
         [ ("list",
            listing "/forms" [ ("page", "page"); ("workspace_id", "workspace-id");
                               ("search", "search") ]);
           ("get", by_id "--id required (form ID)" "GET" (fun id => "/forms/" ++ id) None);
           ("create",
            let title := get args "title" in
            required title "--title required"
              (let body := [("title", json_of title)] in
               let body :=
                 put_if (get args "workspace-id") "workspace"
                        (JObj [("href", JStr (BASE_URL ++ "/workspaces/"
                                              ++ to_string (get args "workspace-id")))])
                        body in
               api "POST" "/forms" (Some (JObj body))));
           ("update",
            by_id "--id required (form ID)" "PUT" (fun id => "/forms/" ++ id)
                  (Some (JObj (put_flags args [] [("title", "title")]))));
           ("delete",
            by_id "--id required (form ID)" "DELETE" (fun id => "/forms/" ++ id) None) ]
         (ret (Error "Unknown forms subcommand. Use: list, get, create, update, delete")));
      ("responses",
       switch sub
         [ ("list",
            let id := get args "id" in
            required id "--id required (form ID)"
              (listing ("/forms/" ++ to_string id ++ "/responses")
                       [ ("since", "since"); ("until", "until"); ("after", "after");
                         ("before", "before"); ("response_type", "response-type");
                         ("query", "query"); ("fields", "fields"); ("sort", "sort") ]));
           ("delete",
            let id := get args "id" in
            required id "--id required (form ID)"
              (let responseIds := get args "response-ids" in
               required responseIds "--response-ids required (comma-separated)"
                 (api "DELETE" ("/forms/" ++ to_string id
                                ++ "/responses?included_response_ids="
                                ++ to_string responseIds) None))) ]
         (ret (Error "Unknown responses subcommand. Use: list, delete")));
      ("webhooks",
       switch sub
         [ ("list",
            by_id "--id required (form ID)" "GET"
                  (fun id => "/forms/" ++ id ++ "/webhooks") None);
           ("get", webhook "GET");
           ("create",
            let id := get args "id" in
            let tag := get args "tag" in
            let url := get args "url" in
            required_all [id; tag; url] "--id (form ID), --tag, and --url required"
              (let body := [ ("url", json_of url);
                             ("enabled",
                              JBool (negb (value_is (get args "enabled") "false"))) ] in
               api "PUT" ("/forms/" ++ to_string id ++ "/webhooks/" ++ to_string tag)
                   (Some (JObj body))));
           ("delete", webhook "DELETE") ]
         (ret (Error "Unknown webhooks subcommand. Use: list, get, create, delete")));
      ("themes",
       switch sub
         [ ("list", listing "/themes" [("page", "page")]);
           ("get", by_id "--id required (theme ID)" "GET" (fun id => "/themes/" ++ id) None);
           ("create",
            let name := get args "name" in
            required name "--name required"
              (api "POST" "/themes"
                   (Some (JObj (put_flags args [("name", json_of name)]
                                  [("font", "font")])))));
           ("delete",
            by_id "--id required (theme ID)" "DELETE" (fun id => "/themes/" ++ id) None) ]
         (ret (Error "Unknown themes subcommand. Use: list, get, create, delete")));
      ("images",
       switch sub
         [ ("list", api "GET" "/images" None);
           ("get", by_id "--id required (image ID)" "GET" (fun id => "/images/" ++ id) None) ]
         (ret (Error "Unknown images subcommand. Use: list, get")));
      ("workspaces",
       switch sub
         [ ("list", listing "/workspaces" [("page", "page"); ("search", "search")]);
           ("get",
            by_id "--id required (workspace ID)" "GET" (fun id => "/workspaces/" ++ id)
                  None) ]
         (ret (Error "Unknown workspaces subcommand. Use: list, get"))) ]
    (ret (ErrorUsage "Unknown command" usage)).

End Script.

Definition tool : Host.tool := {| Host.gate := gate; Host.main := main |}.

End Typeform.

(** ** wistia *)

Module Wistia.

Definition BASE_URL : string := "https://api.wistia.com/v1".

Definition gate (e : gmap string string) : option string :=
  if negb (truthy (getenv e "WISTIA_API_KEY"))
  then Some "WISTIA_API_KEY environment variable required"
  else None.

Definition usage : list (string * string) :=
  [ ("projects", "projects [list | get --id <id> | create --name <name> | update --id <id> --name <name> | delete --id <id>]");
    ("medias", "medias [list [--project <id>] | get --id <id> | update --id <id> --name <name> | delete --id <id> | copy --id <id> [--target-project <id>] | stats --id <id>]");
    ("stats", "stats [account | project --id <id> | media --id <id> | media-by-date --id <id> [--start <date> --end <date>] | engagement --id <id> | visitors | visitor --key <key> | events [--media-id <id>]]");
    ("account", "account");
    ("captions", "captions [list --id <media-id> | create --id <media-id> --language <lang>]");
    ("options", "--page <n> --per-page <n>") ].

Definition quote : string := String (ascii_of_nat 34) EmptyString.

Section Script.

Context (rt : runtime) (w : world) (args : gmap string value).

Definition API_KEY : value := getenv (env w) "WISTIA_API_KEY".

Definition api (method path : string) (body : option json) : M output :=
  let auth := "Basic " ++ base64 rt (to_string API_KEY ++ ":") in
  if truthy (get args "dry-run") then
    ret (DryRun {| d_method := method; d_url := BASE_URL ++ path;
                   d_headers := [ ("Authorization", "***");
                                  ("Content-Type", "application/json");
                                  ("Accept", "application/json") ];
                   d_body := body |})
  else
    await res := fetch w {| r_method := method; r_url := BASE_URL ++ path;
                            r_headers := [ ("Authorization", auth);
                                           ("Content-Type", "application/json");
                                           ("Accept", "application/json") ];
                            r_body := option_map JsonBody body |} in
    ret (read_body res).

(** [String(page)] with [page = args.page ? Number(args.page) : 1] *)
Definition page : string :=
  if truthy (get args "page") then String_of_Number rt (get args "page") else "1".

Definition perPage : string :=
  if truthy (get args "per-page") then String_of_Number rt (get args "per-page") else "25".

Definition paged (path : string) (entries : list (string * string)) : M output :=
  let params := [("page", page); ("per_page", perPage)] in
  let params := set_flags args params entries in
  api "GET" (path ++ form_urlencode rt params) None.

Definition by_id (message method : string) (path : string -> string) (body : option json)
  : M output :=
  let id := get args "id" in
  required id message (api method (path (to_string id)) body).

Definition project : string := "--id required (project hashed ID)".
Definition media : string := "--id required (media hashed ID)".

(** [fs.readFileSync(path, 'utf8')]: a flag without a value is [true],
    which is no path. *)
Definition readFileSync (path : value) : completion string :=
  match path with
  | VStr p => files w p
  | _ =>
      Throw ("The " ++ quote ++ "path" ++ quote
             ++ " argument must be of type string or an instance of Buffer or URL. Received "
             ++ match path with
                | VTrue => "type boolean (true)"
                | VUndefined => "undefined"
                | _ => "an instance of Array"
                end)
  end.

Definition main (cmd sub : value) : M output :=
  switch cmd
    [ ("projects",
       switch sub
         [ ("list",
            api "GET" ("/projects.json?page=" ++ page ++ "&per_page=" ++ perPage) None);
           ("get", by_id project "GET" (fun id => "/projects/" ++ id ++ ".json") None);
           ("create",
            let name := get args "name" in
            required name "--name required"
              (let body := [("name", json_of name)] in
               api "POST" "/projects.json"
                   (Some (JObj (put_if (get args "public") "public" (JBool true) body)))));
           ("update",
            by_id project "PUT" (fun id => "/projects/" ++ id ++ ".json")
                  (Some (JObj (put_flags args [] [("name", "name")]))));
           ("delete", by_id project "DELETE" (fun id => "/projects/" ++ id ++ ".json") None) ]
         (ret (Error "Unknown projects subcommand. Use: list, get, create, update, delete")));
      ("medias",
       switch sub
         [ ("list",
            paged "/medias.json?"
                  [("project_id", "project"); ("name", "name"); ("type", "type")]);
           ("get", by_id media "GET" (fun id => "/medias/" ++ id ++ ".json") None);
           ("update",
            by_id media "PUT" (fun id => "/medias/" ++ id ++ ".json")
                  (Some (JObj (put_flags args []
                                 [("name", "name"); ("description", "description")]))));
           ("delete", by_id media "DELETE" (fun id => "/medias/" ++ id ++ ".json") None);
           ("copy",
            by_id media "POST" (fun id => "/medias/" ++ id ++ "/copy.json")
                  (Some (JObj (put_flags args [] [("project_id", "target-project")]))));
           ("stats", by_id media "GET" (fun id => "/medias/" ++ id ++ "/stats.json") None) ]
         (ret (Error "Unknown medias subcommand. Use: list, get, update, delete, copy, stats")));
      ("stats",
       switch sub
         [ ("account", api "GET" "/stats/account.json" None);
           ("project",
            by_id project "GET" (fun id => "/stats/projects/" ++ id ++ ".json") None);
           ("media", by_id media "GET" (fun id => "/stats/medias/" ++ id ++ ".json") None);
           ("media-by-date",
            let params := set_flags args [] [("start_date", "start"); ("end_date", "end")] in
            let qs := query_suffix (form_urlencode rt params) in
            by_id media "GET" (fun id => "/stats/medias/" ++ id ++ "/by_date.json" ++ qs)
                  None);
           ("engagement",
            by_id media "GET" (fun id => "/stats/medias/" ++ id ++ "/engagement.json") None);
           ("visitors", paged "/stats/visitors.json?" [("search", "search")]);
           ("visitor",
            let key := get args "key" in
            required key "--key required (visitor key)"
              (api "GET" ("/stats/visitors/" ++ to_string key ++ ".json") None));
           ("events", paged "/stats/events.json?" [("media_id", "media-id")]) ]
         (ret (Error "Unknown stats subcommand. Use: account, project, media, media-by-date, engagement, visitors, visitor, events")));
      ("account", api "GET" "/account.json" None);
      ("captions",
       switch sub
         [ ("list", by_id media "GET" (fun id => "/medias/" ++ id ++ "/captions.json") None);
           ("create",
            let id := get args "id" in
            let language := get args "language" in
            required id media
              (required language "--language required (e.g. eng)"
                 (let body := [("language", json_of language)] in
                  await body :=
                    (if truthy (get args "srt-file")
                     then await caption := lift (readFileSync (get args "srt-file")) in
                          ret (assoc_set body "caption_file" (JStr caption))
                     else ret body) in
                  api "POST" ("/medias/" ++ to_string id ++ "/captions.json")
                      (Some (JObj body))))) ]
         (ret (Error "Unknown captions subcommand. Use: list, create"))) ]
    (ret (ErrorUsage "Unknown command" usage)).

End Script.

Definition tool : Host.tool := {| Host.gate := gate; Host.main := main |}.

End Wistia.

(** ** zapier *)

Module Zapier.

Definition BASE_URL : string := "https://api.zapier.com/v1".

Definition gate (e : gmap string string) : option string :=
  if negb (truthy (getenv e "ZAPIER_API_KEY"))
  then Some "ZAPIER_API_KEY environment variable required"
  else None.

Definition usage : list (string * string) :=
  [ ("zaps", "zaps [list|get|on|off] [--id <zap_id>]");
    ("tasks", "tasks [list] --zap-id <zap_id>");
    ("profile", "profile [me]");
    ("hooks", "hooks [send] --url <webhook_url> --data <json>") ].

Section Script.

Context (rt : runtime) (w : world) (args : gmap string value).

Definition API_KEY : value := getenv (env w) "ZAPIER_API_KEY".

Definition api (method path : string) (body : option json) : M output :=
  if truthy (get args "dry-run") then
    ret (DryRun {| d_method := method; d_url := BASE_URL ++ path;
                   d_headers := [ ("X-API-Key", "***");
                                  ("Content-Type", "application/json") ];
                   d_body := body |})
  else
    await res := fetch w {| r_method := method; r_url := BASE_URL ++ path;
                            r_headers := [ ("X-API-Key", to_string API_KEY);
                                           ("Content-Type", "application/json") ];
                            r_body := option_map JsonBody body |} in
    ret (read_body res).

Definition webhookPost (url : value) (data : json) : M output :=
  if truthy (get args "dry-run") then
    ret (DryRun {| d_method := "POST"; d_url := to_string url;
                   d_headers := [("Content-Type", "application/json")];
                   d_body := given data |})
  else
    await res := fetch w {| r_method := "POST"; r_url := to_string url;
                            r_headers := [("Content-Type", "application/json")];
                            r_body := Some (JsonBody data) |} in
    ret (read_body res).

Definition by_id (method : string) (path : string -> string) : M output :=
  required (get args "id") "--id required"
    (api method (path (to_string (get args "id"))) None).

Definition main (cmd sub : value) : M output :=
  switch cmd
    [ ("zaps",
       switch sub
         [ ("list", api "GET" "/zaps" None);
           ("get", by_id "GET" (fun id => "/zaps/" ++ id));
           ("on", by_id "POST" (fun id => "/zaps/" ++ id ++ "/on"));
           ("off", by_id "POST" (fun id => "/zaps/" ++ id ++ "/off")) ]
         (ret (Error "Unknown zaps subcommand. Use: list, get, on, off")));
      ("tasks",
       switch sub
         [ ("list",
            required (get args "zap-id") "--zap-id required"
              (api "GET" ("/zaps/" ++ to_string (get args "zap-id") ++ "/tasks") None)) ]
         (ret (Error "Unknown tasks subcommand. Use: list")));
      ("profile",
       switch sub
         [ ("me", api "GET" "/profiles/me" None) ]
         (ret (Error "Unknown profile subcommand. Use: me")));
      ("hooks",
       switch sub
         [ ("send",
            required (get args "url") "--url required"
              (required (get args "data") "--data required (JSON string)"
                 match JSON_parse rt (to_string (get args "data")) with
                 | Normal data => webhookPost (get args "url") data
                 | Throw _ => ret (Error "Invalid JSON for --data")
                 end)) ]
         (ret (Error "Unknown hooks subcommand. Use: send"))) ]
    (ret (ErrorUsage "Unknown command" usage)).

End Script.

Definition tool : Host.tool := {| Host.gate := gate; Host.main := main |}.

End Zapier.

(** ** optimizely *)

Module Optimizely.

Definition BASE_URL : string := "https://api.optimizely.com/v2".

Definition gate (e : gmap string string) : option string :=
  if negb (truthy (getenv e "OPTIMIZELY_API_KEY"))
  then Some "OPTIMIZELY_API_KEY environment variable required"
  else None.

Definition usage : list (string * string) :=
  [ ("projects", "projects [list | get --id <id> | create --name <name>]");
    ("experiments", "experiments [list --project-id <id> | get --id <id> | create --project-id <id> --name <name> | update --id <id> --status <status> | results --id <id> | archive --id <id>]");
    ("campaigns", "campaigns [list --project-id <id> | get --id <id> | results --id <id>]");
    ("audiences", "audiences [list --project-id <id> | get --id <id>]");
    ("events", "events list --project-id <id>");
    ("pages", "pages list --project-id <id>");
    ("options", "--page <n> --per-page <n> --status <not_started|running|paused|archived>") ].

Section Script.

Context (rt : runtime) (w : world) (args : gmap string value).

Definition API_KEY : value := getenv (env w) "OPTIMIZELY_API_KEY".

Definition api (method path : string) (body : option json) : M output :=
  if truthy (get args "dry-run") then
    ret (DryRun {| d_method := method; d_url := BASE_URL ++ path;
                   d_headers := [ ("Authorization", "***");
                                  ("Content-Type", "application/json");
                                  ("Accept", "application/json") ];
                   d_body := body |})
  else
    await res := fetch w {| r_method := method; r_url := BASE_URL ++ path;
                            r_headers := [ ("Authorization", "Bearer " ++ to_string API_KEY);
                                           ("Content-Type", "application/json");
                                           ("Accept", "application/json") ];
                            r_body := option_map JsonBody body |} in
    ret (read_body res).

Definition projectId : value := get args "project-id".

(** [String(page)] with [page = args.page ? Number(args.page) : 1] *)
Definition page : string :=
  if truthy (get args "page") then String_of_Number rt (get args "page") else "1".

Definition perPage : string :=
  if truthy (get args "per-page") then String_of_Number rt (get args "per-page") else "25".

Definition by_id (method : string) (path : string -> string) (body : option json)
  : M output :=
  let id := get args "id" in
  required id "--id required" (api method (path (to_string id)) body).

Definition of_project (path : string) : M output :=
  required projectId "--project-id required"
    (api "GET" (path ++ "?project_id=" ++ to_string projectId ++ "&page=" ++ page
                ++ "&per_page=" ++ perPage) None).

Definition traffic (body : list (string * json)) : list (string * json) :=
  put_if (get args "traffic-allocation") "traffic_allocation"
         (JNumberOf "Number" (get args "traffic-allocation")) body.

Definition main (cmd sub : value) : M output :=
  switch cmd
    [ ("projects",
       switch sub
         [ ("list", api "GET" ("/projects?page=" ++ page ++ "&per_page=" ++ perPage) None);
           ("get", by_id "GET" (fun id => "/projects/" ++ id) None);
           ("create",
            let name := get args "name" in
            required name "--name required"
              (api "POST" "/projects"
                   (Some (JObj (put_flags args [("name", json_of name)]
                                  [("platform", "platform")]))))) ]
         (ret (Error "Unknown projects subcommand. Use: list, get, create")));
      ("experiments",
       switch sub
         [ ("list",
            required projectId "--project-id required"
              (let params := params_of [ ("project_id", projectId); ("page", VStr page);
                                         ("per_page", VStr perPage) ] in
               let params := set_flags args params [("status", "status")] in
               api "GET" ("/experiments?" ++ form_urlencode rt params) None));
           ("get", by_id "GET" (fun id => "/experiments/" ++ id) None);
           ("create",
            required projectId "--project-id required"
              (let name := get args "name" in
               required name "--name required"
                 (let body := [ ("project_id", JNumberOf "Number" projectId);
                                ("name", json_of name);
                                ("type", json_of (or_else (get args "type") (VStr "a/b")));
                                ("status", JStr "not_started") ] in
                  api "POST" "/experiments" (Some (JObj (traffic body))))));
           ("update",
            by_id "PATCH" (fun id => "/experiments/" ++ id)
                  (Some (JObj (traffic (put_flags args []
                                          [("name", "name"); ("status", "status")])))));
           ("results",
            let params := set_flags args []
                            [("start_time", "start-time"); ("end_time", "end-time")] in
            let qs := form_urlencode rt params in
            by_id "GET" (fun id => "/experiments/" ++ id ++ "/results" ++ query_suffix qs)
                  None);
           ("archive", by_id "DELETE" (fun id => "/experiments/" ++ id) None) ]
         (ret (Error "Unknown experiments subcommand. Use: list, get, create, update, results, archive")));
      ("campaigns",
       switch sub
         [ ("list", of_project "/campaigns");
           ("get", by_id "GET" (fun id => "/campaigns/" ++ id) None);
           ("results", by_id "GET" (fun id => "/campaigns/" ++ id ++ "/results") None) ]
         (ret (Error "Unknown campaigns subcommand. Use: list, get, results")));
      ("audiences",
       switch sub
         [ ("list", of_project "/audiences");
           ("get", by_id "GET" (fun id => "/audiences/" ++ id) None) ]
         (ret (Error "Unknown audiences subcommand. Use: list, get")));
      ("events",
       switch sub
         [ ("list", of_project "/events") ]
         (ret (Error "Unknown events subcommand. Use: list")));
      ("pages",
       switch sub
         [ ("list", of_project "/pages") ]
         (ret (Error "Unknown pages subcommand. Use: list"))) ]
    (ret (ErrorUsage "Unknown command" usage)).

End Script.

Definition tool : Host.tool := {| Host.gate := gate; Host.main := main |}.

End Optimizely.

(** ** Inputs for the worked examples

    A runtime that leaves text as it is: enough where the text holds only
    unreserved characters, or where the example does not reach the call. *)

Module Sample.

Definition runtime : Host.runtime :=
  {| form_urlencode := fun ps => join "&" (map (fun p => fst p ++ "=" ++ snd p) ps);
     encodeURIComponent := fun s => s;
     base64 := fun s => s;
     trim := fun s => s;
     String_of_Number := to_string;
     JSON_stringify := json_to_string;
     JSON_parse := fun _ => Throw "Unexpected token";
     number_text := fun _ v => to_string v;
     text_op := fun _ s => s |}.

(** The same runtime with a [JSON.parse] that reads the text of the empty
    array, and nothing else. *)
Definition reads_empty_array : Host.runtime :=
  {| form_urlencode := form_urlencode runtime;
     encodeURIComponent := encodeURIComponent runtime;
     base64 := base64 runtime;
     trim := trim runtime;
     String_of_Number := String_of_Number runtime;
     JSON_stringify := JSON_stringify runtime;
     JSON_parse := fun s => if String.eqb s "[]" then Normal (JArr [])
                            else Throw "Unexpected token";
     number_text := number_text runtime;
     text_op := text_op runtime |}.

(** A network that answers nothing: every request fails. *)
Definition offline (r : request) : option response := None.

(** A network that answers every request with the JSON text [true]. *)
Definition online (r : request) : option response :=
  Some {| status := 200; ok := true; text := "true";
          parsed := Normal (JBool true) |}.

Definition world_at (e : gmap string string) (clock : string)
    (network : request -> option response) : world :=
  {| env := e; now_iso := clock; month_ago_iso := clock; net := network;
     files := fun _ => Throw "ENOENT: no such file or directory" |}.

(** A network that answers every request with the JSON text [{}]. *)
Definition empty_object : response :=
  {| status := 200; ok := true; text := "{}"; parsed := Normal (JObj []) |}.

Definition answers_empty_object (r : request) : option response := Some empty_object.

Definition noon : string := "2024-05-01T12:00:00.000Z".
Definition a_second_later : string := "2024-05-01T12:00:01.000Z".

Definition klaviyo_world (clock : string) (network : request -> option response) : world :=
  world_at {[ "KLAVIYO_API_KEY" := "pk_live_1" ]} clock network.

(** Only the query credentials' key is set: no ingestion token, no secret. *)
Definition mixpanel_key_only : world :=
  world_at {[ "MIXPANEL_API_KEY" := "key_1" ]} noon offline.

Definition mixpanel_token_only : world :=
  world_at {[ "MIXPANEL_TOKEN" := "tok_live_1" ]} noon offline.

Definition only_dry_run : gmap string value := {[ "dry-run" := VTrue ]}.

(** The parse of [profiles get --id P1 --dry-run]. *)
Definition get_profile_dry_run : gmap string value :=
  {[ "_" := VArr ["profiles"; "get"]; "id" := VStr "P1"; "dry-run" := VTrue ]}.

Definition hotjar_refused : world :=
  world_at {[ "HOTJAR_CLIENT_ID" := "id_1"; "HOTJAR_CLIENT_SECRET" := "s_1" ]}
           "2024-05-01T12:00:00.000Z" answers_empty_object.

Definition semrush_world : world :=
  world_at {[ "SEMRUSH_API_KEY" := "sk_1" ]} noon online.

End Sample.

(** ** Vocabulary of the properties *)

Module Observations.

(** The state a computation leaves. *)
Definition final {A : Type} (m : M A) (st : state) : state := snd (m st).

(** A computation that neither calls [fetch] nor writes the token slot. *)
Definition quiet {A : Type} (m : M A) : Prop := forall st, final m st = st.

(** The exit of a process stopped by its credential gate. *)
Definition gate_exit (message : string) : exit :=
  {| stdout := []; stderr := [JsonError message]; code := 1;
     argv_parsed := false; fetched := [] |}.

(** An environment variable that is unset or empty. *)
Definition unset (e : gmap string string) (name : string) : Prop :=
  e !! name = None \/ e !! name = Some "".

(** The exit of a process whose [main] returned [result] without calling
    [fetch]: the result on standard output, exit code 0. *)
Definition printed (result : output) : exit :=
  {| stdout := [result]; stderr := []; code := 0;
     argv_parsed := true; fetched := [] |}.

Definition mask : string := "***".

(** The tools that fetch an OAuth token before the request proper. *)
Inductive oauth_tool : Type := oauth_hotjar | oauth_trustpilot.

Definition oauth_tool_of (n : oauth_tool) : tool :=
  match n with
  | oauth_hotjar => Hotjar.tool
  | oauth_trustpilot => Trustpilot.tool
  end.

Definition token_request_of (n : oauth_tool) (rt : runtime) (w : world) : request :=
  match n with
  | oauth_hotjar => Hotjar.token_request rt w
  | oauth_trustpilot => Trustpilot.token_request rt w
  end.

(** The request [r0] occurs at most once in the log of [fetch] calls. *)
Definition at_most_once (r0 : request) (log : list request) : Prop :=
  forall i j, log !! i = Some r0 -> log !! j = Some r0 -> i = j.

(** An answer to the token request that parses as JSON and has no
    [access_token] (or a falsy one). *)
Definition lacks_token (res : response) : Prop :=
  exists data,
    parsed res = Normal data
    /\ (property data "access_token" = Normal None
        \/ exists t, property data "access_token" = Normal (Some t)
                     /\ json_truthy t = false).

(** The exit of a process whose [main] threw [message] after the calls of
    [fetch] in [log]: [main().catch] prints [{error: message}] on standard
    error, nothing goes to standard output, exit code 1. *)
Definition caught (message : string) (log : list request) : exit :=
  {| stdout := []; stderr := [JsonError message]; code := 1;
     argv_parsed := true; fetched := log |}.

(** The message of the error that hotjar throws for a token answer [data]
    without a token:
    [data.error_description || data.error || 'Failed to obtain access token']. *)
Definition token_failure (data : json) : completion string :=
  match property data "error_description", property data "error" with
  | Normal description, Normal error =>
      Normal (json_to_string
                (default JNull
                   (Hotjar.json_or (Hotjar.json_or description error)
                                   (Some (JStr "Failed to obtain access token")))))
  | Throw e, _ | _, Throw e => Throw e
  end.

(** What [api] of trustpilot returns when [getAccessToken] gave it no
    token. *)
Definition no_token : output :=
  Error "TRUSTPILOT_API_SECRET required for private API endpoints".

(** What becomes of a token answer [res] without a token: hotjar throws,
    trustpilot returns [{error}]. *)
Definition refused (n : oauth_tool) (res : response) (o : completion output) : Prop :=
  match n with
  | oauth_hotjar =>
      exists data message,
        parsed res = Normal data /\ token_failure data = Normal message
        /\ o = Throw message
  | oauth_trustpilot => o = Normal no_token
  end.

(** What [main] may leave when started in the initial state: the token
    request at most once in the log, and the outcome of [refused] when the
    answer to it lacked the token. *)
Definition oauth_ok (n : oauth_tool) (rt : runtime) (w : world) (m : M output) : Prop :=
  forall o st',
    m initial = (o, st') ->
    at_most_once (token_request_of n rt w) (requests st')
    /\ (token_request_of n rt w ∈ requests st' ->
        forall res, net w (token_request_of n rt w) = Some res -> lacks_token res ->
        refused n res o).

(** Two worlds that differ at most in what the clock shows. *)
Definition same_but_clock (w1 w2 : world) : Prop :=
  env w1 = env w2 /\ net w1 = net w2 /\ files w1 = files w2.

(** The flags that the handlers of klaviyo check before they call [api],
    in the order of the checks. *)
Definition checked_flags : list (string * string * list string) :=
  [ ("profiles", "get", ["id"]); ("profiles", "create", ["email"]);
    ("profiles", "update", ["id"]);
    ("lists", "get", ["id"]); ("lists", "create", ["name"]);
    ("lists", "delete", ["id"]); ("lists", "add-profiles", ["id"; "profiles"]);
    ("lists", "remove-profiles", ["id"; "profiles"]);
    ("events", "get", ["id"]); ("events", "create", ["metric"; "email"]);
    ("campaigns", "get", ["id"]);
    ("flows", "get", ["id"]); ("flows", "update", ["id"]);
    ("metrics", "get", ["id"]); ("segments", "get", ["id"]);
    ("templates", "get", ["id"]) ].

End Observations.
Import Observations.

(** ** Vocabulary of the further properties *)

Module Behaviour.

(** The tokens that the pairing files as positionals, in order. *)
Definition positionals (evs : list token_event) : list string :=
  flat_map (fun ev => match ev with Positional tok => [tok] | Flag _ _ => [] end) evs.

(** The value that the assignments of [evs] leave under the key [k],
    starting from [init]: the last one counts. *)
Definition flag_value (k : string) (evs : list token_event) (init : value) : value :=
  fold_left (fun acc ev =>
               match ev with
               | Flag key v => if String.eqb key k then v else acc
               | Positional _ => acc
               end) evs init.

(** A flag event assigns a truthy value: [true] or a non-empty string. *)
Definition truthy_event (ev : token_event) : Prop :=
  match ev with
  | Flag _ v => truthy v = true
  | Positional _ => True
  end.

(** Five of the tools by name. *)
Inductive tool_name : Type := klaviyo | mixpanel | semrush | trustpilot | hotjar.

Definition tool_of (n : tool_name) : tool :=
  match n with
  | klaviyo => Klaviyo.tool
  | mixpanel => Mixpanel.tool
  | semrush => Semrush.tool
  | trustpilot => Trustpilot.tool
  | hotjar => Hotjar.tool
  end.

(** The scripts whose calls of [fetch] are counted: those five, and
    tiktok-ads. *)
Inductive script : Type :=
| listed (n : tool_name)
| tiktok_ads.

Definition script_of (s : script) : tool :=
  match s with
  | listed n => tool_of n
  | tiktok_ads => Tiktok.tool
  end.

(** The calls of [fetch] that a process of the script can make: the
    request proper and, for hotjar and trustpilot, the token request
    before it. *)
Definition request_budget (s : script) : nat :=
  match s with
  | listed hotjar | listed trustpilot => 2
  | _ => 1
  end.

(** A computation that adds at most [n] calls of [fetch] to the log,
    whatever the state it starts in. *)
Definition fetches_at_most {A : Type} (n : nat) (m : M A) : Prop :=
  forall st, exists extra,
    requests (final m st) = (requests st ++ extra)%list /\ List.length extra <= n.

(** The scripts that send their one request with a credential of the
    environment in a header (or, for the ingestion commands of mixpanel, in
    the body), and the name of that header. *)
Inductive direct_script : Type := direct_klaviyo | direct_mixpanel | direct_tiktok.

Definition direct_script_of (s : direct_script) : tool :=
  match s with
  | direct_klaviyo => Klaviyo.tool
  | direct_mixpanel => Mixpanel.tool
  | direct_tiktok => Tiktok.tool
  end.

Definition credential_header_of (s : direct_script) : string :=
  match s with
  | direct_klaviyo | direct_mixpanel => "Authorization"
  | direct_tiktok => "Access-Token"
  end.

(** The value of that header in a real request:
    [`Klaviyo-API-Key ${API_KEY}`], the basic authentication of mixpanel,
    [ACCESS_TOKEN]. *)
Definition credential_value_of (s : direct_script) (rt : runtime) (w : world) : string :=
  match s with
  | direct_klaviyo => "Klaviyo-API-Key " ++ to_string (Klaviyo.API_KEY w)
  | direct_mixpanel =>
      "Basic " ++ base64 rt (to_string (Mixpanel.API_KEY w) ++ ":"
                             ++ to_string (Mixpanel.SECRET w))
  | direct_tiktok => to_string (Tiktok.TOKEN w)
  end.

(** The descriptor [d] shows the request [r]: same method, URL and body,
    the same headers in the same order with the same values, except that
    the header named [credential] shows the mask where the request holds
    [secret]. *)
Definition describes (credential secret : string) (d : descriptor) (r : request) : Prop :=
  r_method r = d_method d
  /\ r_url r = d_url d
  /\ r_body r = option_map JsonBody (d_body d)
  /\ Forall2 (fun hr hd =>
                fst hr = fst hd
                /\ (fst hr <> credential -> snd hr = snd hd)
                /\ (fst hr = credential -> snd hd = mask /\ snd hr = secret))
             (r_headers r) (d_headers d).

(** What an executor makes of the answer to its request [r]: the parsed
    body, or the exception of a [fetch] that failed. *)
Definition answer (w : world) (r : request) : completion output :=
  match net w r with
  | Some res => Normal (read_body res)
  | None => Throw "fetch failed"
  end.

(** [m_live] sends the one request that [m_dry] shows: whenever [m_dry]
    returns a descriptor, [m_live] calls [fetch] once, with a request that
    the descriptor describes, and returns the answer. *)
Definition mirrors (w : world) (credential secret : string)
    (m_dry m_live : M output) : Prop :=
  forall st d st',
    m_dry st = (Normal (DryRun d), st') ->
    exists r,
      describes credential secret d r
      /\ m_live st = (answer w r, {| slot := slot st; requests := requests st ++ [r] |}).

(** The row that pairs each column name with the cell under it; a cell
    that is missing or empty reads as the empty string. *)
Fixpoint cells (headers values : list string) : list (string * string) :=
  match headers with
  | [] => []
  | h :: rest => (h, default "" (head values)) :: cells rest (tail values)
  end.

(** [shown] is [sent] with the value [v'] in place of [v] in its one pair
    named [k]. *)
Definition replaces (k v v' : string) (sent shown : list (string * string)) : Prop :=
  exists before after,
    sent = (before ++ (k, v) :: after)%list
    /\ shown = (before ++ (k, v') :: after)%list
    /\ Forall (fun p => fst p <> k) before
    /\ Forall (fun p => fst p <> k) after.

(** The request of semrush for a list of query parameters. *)
Definition semrush_request (rt : runtime) (params : list (string * string)) : request :=
  {| r_method := "GET"; r_url := Semrush.BASE_URL ++ "?" ++ form_urlencode rt params;
     r_headers := []; r_body := None |}.

(** semrush carries its key in the query string: whenever [m_dry] returns
    a descriptor, [m_live] calls [fetch] once, and the URL of the
    descriptor is made of the parameters of the request with the mask in
    place of the key. *)
Definition semrush_mirrors (rt : runtime) (w : world) (m_dry m_live : M output) : Prop :=
  forall st d st',
    m_dry st = (Normal (DryRun d), st') ->
    exists sent shown,
      replaces "key" (to_string (Semrush.API_KEY w)) mask sent shown
      /\ d = {| d_method := "GET";
                d_url := Semrush.BASE_URL ++ "?" ++ form_urlencode rt shown;
                d_headers := []; d_body := None |}
      /\ requests (final m_live st) = (requests st ++ [semrush_request rt sent])%list.

(** A string without the character [c]. *)
Fixpoint free_of (c : ascii) (s : string) : bool :=
  match s with
  | EmptyString => true
  | String a rest => negb (Ascii.eqb a c) && free_of c rest
  end.

(** The commands of trustpilot that call [api] with [bearer]
    authentication. *)
Definition private_endpoints : list (string * string) :=
  [ ("reviews", "private"); ("reviews", "reply"); ("reviews", "delete-reply");
    ("invitations", "create"); ("invitations", "link"); ("invitations", "templates");
    ("tags", "get"); ("tags", "add"); ("tags", "remove") ].

(** The commands of tiktok-ads. *)
Definition tiktok_commands : list (string * string) :=
  [ ("advertiser", "info"); ("campaigns", "list"); ("campaigns", "create");
    ("campaigns", "update-status"); ("adgroups", "list"); ("reports", "get");
    ("audiences", "list") ].

(** The handlers of tiktok-ads that check two flags in one test, with the
    message they give when either is missing. *)
Definition tiktok_paired_flags : list (string * string * (string * string) * string) :=
  [ ("campaigns", "create", ("name", "objective"), "--name and --objective required");
    ("campaigns", "update-status", ("ids", "status"), "--ids and --status required");
    ("reports", "get", ("start-date", "end-date"),
     "--start-date and --end-date required (YYYY-MM-DD)") ].

(** The commands of trustpilot that call [api] with the API key. *)
Definition public_endpoints : list (string * string) :=
  [ ("business", "search"); ("business", "get"); ("business", "profile");
    ("business", "categories"); ("business", "web-links");
    ("reviews", "list"); ("reviews", "get"); ("reviews", "latest") ].

(** The commands of mixpanel by the credentials they need: the token for
    ingestion, the key and the secret for query and export. *)
Definition ingestion_commands : list string := ["track"; "profiles"].
Definition query_commands : list string := ["query"; "funnels"; "retention"; "export"].

(** The commands of hotjar that work on one site. *)
Definition site_commands : list string := ["surveys"; "heatmaps"; "recordings"; "forms"].

(** A handler that, run in a fresh process, returns [{error}] and does
    nothing else. *)
Definition gives_error (m : M output) : Prop :=
  exists message, m initial = (Normal (Error message), initial).

(** A handler that either returns a value and does nothing else, or is one
    call of the kind [calls]. *)
Definition returns_or_calls (calls : M output -> Prop) (m : M output) : Prop :=
  (exists o, m = ret o) \/ calls m.

(** [s] between double quotes. *)
Definition quoted (s : string) : string := String "034" (s ++ String "034" "").

(** A network that answers every request with the JSON text
    [{access_token: tok_1}] (the name and the value in double quotes). *)
Definition grants_token (r : request) : option response :=
  Some {| status := 200; ok := true;
          text := "{" ++ quoted "access_token" ++ ":" ++ quoted "tok_1" ++ "}";
          parsed := Normal (JObj [("access_token", JStr "tok_1")]) |}.

(** hotjar with its credentials set, against that network. *)
Definition hotjar_granted : world :=
  Sample.world_at {[ "HOTJAR_CLIENT_ID" := "id_1"; "HOTJAR_CLIENT_SECRET" := "s_1" ]}
                  Sample.noon grants_token.

End Behaviour.
Import Behaviour.

(** ** The catalogue of the tools

    The forty-seven programs, each with the tables that the properties
    quantify over: the variables its credential gate tests, the commands
    its [main] dispatches on, and its request executors. *)

Module Catalogue.

Inductive cli : Type :=
| activecampaign | adobe_analytics | ahrefs | amplitude | apollo | beehiiv | brevo
| buffer | calendly | clearbit | customer_io | dataforseo | demio | dub | g2 | ga4
| google_ads | google_search_console | hotjar | intercom | keywords_everywhere | kit
| klaviyo | linkedin_ads | livestorm | mailchimp | mention_me | meta_ads | mixpanel
| onesignal | optimizely | paddle | partnerstack | plausible | postmark | resend
| rewardful | savvycal | segment | semrush | sendgrid | tiktok_ads | tolt | trustpilot
| typeform | wistia | zapier.

Definition cli_tool (c : cli) : tool :=
  match c with
  | activecampaign => Activecampaign.tool
  | adobe_analytics => Adobe.tool
  | ahrefs => Ahrefs.tool
  | amplitude => Amplitude.tool
  | apollo => Apollo.tool
  | beehiiv => Beehiiv.tool
  | brevo => Brevo.tool
  | buffer => Buffer.tool
  | calendly => Calendly.tool
  | clearbit => Clearbit.tool
  | customer_io => Customerio.tool
  | dataforseo => Dataforseo.tool
  | demio => Demio.tool
  | dub => Dub.tool
  | g2 => G2.tool
  | ga4 => Ga4.tool
  | google_ads => GoogleAds.tool
  | google_search_console => SearchConsole.tool
  | hotjar => Hotjar.tool
  | intercom => Intercom.tool
  | keywords_everywhere => KeywordsEverywhere.tool
  | kit => Kit.tool
  | klaviyo => Klaviyo.tool
  | linkedin_ads => LinkedinAds.tool
  | livestorm => Livestorm.tool
  | mailchimp => Mailchimp.tool
  | mention_me => MentionMe.tool
  | meta_ads => MetaAds.tool
  | mixpanel => Mixpanel.tool
  | onesignal => Onesignal.tool
  | optimizely => Optimizely.tool
  | paddle => Paddle.tool
  | partnerstack => Partnerstack.tool
  | plausible => Plausible.tool
  | postmark => Postmark.tool
  | resend => Resend.tool
  | rewardful => Rewardful.tool
  | savvycal => Savvycal.tool
  | segment => Segment.tool
  | semrush => Semrush.tool
  | sendgrid => Sendgrid.tool
  | tiktok_ads => Tiktok.tool
  | tolt => Tolt.tool
  | trustpilot => Trustpilot.tool
  | typeform => Typeform.tool
  | wistia => Wistia.tool
  | zapier => Zapier.tool
  end.

(** What [main] assigns to [result] in the [default:] case of the primary
    command: [{ error: 'Unknown command', usage }].  The usage of apollo
    and plausible is an object of objects. *)
Definition unknown_command (c : cli) : output :=
  match c with
  | activecampaign => ErrorUsage "Unknown command" Activecampaign.usage
  | adobe_analytics => ErrorUsage "Unknown command" Adobe.usage
  | ahrefs => ErrorUsage "Unknown command" Ahrefs.usage
  | amplitude => ErrorUsage "Unknown command" Amplitude.usage
  | apollo => Json (JObj [("error", JStr "Unknown command"); ("usage", Apollo.usage)])
  | beehiiv => ErrorUsage "Unknown command" Beehiiv.usage
  | brevo => ErrorUsage "Unknown command" Brevo.usage
  | buffer => ErrorUsage "Unknown command" Buffer.usage
  | calendly => ErrorUsage "Unknown command" Calendly.usage
  | clearbit => ErrorUsage "Unknown command" Clearbit.usage
  | customer_io => ErrorUsage "Unknown command" Customerio.usage
  | dataforseo => ErrorUsage "Unknown command" Dataforseo.usage
  | demio => ErrorUsage "Unknown command" Demio.usage
  | dub => ErrorUsage "Unknown command" Dub.usage
  | g2 => ErrorUsage "Unknown command" G2.usage
  | ga4 => ErrorUsage "Unknown command" Ga4.usage
  | google_ads => ErrorUsage "Unknown command" GoogleAds.usage
  | google_search_console => ErrorUsage "Unknown command" SearchConsole.usage
  | hotjar => ErrorUsage "Unknown command" Hotjar.usage
  | intercom => ErrorUsage "Unknown command" Intercom.usage
  | keywords_everywhere => ErrorUsage "Unknown command" KeywordsEverywhere.usage
  | kit => ErrorUsage "Unknown command" Kit.usage
  | klaviyo => ErrorUsage "Unknown command" Klaviyo.usage
  | linkedin_ads => ErrorUsage "Unknown command" LinkedinAds.usage
  | livestorm => ErrorUsage "Unknown command" Livestorm.usage
  | mailchimp => ErrorUsage "Unknown command" Mailchimp.usage
  | mention_me => ErrorUsage "Unknown command" MentionMe.usage
  | meta_ads => ErrorUsage "Unknown command" MetaAds.usage
  | mixpanel => ErrorUsage "Unknown command" Mixpanel.usage
  | onesignal => ErrorUsage "Unknown command" Onesignal.usage
  | optimizely => ErrorUsage "Unknown command" Optimizely.usage
  | paddle => ErrorUsage "Unknown command" Paddle.usage
  | partnerstack => ErrorUsage "Unknown command" Partnerstack.usage
  | plausible => Json (JObj [("error", JStr "Unknown command"); ("usage", Plausible.usage)])
  | postmark => ErrorUsage "Unknown command" Postmark.usage
  | resend => ErrorUsage "Unknown command" Resend.usage
  | rewardful => ErrorUsage "Unknown command" Rewardful.usage
  | savvycal => ErrorUsage "Unknown command" Savvycal.usage
  | segment => ErrorUsage "Unknown command" Segment.usage
  | semrush => ErrorUsage "Unknown command" Semrush.usage
  | sendgrid => ErrorUsage "Unknown command" Sendgrid.usage
  | tiktok_ads => ErrorUsage "Unknown command" Tiktok.usage
  | tolt => ErrorUsage "Unknown command" Tolt.usage
  | trustpilot => ErrorUsage "Unknown command" Trustpilot.usage
  | typeform => ErrorUsage "Unknown command" Typeform.usage
  | wistia => ErrorUsage "Unknown command" Wistia.usage
  | zapier => ErrorUsage "Unknown command" Zapier.usage
  end.

(** The credential gate of a script, as the tests it makes in order: each
    test names alternative groups of environment variables and fails, with
    its message, when no group is set in full. *)
Definition credentials (c : cli) : list (list (list string) * string) :=
  match c with
  | activecampaign =>
      [ ([["ACTIVECAMPAIGN_API_KEY"]],
         "ACTIVECAMPAIGN_API_KEY environment variable required");
        ([["ACTIVECAMPAIGN_API_URL"]],
         "ACTIVECAMPAIGN_API_URL environment variable required (e.g. https://yourname.api-us1.com)") ]
  | adobe_analytics =>
      [ ([["ADOBE_ACCESS_TOKEN"; "ADOBE_CLIENT_ID"; "ADOBE_COMPANY_ID"]],
         "ADOBE_ACCESS_TOKEN, ADOBE_CLIENT_ID, and ADOBE_COMPANY_ID environment variables required") ]
  | ahrefs =>
      [ ([["AHREFS_API_KEY"]],
         "AHREFS_API_KEY environment variable required") ]
  | amplitude =>
      [ ([["AMPLITUDE_API_KEY"]],
         "AMPLITUDE_API_KEY environment variable required") ]
  | apollo =>
      [ ([["APOLLO_API_KEY"]],
         "APOLLO_API_KEY environment variable required") ]
  | beehiiv =>
      [ ([["BEEHIIV_API_KEY"]],
         "BEEHIIV_API_KEY environment variable required") ]
  | brevo =>
      [ ([["BREVO_API_KEY"]],
         "BREVO_API_KEY environment variable required") ]
  | buffer =>
      [ ([["BUFFER_API_KEY"]],
         "BUFFER_API_KEY environment variable required") ]
  | calendly =>
      [ ([["CALENDLY_API_KEY"]],
         "CALENDLY_API_KEY environment variable required") ]
  | clearbit =>
      [ ([["CLEARBIT_API_KEY"]],
         "CLEARBIT_API_KEY environment variable required") ]
  | customer_io =>
      [ ([["CUSTOMERIO_SITE_ID"; "CUSTOMERIO_API_KEY"]; ["CUSTOMERIO_APP_KEY"]],
         "CUSTOMERIO_APP_KEY (for App API) or CUSTOMERIO_SITE_ID + CUSTOMERIO_API_KEY (for Track API) environment variables required") ]
  | dataforseo =>
      [ ([["DATAFORSEO_LOGIN"; "DATAFORSEO_PASSWORD"]],
         "DATAFORSEO_LOGIN and DATAFORSEO_PASSWORD environment variables required") ]
  | demio =>
      [ ([["DEMIO_API_KEY"]],
         "DEMIO_API_KEY environment variable required");
        ([["DEMIO_API_SECRET"]],
         "DEMIO_API_SECRET environment variable required") ]
  | dub =>
      [ ([["DUB_API_KEY"]],
         "DUB_API_KEY environment variable required") ]
  | g2 =>
      [ ([["G2_API_TOKEN"]],
         "G2_API_TOKEN environment variable required") ]
  | ga4 =>
      [ ([["GA4_ACCESS_TOKEN"]],
         "GA4_ACCESS_TOKEN environment variable required") ]
  | google_ads =>
      [ ([["GOOGLE_ADS_TOKEN"; "GOOGLE_ADS_DEVELOPER_TOKEN"; "GOOGLE_ADS_CUSTOMER_ID"]],
         "GOOGLE_ADS_TOKEN, GOOGLE_ADS_DEVELOPER_TOKEN, and GOOGLE_ADS_CUSTOMER_ID environment variables required") ]
  | google_search_console =>
      [ ([["GSC_ACCESS_TOKEN"]],
         "GSC_ACCESS_TOKEN environment variable required") ]
  | hotjar =>
      [ ([["HOTJAR_CLIENT_ID"; "HOTJAR_CLIENT_SECRET"]],
         "HOTJAR_CLIENT_ID and HOTJAR_CLIENT_SECRET environment variables required") ]
  | intercom =>
      [ ([["INTERCOM_API_KEY"]],
         "INTERCOM_API_KEY environment variable required") ]
  | keywords_everywhere =>
      [ ([["KEYWORDS_EVERYWHERE_API_KEY"]],
         "KEYWORDS_EVERYWHERE_API_KEY environment variable required") ]
  | kit =>
      [ ([["KIT_API_SECRET"]; ["KIT_API_KEY"]],
         "KIT_API_SECRET or KIT_API_KEY environment variable required") ]
  | klaviyo =>
      [ ([["KLAVIYO_API_KEY"]],
         "KLAVIYO_API_KEY environment variable required") ]
  | linkedin_ads =>
      [ ([["LINKEDIN_ACCESS_TOKEN"]],
         "LINKEDIN_ACCESS_TOKEN environment variable required") ]
  | livestorm =>
      [ ([["LIVESTORM_API_TOKEN"]],
         "LIVESTORM_API_TOKEN environment variable required") ]
  | mailchimp =>
      [ ([["MAILCHIMP_API_KEY"]],
         "MAILCHIMP_API_KEY environment variable required") ]
  | mention_me =>
      [ ([["MENTIONME_API_KEY"]],
         "MENTIONME_API_KEY environment variable required") ]
  | meta_ads =>
      [ ([["META_ACCESS_TOKEN"]],
         "META_ACCESS_TOKEN environment variable required") ]
  | mixpanel =>
      [ ([["MIXPANEL_TOKEN"]; ["MIXPANEL_API_KEY"]],
         "MIXPANEL_TOKEN (for ingestion) or MIXPANEL_API_KEY + MIXPANEL_SECRET (for query/export) environment variables required") ]
  | onesignal =>
      [ ([["ONESIGNAL_REST_API_KEY"]],
         "ONESIGNAL_REST_API_KEY environment variable required");
        ([["ONESIGNAL_APP_ID"]],
         "ONESIGNAL_APP_ID environment variable required") ]
  | optimizely =>
      [ ([["OPTIMIZELY_API_KEY"]],
         "OPTIMIZELY_API_KEY environment variable required") ]
  | paddle =>
      [ ([["PADDLE_API_KEY"]],
         "PADDLE_API_KEY environment variable required") ]
  | partnerstack =>
      [ ([["PARTNERSTACK_PUBLIC_KEY"; "PARTNERSTACK_SECRET_KEY"]],
         "PARTNERSTACK_PUBLIC_KEY and PARTNERSTACK_SECRET_KEY environment variables required") ]
  | plausible =>
      [ ([["PLAUSIBLE_API_KEY"]],
         "PLAUSIBLE_API_KEY environment variable required") ]
  | postmark =>
      [ ([["POSTMARK_API_KEY"]],
         "POSTMARK_API_KEY environment variable required") ]
  | resend =>
      [ ([["RESEND_API_KEY"]],
         "RESEND_API_KEY environment variable required") ]
  | rewardful =>
      [ ([["REWARDFUL_API_KEY"]],
         "REWARDFUL_API_KEY environment variable required") ]
  | savvycal =>
      [ ([["SAVVYCAL_API_KEY"]],
         "SAVVYCAL_API_KEY environment variable required") ]
  | segment =>
      [ ([["SEGMENT_WRITE_KEY"]; ["SEGMENT_ACCESS_TOKEN"]],
         "SEGMENT_WRITE_KEY (for tracking) or SEGMENT_ACCESS_TOKEN (for profiles) environment variable required") ]
  | semrush =>
      [ ([["SEMRUSH_API_KEY"]],
         "SEMRUSH_API_KEY environment variable required") ]
  | sendgrid =>
      [ ([["SENDGRID_API_KEY"]],
         "SENDGRID_API_KEY environment variable required") ]
  | tiktok_ads =>
      [ ([["TIKTOK_ACCESS_TOKEN"]],
         "TIKTOK_ACCESS_TOKEN environment variable required") ]
  | tolt =>
      [ ([["TOLT_API_KEY"]],
         "TOLT_API_KEY environment variable required") ]
  | trustpilot =>
      [ ([["TRUSTPILOT_API_KEY"]],
         "TRUSTPILOT_API_KEY environment variable required") ]
  | typeform =>
      [ ([["TYPEFORM_API_KEY"]],
         "TYPEFORM_API_KEY environment variable required") ]
  | wistia =>
      [ ([["WISTIA_API_KEY"]],
         "WISTIA_API_KEY environment variable required") ]
  | zapier =>
      [ ([["ZAPIER_API_KEY"]],
         "ZAPIER_API_KEY environment variable required") ]
  end.

(** A group of variables with one that is unset or empty. *)
Definition missing (e : gmap string string) (group : list string) : bool :=
  existsb (fun name => negb (truthy (getenv e name))) group.

(** A test of the gate fails when every alternative group misses a
    variable. *)
Definition fails (e : gmap string string) (check : list (list string) * string) : bool :=
  forallb (missing e) (fst check).

(** The message of the first test that fails. *)
Definition first_failure (e : gmap string string)
    (checks : list (list (list string) * string)) : option string :=
  option_map snd (List.find (fails e) checks).

(** A primary command whose handler is a [switch] over the subcommand with
    an [{error}] result as its [default:] case: the labels of that switch,
    the message of the default case and, where the handler checks a flag
    before it looks at the subcommand, that flag with the message it gives
    without it. *)
Record command : Type := {
  c_name : string;
  c_guard : option (string * string);
  c_subcommands : list string;
  c_otherwise : string
}.

Definition commands (c : cli) : list command :=
  match c with
  | activecampaign =>
      [ {| c_name := "contacts"; c_guard := None;
           c_subcommands := ["list"; "get"; "create"; "update"; "delete"; "sync"];
           c_otherwise :=
             "Unknown contacts subcommand. Use: list, get, create, update, delete, sync" |};
        {| c_name := "lists"; c_guard := None;
           c_subcommands := ["list"; "get"; "create"; "delete"; "subscribe"; "unsubscribe"];
           c_otherwise :=
             "Unknown lists subcommand. Use: list, get, create, delete, subscribe, unsubscribe" |};
        {| c_name := "campaigns"; c_guard := None;
           c_subcommands := ["list"; "get"];
           c_otherwise :=
             "Unknown campaigns subcommand. Use: list, get" |};
        {| c_name := "deals"; c_guard := None;
           c_subcommands := ["list"; "get"; "create"; "update"; "delete"];
           c_otherwise :=
             "Unknown deals subcommand. Use: list, get, create, update, delete" |};
        {| c_name := "automations"; c_guard := None;
           c_subcommands := ["list"; "get"; "add-contact"];
           c_otherwise :=
             "Unknown automations subcommand. Use: list, get, add-contact" |};
        {| c_name := "tags"; c_guard := None;
           c_subcommands := [ "list"; "get"; "create"; "delete"; "add-to-contact";
                             "remove-from-contact" ];
           c_otherwise :=
             "Unknown tags subcommand. Use: list, get, create, delete, add-to-contact, remove-from-contact" |};
        {| c_name := "pipelines"; c_guard := None;
           c_subcommands := ["list"; "get"];
           c_otherwise :=
             "Unknown pipelines subcommand. Use: list, get" |};
        {| c_name := "webhooks"; c_guard := None;
           c_subcommands := ["list"; "get"; "create"; "delete"];
           c_otherwise :=
             "Unknown webhooks subcommand. Use: list, get, create, delete" |};
        {| c_name := "users"; c_guard := None;
           c_subcommands := ["me"; "list"];
           c_otherwise :=
             "Unknown users subcommand. Use: me, list" |} ]
  | adobe_analytics =>
      [ {| c_name := "reportsuites"; c_guard := None;
           c_subcommands := ["list"];
           c_otherwise :=
             "Unknown reportsuites subcommand. Use: list" |};
        {| c_name := "dimensions"; c_guard := None;
           c_subcommands := ["list"];
           c_otherwise :=
             "Unknown dimensions subcommand. Use: list" |};
        {| c_name := "metrics"; c_guard := None;
           c_subcommands := ["list"];
           c_otherwise :=
             "Unknown metrics subcommand. Use: list" |};
        {| c_name := "reports"; c_guard := None;
           c_subcommands := ["run"];
           c_otherwise :=
             "Unknown reports subcommand. Use: run" |};
        {| c_name := "segments"; c_guard := None;
           c_subcommands := ["list"];
           c_otherwise :=
             "Unknown segments subcommand. Use: list" |} ]
  | ahrefs =>
      [ {| c_name := "domain-rating"; c_guard := None;
           c_subcommands := ["get"];
           c_otherwise :=
             "Unknown domain-rating subcommand. Use: get" |};
        {| c_name := "backlinks"; c_guard := None;
           c_subcommands := ["list"];
           c_otherwise :=
             "Unknown backlinks subcommand. Use: list" |};
        {| c_name := "refdomains"; c_guard := None;
           c_subcommands := ["list"];
           c_otherwise :=
             "Unknown refdomains subcommand. Use: list" |};
        {| c_name := "keywords"; c_guard := None;
           c_subcommands := ["organic"];
           c_otherwise :=
             "Unknown keywords subcommand. Use: organic" |};
        {| c_name := "top-pages"; c_guard := None;
           c_subcommands := ["list"];
           c_otherwise :=
             "Unknown top-pages subcommand. Use: list" |};
        {| c_name := "keyword-overview"; c_guard := None;
           c_subcommands := ["get"];
           c_otherwise :=
             "Unknown keyword-overview subcommand. Use: get" |};
        {| c_name := "keyword-suggestions"; c_guard := None;
           c_subcommands := ["get"];
           c_otherwise :=
             "Unknown keyword-suggestions subcommand. Use: get" |};
        {| c_name := "serp"; c_guard := None;
           c_subcommands := ["get"];
           c_otherwise :=
             "Unknown serp subcommand. Use: get" |} ]
  | amplitude =>
      [ {| c_name := "track"; c_guard := None;
           c_subcommands := ["event"; "batch"];
           c_otherwise :=
             "Unknown track subcommand. Use: event, batch" |};
        {| c_name := "users"; c_guard := None;
           c_subcommands := ["activity"];
           c_otherwise :=
             "Unknown users subcommand. Use: activity" |};
        {| c_name := "export"; c_guard := None;
           c_subcommands := ["events"];
           c_otherwise :=
             "Unknown export subcommand. Use: events" |};
        {| c_name := "retention"; c_guard := None;
           c_subcommands := ["get"];
           c_otherwise :=
             "Unknown retention subcommand. Use: get" |} ]
  | apollo =>
      [ {| c_name := "people"; c_guard := None;
           c_subcommands := ["search"; "enrich"; "bulk-enrich"];
           c_otherwise :=
             "Unknown people subcommand. Use: search, enrich, bulk-enrich" |};
        {| c_name := "organizations"; c_guard := None;
           c_subcommands := ["search"; "enrich"];
           c_otherwise :=
             "Unknown organizations subcommand. Use: search, enrich" |} ]
  | beehiiv =>
      [ {| c_name := "publications"; c_guard := None;
           c_subcommands := ["list"; "get"];
           c_otherwise :=
             "Unknown publications subcommand. Use: list, get" |};
        {| c_name := "subscriptions"; c_guard := None;
           c_subcommands := ["list"; "get"; "create"; "update"; "delete"];
           c_otherwise :=
             "Unknown subscriptions subcommand. Use: list, get, create, update, delete" |};
        {| c_name := "posts"; c_guard := None;
           c_subcommands := ["list"; "get"; "create"; "delete"];
           c_otherwise :=
             "Unknown posts subcommand. Use: list, get, create, delete" |};
        {| c_name := "segments"; c_guard := None;
           c_subcommands := ["list"; "get"];
           c_otherwise :=
             "Unknown segments subcommand. Use: list, get" |};
        {| c_name := "automations"; c_guard := None;
           c_subcommands := ["list"; "get"];
           c_otherwise :=
             "Unknown automations subcommand. Use: list, get" |};
        {| c_name := "referral-program"; c_guard := None;
           c_subcommands := ["get"];
           c_otherwise :=
             "Unknown referral-program subcommand. Use: get" |} ]
  | brevo =>
      [ {| c_name := "account"; c_guard := None;
           c_subcommands := ["get"];
           c_otherwise :=
             "Unknown account subcommand. Use: get" |};
        {| c_name := "contacts"; c_guard := None;
           c_subcommands := ["list"; "get"; "create"; "update"; "delete"; "import"];
           c_otherwise :=
             "Unknown contacts subcommand. Use: list, get, create, update, delete, import" |};
        {| c_name := "lists"; c_guard := None;
           c_subcommands := [ "list"; "get"; "create"; "update"; "delete"; "contacts";
                             "add-contacts"; "remove-contacts" ];
           c_otherwise :=
             "Unknown lists subcommand. Use: list, get, create, update, delete, contacts, add-contacts, remove-contacts" |};
        {| c_name := "email"; c_guard := None;
           c_subcommands := ["send"];
           c_otherwise :=
             "Unknown email subcommand. Use: send" |};
        {| c_name := "campaigns"; c_guard := None;
           c_subcommands := [ "list"; "get"; "create"; "update"; "delete"; "send-now";
                             "send-test" ];
           c_otherwise :=
             "Unknown campaigns subcommand. Use: list, get, create, update, delete, send-now, send-test" |};
        {| c_name := "sms"; c_guard := None;
           c_subcommands := ["send"; "campaigns"];
           c_otherwise :=
             "Unknown sms subcommand. Use: send, campaigns" |};
        {| c_name := "senders"; c_guard := None;
           c_subcommands := ["list"; "create"];
           c_otherwise :=
             "Unknown senders subcommand. Use: list, create" |} ]
  | buffer =>
      [ {| c_name := "user"; c_guard := None;
           c_subcommands := ["info"; "deauthorize"];
           c_otherwise :=
             "Unknown user subcommand. Use: info, deauthorize" |};
        {| c_name := "profiles"; c_guard := None;
           c_subcommands := ["list"; "get"; "schedules"];
           c_otherwise :=
             "Unknown profiles subcommand. Use: list, get, schedules" |};
        {| c_name := "updates"; c_guard := None;
           c_subcommands := [ "get"; "pending"; "sent"; "create"; "update"; "share"; "destroy";
                             "reorder"; "shuffle" ];
           c_otherwise :=
             "Unknown updates subcommand. Use: get, pending, sent, create, update, share, destroy, reorder, shuffle" |} ]
  | calendly =>
      [ {| c_name := "users"; c_guard := None;
           c_subcommands := ["me"];
           c_otherwise :=
             "Unknown users subcommand. Use: me" |};
        {| c_name := "event-types"; c_guard := None;
           c_subcommands := ["list"; "get"];
           c_otherwise :=
             "Unknown event-types subcommand. Use: list, get" |};
        {| c_name := "events"; c_guard := None;
           c_subcommands := ["list"; "get"; "cancel"; "invitees"];
           c_otherwise :=
             "Unknown events subcommand. Use: list, get, cancel, invitees" |};
        {| c_name := "availability"; c_guard := None;
           c_subcommands := ["times"; "busy"];
           c_otherwise :=
             "Unknown availability subcommand. Use: times, busy" |};
        {| c_name := "webhooks"; c_guard := None;
           c_subcommands := ["list"; "create"; "delete"];
           c_otherwise :=
             "Unknown webhooks subcommand. Use: list, create, delete" |};
        {| c_name := "org"; c_guard := None;
           c_subcommands := ["members"];
           c_otherwise :=
             "Unknown org subcommand. Use: members" |} ]
  | clearbit =>
      [ {| c_name := "person"; c_guard := None;
           c_subcommands := ["find"];
           c_otherwise :=
             "Unknown person subcommand. Use: find" |};
        {| c_name := "company"; c_guard := None;
           c_subcommands := ["find"];
           c_otherwise :=
             "Unknown company subcommand. Use: find" |};
        {| c_name := "combined"; c_guard := None;
           c_subcommands := ["find"];
           c_otherwise :=
             "Unknown combined subcommand. Use: find" |};
        {| c_name := "reveal"; c_guard := None;
           c_subcommands := ["find"];
           c_otherwise :=
             "Unknown reveal subcommand. Use: find" |};
        {| c_name := "name-to-domain"; c_guard := None;
           c_subcommands := ["find"];
           c_otherwise :=
             "Unknown name-to-domain subcommand. Use: find" |};
        {| c_name := "prospector"; c_guard := None;
           c_subcommands := ["search"];
           c_otherwise :=
             "Unknown prospector subcommand. Use: search" |} ]
  | customer_io =>
      [ {| c_name := "customers"; c_guard := None;
           c_subcommands := ["identify"; "get"; "delete"; "track-event"];
           c_otherwise :=
             "Unknown customers subcommand. Use: identify, get, delete, track-event" |};
        {| c_name := "campaigns"; c_guard := None;
           c_subcommands := ["list"; "get"; "metrics"; "trigger"];
           c_otherwise :=
             "Unknown campaigns subcommand. Use: list, get, metrics, trigger" |};
        {| c_name := "send"; c_guard := None;
           c_subcommands := ["email"];
           c_otherwise :=
             "Unknown send subcommand. Use: email" |} ]
  | dataforseo =>
      [ {| c_name := "serp"; c_guard := None;
           c_subcommands := ["google"; "locations"; "languages"];
           c_otherwise :=
             "Unknown serp subcommand. Use: google, locations, languages" |};
        {| c_name := "keywords"; c_guard := None;
           c_subcommands := ["volume"; "for-site"; "for-keywords"; "trends"];
           c_otherwise :=
             "Unknown keywords subcommand. Use: volume, for-site, for-keywords, trends" |};
        {| c_name := "backlinks"; c_guard := None;
           c_subcommands := ["summary"; "list"; "refdomains"; "anchors"; "index"];
           c_otherwise :=
             "Unknown backlinks subcommand. Use: summary, list, refdomains, anchors, index" |};
        {| c_name := "onpage"; c_guard := None;
           c_subcommands := ["audit"];
           c_otherwise :=
             "Unknown onpage subcommand. Use: audit" |};
        {| c_name := "labs"; c_guard := None;
           c_subcommands := ["competitors"; "ranked-keywords"; "domain-intersection"];
           c_otherwise :=
             "Unknown labs subcommand. Use: competitors, ranked-keywords, domain-intersection" |} ]
  | demio =>
      [ {| c_name := "events"; c_guard := None;
           c_subcommands := ["list"; "get"; "date"];
           c_otherwise :=
             "Unknown events subcommand. Use: list, get, date" |};
        {| c_name := "register"; c_guard := None;
           c_subcommands := ["create"];
           c_otherwise :=
             "Unknown register subcommand. Use: create" |};
        {| c_name := "participants"; c_guard := None;
           c_subcommands := ["list"];
           c_otherwise :=
             "Unknown participants subcommand. Use: list" |} ]
  | dub =>
      [ {| c_name := "links"; c_guard := None;
           c_subcommands := ["create"; "list"; "get"; "update"; "delete"; "bulk-create"];
           c_otherwise :=
             "Unknown links subcommand. Use: create, list, get, update, delete, bulk-create" |};
        {| c_name := "analytics"; c_guard := None;
           c_subcommands := ["get"; "country"; "device"];
           c_otherwise :=
             "Unknown analytics subcommand. Use: get, country, device" |} ]
  | g2 =>
      [ {| c_name := "reviews"; c_guard := None;
           c_subcommands := ["list"; "get"];
           c_otherwise :=
             "Unknown reviews subcommand. Use: list, get" |};
        {| c_name := "products"; c_guard := None;
           c_subcommands := ["list"; "get"];
           c_otherwise :=
             "Unknown products subcommand. Use: list, get" |};
        {| c_name := "reports"; c_guard := None;
           c_subcommands := ["list"; "get"];
           c_otherwise :=
             "Unknown reports subcommand. Use: list, get" |};
        {| c_name := "competitors"; c_guard := None;
           c_subcommands := ["list"];
           c_otherwise :=
             "Unknown competitors subcommand. Use: list" |};
        {| c_name := "categories"; c_guard := None;
           c_subcommands := ["list"; "get"];
           c_otherwise :=
             "Unknown categories subcommand. Use: list, get" |};
        {| c_name := "tracking"; c_guard := None;
           c_subcommands := ["visitors"];
           c_otherwise :=
             "Unknown tracking subcommand. Use: visitors" |} ]
  | ga4 =>
      [ {| c_name := "reports"; c_guard := None;
           c_subcommands := ["run"];
           c_otherwise :=
             "Unknown reports subcommand. Use: run" |};
        {| c_name := "realtime"; c_guard := None;
           c_subcommands := ["run"];
           c_otherwise :=
             "Unknown realtime subcommand. Use: run" |};
        {| c_name := "conversions"; c_guard := None;
           c_subcommands := ["list"; "create"];
           c_otherwise :=
             "Unknown conversions subcommand. Use: list, create" |};
        {| c_name := "events"; c_guard := None;
           c_subcommands := ["send"];
           c_otherwise :=
             "Unknown events subcommand. Use: send" |} ]
  | google_ads =>
      [ {| c_name := "campaigns"; c_guard := None;
           c_subcommands := ["list"; "performance"; "pause"; "enable"];
           c_otherwise :=
             "Unknown campaigns subcommand. Use: list, performance, pause, enable" |};
        {| c_name := "adgroups"; c_guard := None;
           c_subcommands := ["performance"];
           c_otherwise :=
             "Unknown adgroups subcommand. Use: performance" |};
        {| c_name := "keywords"; c_guard := None;
           c_subcommands := ["performance"];
           c_otherwise :=
             "Unknown keywords subcommand. Use: performance" |};
        {| c_name := "budgets"; c_guard := None;
           c_subcommands := ["update"];
           c_otherwise :=
             "Unknown budgets subcommand. Use: update" |} ]
  | google_search_console =>
      [ {| c_name := "search"; c_guard := Some ("site-url", "--site-url is required for search commands");
           c_subcommands := ["query"; "pages"; "countries"];
           c_otherwise :=
             "Unknown search subcommand. Use: query, pages, countries" |};
        {| c_name := "inspect"; c_guard := Some ("site-url", "--site-url is required for inspect commands");
           c_subcommands := ["url"];
           c_otherwise :=
             "Unknown inspect subcommand. Use: url" |};
        {| c_name := "sitemaps"; c_guard := Some ("site-url", "--site-url is required for sitemaps commands");
           c_subcommands := ["list"; "submit"];
           c_otherwise :=
             "Unknown sitemaps subcommand. Use: list, submit" |} ]
  | hotjar =>
      [ {| c_name := "sites"; c_guard := None;
           c_subcommands := ["list"];
           c_otherwise :=
             "Unknown sites subcommand. Use: list" |};
        {| c_name := "surveys"; c_guard := Some ("site-id", "--site-id required");
           c_subcommands := ["list"; "responses"];
           c_otherwise :=
             "Unknown surveys subcommand. Use: list, responses" |};
        {| c_name := "heatmaps"; c_guard := Some ("site-id", "--site-id required");
           c_subcommands := ["list"];
           c_otherwise :=
             "Unknown heatmaps subcommand. Use: list" |};
        {| c_name := "recordings"; c_guard := Some ("site-id", "--site-id required");
           c_subcommands := ["list"];
           c_otherwise :=
             "Unknown recordings subcommand. Use: list" |};
        {| c_name := "forms"; c_guard := Some ("site-id", "--site-id required");
           c_subcommands := ["list"];
           c_otherwise :=
             "Unknown forms subcommand. Use: list" |} ]
  | intercom =>
      [ {| c_name := "contacts"; c_guard := None;
           c_subcommands := [ "list"; "get"; "create"; "update"; "search"; "delete"; "tag";
                             "untag" ];
           c_otherwise :=
             "Unknown contacts subcommand. Use: list, get, create, update, search, delete, tag, untag" |};
        {| c_name := "conversations"; c_guard := None;
           c_subcommands := ["list"; "get"; "search"; "reply"; "close"];
           c_otherwise :=
             "Unknown conversations subcommand. Use: list, get, search, reply, close" |};
        {| c_name := "messages"; c_guard := None;
           c_subcommands := ["create"];
           c_otherwise :=
             "Unknown messages subcommand. Use: create --body <text> --admin-id <id> --to <user_id> [--type inapp|email]" |};
        {| c_name := "companies"; c_guard := None;
           c_subcommands := ["list"; "get"; "create"; "update"];
           c_otherwise :=
             "Unknown companies subcommand. Use: list, get, create, update" |};
        {| c_name := "tags"; c_guard := None;
           c_subcommands := ["list"; "create"; "delete"];
           c_otherwise :=
             "Unknown tags subcommand. Use: list, create, delete" |};
        {| c_name := "articles"; c_guard := None;
           c_subcommands := ["list"; "get"; "create"; "update"; "delete"];
           c_otherwise :=
             "Unknown articles subcommand. Use: list, get, create, update, delete" |};
        {| c_name := "admins"; c_guard := None;
           c_subcommands := ["list"; "get"];
           c_otherwise :=
             "Unknown admins subcommand. Use: list, get" |};
        {| c_name := "events"; c_guard := None;
           c_subcommands := ["create"; "list"];
           c_otherwise :=
             "Unknown events subcommand. Use: create, list" |} ]
  | keywords_everywhere =>
      [ {| c_name := "keywords"; c_guard := None;
           c_subcommands := ["data"; "related"; "pasf"];
           c_otherwise :=
             "Unknown keywords subcommand. Use: data, related, pasf" |};
        {| c_name := "domain"; c_guard := None;
           c_subcommands := ["keywords"; "traffic"; "backlinks"; "unique-backlinks"];
           c_otherwise :=
             "Unknown domain subcommand. Use: keywords, traffic, backlinks, unique-backlinks" |};
        {| c_name := "url"; c_guard := None;
           c_subcommands := ["keywords"; "traffic"; "backlinks"; "unique-backlinks"];
           c_otherwise :=
             "Unknown url subcommand. Use: keywords, traffic, backlinks, unique-backlinks" |};
        {| c_name := "account"; c_guard := None;
           c_subcommands := ["credits"; "countries"; "currencies"];
           c_otherwise :=
             "Unknown account subcommand. Use: credits, countries, currencies" |} ]
  | kit =>
      [ {| c_name := "subscribers"; c_guard := None;
           c_subcommands := ["list"; "get"; "update"; "unsubscribe"];
           c_otherwise :=
             "Unknown subscribers subcommand. Use: list, get, update, unsubscribe" |};
        {| c_name := "forms"; c_guard := None;
           c_subcommands := ["list"; "subscribe"];
           c_otherwise :=
             "Unknown forms subcommand. Use: list, subscribe" |};
        {| c_name := "sequences"; c_guard := None;
           c_subcommands := ["list"; "subscribe"];
           c_otherwise :=
             "Unknown sequences subcommand. Use: list, subscribe" |};
        {| c_name := "tags"; c_guard := None;
           c_subcommands := ["list"; "subscribe"; "remove"];
           c_otherwise :=
             "Unknown tags subcommand. Use: list, subscribe, remove" |};
        {| c_name := "broadcasts"; c_guard := None;
           c_subcommands := ["list"; "create"];
           c_otherwise :=
             "Unknown broadcasts subcommand. Use: list, create" |} ]
  | klaviyo =>
      [ {| c_name := "profiles"; c_guard := None;
           c_subcommands := ["list"; "get"; "create"; "update"];
           c_otherwise :=
             "Unknown profiles subcommand. Use: list, get, create, update" |};
        {| c_name := "lists"; c_guard := None;
           c_subcommands := [ "list"; "get"; "create"; "delete"; "add-profiles";
                             "remove-profiles" ];
           c_otherwise :=
             "Unknown lists subcommand. Use: list, get, create, delete, add-profiles, remove-profiles" |};
        {| c_name := "events"; c_guard := None;
           c_subcommands := ["list"; "get"; "create"];
           c_otherwise :=
             "Unknown events subcommand. Use: list, get, create" |};
        {| c_name := "campaigns"; c_guard := None;
           c_subcommands := ["list"; "get"];
           c_otherwise :=
             "Unknown campaigns subcommand. Use: list, get" |};
        {| c_name := "flows"; c_guard := None;
           c_subcommands := ["list"; "get"; "update"];
           c_otherwise :=
             "Unknown flows subcommand. Use: list, get, update" |};
        {| c_name := "metrics"; c_guard := None;
           c_subcommands := ["list"; "get"];
           c_otherwise :=
             "Unknown metrics subcommand. Use: list, get" |};
        {| c_name := "segments"; c_guard := None;
           c_subcommands := ["list"; "get"];
           c_otherwise :=
             "Unknown segments subcommand. Use: list, get" |};
        {| c_name := "templates"; c_guard := None;
           c_subcommands := ["list"; "get"];
           c_otherwise :=
             "Unknown templates subcommand. Use: list, get" |} ]
  | linkedin_ads =>
      [ {| c_name := "accounts"; c_guard := None;
           c_subcommands := ["list"];
           c_otherwise :=
             "Unknown accounts subcommand. Use: list" |};
        {| c_name := "campaigns"; c_guard := None;
           c_subcommands := ["list"; "create"; "update"; "analytics"];
           c_otherwise :=
             "Unknown campaigns subcommand. Use: list, create, update, analytics" |};
        {| c_name := "creatives"; c_guard := None;
           c_subcommands := ["list"];
           c_otherwise :=
             "Unknown creatives subcommand. Use: list" |};
        {| c_name := "audiences"; c_guard := None;
           c_subcommands := ["count"];
           c_otherwise :=
             "Unknown audiences subcommand. Use: count" |} ]
  | livestorm =>
      [ {| c_name := "events"; c_guard := None;
           c_subcommands := ["list"; "get"; "create"; "update"; "delete"; "people"];
           c_otherwise :=
             "Unknown events subcommand. Use: list, get, create, update, delete, people" |};
        {| c_name := "sessions"; c_guard := None;
           c_subcommands := [ "list"; "get"; "create"; "delete"; "people"; "register";
                             "unregister"; "chat"; "questions"; "recordings" ];
           c_otherwise :=
             "Unknown sessions subcommand. Use: list, get, create, delete, people, register, unregister, chat, questions, recordings" |};
        {| c_name := "people"; c_guard := None;
           c_subcommands := ["list"; "get"];
           c_otherwise :=
             "Unknown people subcommand. Use: list, get" |};
        {| c_name := "webhooks"; c_guard := None;
           c_subcommands := ["list"; "create"; "delete"];
           c_otherwise :=
             "Unknown webhooks subcommand. Use: list, create, delete" |} ]
  | mailchimp =>
      [ {| c_name := "lists"; c_guard := None;
           c_subcommands := ["list"; "get"];
           c_otherwise :=
             "Unknown lists subcommand. Use: list, get" |};
        {| c_name := "members"; c_guard := None;
           c_subcommands := ["list"; "add"; "update"];
           c_otherwise :=
             "Unknown members subcommand. Use: list, add, update" |};
        {| c_name := "campaigns"; c_guard := None;
           c_subcommands := ["list"; "get"; "create"; "send"];
           c_otherwise :=
             "Unknown campaigns subcommand. Use: list, get, create, send" |};
        {| c_name := "reports"; c_guard := None;
           c_subcommands := ["get"];
           c_otherwise :=
             "Unknown reports subcommand. Use: get" |};
        {| c_name := "automations"; c_guard := None;
           c_subcommands := ["list"];
           c_otherwise :=
             "Unknown automations subcommand. Use: list" |} ]
  | mention_me =>
      [ {| c_name := "offers"; c_guard := None;
           c_subcommands := ["create"];
           c_otherwise :=
             "Unknown offers subcommand. Use: create" |};
        {| c_name := "referrals"; c_guard := None;
           c_subcommands := ["get"; "list"];
           c_otherwise :=
             "Unknown referrals subcommand. Use: get, list" |};
        {| c_name := "share-links"; c_guard := None;
           c_subcommands := ["get"];
           c_otherwise :=
             "Unknown share-links subcommand. Use: get" |};
        {| c_name := "rewards"; c_guard := None;
           c_subcommands := ["get"; "redeem"];
           c_otherwise :=
             "Unknown rewards subcommand. Use: get, redeem" |};
        {| c_name := "referee"; c_guard := None;
           c_subcommands := ["create"];
           c_otherwise :=
             "Unknown referee subcommand. Use: create" |} ]
  | meta_ads =>
      [ {| c_name := "accounts"; c_guard := None;
           c_subcommands := ["list"];
           c_otherwise :=
             "Unknown accounts subcommand. Use: list" |};
        {| c_name := "campaigns"; c_guard := None;
           c_subcommands := ["list"; "insights"; "create"; "update"];
           c_otherwise :=
             "Unknown campaigns subcommand. Use: list, insights, create, update" |};
        {| c_name := "adsets"; c_guard := None;
           c_subcommands := ["list"];
           c_otherwise :=
             "Unknown adsets subcommand. Use: list" |};
        {| c_name := "ads"; c_guard := None;
           c_subcommands := ["list"];
           c_otherwise :=
             "Unknown ads subcommand. Use: list" |};
        {| c_name := "audiences"; c_guard := None;
           c_subcommands := ["list"; "create-lookalike"];
           c_otherwise :=
             "Unknown audiences subcommand. Use: list, create-lookalike" |} ]
  | mixpanel =>
      [ {| c_name := "track"; c_guard := None;
           c_subcommands := ["event"];
           c_otherwise :=
             "Unknown track subcommand. Use: event" |};
        {| c_name := "profiles"; c_guard := None;
           c_subcommands := ["set"];
           c_otherwise :=
             "Unknown profiles subcommand. Use: set" |};
        {| c_name := "query"; c_guard := None;
           c_subcommands := ["events"];
           c_otherwise :=
             "Unknown query subcommand. Use: events" |};
        {| c_name := "funnels"; c_guard := None;
           c_subcommands := ["get"];
           c_otherwise :=
             "Unknown funnels subcommand. Use: get" |};
        {| c_name := "retention"; c_guard := None;
           c_subcommands := ["get"];
           c_otherwise :=
             "Unknown retention subcommand. Use: get" |};
        {| c_name := "export"; c_guard := None;
           c_subcommands := ["events"];
           c_otherwise :=
             "Unknown export subcommand. Use: events" |} ]
  | onesignal =>
      [ {| c_name := "notifications"; c_guard := None;
           c_subcommands := ["send"; "list"; "get"; "cancel"];
           c_otherwise :=
             "Unknown notifications subcommand. Use: send, list, get, cancel" |};
        {| c_name := "segments"; c_guard := None;
           c_subcommands := ["list"; "create"; "delete"];
           c_otherwise :=
             "Unknown segments subcommand. Use: list, create, delete" |};
        {| c_name := "users"; c_guard := None;
           c_subcommands := ["get"; "create"; "delete"];
           c_otherwise :=
             "Unknown users subcommand. Use: get, create, delete" |};
        {| c_name := "templates"; c_guard := None;
           c_subcommands := ["list"; "get"; "create"];
           c_otherwise :=
             "Unknown templates subcommand. Use: list, get, create" |};
        {| c_name := "app"; c_guard := None;
           c_subcommands := ["get"];
           c_otherwise :=
             "Unknown app subcommand. Use: get" |} ]
  | optimizely =>
      [ {| c_name := "projects"; c_guard := None;
           c_subcommands := ["list"; "get"; "create"];
           c_otherwise :=
             "Unknown projects subcommand. Use: list, get, create" |};
        {| c_name := "experiments"; c_guard := None;
           c_subcommands := ["list"; "get"; "create"; "update"; "results"; "archive"];
           c_otherwise :=
             "Unknown experiments subcommand. Use: list, get, create, update, results, archive" |};
        {| c_name := "campaigns"; c_guard := None;
           c_subcommands := ["list"; "get"; "results"];
           c_otherwise :=
             "Unknown campaigns subcommand. Use: list, get, results" |};
        {| c_name := "audiences"; c_guard := None;
           c_subcommands := ["list"; "get"];
           c_otherwise :=
             "Unknown audiences subcommand. Use: list, get" |};
        {| c_name := "events"; c_guard := None;
           c_subcommands := ["list"];
           c_otherwise :=
             "Unknown events subcommand. Use: list" |};
        {| c_name := "pages"; c_guard := None;
           c_subcommands := ["list"];
           c_otherwise :=
             "Unknown pages subcommand. Use: list" |} ]
  | paddle =>
      [ {| c_name := "products"; c_guard := None;
           c_subcommands := ["list"; "get"; "create"; "update"];
           c_otherwise :=
             "Unknown products subcommand. Use: list, get, create, update" |};
        {| c_name := "prices"; c_guard := None;
           c_subcommands := ["list"; "get"; "create"; "update"];
           c_otherwise :=
             "Unknown prices subcommand. Use: list, get, create, update" |};
        {| c_name := "customers"; c_guard := None;
           c_subcommands := ["list"; "get"; "create"; "update"];
           c_otherwise :=
             "Unknown customers subcommand. Use: list, get, create, update" |};
        {| c_name := "subscriptions"; c_guard := None;
           c_subcommands := ["list"; "get"; "update"; "cancel"; "pause"; "resume"];
           c_otherwise :=
             "Unknown subscriptions subcommand. Use: list, get, update, cancel, pause, resume" |};
        {| c_name := "transactions"; c_guard := None;
           c_subcommands := ["list"; "get"; "create"];
           c_otherwise :=
             "Unknown transactions subcommand. Use: list, get, create" |};
        {| c_name := "discounts"; c_guard := None;
           c_subcommands := ["list"; "get"; "create"];
           c_otherwise :=
             "Unknown discounts subcommand. Use: list, get, create" |};
        {| c_name := "adjustments"; c_guard := None;
           c_subcommands := ["list"; "create"];
           c_otherwise :=
             "Unknown adjustments subcommand. Use: list, create" |};
        {| c_name := "events"; c_guard := None;
           c_subcommands := ["list"; "types"];
           c_otherwise :=
             "Unknown events subcommand. Use: list, types" |};
        {| c_name := "notifications"; c_guard := None;
           c_subcommands := ["list"; "get"; "replay"];
           c_otherwise :=
             "Unknown notifications subcommand. Use: list, get, replay" |} ]
  | partnerstack =>
      [ {| c_name := "partnerships"; c_guard := None;
           c_subcommands := ["list"; "get"; "create"; "update"];
           c_otherwise :=
             "Unknown partnerships subcommand. Use: list, get, create, update" |};
        {| c_name := "customers"; c_guard := None;
           c_subcommands := ["list"; "get"; "create"; "update"; "delete"];
           c_otherwise :=
             "Unknown customers subcommand. Use: list, get, create, update, delete" |};
        {| c_name := "transactions"; c_guard := None;
           c_subcommands := ["list"; "get"; "create"; "delete"];
           c_otherwise :=
             "Unknown transactions subcommand. Use: list, get, create, delete" |};
        {| c_name := "deals"; c_guard := None;
           c_subcommands := ["list"; "get"; "create"; "update"; "archive"];
           c_otherwise :=
             "Unknown deals subcommand. Use: list, get, create, update, archive" |};
        {| c_name := "actions"; c_guard := None;
           c_subcommands := ["list"; "create"];
           c_otherwise :=
             "Unknown actions subcommand. Use: list, create" |};
        {| c_name := "rewards"; c_guard := None;
           c_subcommands := ["list"; "create"];
           c_otherwise :=
             "Unknown rewards subcommand. Use: list, create" |};
        {| c_name := "leads"; c_guard := None;
           c_subcommands := ["list"; "get"; "create"; "update"];
           c_otherwise :=
             "Unknown leads subcommand. Use: list, get, create, update" |};
        {| c_name := "groups"; c_guard := None;
           c_subcommands := ["list"];
           c_otherwise :=
             "Unknown groups subcommand. Use: list" |};
        {| c_name := "webhooks"; c_guard := None;
           c_subcommands := ["list"; "get"; "create"; "delete"];
           c_otherwise :=
             "Unknown webhooks subcommand. Use: list, get, create, delete" |} ]
  | plausible =>
      [ {| c_name := "stats"; c_guard := Some ("site-id", "--site-id required (your domain, e.g. example.com)");
           c_subcommands := [ "aggregate"; "timeseries"; "pages"; "sources"; "countries";
                             "devices"; "utm"; "query"; "realtime" ];
           c_otherwise :=
             "Unknown stats subcommand. Use: aggregate, timeseries, pages, sources, countries, devices, utm, query, realtime" |};
        {| c_name := "sites"; c_guard := None;
           c_subcommands := ["list"; "get"; "create"; "delete"];
           c_otherwise :=
             "Unknown sites subcommand. Use: list, get, create, delete" |};
        {| c_name := "goals"; c_guard := Some ("site-id", "--site-id required");
           c_subcommands := ["list"; "create"; "delete"];
           c_otherwise :=
             "Unknown goals subcommand. Use: list, create, delete" |} ]
  | postmark =>
      [ {| c_name := "email"; c_guard := None;
           c_subcommands := ["send"; "send-template"; "send-batch"];
           c_otherwise :=
             "Unknown email subcommand. Use: send, send-template, send-batch" |};
        {| c_name := "templates"; c_guard := None;
           c_subcommands := ["list"; "get"; "create"; "delete"];
           c_otherwise :=
             "Unknown templates subcommand. Use: list, get, create, delete" |};
        {| c_name := "bounces"; c_guard := None;
           c_subcommands := ["list"; "get"; "stats"; "activate"];
           c_otherwise :=
             "Unknown bounces subcommand. Use: list, get, stats, activate" |};
        {| c_name := "messages"; c_guard := None;
           c_subcommands := ["outbound"; "inbound"; "get"];
           c_otherwise :=
             "Unknown messages subcommand. Use: outbound, inbound, get" |};
        {| c_name := "stats"; c_guard := None;
           c_subcommands := ["overview"; "sends"; "bounces"; "opens"; "clicks"; "spam"];
           c_otherwise :=
             "Unknown stats subcommand. Use: overview, sends, bounces, opens, clicks, spam" |};
        {| c_name := "server"; c_guard := None;
           c_subcommands := ["get"];
           c_otherwise :=
             "Unknown server subcommand. Use: get" |};
        {| c_name := "suppressions"; c_guard := None;
           c_subcommands := ["list"; "create"; "delete"];
           c_otherwise :=
             "Unknown suppressions subcommand. Use: list, create, delete" |} ]
  | resend =>
      [ {| c_name := "emails"; c_guard := None;
           c_subcommands := ["list"; "get"; "cancel"];
           c_otherwise :=
             "Unknown emails subcommand. Use: list, get, cancel" |};
        {| c_name := "domains"; c_guard := None;
           c_subcommands := ["list"; "get"; "create"; "verify"; "delete"];
           c_otherwise :=
             "Unknown domains subcommand. Use: list, get, create, verify, delete" |};
        {| c_name := "api-keys"; c_guard := None;
           c_subcommands := ["list"; "create"; "delete"];
           c_otherwise :=
             "Unknown api-keys subcommand. Use: list, create, delete" |};
        {| c_name := "audiences"; c_guard := None;
           c_subcommands := ["list"; "get"; "create"; "delete"];
           c_otherwise :=
             "Unknown audiences subcommand. Use: list, get, create, delete" |};
        {| c_name := "webhooks"; c_guard := None;
           c_subcommands := ["list"; "get"; "create"; "delete"];
           c_otherwise :=
             "Unknown webhooks subcommand. Use: list, get, create, delete" |};
        {| c_name := "templates"; c_guard := None;
           c_subcommands := ["list"; "get"; "create"; "update"; "delete"; "publish"; "duplicate"];
           c_otherwise :=
             "Unknown templates subcommand. Use: list, get, create, update, delete, publish, duplicate" |};
        {| c_name := "broadcasts"; c_guard := None;
           c_subcommands := ["list"; "get"; "create"; "send"; "delete"];
           c_otherwise :=
             "Unknown broadcasts subcommand. Use: list, get, create, send, delete" |};
        {| c_name := "segments"; c_guard := None;
           c_subcommands := ["list"; "get"; "create"; "delete"];
           c_otherwise :=
             "Unknown segments subcommand. Use: list, get, create, delete" |} ]
  | rewardful =>
      [ {| c_name := "affiliates"; c_guard := None;
           c_subcommands := ["list"; "get"; "search"; "update"];
           c_otherwise :=
             "Unknown affiliates subcommand. Use: list, get, search, update" |};
        {| c_name := "referrals"; c_guard := None;
           c_subcommands := ["list"; "get"];
           c_otherwise :=
             "Unknown referrals subcommand. Use: list, get" |};
        {| c_name := "commissions"; c_guard := None;
           c_subcommands := ["list"; "get"];
           c_otherwise :=
             "Unknown commissions subcommand. Use: list, get" |};
        {| c_name := "links"; c_guard := None;
           c_subcommands := ["create"];
           c_otherwise :=
             "Unknown links subcommand. Use: create" |} ]
  | savvycal =>
      [ {| c_name := "links"; c_guard := None;
           c_subcommands := [ "list"; "get"; "create"; "update"; "delete"; "duplicate";
                             "toggle"; "slots" ];
           c_otherwise :=
             "Unknown links subcommand. Use: list, get, create, update, delete, duplicate, toggle, slots" |};
        {| c_name := "events"; c_guard := None;
           c_subcommands := ["list"; "get"; "create"; "cancel"];
           c_otherwise :=
             "Unknown events subcommand. Use: list, get, create, cancel" |};
        {| c_name := "webhooks"; c_guard := None;
           c_subcommands := ["list"; "create"; "delete"];
           c_otherwise :=
             "Unknown webhooks subcommand. Use: list, create, delete" |} ]
  | segment =>
      [ {| c_name := "track"; c_guard := None;
           c_subcommands := ["event"];
           c_otherwise :=
             "Unknown track subcommand. Use: event" |};
        {| c_name := "identify"; c_guard := None;
           c_subcommands := ["user"];
           c_otherwise :=
             "Unknown identify subcommand. Use: user" |};
        {| c_name := "page"; c_guard := None;
           c_subcommands := ["view"];
           c_otherwise :=
             "Unknown page subcommand. Use: view" |};
        {| c_name := "batch"; c_guard := None;
           c_subcommands := ["send"];
           c_otherwise :=
             "Unknown batch subcommand. Use: send" |};
        {| c_name := "profiles"; c_guard := None;
           c_subcommands := ["traits"; "events"];
           c_otherwise :=
             "Unknown profiles subcommand. Use: traits, events" |} ]
  | semrush =>
      [ {| c_name := "domain"; c_guard := None;
           c_subcommands := ["overview"; "organic"; "competitors"];
           c_otherwise :=
             "Unknown domain subcommand. Use: overview, organic, competitors" |};
        {| c_name := "keywords"; c_guard := None;
           c_subcommands := ["overview"; "related"; "difficulty"];
           c_otherwise :=
             "Unknown keywords subcommand. Use: overview, related, difficulty" |};
        {| c_name := "backlinks"; c_guard := None;
           c_subcommands := ["overview"; "list"];
           c_otherwise :=
             "Unknown backlinks subcommand. Use: overview, list" |} ]
  | sendgrid =>
      [ {| c_name := "contacts"; c_guard := None;
           c_subcommands := ["list"; "add"; "search"];
           c_otherwise :=
             "Unknown contacts subcommand. Use: list, add, search" |};
        {| c_name := "campaigns"; c_guard := None;
           c_subcommands := ["list"; "get"];
           c_otherwise :=
             "Unknown campaigns subcommand. Use: list, get" |};
        {| c_name := "stats"; c_guard := None;
           c_subcommands := ["get"];
           c_otherwise :=
             "Unknown stats subcommand. Use: get" |};
        {| c_name := "bounces"; c_guard := None;
           c_subcommands := ["list"];
           c_otherwise :=
             "Unknown bounces subcommand. Use: list" |};
        {| c_name := "spam-reports"; c_guard := None;
           c_subcommands := ["list"];
           c_otherwise :=
             "Unknown spam-reports subcommand. Use: list" |} ]
  | tiktok_ads =>
      [ {| c_name := "advertiser"; c_guard := None;
           c_subcommands := ["info"];
           c_otherwise :=
             "Unknown advertiser subcommand. Use: info" |};
        {| c_name := "campaigns"; c_guard := None;
           c_subcommands := ["list"; "create"; "update-status"];
           c_otherwise :=
             "Unknown campaigns subcommand. Use: list, create, update-status" |};
        {| c_name := "adgroups"; c_guard := None;
           c_subcommands := ["list"];
           c_otherwise :=
             "Unknown adgroups subcommand. Use: list" |};
        {| c_name := "reports"; c_guard := None;
           c_subcommands := ["get"];
           c_otherwise :=
             "Unknown reports subcommand. Use: get" |};
        {| c_name := "audiences"; c_guard := None;
           c_subcommands := ["list"];
           c_otherwise :=
             "Unknown audiences subcommand. Use: list" |} ]
  | tolt =>
      [ {| c_name := "affiliates"; c_guard := None;
           c_subcommands := ["list"; "get"; "create"; "update"];
           c_otherwise :=
             "Unknown affiliates subcommand. Use: list, get, create, update" |};
        {| c_name := "referrals"; c_guard := None;
           c_subcommands := ["list"; "get"];
           c_otherwise :=
             "Unknown referrals subcommand. Use: list, get" |};
        {| c_name := "commissions"; c_guard := None;
           c_subcommands := ["list"];
           c_otherwise :=
             "Unknown commissions subcommand. Use: list" |};
        {| c_name := "payouts"; c_guard := None;
           c_subcommands := ["list"];
           c_otherwise :=
             "Unknown payouts subcommand. Use: list" |} ]
  | trustpilot =>
      [ {| c_name := "business"; c_guard := None;
           c_subcommands := ["search"; "get"; "profile"; "categories"; "web-links"];
           c_otherwise :=
             "Unknown business subcommand. Use: search, get, profile, categories, web-links" |};
        {| c_name := "reviews"; c_guard := None;
           c_subcommands := ["list"; "get"; "private"; "latest"; "reply"; "delete-reply"];
           c_otherwise :=
             "Unknown reviews subcommand. Use: list, get, private, latest, reply, delete-reply" |};
        {| c_name := "invitations"; c_guard := None;
           c_subcommands := ["create"; "link"; "templates"];
           c_otherwise :=
             "Unknown invitations subcommand. Use: create, link, templates" |};
        {| c_name := "tags"; c_guard := None;
           c_subcommands := ["get"; "add"; "remove"];
           c_otherwise :=
             "Unknown tags subcommand. Use: get, add, remove" |} ]
  | typeform =>
      [ {| c_name := "forms"; c_guard := None;
           c_subcommands := ["list"; "get"; "create"; "update"; "delete"];
           c_otherwise :=
             "Unknown forms subcommand. Use: list, get, create, update, delete" |};
        {| c_name := "responses"; c_guard := None;
           c_subcommands := ["list"; "delete"];
           c_otherwise :=
             "Unknown responses subcommand. Use: list, delete" |};
        {| c_name := "webhooks"; c_guard := None;
           c_subcommands := ["list"; "get"; "create"; "delete"];
           c_otherwise :=
             "Unknown webhooks subcommand. Use: list, get, create, delete" |};
        {| c_name := "themes"; c_guard := None;
           c_subcommands := ["list"; "get"; "create"; "delete"];
           c_otherwise :=
             "Unknown themes subcommand. Use: list, get, create, delete" |};
        {| c_name := "images"; c_guard := None;
           c_subcommands := ["list"; "get"];
           c_otherwise :=
             "Unknown images subcommand. Use: list, get" |};
        {| c_name := "workspaces"; c_guard := None;
           c_subcommands := ["list"; "get"];
           c_otherwise :=
             "Unknown workspaces subcommand. Use: list, get" |} ]
  | wistia =>
      [ {| c_name := "projects"; c_guard := None;
           c_subcommands := ["list"; "get"; "create"; "update"; "delete"];
           c_otherwise :=
             "Unknown projects subcommand. Use: list, get, create, update, delete" |};
        {| c_name := "medias"; c_guard := None;
           c_subcommands := ["list"; "get"; "update"; "delete"; "copy"; "stats"];
           c_otherwise :=
             "Unknown medias subcommand. Use: list, get, update, delete, copy, stats" |};
        {| c_name := "stats"; c_guard := None;
           c_subcommands := [ "account"; "project"; "media"; "media-by-date"; "engagement";
                             "visitors"; "visitor"; "events" ];
           c_otherwise :=
             "Unknown stats subcommand. Use: account, project, media, media-by-date, engagement, visitors, visitor, events" |};
        {| c_name := "captions"; c_guard := None;
           c_subcommands := ["list"; "create"];
           c_otherwise :=
             "Unknown captions subcommand. Use: list, create" |} ]
  | zapier =>
      [ {| c_name := "zaps"; c_guard := None;
           c_subcommands := ["list"; "get"; "on"; "off"];
           c_otherwise :=
             "Unknown zaps subcommand. Use: list, get, on, off" |};
        {| c_name := "tasks"; c_guard := None;
           c_subcommands := ["list"];
           c_otherwise :=
             "Unknown tasks subcommand. Use: list" |};
        {| c_name := "profile"; c_guard := None;
           c_subcommands := ["me"];
           c_otherwise :=
             "Unknown profile subcommand. Use: me" |};
        {| c_name := "hooks"; c_guard := None;
           c_subcommands := ["send"];
           c_otherwise :=
             "Unknown hooks subcommand. Use: send" |} ]
  end.

(** The primary commands that are not of that kind: those without a
    subcommand ([ping], [me], [send], ...), [contacts] of resend, which
    takes the audience in place of the subcommand, and [account] of
    google-ads and [validate] of sendgrid, whose [default:] case sends a
    request. *)
Definition direct_commands (c : cli) : list string :=
  match c with
  | buffer => ["info"]
  | demio => ["ping"]
  | google_ads => ["account"]
  | livestorm => ["ping"; "organization"]
  | resend => ["send"; "contacts"; "batch"]
  | savvycal => ["me"]
  | sendgrid => ["send"; "validate"]
  | wistia => ["account"]
  | _ => []
  end.

(** The message of the [default:] case as the handlers write it (all but
    [messages] of intercom, whose message shows the flags of [create]). *)
Definition unknown_subcommand (entry : command) : string :=
  "Unknown " ++ c_name entry ++ " subcommand. Use: " ++ join ", " (c_subcommands entry).

(** What an unknown subcommand of the command [entry] gives: the message
    of the [default:] case or, when the handler checks a flag first and the
    flag is not given, the message of that check. *)
Definition reported (args : gmap string value) (entry : command) : string :=
  match c_guard entry with
  | Some (flag, message) => if truthy (get args flag) then c_otherwise entry else message
  | None => c_otherwise entry
  end.

(** The [case] labels of the primary [switch]. *)
Definition known_commands (c : cli) : list string :=
  (map c_name (commands c) ++ direct_commands c)%list.

(** The calls that the handlers make to the request executors of their
    tool: the functions that return a descriptor in dry-run mode.  (buffer
    builds two descriptors inside [main]; they are [Buffer.post_form].) *)
Inductive executor_call : Type :=
| klaviyo_api (method path : string) (body : option json)
| mixpanel_ingestApi (method path : string) (body : option json)
| mixpanel_queryApi (method baseUrl path : string) (params : option (list (string * string)))
| mixpanel_queryApiPost (path : string) (body : json)
| semrush_api (params : list (string * string))
| hotjar_api (method path : string)
| trustpilot_api (method path : string) (body : option json) (auth : string)
| tiktok_ads_api (method path : string) (body : option json)
| ahrefs_api (method path : string)
| beehiiv_api (method path : string) (body : option json)
| clearbit_api (method baseUrl path : string) (body : option json)
| dataforseo_api (method path : string) (body : option json)
| demio_api (method path : string) (body : option json)
| partnerstack_api (method path : string) (body : option json)
| google_ads_api (method path : string) (body : option json)
| segment_trackApi (method path : string) (body : option json)
| segment_profileApi (method path : string)
| kit_api (method path : string) (body : option (list (string * json))) (useSecret : bool)
| linkedin_ads_api (method path : string) (body : option json)
| livestorm_api (method path : string) (body : option json)
| customer_io_trackApi (method path : string) (body : option json)
| customer_io_appApi (method path : string) (body : option json)
| mention_me_api (method path : string) (body : option json)
| meta_ads_api (method path : string) (body : option json)
| onesignal_api (method path : string) (body : option json)
| apollo_api (method path : string) (body : option json)
| calendly_api (method path : string) (body : option json)
| keywords_everywhere_api (method path : string) (body : option json)
| activecampaign_api (method path : string) (body : option json)
| intercom_api (method path : string) (body : option json)
| g2_api (method path : string) (body : option json)
| rewardful_api (method path : string) (body : option json)
| paddle_api (method path : string) (body : option json)
| google_search_console_api (method path : string) (body : option json)
| brevo_api (method path : string) (body : option json)
| dub_api (method path : string) (body : option json)
| buffer_api (method path : string) (body : option (list (string * json)))
| buffer_apiJson (method path : string) (body : option json)
| buffer_post_form (url : string) (formBody : list (string * string))
| ga4_api (method baseUrl path : string) (body : option json)
| ga4_mpApi (measurementId apiSecret : value) (body : json)
| mailchimp_api (method path : string) (body : option json)
| tolt_api (method path : string) (body : option json)
| adobe_analytics_api (method path : string) (body : option json)
| plausible_api (method path : string) (body : option json)
| postmark_api (method path : string) (body : option json) (useAccountToken : bool)
| resend_api (method path : string) (body : option json)
| savvycal_api (method path : string) (body : option json)
| sendgrid_api (method path : string) (body : option json)
| amplitude_ingestApi (method path : string) (body : option json)
| amplitude_queryApi (method path : string) (params : list (string * string))
| typeform_api (method path : string) (body : option json)
| wistia_api (method path : string) (body : option json)
| zapier_api (method path : string) (body : option json)
| zapier_webhookPost (url : value) (data : json)
| optimizely_api (method path : string) (body : option json).

Definition execute (rt : runtime) (w : world) (args : gmap string value)
    (c : executor_call) : M output :=
  match c with
  | klaviyo_api method path body =>
      Klaviyo.api w args method path body
  | mixpanel_ingestApi method path body =>
      Mixpanel.ingestApi w args method path body
  | mixpanel_queryApi method baseUrl path params =>
      Mixpanel.queryApi rt w args method baseUrl path params
  | mixpanel_queryApiPost path body =>
      Mixpanel.queryApiPost rt w args path body
  | semrush_api params =>
      Semrush.api rt w args params
  | hotjar_api method path =>
      Hotjar.api rt w args method path
  | trustpilot_api method path body auth =>
      Trustpilot.api rt w args method path body auth
  | tiktok_ads_api method path body =>
      Tiktok.api w args method path body
  | ahrefs_api method path =>
      Ahrefs.api w args method path
  | beehiiv_api method path body =>
      Beehiiv.api w args method path body
  | clearbit_api method baseUrl path body =>
      Clearbit.api w args method baseUrl path body
  | dataforseo_api method path body =>
      Dataforseo.api rt w args method path body
  | demio_api method path body =>
      Demio.api w args method path body
  | partnerstack_api method path body =>
      Partnerstack.api rt w args method path body
  | google_ads_api method path body =>
      GoogleAds.api w args method path body
  | segment_trackApi method path body =>
      Segment.trackApi rt w args method path body
  | segment_profileApi method path =>
      Segment.profileApi rt w args method path
  | kit_api method path body useSecret =>
      Kit.api rt w args method path body useSecret
  | linkedin_ads_api method path body =>
      LinkedinAds.api w args method path body
  | livestorm_api method path body =>
      Livestorm.api w args method path body
  | customer_io_trackApi method path body =>
      Customerio.trackApi rt w args method path body
  | customer_io_appApi method path body =>
      Customerio.appApi w args method path body
  | mention_me_api method path body =>
      MentionMe.api w args method path body
  | meta_ads_api method path body =>
      MetaAds.api w args method path body
  | onesignal_api method path body =>
      Onesignal.api w args method path body
  | apollo_api method path body =>
      Apollo.api w args method path body
  | calendly_api method path body =>
      Calendly.api w args method path body
  | keywords_everywhere_api method path body =>
      KeywordsEverywhere.api w args method path body
  | activecampaign_api method path body =>
      Activecampaign.api rt w args method path body
  | intercom_api method path body =>
      Intercom.api w args method path body
  | g2_api method path body =>
      G2.api w args method path body
  | rewardful_api method path body =>
      Rewardful.api w args method path body
  | paddle_api method path body =>
      Paddle.api w args method path body
  | google_search_console_api method path body =>
      SearchConsole.api w args method path body
  | brevo_api method path body =>
      Brevo.api w args method path body
  | dub_api method path body =>
      Dub.api w args method path body
  | buffer_api method path body =>
      Buffer.api rt w args method path body
  | buffer_apiJson method path body =>
      Buffer.apiJson w args method path body
  | buffer_post_form url formBody =>
      Buffer.post_form rt w args url formBody
  | ga4_api method baseUrl path body =>
      Ga4.api w args method baseUrl path body
  | ga4_mpApi measurementId apiSecret body =>
      Ga4.mpApi rt w args measurementId apiSecret body
  | mailchimp_api method path body =>
      Mailchimp.api w args method path body
  | tolt_api method path body =>
      Tolt.api w args method path body
  | adobe_analytics_api method path body =>
      Adobe.api w args method path body
  | plausible_api method path body =>
      Plausible.api w args method path body
  | postmark_api method path body useAccountToken =>
      Postmark.api w args method path body useAccountToken
  | resend_api method path body =>
      Resend.api w args method path body
  | savvycal_api method path body =>
      Savvycal.api w args method path body
  | sendgrid_api method path body =>
      Sendgrid.api w args method path body
  | amplitude_ingestApi method path body =>
      Amplitude.ingestApi w args method path body
  | amplitude_queryApi method path params =>
      Amplitude.queryApi rt w args method path params
  | typeform_api method path body =>
      Typeform.api w args method path body
  | wistia_api method path body =>
      Wistia.api rt w args method path body
  | zapier_api method path body =>
      Zapier.api w args method path body
  | zapier_webhookPost url data =>
      Zapier.webhookPost w args url data
  | optimizely_api method path body =>
      Optimizely.api w args method path body
  end.

Definition executor_of (c : executor_call) : cli :=
  match c with
  | klaviyo_api _ _ _ => klaviyo
  | mixpanel_ingestApi _ _ _ => mixpanel
  | mixpanel_queryApi _ _ _ _ => mixpanel
  | mixpanel_queryApiPost _ _ => mixpanel
  | semrush_api _ => semrush
  | hotjar_api _ _ => hotjar
  | trustpilot_api _ _ _ _ => trustpilot
  | tiktok_ads_api _ _ _ => tiktok_ads
  | ahrefs_api _ _ => ahrefs
  | beehiiv_api _ _ _ => beehiiv
  | clearbit_api _ _ _ _ => clearbit
  | dataforseo_api _ _ _ => dataforseo
  | demio_api _ _ _ => demio
  | partnerstack_api _ _ _ => partnerstack
  | google_ads_api _ _ _ => google_ads
  | segment_trackApi _ _ _ => segment
  | segment_profileApi _ _ => segment
  | kit_api _ _ _ _ => kit
  | linkedin_ads_api _ _ _ => linkedin_ads
  | livestorm_api _ _ _ => livestorm
  | customer_io_trackApi _ _ _ => customer_io
  | customer_io_appApi _ _ _ => customer_io
  | mention_me_api _ _ _ => mention_me
  | meta_ads_api _ _ _ => meta_ads
  | onesignal_api _ _ _ => onesignal
  | apollo_api _ _ _ => apollo
  | calendly_api _ _ _ => calendly
  | keywords_everywhere_api _ _ _ => keywords_everywhere
  | activecampaign_api _ _ _ => activecampaign
  | intercom_api _ _ _ => intercom
  | g2_api _ _ _ => g2
  | rewardful_api _ _ _ => rewardful
  | paddle_api _ _ _ => paddle
  | google_search_console_api _ _ _ => google_search_console
  | brevo_api _ _ _ => brevo
  | dub_api _ _ _ => dub
  | buffer_api _ _ _ => buffer
  | buffer_apiJson _ _ _ => buffer
  | buffer_post_form _ _ => buffer
  | ga4_api _ _ _ _ => ga4
  | ga4_mpApi _ _ _ => ga4
  | mailchimp_api _ _ _ => mailchimp
  | tolt_api _ _ _ => tolt
  | adobe_analytics_api _ _ _ => adobe_analytics
  | plausible_api _ _ _ => plausible
  | postmark_api _ _ _ _ => postmark
  | resend_api _ _ _ => resend
  | savvycal_api _ _ _ => savvycal
  | sendgrid_api _ _ _ => sendgrid
  | amplitude_ingestApi _ _ _ => amplitude
  | amplitude_queryApi _ _ _ => amplitude
  | typeform_api _ _ _ => typeform
  | wistia_api _ _ _ => wistia
  | zapier_api _ _ _ => zapier
  | zapier_webhookPost _ _ => zapier
  | optimizely_api _ _ _ => optimizely
  end.

(** The headers under which the request of a call carries a credential.
    (semrush, kit and the measurement protocol of ga4 carry it in the query
    string, the ingestion endpoints of mixpanel and amplitude in the body;
    a webhook of zapier carries none.) *)
Definition credential_headers (c : executor_call) : list string :=
  match c with
  | klaviyo_api _ _ _ => ["Authorization"]
  | mixpanel_ingestApi _ _ _ => []
  | mixpanel_queryApi _ _ _ _ => ["Authorization"]
  | mixpanel_queryApiPost _ _ => ["Authorization"]
  | semrush_api _ => []
  | hotjar_api _ _ => ["Authorization"]
  | trustpilot_api _ _ _ auth =>
      if String.eqb auth "bearer" then ["Authorization"] else ["apikey"]
  | tiktok_ads_api _ _ _ => ["Access-Token"]
  | ahrefs_api _ _ => ["Authorization"]
  | beehiiv_api _ _ _ => ["Authorization"]
  | clearbit_api _ _ _ _ => ["Authorization"]
  | dataforseo_api _ _ _ => ["Authorization"]
  | demio_api _ _ _ => ["Api-Key"; "Api-Secret"]
  | partnerstack_api _ _ _ => ["Authorization"]
  | google_ads_api _ _ _ => ["Authorization"; "developer-token"]
  | segment_trackApi _ _ _ => ["Authorization"]
  | segment_profileApi _ _ => ["Authorization"]
  | kit_api _ _ _ _ => []
  | linkedin_ads_api _ _ _ => ["Authorization"]
  | livestorm_api _ _ _ => ["Authorization"]
  | customer_io_trackApi _ _ _ => ["Authorization"]
  | customer_io_appApi _ _ _ => ["Authorization"]
  | mention_me_api _ _ _ => ["Authorization"]
  | meta_ads_api _ _ _ => ["Authorization"]
  | onesignal_api _ _ _ => ["Authorization"]
  | apollo_api _ _ _ => ["x-api-key"]
  | calendly_api _ _ _ => ["Authorization"]
  | keywords_everywhere_api _ _ _ => ["Authorization"]
  | activecampaign_api _ _ _ => ["Api-Token"]
  | intercom_api _ _ _ => ["Authorization"]
  | g2_api _ _ _ => ["Authorization"]
  | rewardful_api _ _ _ => ["Authorization"]
  | paddle_api _ _ _ => ["Authorization"]
  | google_search_console_api _ _ _ => ["Authorization"]
  | brevo_api _ _ _ => ["api-key"]
  | dub_api _ _ _ => ["Authorization"]
  | buffer_api _ _ _ => ["Authorization"]
  | buffer_apiJson _ _ _ => ["Authorization"]
  | buffer_post_form _ _ => ["Authorization"]
  | ga4_api _ _ _ _ => ["Authorization"]
  | ga4_mpApi _ _ _ => []
  | mailchimp_api _ _ _ => ["Authorization"]
  | tolt_api _ _ _ => ["Authorization"]
  | adobe_analytics_api _ _ _ => ["Authorization"; "x-api-key"]
  | plausible_api _ _ _ => ["Authorization"]
  | postmark_api _ _ _ useAccountToken => [Postmark.token_header useAccountToken]
  | resend_api _ _ _ => ["Authorization"]
  | savvycal_api _ _ _ => ["Authorization"]
  | sendgrid_api _ _ _ => ["Authorization"]
  | amplitude_ingestApi _ _ _ => []
  | amplitude_queryApi _ _ _ => ["Authorization"]
  | typeform_api _ _ _ => ["Authorization"]
  | wistia_api _ _ _ => ["Authorization"]
  | zapier_api _ _ _ => ["X-API-Key"]
  | zapier_webhookPost _ _ => []
  | optimizely_api _ _ _ => ["Authorization"]
  end.

(** The executors that test their credential before they look at
    [--dry-run], and return [{error}] without it. *)
Definition checks_credential_first (c : executor_call) : bool :=
  match c with
  | mixpanel_queryApi _ _ _ _ | mixpanel_queryApiPost _ _
  | segment_trackApi _ _ _ | segment_profileApi _ _
  | customer_io_trackApi _ _ _ | customer_io_appApi _ _ _
  | amplitude_queryApi _ _ _ => true
  | _ => false
  end.

(** The header values that the scripts write as literals: the content
    types, and the API revisions that klaviyo and intercom send. *)
Definition literal_header_values : list string :=
  [ "application/json"; "application/vnd.api+json"; "application/x-www-form-urlencoded";
    "2024-10-15"; "2.11" ].

(** The handlers that read the clock: [events create] of klaviyo
    ([time: new Date().toISOString()]), [query events] of mixpanel (the
    default date range), [events create] of intercom (the default of
    [created_at]) and the [search] commands of google-search-console (the
    default date range). *)
Definition reads_clock (c : cli) (cmd sub : value) : bool :=
  match c with
  | klaviyo => value_is cmd "events" && value_is sub "create"
  | mixpanel => value_is cmd "query" && value_is sub "events"
  | intercom => value_is cmd "events" && value_is sub "create"
  | google_search_console => value_is cmd "search"
  | _ => false
  end.

End Catalogue.

(** * Properties *)

Module ParserFacts.

Lemma parseArgs_loop_unfold args i result :
  parseArgs_loop args i result =
  match args !! i with
  | None => Normal result
  | Some arg =>
      match loop_body args i arg result with
      | Throw m => Throw m
      | Normal (j, result') => parseArgs_loop args j result'
      end
  end.
Proof.
  funelim (parseArgs_loop args i result).
  - rewrite e. reflexivity.
  - rewrite Harg, Hstep. reflexivity.
  - rewrite Harg, e. reflexivity.
Qed.

Lemma drop_lookup_cons (args : list string) i arg :
  args !! i = Some arg -> drop i args = arg :: drop (S i) args.
Proof. intros H. by apply drop_S. Qed.

(** The loop started at index [i] does what the pairing of the remaining
    tokens says. *)
Lemma parseArgs_loop_pairing args :
  forall n i result, List.length args - i <= n ->
    parseArgs_loop args i result = replay (pairing (drop i args)) result.
Proof.
  induction n as [|n IH]; intros i result Hn; rewrite parseArgs_loop_unfold.
  - rewrite (lookup_ge_None_2 args i) by lia.
    rewrite drop_ge by lia. reflexivity.
  - destruct (args !! i) as [arg|] eqn:Harg.
    2:{ apply lookup_ge_None_1 in Harg. rewrite drop_ge by lia. reflexivity. }
    pose proof (lookup_lt_Some _ _ _ Harg) as Hlt.
    rewrite (drop_lookup_cons _ _ _ Harg). cbn [pairing].
    unfold loop_body.
    destruct (startsWith arg "--") eqn:Hflag.
    + replace (i + 1) with (S i) by lia.
      destruct (args !! S i) as [next|] eqn:Hnext; cbn [usable_value].
      * rewrite (drop_lookup_cons _ _ _ Hnext). cbn [truthy].
        destruct (negb (String.eqb next "") && negb (startsWith next "--")).
        -- cbn [replay apply_event]. replace (i + 2) with (S (S i)) by lia.
           apply IH. lia.
        -- rewrite <- (drop_lookup_cons _ _ _ Hnext).
           cbn [replay apply_event]. apply IH. lia.
      * apply lookup_ge_None_1 in Hnext.
        rewrite (drop_ge args (S i)) by lia.
        cbn [replay apply_event]. rewrite IH by lia.
        rewrite drop_ge by lia. reflexivity.
    + cbn [replay apply_event].
      destruct (push_positional result arg); [|reflexivity].
      replace (i + 1) with (S i) by lia. apply IH. lia.
Qed.

(** Every token is consumed by exactly one event: two by a flag that takes
    a value, one by any other. *)
Lemma pairing_consumes n : forall toks,
  List.length toks <= n ->
  foldr (fun ev k => consumed ev + k) 0 (pairing toks) = List.length toks.
Proof.
  induction n as [|n IH]; intros toks Hlen.
  - destruct toks; [done|cbn in Hlen; lia].
  - destruct toks as [|t rest]; [done|]. cbn [pairing]. cbn in Hlen.
    destruct (startsWith t "--").
    + destruct rest as [|next rest']; [done|]. cbn in Hlen.
      destruct (negb (String.eqb next "") && negb (startsWith next "--"));
        cbn [foldr consumed].
      * rewrite IH by lia. cbn. lia.
      * rewrite IH by (cbn; lia). cbn. lia.
    + cbn [foldr consumed]. rewrite IH by lia. cbn. lia.
Qed.

(** Apart from the flag [--_], nothing makes the parser throw. *)
Lemma replay_plain evs : forall result items,
  result !! "_" = Some (VArr items) ->
  Forall plain_event evs ->
  exists result', replay evs result = Normal result'.
Proof.
  induction evs as [|ev evs IH]; intros result items Hpos Hplain; cbn [replay].
  - by eexists.
  - inversion Hplain as [|? ? Hev Hrest]; subst.
    destruct ev as [key v|tok]; cbn [apply_event plain_event] in *.
    + apply (IH _ items); [|done]. unfold object_set.
      destruct (decide (key = "__proto__")); [done|]. by rewrite lookup_insert_ne.
    + unfold push_positional. rewrite Hpos.
      apply (IH _ (items ++ [tok])%list); [|done]. by rewrite lookup_insert_eq.
Qed.

Lemma pairing_plain n : forall toks,
  List.length toks <= n ->
  Forall (fun t => startsWith t "--" = true -> slice t 2 <> "_") toks ->
  Forall plain_event (pairing toks).
Proof.
  induction n as [|n IH]; intros toks Hlen Htoks.
  - destruct toks; [constructor|cbn in Hlen; lia].
  - destruct toks as [|t rest]; [constructor|]. cbn [pairing].
    inversion Htoks as [|? ? Ht Hrest]; subst. cbn in Hlen.
    destruct (startsWith t "--") eqn:Hflag.
    + destruct rest as [|next rest'].
      * constructor; [by apply Ht|constructor].
      * inversion Hrest as [|? ? Hnext Hrest']; subst. cbn in Hlen.
        destruct (negb (String.eqb next "") && negb (startsWith next "--")).
        -- constructor; [by apply Ht|]. apply IH; [lia|done].
        -- constructor; [by apply Ht|]. apply IH; [cbn; lia|done].
    + constructor; [done|]. apply IH; [lia|done].
Qed.

Lemma parseArgs_returns_without_underscore_flag args :
  Forall (fun t => startsWith t "--" = true -> slice t 2 <> "_") args ->
  exists result, parseArgs args = Normal result.
Proof.
  intros Hargs. unfold parseArgs.
  rewrite (parseArgs_loop_pairing args (List.length args) 0) by lia.
  rewrite drop_0. apply (replay_plain _ _ []); [done|].
  by apply (pairing_plain (List.length args)).
Qed.

End ParserFacts.

(** ** Claims about the parser *)

(** The example of section 8. *)
Example parse_a_b_x :
  parseArgs ["--a"; "--b"; "x"]
  = Normal {[ "_" := VArr []; "a" := VTrue; "b" := VStr "x" ]}.
Proof. vm_compute. reflexivity. Qed.

(** C1, at the failing input: a flag written [--_] replaces the array of
    positionals by its value, and the next positional token makes
    [result._.push(arg)] throw a TypeError. *)
Theorem parseArgs_throws_after_underscore_flag :
  parseArgs ["--_"; "x"; "y"] = Throw "result._.push is not a function".
Proof. vm_compute. reflexivity. Qed.

(** C3 as stated fails: after [--a] comes a token that exists and does not
    begin with [--] (the empty string), yet the parser sets [a] to [true],
    consumes one token and files the empty string as a positional. *)
Lemma parseArgs_empty_value_counterexample :
  parseArgs ["--a"; ""] = Normal {[ "_" := VArr [""]; "a" := VTrue ]}
  /\ replay (pairing_as_specified ["--a"; ""]) {[ "_" := VArr [] ]}
     = Normal {[ "_" := VArr []; "a" := VStr "" ]}
  /\ parseArgs ["--a"; ""]
     <> replay (pairing_as_specified ["--a"; ""]) {[ "_" := VArr [] ]}.
Proof. vm_compute. repeat split; try reflexivity. intros H. discriminate H. Qed.

(** C3, amended: for every token sequence the parser performs exactly the
    assignments and pushes of the pairing rule in which a following token
    is a flag's value when it exists, is not empty and does not begin with
    [--] (the flag takes that string and both tokens are consumed), and
    the flag is [true] with one token consumed otherwise; every token is
    consumed by exactly one flag or positional; in particular [--a --b x]
    gives [a = true], [b = "x"] and no positional. *)
Theorem parseArgs_follows_pairing :
  (forall args, parseArgs args = replay (pairing args) {[ "_" := VArr [] ]})
  /\ (forall args,
        foldr (fun ev k => consumed ev + k) 0 (pairing args) = List.length args)
  /\ (forall flag next rest,
        startsWith flag "--" = true ->
        pairing (flag :: next :: rest) =
          if negb (String.eqb next "") && negb (startsWith next "--")
          then Flag (slice flag 2) (VStr next) :: pairing rest
          else Flag (slice flag 2) VTrue :: pairing (next :: rest))
  /\ (forall flag, startsWith flag "--" = true ->
        pairing [flag] = [Flag (slice flag 2) VTrue])
  /\ parseArgs ["--a"; "--b"; "x"]
     = Normal {[ "_" := VArr []; "a" := VTrue; "b" := VStr "x" ]}.
Proof.
  split; [|split; [|split; [|split]]].
  - intros args. unfold parseArgs.
    rewrite (ParserFacts.parseArgs_loop_pairing args (List.length args) 0) by lia.
    reflexivity.
  - intros args. by apply (ParserFacts.pairing_consumes (List.length args)).
  - intros flag next rest Hflag. cbn [pairing]. rewrite Hflag. reflexivity.
  - intros flag Hflag. cbn [pairing]. rewrite Hflag. reflexivity.
  - exact parse_a_b_x.
Qed.

Lemma parseArgs_follows_pairing_witness :
  pairing ["--limit"; "5"; "--dry-run"]
  = [Flag "limit" (VStr "5"); Flag "dry-run" VTrue].
Proof.
  destruct parseArgs_follows_pairing as (_ & _ & Hstep & Hlast & _).
  rewrite (Hstep "--limit" "5" ["--dry-run"] eq_refl). cbn [String.eqb negb andb].
  rewrite (Hlast "--dry-run" eq_refl). reflexivity.
Defined.

(** ** Facts about the process skeleton *)

Module HostFacts.

Lemma switch_elim {A : Type} (P : A -> Prop) (v : value)
    (cases : list (string * A)) (d : A) :
  Forall (fun c => value_is v (fst c) = true -> P (snd c)) cases ->
  (Forall (fun c => value_is v (fst c) = false) cases -> P d) ->
  P (switch v cases d).
Proof.
  induction cases as [|[label body] rest IH]; intros Hcases Hd; cbn [switch].
  - apply Hd. constructor.
  - inversion Hcases as [|? ? Hhead Hrest]; subst. cbn [fst snd] in Hhead.
    destruct (value_is v label) eqn:Hv.
    + by apply Hhead.
    + apply IH; [exact Hrest|]. intros Hmiss. apply Hd. by constructor.
Qed.

Lemma switch_miss {A : Type} (v : value) (cases : list (string * A)) (d : A) :
  Forall (fun c => value_is v (fst c) = false) cases -> switch v cases d = d.
Proof.
  induction 1 as [|[label body] rest Hhead _ IH]; cbn [switch]; [done|].
  cbn [fst] in Hhead. by rewrite Hhead.
Qed.

Lemma value_is_true v label : value_is v label = true <-> v = VStr label.
Proof.
  destruct v; cbn; try (split; [discriminate|congruence]).
  rewrite String.eqb_eq. split; congruence.
Qed.

Lemma value_is_refl label : value_is (VStr label) label = true.
Proof. by apply value_is_true. Qed.

(** A value outside the labels misses every case. *)
Lemma miss_all {A : Type} (v : value) (cases : list (string * A)) :
  (forall label, label ∈ map fst cases -> v <> VStr label) ->
  Forall (fun c => value_is v (fst c) = false) cases.
Proof.
  intros Hv. apply Forall_forall. intros [label body] Hin. cbn [fst].
  destruct (value_is v label) eqn:E; [|done].
  apply value_is_true in E. exfalso. apply (Hv label); [|done].
  apply list_elem_of_fmap. by exists (label, body).
Qed.

Lemma quiet_ret {A : Type} (a : A) : quiet (ret a).
Proof. done. Qed.

Lemma quiet_throw {A : Type} (e : string) : quiet (@throw A e).
Proof. done. Qed.

Lemma quiet_lift {A : Type} (c : completion A) : quiet (lift c).
Proof. by destruct c. Qed.

Lemma quiet_bind {A B : Type} (m : M A) (k : A -> M B) :
  quiet m -> (forall a, quiet (k a)) -> quiet (bind m k).
Proof.
  intros Hm Hk st. unfold final, bind. specialize (Hm st). unfold final in Hm.
  destruct (m st) as [[a|e] st']; cbn [snd] in *; subst; [apply Hk|done].
Qed.

Lemma quiet_required v message (rest : M output) :
  quiet rest -> quiet (required v message rest).
Proof. intros H. unfold required. destruct (truthy v); [done|apply quiet_ret]. Qed.

Lemma quiet_switch {A : Type} (v : value) (cases : list (string * M A)) (d : M A) :
  Forall (fun c => quiet (snd c)) cases -> quiet d -> quiet (switch v cases d).
Proof.
  intros Hcases Hd. apply switch_elim; [|done].
  eapply Forall_impl; [exact Hcases|]. done.
Qed.

Lemma quiet_if {A : Type} (b : bool) (m1 m2 : M A) :
  quiet m1 -> quiet m2 -> quiet (if b then m1 else m2).
Proof. by destruct b. Qed.

Lemma run_gate_closed (t : tool) rt w argv message :
  gate t (env w) = Some message -> run t rt w argv = gate_exit message.
Proof. intros H. unfold run. by rewrite H. Qed.

(** A run that reaches [main]. *)
Lemma run_main (t : tool) rt w argv args cmd sub :
  gate t (env w) = None ->
  parseArgs argv = Normal args ->
  destructure (get args "_") = Normal (cmd, sub) ->
  run t rt w argv =
    match main t rt w args cmd sub initial with
    | (Normal result, st) =>
        {| stdout := [result]; stderr := []; code := 0;
           argv_parsed := true; fetched := requests st |}
    | (Throw e, st) =>
        {| stdout := []; stderr := [JsonError e]; code := 1;
           argv_parsed := true; fetched := requests st |}
    end.
Proof. intros Hg Hp Hd. unfold run. by rewrite Hg, Hp, Hd. Qed.

Lemma unset_falsy e name : unset e name <-> truthy (getenv e name) = false.
Proof.
  unfold unset, getenv. destruct (e !! name) as [s|]; cbn.
  - rewrite negb_false_iff, String.eqb_eq. split.
    + intros [H|H]; congruence.
    + intros ->. by right.
  - split; [done|]. by left.
Qed.

End HostFacts.
Import HostFacts.

(** ** Claims about the top level error boundary *)

(** C2 as stated fails: the exception that argument parsing raises on
    [--_ x y] is not caught by [main().catch]; the process ends on an
    uncaught TypeError (a stack trace on standard error, no JSON). *)
Lemma parsing_exception_escapes_counterexample :
  run Klaviyo.tool Sample.runtime (Sample.klaviyo_world Sample.noon Sample.offline)
      ["--_"; "x"; "y"]
  = {| stdout := []; stderr := [StackTrace "result._.push is not a function"];
       code := 1; argv_parsed := true; fetched := [] |}.
Proof. vm_compute. reflexivity. Qed.

(** C2, amended: in every tool, every exception raised inside [main()] (the
    dispatch-and-execute chain) is caught by [main().catch], converted to
    [{error: message}], printed to standard error as JSON, nothing is
    printed to standard output, and the process exits with code 1. *)
Theorem main_exceptions_are_caught (t : tool) rt w argv args cmd sub e st :
  gate t (env w) = None ->
  parseArgs argv = Normal args ->
  destructure (get args "_") = Normal (cmd, sub) ->
  main t rt w args cmd sub initial = (Throw e, st) ->
  run t rt w argv =
    {| stdout := []; stderr := [JsonError e]; code := 1;
       argv_parsed := true; fetched := requests st |}.
Proof.
  intros Hg Hp Hd Hm. rewrite (run_main t rt w argv args cmd sub Hg Hp Hd).
  by rewrite Hm.
Qed.

(** [lists add-profiles --id L1 --profiles]: the flag without a value is
    [true], [true.split] is not a function, and the TypeError raised inside
    [main()] comes out as JSON on standard error. *)
Lemma main_exceptions_are_caught_witness :
  run Klaviyo.tool Sample.runtime (Sample.klaviyo_world Sample.noon Sample.offline)
      ["lists"; "add-profiles"; "--id"; "L1"; "--profiles"]
  = {| stdout := []; stderr := [JsonError "args.profiles?.split is not a function"];
       code := 1; argv_parsed := true; fetched := [] |}.
Proof.
  apply (main_exceptions_are_caught Klaviyo.tool Sample.runtime
           (Sample.klaviyo_world Sample.noon Sample.offline)
           ["lists"; "add-profiles"; "--id"; "L1"; "--profiles"]
           {[ "_" := VArr ["lists"; "add-profiles"]; "id" := VStr "L1";
              "profiles" := VTrue ]}
           (VStr "lists") (VStr "add-profiles")
           "args.profiles?.split is not a function" initial);
    vm_compute; reflexivity.
Defined.

(** ** Claims about the credential gate *)

Module GateFacts.

Import Catalogue.

(** The gate of every script is the first failure of its table of tests. *)
Lemma gate_table (c : cli) e : gate (cli_tool c) e = first_failure e (credentials c).
Proof.
  destruct c; cbn [cli_tool credentials];
    match goal with
    | |- gate ?t e = _ => let t' := eval hnf in t in change t with t'
    end;
    cbn [gate];
    unfold first_failure, fails, missing;
    cbn [List.find forallb existsb fst snd];
    match goal with
    | |- ?g e = _ => unfold g
    end;
    try unfold Customerio.hasTrackAuth, Customerio.hasAppAuth;
    repeat match goal with
           | |- context [truthy (getenv e ?name)] => destruct (truthy (getenv e name))
           end;
    reflexivity.
Qed.

Lemma missing_true e group :
  missing e group = true <-> exists name, name ∈ group /\ unset e name.
Proof.
  unfold missing. rewrite existsb_exists. split.
  - intros (name & Hin & Hname). exists name. split; [by apply list_elem_of_In|].
    apply unset_falsy. by apply negb_true_iff.
  - intros (name & Hin & Hname). exists name. split; [by apply list_elem_of_In|].
    apply negb_true_iff. by apply unset_falsy.
Qed.

Lemma fails_true e check :
  fails e check = true
  <-> Forall (fun group => exists name, name ∈ group /\ unset e name) (fst check).
Proof.
  unfold fails. rewrite forallb_forall, Forall_forall. split.
  - intros H group Hin. apply missing_true, H. by apply list_elem_of_In.
  - intros H group Hin. apply missing_true, H. by apply list_elem_of_In.
Qed.

Lemma fails_false e check :
  fails e check = false
  <-> exists group, group ∈ fst check /\ Forall (fun name => ~ unset e name) group.
Proof.
  split.
  - intros H. unfold fails in H.
    induction (fst check) as [|group rest IH]; cbn [forallb] in H; [discriminate H|].
    apply andb_false_iff in H as [H|H].
    + exists group. split; [by left|]. apply Forall_forall. intros name Hin Hunset.
      assert (missing e group = true) as Hm by (apply missing_true; by exists name).
      congruence.
    + destruct (IH H) as (g & Hin & Hg). exists g. split; [by right|done].
  - intros (group & Hin & Hset). destruct (fails e check) eqn:E; [|done].
    apply fails_true in E. rewrite Forall_forall in E.
    destruct (E group Hin) as (name & Hname & Hunset).
    rewrite Forall_forall in Hset. by destruct (Hset name Hname).
Qed.

Lemma first_failure_found e before check after :
  Forall (fun c => fails e c = false) before ->
  fails e check = true ->
  first_failure e (before ++ check :: after) = Some (snd check).
Proof.
  intros Hbefore Hcheck. unfold first_failure.
  induction Hbefore as [|c rest Hc _ IH]; cbn [app List.find].
  - by rewrite Hcheck.
  - by rewrite Hc.
Qed.

Lemma first_failure_none e checks :
  Forall (fun c => fails e c = false) checks -> first_failure e checks = None.
Proof.
  unfold first_failure. induction 1 as [|c rest Hc _ IH]; cbn [List.find]; [done|].
  by rewrite Hc.
Qed.

End GateFacts.

(** C7 as stated fails: mixpanel started with only [MIXPANEL_API_KEY] set
    runs [track event], for which the unset [MIXPANEL_TOKEN] is required:
    the arguments are parsed and the error goes to standard output with
    exit code 0. *)
Lemma lazy_credential_check_counterexample :
  env Sample.mixpanel_key_only !! "MIXPANEL_TOKEN" = None
  /\ run Mixpanel.tool Sample.runtime Sample.mixpanel_key_only
        ["track"; "event"; "--distinct-id"; "u1"; "--event"; "signup"]
     = {| stdout := [Error "MIXPANEL_TOKEN required for tracking"]; stderr := [];
          code := 0; argv_parsed := true; fetched := [] |}.
Proof. vm_compute. split; reflexivity. Qed.

(** C7, amended: in each of the forty-seven tools the gate at the top of
    the script is the list of tests of [Catalogue.credentials].  When one of
    them fails (every alternative group of variables that it accepts has a
    variable that is unset or empty) and the tests before it pass, the
    process writes the message of that test as one JSON error object to
    standard error and exits with code 1, before any argument parsing and
    without any network access; and when every test passes, the gate lets
    the process go on. *)
Theorem gate_stops_the_process (c : Catalogue.cli) rt w argv :
  (forall before alternatives message after,
      Catalogue.credentials c = (before ++ (alternatives, message) :: after)%list ->
      Forall (fun check =>
                exists group, group ∈ fst check
                              /\ Forall (fun name => ~ unset (env w) name) group)
             before ->
      Forall (fun group => exists name, name ∈ group /\ unset (env w) name)
             alternatives ->
      run (Catalogue.cli_tool c) rt w argv = gate_exit message)
  /\ (Forall (fun check =>
                exists group, group ∈ fst check
                              /\ Forall (fun name => ~ unset (env w) name) group)
             (Catalogue.credentials c) ->
      gate (Catalogue.cli_tool c) (env w) = None).
Proof.
  split.
  - intros before alternatives message after Htable Hbefore Hfails.
    apply run_gate_closed. rewrite GateFacts.gate_table, Htable.
    apply (GateFacts.first_failure_found (env w) before (alternatives, message) after).
    + eapply Forall_impl; [exact Hbefore|]. intros check H. by apply GateFacts.fails_false.
    + by apply GateFacts.fails_true.
  - intros Hpass. rewrite GateFacts.gate_table. apply GateFacts.first_failure_none.
    eapply Forall_impl; [exact Hpass|]. intros check H. by apply GateFacts.fails_false.
Qed.

(** hotjar with the client id set and the secret empty. *)
Lemma gate_stops_the_process_witness :
  run Hotjar.tool Sample.runtime
      (Sample.world_at {[ "HOTJAR_CLIENT_ID" := "id_1"; "HOTJAR_CLIENT_SECRET" := "" ]}
                       Sample.noon Sample.online)
      ["sites"; "list"]
  = gate_exit "HOTJAR_CLIENT_ID and HOTJAR_CLIENT_SECRET environment variables required".
Proof.
  apply (proj1 (gate_stops_the_process Catalogue.hotjar Sample.runtime
           (Sample.world_at {[ "HOTJAR_CLIENT_ID" := "id_1"; "HOTJAR_CLIENT_SECRET" := "" ]}
                            Sample.noon Sample.online) ["sites"; "list"])
           [] [["HOTJAR_CLIENT_ID"; "HOTJAR_CLIENT_SECRET"]]
           "HOTJAR_CLIENT_ID and HOTJAR_CLIENT_SECRET environment variables required" []).
  - reflexivity.
  - constructor.
  - constructor; [|constructor]. exists "HOTJAR_CLIENT_SECRET". split.
    + set_solver.
    + right. reflexivity.
Defined.

(** ** Claims about dispatch *)

Module DispatchFacts.

Import Catalogue.

(** The [main] of the tool [c], as the script defines it. *)
Ltac expose_main :=
  cbn [cli_tool];
  match goal with
  | |- context [main ?t] => let t' := eval hnf in t in change t with t'
  end;
  cbn [main];
  lazymatch goal with
  | |- ?m ?rt ?w ?args ?cmd ?sub = _ => unfold m
  | |- ?m ?w ?args ?cmd ?sub = _ => unfold m
  | |- ?m ?args ?cmd ?sub = _ => unfold m
  | |- ?m ?cmd ?sub = _ => unfold m
  end.

Ltac listed :=
  repeat first [apply list_elem_of_here | apply list_elem_of_further].

Ltac each_case :=
  repeat (apply List.Forall_cons; [cbn [fst snd]; intros Hlabel|]);
  [..|apply List.Forall_nil].

Ltac wrong_label :=
  match goal with
  | Hlabel : value_is _ _ = true |- _ => by vm_compute in Hlabel
  end.

Lemma labels_miss {A : Type} (v : value) (known : list string) (cases : list (string * A)) :
  (forall name, name ∈ known -> v <> VStr name) ->
  Forall (fun l => l ∈ known) (map fst cases) ->
  Forall (fun c => value_is v (fst c) = false) cases.
Proof.
  intros Hv Hknown. apply miss_all. intros label Hin. apply Hv.
  rewrite Forall_forall in Hknown. by apply Hknown.
Qed.

Lemma unknown_command_of (c : cli) rt w args cmd sub :
  (forall name, name ∈ known_commands c -> cmd <> VStr name) ->
  main (cli_tool c) rt w args cmd sub = ret (unknown_command c).
Proof.
  intros Hcmd. destruct c; expose_main; cbn [unknown_command];
    apply switch_miss, (labels_miss _ _ _ Hcmd);
    repeat (apply List.Forall_cons; [cbn [fst]; listed|]); apply List.Forall_nil.
Qed.

Ltac unknown_sub Hsub :=
  first
    [ apply switch_miss, miss_all; exact Hsub
    | lazymatch goal with
      | |- required ?v ?m ?rest = ret (Error (if truthy ?flag then _ else _)) =>
          change (required v m rest) with (if truthy flag then rest else ret (Error m));
          destruct (truthy flag); [apply switch_miss, miss_all; exact Hsub|reflexivity]
      end ].

Lemma unknown_subcommand_of (c : cli) rt w args entry sub :
  entry ∈ commands c ->
  (forall s, s ∈ c_subcommands entry -> sub <> VStr s) ->
  main (cli_tool c) rt w args (VStr (c_name entry)) sub
  = ret (Error (reported args entry)).
Proof.
  intros Hin Hsub.
  destruct c; cbn [commands] in Hin;
    repeat (apply elem_of_cons in Hin as [->|Hin]);
    try (by apply elem_of_nil in Hin);
    cbn [c_name c_subcommands reported c_guard c_otherwise] in *;
    expose_main;
    (apply switch_elim;
     [ each_case; try wrong_label; unknown_sub Hsub
     | intros Hmiss; exfalso;
       repeat (apply Forall_cons in Hmiss as [Hhead Hmiss];
               cbn [fst] in Hhead; first [by vm_compute in Hhead|clear Hhead]) ]).
Qed.

Lemma otherwise_names_the_subcommands (c : cli) entry :
  entry ∈ commands c ->
  c_otherwise entry = unknown_subcommand entry
  \/ (c = intercom /\ c_name entry = "messages").
Proof.
  intros Hin.
  destruct c; cbn [commands] in Hin;
    repeat (apply elem_of_cons in Hin as [->|Hin]; [first [by left|by right]|]);
    by apply elem_of_nil in Hin.
Qed.

End DispatchFacts.

(** C9 as stated fails: an unknown subcommand gives an object with the
    single key [error]; there is no [usage] field at that level. *)
Lemma unknown_subcommand_has_no_usage_counterexample :
  run Klaviyo.tool Sample.runtime (Sample.klaviyo_world Sample.noon Sample.offline)
      ["profiles"; "bogus"]
  = printed (Error "Unknown profiles subcommand. Use: list, get, create, update").
Proof. vm_compute. reflexivity. Qed.

(** C9, amended: in each of the forty-seven tools an unknown primary command
    (a missing one included) never throws and produces
    [{error: "Unknown command", usage}]; an unknown subcommand of a command
    of [Catalogue.commands] never throws and produces [{error}] alone: the
    message of the [default:] case of the handler, which names the valid
    subcommands ([Unknown <command> subcommand. Use: <list>], except for
    [messages] of intercom), or, for the handlers that check a flag before
    they look at the subcommand ([--site-id] in hotjar and plausible,
    [--site-url] in google-search-console), the message of that check when
    the flag is not given.  Either is printed on standard output, the exit
    code is 0 and no request is made.  The commands of
    [Catalogue.direct_commands] take no subcommand (or, [contacts] of
    resend, the audience in its place), or send a request whatever it
    is. *)
Theorem unknown_commands_are_reported (c : Catalogue.cli) rt w argv args cmd sub :
  gate (Catalogue.cli_tool c) (env w) = None ->
  parseArgs argv = Normal args ->
  destructure (get args "_") = Normal (cmd, sub) ->
  ((forall name, name ∈ Catalogue.known_commands c -> cmd <> VStr name) ->
   run (Catalogue.cli_tool c) rt w argv = printed (Catalogue.unknown_command c))
  /\ (forall entry,
        entry ∈ Catalogue.commands c ->
        cmd = VStr (Catalogue.c_name entry) ->
        (forall s, s ∈ Catalogue.c_subcommands entry -> sub <> VStr s) ->
        run (Catalogue.cli_tool c) rt w argv
        = printed (Error (Catalogue.reported args entry)))
  /\ (forall entry,
        entry ∈ Catalogue.commands c ->
        Catalogue.c_otherwise entry = Catalogue.unknown_subcommand entry
        \/ (c = Catalogue.intercom /\ Catalogue.c_name entry = "messages")).
Proof.
  intros Hg Hp Hd. split; [|split]; [| |apply DispatchFacts.otherwise_names_the_subcommands].
  - intros Hcmd. rewrite (run_main _ rt w argv args cmd sub Hg Hp Hd).
    by rewrite (DispatchFacts.unknown_command_of c rt w args cmd sub Hcmd).
  - intros entry Hin -> Hsub.
    rewrite (run_main _ rt w argv args _ sub Hg Hp Hd).
    by rewrite (DispatchFacts.unknown_subcommand_of c rt w args entry sub Hin Hsub).
Qed.

Lemma unknown_commands_are_reported_witness :
  run Mixpanel.tool Sample.runtime Sample.mixpanel_token_only ["funnels"; "list"]
  = printed (Error "Unknown funnels subcommand. Use: get").
Proof.
  refine (proj1 (proj2 (unknown_commands_are_reported Catalogue.mixpanel Sample.runtime
                   Sample.mixpanel_token_only ["funnels"; "list"]
                   {[ "_" := VArr ["funnels"; "list"] ]} (VStr "funnels") (VStr "list")
                   _ _ _))
                {| Catalogue.c_name := "funnels"; Catalogue.c_guard := None;
                   Catalogue.c_subcommands := ["get"];
                   Catalogue.c_otherwise := "Unknown funnels subcommand. Use: get" |}
                _ eq_refl _).
  - vm_compute. reflexivity.
  - vm_compute. reflexivity.
  - vm_compute. reflexivity.
  - cbn [Catalogue.commands]. repeat constructor.
  - intros s Hs. apply list_elem_of_singleton in Hs as ->. discriminate.
Defined.

(** ** Claims about required flags *)

Module FlagFacts.

Lemma get_omitted (args : gmap string value) flag :
  args !! flag = None -> get args flag = VUndefined.
Proof. intros H. unfold get. by rewrite H. Qed.

(** Where the handlers of klaviyo check their flags, the rule of the claim
    holds: with the other checked flags of the handler given, a handler
    whose flag [f] is omitted returns [{error}] naming [--f] and calls
    neither [fetch] nor anything else. *)
Lemma klaviyo_reports_omitted_flag rt w args c s flags f st :
  (c, s, flags) ∈ checked_flags ->
  f ∈ flags ->
  args !! f = None ->
  (forall g, g ∈ flags -> g <> f -> truthy (get args g) = true) ->
  exists message,
    Klaviyo.main rt w args (VStr c) (VStr s) st = (Normal (Error message), st)
    /\ includes message ("--" ++ f) = true.
Proof.
  intros Hin Hf Hnone Hothers. unfold checked_flags in Hin.
  repeat (apply elem_of_cons in Hin as [Hin|Hin]; [injection Hin as -> -> ->|]);
    try (by apply elem_of_nil in Hin);
    repeat (apply elem_of_cons in Hf as [->|Hf]);
    try (by apply elem_of_nil in Hf);
    pose proof (get_omitted args _ Hnone) as Hget;
    unfold Klaviyo.main;
    cbv beta iota delta [switch value_is String.eqb Ascii.eqb Bool.eqb];
    unfold Klaviyo.get_by_id, Klaviyo.relationships, required;
    rewrite ?Hget; cbn [truthy];
    try (rewrite (Hothers "id") by (first [discriminate|repeat constructor]));
    try (rewrite (Hothers "metric") by (first [discriminate|repeat constructor]));
    rewrite ?Hget; cbn [truthy Klaviyo.optional_split lift bind ret];
    eexists; (split; [reflexivity|vm_compute; reflexivity]).
Qed.

End FlagFacts.

(** C8, at the failing input: the usage text of semrush documents
    [--domain <domain>] as required for [domain overview] (optional flags
    are bracketed there), yet with the flag omitted the handler checks
    nothing: it sends [domain=undefined] to the API and prints the
    answer. *)
Theorem semrush_sends_request_without_domain :
  assoc_get Semrush.usage "domain overview" = Some "domain overview --domain <domain>"
  /\ run Semrush.tool Sample.runtime Sample.semrush_world ["domain"; "overview"]
     = {| stdout := [Rows []]; stderr := []; code := 0; argv_parsed := true;
          fetched :=
            [ {| r_method := "GET";
                 r_url := Semrush.BASE_URL ++ "?"
                          ++ form_urlencode Sample.runtime
                               [ ("type", "domain_ranks");
                                 ("export_columns", "Db,Dn,Rk,Or,Ot,Oc,Ad,At,Ac");
                                 ("domain", "undefined");
                                 ("key", "sk_1");
                                 ("export_escape", "1") ];
                 r_headers := []; r_body := None |} ] |}.
Proof. vm_compute. split; reflexivity. Qed.

(** ** Claims about dry-run output *)

Module AssocFacts.

Lemma assoc_get_set_eq {A : Type} (o : list (string * A)) k v :
  assoc_get (assoc_set o k v) k = Some v.
Proof.
  induction o as [|[k' v'] rest IH]; cbn.
  - by rewrite String.eqb_refl.
  - destruct (String.eqb k' k) eqn:E; cbn.
    + by rewrite String.eqb_refl.
    + by rewrite E.
Qed.

Lemma assoc_get_set_ne {A : Type} (o : list (string * A)) k k' v :
  k <> k' -> assoc_get (assoc_set o k v) k' = assoc_get o k'.
Proof.
  intros Hne. induction o as [|[k0 v0] rest IH]; cbn.
  - destruct (String.eqb k k') eqn:E; [|done].
    apply String.eqb_eq in E. done.
  - destruct (String.eqb k0 k) eqn:E; cbn.
    + apply String.eqb_eq in E as ->.
      destruct (String.eqb k k') eqn:E'; [|done].
      apply String.eqb_eq in E'. done.
    + by rewrite IH.
Qed.

End AssocFacts.

(** C10 as stated fails: [track event] sets [properties.token] on whatever
    [JSON.parse(args.properties)] gave.  When that is an array, the stored
    property is not among the elements that [JSON.stringify] prints (and on
    a number, a string or a boolean the assignment is dropped): the
    descriptor of [--properties []] holds no token. *)
Lemma mixpanel_token_is_lost_on_an_array_counterexample :
  env Sample.mixpanel_token_only !! "MIXPANEL_TOKEN" = Some "tok_live_1"
  /\ run Mixpanel.tool Sample.reads_empty_array Sample.mixpanel_token_only
       [ "track"; "event"; "--distinct-id"; "u1"; "--event"; "signup";
         "--properties"; "[]"; "--dry-run" ]
     = printed (DryRun
         {| d_method := "POST"; d_url := "https://api.mixpanel.com/track";
            d_headers := [("Content-Type", "application/json")];
            d_body := Some (JArr [JObj
              [ ("event", JStr "signup"); ("properties", JArr []) ]]) |}).
Proof. split; vm_compute; reflexivity. Qed.

(** C10, amended: in mixpanel, the descriptor that dry-run mode returns for
    the ingestion commands carries the real [MIXPANEL_TOKEN] in its body:
    under [$token] for [profiles set], whatever [--properties] parses to,
    and under [properties.token] for [track event] when [--properties] is
    omitted or parses to a JSON object.  When it parses to an array, a
    number, a string or a boolean, the descriptor of [track event] shows
    that value as [properties], without the token; when it parses to
    [null], the assignment throws.  The only header is the content type, so
    there is nothing for the masking of header values to hide, and nothing
    masks the body. *)
Theorem mixpanel_dry_run_body_holds_token rt w args token st :
  env w !! "MIXPANEL_TOKEN" = Some token ->
  token <> "" ->
  truthy (get args "dry-run") = true ->
  truthy (get args "distinct-id") = true ->
  (forall properties,
      Mixpanel.parsed_properties rt args = Normal properties ->
      Mixpanel.main rt w args (VStr "profiles") (VStr "set") st =
        (Normal (DryRun
           {| d_method := "POST"; d_url := "https://api.mixpanel.com/engage";
              d_headers := [("Content-Type", "application/json")];
              d_body := Some (JArr [JObj
                [ ("$token", JStr token);
                  ("$distinct_id", json_of (get args "distinct-id"));
                  ("$set", properties) ]]) |}), st))
  /\ (forall fields,
        truthy (get args "event") = true ->
        Mixpanel.parsed_properties rt args = Normal (JObj fields) ->
        exists properties,
          Mixpanel.main rt w args (VStr "track") (VStr "event") st =
            (Normal (DryRun
               {| d_method := "POST"; d_url := "https://api.mixpanel.com/track";
                  d_headers := [("Content-Type", "application/json")];
                  d_body := Some (JArr [JObj
                    [ ("event", json_of (get args "event"));
                      ("properties", JObj properties) ]]) |}), st)
          /\ assoc_get properties "token" = Some (JStr token))
  /\ (truthy (get args "properties") = false ->
      Mixpanel.parsed_properties rt args = Normal (JObj []))
  /\ (forall properties,
        truthy (get args "event") = true ->
        Mixpanel.parsed_properties rt args = Normal properties ->
        (forall fields, properties <> JObj fields) ->
        Mixpanel.main rt w args (VStr "track") (VStr "event") st =
          match properties with
          | JNull => (Throw "Cannot set properties of null (setting 'token')", st)
          | _ =>
              (Normal (DryRun
                 {| d_method := "POST"; d_url := "https://api.mixpanel.com/track";
                    d_headers := [("Content-Type", "application/json")];
                    d_body := Some (JArr [JObj
                      [ ("event", json_of (get args "event"));
                        ("properties", properties) ]]) |}), st)
          end).
Proof.
  intros Htoken Hne Hdry Hid.
  assert (Mixpanel.TOKEN w = VStr token) as HT.
  { unfold Mixpanel.TOKEN, getenv. by rewrite Htoken. }
  assert (truthy (VStr token) = true) as HTt.
  { cbn. apply negb_true_iff, String.eqb_neq. done. }
  split; [|split; [|split]].
  - intros properties Hprops. unfold Mixpanel.main.
    cbv beta iota delta [switch value_is String.eqb Ascii.eqb Bool.eqb].
    unfold required. rewrite HT, HTt, Hid, Hprops.
    unfold Mixpanel.ingestApi. rewrite Hdry. reflexivity.
  - intros fields Hevent Hprops.
    exists (assoc_set (assoc_set fields "token" (JStr token)) "distinct_id"
              (json_of (get args "distinct-id"))).
    split.
    + unfold Mixpanel.main.
      cbv beta iota delta [switch value_is String.eqb Ascii.eqb Bool.eqb].
      unfold required. rewrite HT, HTt, Hid, Hevent, Hprops.
      unfold Mixpanel.ingestApi. rewrite Hdry. reflexivity.
    + rewrite AssocFacts.assoc_get_set_ne by discriminate.
      apply AssocFacts.assoc_get_set_eq.
  - intros Hnone. unfold Mixpanel.parsed_properties. by rewrite Hnone.
  - intros properties Hevent Hprops Hobj. unfold Mixpanel.main.
    cbv beta iota delta [switch value_is String.eqb Ascii.eqb Bool.eqb].
    unfold required. rewrite HT, HTt, Hid, Hevent, Hprops.
    unfold Mixpanel.ingestApi. rewrite Hdry.
    destruct properties; try reflexivity. by destruct (Hobj fields).
Qed.

(** [track event --distinct-id u1 --event signup --dry-run] with
    [MIXPANEL_TOKEN=tok_live_1]. *)
Lemma mixpanel_dry_run_body_holds_token_witness :
  exists properties,
    Mixpanel.main Sample.runtime Sample.mixpanel_token_only
      {[ "_" := VArr ["track"; "event"]; "distinct-id" := VStr "u1";
         "event" := VStr "signup"; "dry-run" := VTrue ]}
      (VStr "track") (VStr "event") initial
    = (Normal (DryRun
         {| d_method := "POST"; d_url := "https://api.mixpanel.com/track";
            d_headers := [("Content-Type", "application/json")];
            d_body := Some (JArr [JObj
              [ ("event", JStr "signup");
                ("properties", JObj properties) ]]) |}), initial)
    /\ assoc_get properties "token" = Some (JStr "tok_live_1").
Proof.
  apply (proj1 (proj2 (mixpanel_dry_run_body_holds_token Sample.runtime
                  Sample.mixpanel_token_only
                  {[ "_" := VArr ["track"; "event"]; "distinct-id" := VStr "u1";
                     "event" := VStr "signup"; "dry-run" := VTrue ]}
                  "tok_live_1" initial eq_refl ltac:(discriminate) eq_refl eq_refl))
               [] eq_refl eq_refl).
Defined.

(** ** Claims about dry-run mode *)

Module DescriptorFacts.

Import Catalogue.

Ltac head_of t :=
  lazymatch t with
  | ?f _ => head_of f
  | _ => t
  end.

Ltac listed_in :=
  repeat first [apply list_elem_of_here | apply list_elem_of_further].

Ltac headers_ok :=
  repeat (apply List.Forall_cons;
          [ cbn [snd];
            first [ left; reflexivity
                  | right; unfold literal_header_values; listed_in ] |]);
  apply List.Forall_nil.

(** Headers that hold the mask or a literal hold no secret. *)
Lemma no_secret_in_headers (w : world) (headers : list (string * string)) :
  Forall (fun h => snd h = mask \/ snd h ∈ literal_header_values) headers ->
  forall name secret,
    env w !! name = Some secret ->
    secret <> mask -> secret ∉ literal_header_values ->
    forall h, (h, secret) ∉ headers.
Proof.
  intros Hd name secret _ Hmask Hlit h Hin.
  rewrite Forall_forall in Hd. destruct (Hd _ Hin) as [Heq|Heq]; cbn in Heq; done.
Qed.

Ltac descriptor_ok :=
  left; eexists; split; [reflexivity|];
  cbn [d_headers assoc_set String.eqb Ascii.eqb Bool.eqb];
  split; [headers_ok|split; [|apply no_secret_in_headers; headers_ok]];
  repeat (apply List.Forall_cons; [reflexivity|]); apply List.Forall_nil.

Ltac settle Hdry :=
  rewrite ?Hdry;
  first
    [ solve [descriptor_ok]
    | solve [right; left; split; [reflexivity|eexists; reflexivity]]
    | lazymatch goal with
      | |- (exists d, (if ?b then _ else _) _ = _ /\ _) \/ _ => destruct b; settle Hdry
      | |- context [if String.eqb ?x ?y then _ else _] =>
          destruct (String.eqb x y); settle Hdry
      | |- context [if negb (String.eqb ?x ?y) then _ else _] =>
          destruct (String.eqb x y); cbn [negb]; settle Hdry
      | |- _ =>
          match goal with
          | |- context [match ?x with _ => _ end] => is_var x; destruct x; settle Hdry
          end
      end ].

(** kit parses the text of the body again to mask it: the one executor
    that can throw in dry-run mode. *)
Ltac settle_kit Hdry :=
  unfold Kit.api; rewrite Hdry;
  destruct (Kit.authBody _ _ _ _) as [j|]; [|descriptor_ok];
  unfold bind, lift, ret, throw;
  destruct (JSON_parse _ _) as [p|e];
    [|right; right; split; [reflexivity|eexists; reflexivity]];
  destruct (Kit.mask_member p "api_secret") as [p1|e];
    [|right; right; split; [reflexivity|eexists; reflexivity]];
  destruct (Kit.mask_member p1 "api_key") as [p2|e];
    [|right; right; split; [reflexivity|eexists; reflexivity]];
  descriptor_ok.

Ltac settle_call Hdry :=
  lazymatch goal with
  | |- (exists d, Kit.api _ _ _ _ _ _ _ _ = _ /\ _) \/ _ => settle_kit Hdry
  | |- (exists d, ?lhs = _ /\ _) \/ _ =>
      let h := head_of lhs in
      unfold h;
      try unfold Mixpanel.basic_auth_headers; try unfold Postmark.token_header;
      settle Hdry
  end.

End DescriptorFacts.

(** C4: in dry-run mode every request executor of every tool returns its
    descriptor without calling [fetch] or touching the token cache; every
    header value of the descriptor is the mask token or one of the literals
    of the scripts, each header that carries a credential in a real request
    holds the mask token, and so no header value equals a secret of the
    environment.  (No descriptor comes from the executors that test their
    credential first and find it missing, and from kit when the body it
    parses again to mask it does not parse: they return [{error}], or
    throw, and call [fetch] no more than the others.) *)
Theorem dry_run_masks_credentials rt w args (c : Catalogue.executor_call) st :
  truthy (get args "dry-run") = true ->
  (exists d,
      Catalogue.execute rt w args c st = (Normal (DryRun d), st)
      /\ Forall (fun h => snd h = mask \/ snd h ∈ Catalogue.literal_header_values)
                (d_headers d)
      /\ Forall (fun h => assoc_get (d_headers d) h = Some mask)
                (Catalogue.credential_headers c)
      /\ (forall name secret,
            env w !! name = Some secret ->
            secret <> mask -> secret ∉ Catalogue.literal_header_values ->
            forall h, (h, secret) ∉ d_headers d))
  \/ (Catalogue.checks_credential_first c = true
      /\ exists message,
           Catalogue.execute rt w args c st = (Normal (Error message), st))
  \/ (Catalogue.executor_of c = Catalogue.kit
      /\ exists e, Catalogue.execute rt w args c st = (Throw e, st)).
Proof.
  intros Hdry.
  destruct c;
    cbn [Catalogue.execute Catalogue.credential_headers
         Catalogue.checks_credential_first Catalogue.executor_of];
    DescriptorFacts.settle_call Hdry.
Qed.

Lemma dry_run_masks_credentials_witness :
  exists d,
    Klaviyo.api (Sample.klaviyo_world Sample.noon Sample.offline)
      Sample.only_dry_run "GET" "/profiles/" None initial
    = (Normal (DryRun d), initial)
    /\ assoc_get (d_headers d) "Authorization" = Some "***"
    /\ forall h, (h, "pk_live_1") ∉ d_headers d.
Proof.
  destruct (dry_run_masks_credentials Sample.runtime
              (Sample.klaviyo_world Sample.noon Sample.offline)
              Sample.only_dry_run (Catalogue.klaviyo_api "GET" "/profiles/" None) initial
              ltac:(vm_compute; reflexivity))
    as [(d & Hd & _ & Hmask & Hsecret)|[(_ & message & Hm)|(Hkit & _)]].
  - exists d. split; [exact Hd|]. split.
    + by apply Forall_cons in Hmask as [Hmask _].
    + apply (Hsecret "KLAVIYO_API_KEY" "pk_live_1" eq_refl).
      * discriminate.
      * intros Hin. unfold Catalogue.literal_header_values in Hin.
        repeat (apply elem_of_cons in Hin as [Hin|Hin]; [discriminate Hin|]).
        by apply elem_of_nil in Hin.
  - discriminate Hm.
  - discriminate Hkit.
Defined.

Module DryRunFacts.

Import Catalogue.

Lemma switch_ext {A : Type} (v : value) (cases1 cases2 : list (string * A)) (d1 d2 : A) :
  Forall2 (fun c1 c2 => fst c1 = fst c2
                        /\ (value_is v (fst c1) = true -> snd c1 = snd c2))
          cases1 cases2 ->
  d1 = d2 ->
  switch v cases1 d1 = switch v cases2 d2.
Proof.
  intros Hcases ->. induction Hcases as [|[l1 b1] [l2 b2] r1 r2 [Hl Hb] _ IH];
    cbn [switch]; [done|].
  cbn [fst snd] in *. subst l2.
  destruct (value_is v l1); [by apply Hb|exact IH].
Qed.

Lemma quiet_required_all vs message (rest : M output) :
  quiet rest -> quiet (required_all vs message rest).
Proof.
  intros H. unfold required_all. destruct (forallb truthy vs); [done|apply quiet_ret].
Qed.

Ltac head_of t :=
  lazymatch t with
  | ?f _ => head_of f
  | _ => t
  end.

(** One step through a handler in dry-run mode: the test of [--dry-run]
    is decided by [Hdry], the combinators keep quiet when their parts do,
    and a function of the script is replaced by its body. *)
Ltac quiet_step Hdry :=
  first
    [ rewrite Hdry
    | lazymatch goal with
      | |- quiet (ret _) => apply quiet_ret
      | |- quiet (throw _) => apply quiet_throw
      | |- quiet (lift _) => apply quiet_lift
      | |- quiet (required _ _ _) => apply quiet_required
      | |- quiet (required_all _ _ _) => apply quiet_required_all
      | |- quiet (switch _ _ _) => apply quiet_switch
      | |- Forall _ (_ :: _) => apply List.Forall_cons; [cbn [snd]|]
      | |- Forall _ [] => apply List.Forall_nil
      | |- quiet (bind _ _) => apply quiet_bind; [|intros ?]
      | |- quiet (if _ then _ else _) => apply quiet_if
      | |- quiet (match ?x with _ => _ end) => destruct x
      | |- quiet (let _ := _ in _) => cbv zeta
      | |- quiet ((fun _ => _) _) => cbv beta
      | |- quiet ?m => let h := head_of m in progress unfold h
      end ].

Ltac expose_main :=
  match goal with
  | |- context [main ?t] => let t' := eval hnf in t in change t with t'
  end;
  cbn [main].

(** In dry-run mode [main] leaves the state as it found it. *)
Lemma main_quiet (c : cli) rt w args cmd sub :
  truthy (get args "dry-run") = true ->
  quiet (main (cli_tool c) rt w args cmd sub).
Proof.
  intros Hdry. destruct c; cbn [cli_tool]; expose_main; repeat quiet_step Hdry.
Qed.

Ltac same_cases tac :=
  apply switch_ext; [|reflexivity];
  repeat (apply List.Forall2_cons;
          [split; [reflexivity|cbn [fst snd]; intros ?; tac]|]);
  apply List.Forall2_nil.

Ltac excluded Hclock :=
  repeat match goal with
         | H : value_is _ _ = true |- _ => rewrite H in Hclock; clear H
         end;
  discriminate Hclock.

Ltac clock_free Hclock :=
  first [ reflexivity
        | excluded Hclock
        | same_cases ltac:(clock_free Hclock) ].

(** Only the handlers that read the clock can tell two clocks apart. *)
Lemma main_clock_independent (c : cli) rt w1 w2 args cmd sub :
  same_but_clock w1 w2 ->
  reads_clock c cmd sub = false ->
  main (cli_tool c) rt w1 args cmd sub = main (cli_tool c) rt w2 args cmd sub.
Proof.
  destruct w1 as [e1 now1 ago1 net1 files1], w2 as [e2 now2 ago2 net2 files2].
  unfold same_but_clock. cbn [env net files]. intros (<- & <- & <-) Hclock.
  destruct c; cbn [cli_tool reads_clock] in *;
    first [ reflexivity
          | expose_main;
            match goal with
            | |- ?lhs = _ => let h := head_of lhs in unfold h
            end;
            clock_free Hclock ].
Qed.

Lemma same_world (w1 w2 : world) :
  same_but_clock w1 w2 ->
  now_iso w1 = now_iso w2 -> month_ago_iso w1 = month_ago_iso w2 -> w1 = w2.
Proof.
  destruct w1, w2. unfold same_but_clock. cbn. intros (-> & -> & ->) -> ->. reflexivity.
Qed.

End DryRunFacts.

(** C5 as stated fails: [events create] of klaviyo puts
    [new Date().toISOString()] into the body, so two dry runs with the same
    arguments, one second apart, print different descriptors. *)
Lemma dry_run_output_depends_on_clock_counterexample :
  stdout (run Klaviyo.tool Sample.runtime
            (Sample.klaviyo_world Sample.noon Sample.offline)
            ["events"; "create"; "--metric"; "Signup"; "--email"; "a@b.c"; "--dry-run"])
  <> stdout (run Klaviyo.tool Sample.runtime
               (Sample.klaviyo_world Sample.a_second_later Sample.offline)
               ["events"; "create"; "--metric"; "Signup"; "--email"; "a@b.c"; "--dry-run"]).
Proof. vm_compute. intros H. discriminate H. Qed.

(** C5, amended: in each of the forty-seven tools, [main] in dry-run mode
    calls no [fetch] and leaves the state of the process untouched; for the
    same parsed arguments, environment and files it returns the same result
    whatever the clock shows, for every command whose handler does not read
    the clock; and the handlers that read it ([events create] of klaviyo
    and of intercom, [query events] of mixpanel, the [search] commands of
    google-search-console) return the same result when the clock shows the
    same. *)
Theorem dry_run_repeats (c : Catalogue.cli) rt w1 w2 args cmd sub st :
  truthy (get args "dry-run") = true ->
  same_but_clock w1 w2 ->
  final (main (Catalogue.cli_tool c) rt w1 args cmd sub) st = st
  /\ (Catalogue.reads_clock c cmd sub = false ->
      main (Catalogue.cli_tool c) rt w1 args cmd sub st
      = main (Catalogue.cli_tool c) rt w2 args cmd sub st)
  /\ (now_iso w1 = now_iso w2 -> month_ago_iso w1 = month_ago_iso w2 ->
      main (Catalogue.cli_tool c) rt w1 args cmd sub st
      = main (Catalogue.cli_tool c) rt w2 args cmd sub st).
Proof.
  intros Hdry Hsame. split; [|split].
  - by apply DryRunFacts.main_quiet.
  - intros Hclock.
    by rewrite (DryRunFacts.main_clock_independent c rt w1 w2 args cmd sub Hsame Hclock).
  - intros Hnow Hago. by rewrite (DryRunFacts.same_world w1 w2 Hsame Hnow Hago).
Qed.

(** [profiles get --id P1 --dry-run] of klaviyo, one second apart. *)
Lemma dry_run_repeats_witness :
  Klaviyo.main Sample.runtime (Sample.klaviyo_world Sample.noon Sample.offline)
    Sample.get_profile_dry_run (VStr "profiles") (VStr "get") initial
  = Klaviyo.main Sample.runtime (Sample.klaviyo_world Sample.a_second_later Sample.offline)
      Sample.get_profile_dry_run (VStr "profiles") (VStr "get") initial.
Proof.
  apply (proj1 (proj2 (dry_run_repeats Catalogue.klaviyo Sample.runtime
                  (Sample.klaviyo_world Sample.noon Sample.offline)
                  (Sample.klaviyo_world Sample.a_second_later Sample.offline)
                  Sample.get_profile_dry_run
                  (VStr "profiles") (VStr "get") initial
                  ltac:(vm_compute; reflexivity)
                  (conj eq_refl (conj eq_refl eq_refl))))).
  reflexivity.
Defined.

(** ** Claims about the OAuth token *)

Module TokenFacts.

Lemma at_most_once_short (r0 : request) (log : list request) :
  List.length log <= 1 -> at_most_once r0 log.
Proof.
  intros Hlen i j Hi Hj.
  apply lookup_lt_Some in Hi, Hj. lia.
Qed.

Lemma at_most_once_then (r0 r : request) :
  r <> r0 -> at_most_once r0 [r0; r].
Proof.
  intros Hne i j Hi Hj.
  destruct i as [|[|i]], j as [|[|j]]; cbn in Hi, Hj;
    try reflexivity; try discriminate; congruence.
Qed.

Lemma oauth_ok_ret n rt w (o : output) : oauth_ok n rt w (ret o).
Proof.
  intros o' st' [= <- <-]. cbn. split.
  - apply at_most_once_short. cbn. lia.
  - intros Hin. by apply elem_of_nil in Hin.
Qed.

Lemma oauth_ok_required n rt w v message rest :
  oauth_ok n rt w rest -> oauth_ok n rt w (required v message rest).
Proof. intros H. unfold required. destruct (truthy v); [done|apply oauth_ok_ret]. Qed.

Lemma oauth_ok_if n rt w (b : bool) m1 m2 :
  oauth_ok n rt w m1 -> oauth_ok n rt w m2 -> oauth_ok n rt w (if b then m1 else m2).
Proof. by destruct b. Qed.

Lemma oauth_ok_switch n rt w v (cases : list (string * M output)) d :
  Forall (fun c => oauth_ok n rt w (snd c)) cases ->
  oauth_ok n rt w d ->
  oauth_ok n rt w (switch v cases d).
Proof.
  intros Hcases Hd. apply switch_elim; [|done].
  eapply Forall_impl; [exact Hcases|]. done.
Qed.

Lemma has_token_not_lacking res data t :
  parsed res = Normal data ->
  property data "access_token" = Normal (Some t) ->
  json_truthy t = true ->
  ~ lacks_token res.
Proof.
  intros Hp Hprop Ht (data' & Hp' & Hlack).
  rewrite Hp in Hp'. injection Hp' as <-.
  destruct Hlack as [Hnone|(t' & Hsome & Hfalsy)]; rewrite Hprop in *.
  - discriminate Hnone.
  - injection Hsome as <-. congruence.
Qed.

Lemma property_defined data name x other :
  property data name = Normal x -> exists y, property data other = Normal y.
Proof. destruct data; cbn; try discriminate; by eexists. Qed.

Lemma lacking_parses res data :
  lacks_token res -> parsed res = Normal data ->
  exists x, property data "access_token" = Normal x
            /\ match x with Some t => json_truthy t = false | None => True end.
Proof.
  intros (data' & Hp & Hlack) Hdata. rewrite Hdata in Hp. injection Hp as <-.
  destruct Hlack as [Hnone|(t & Hsome & Hfalsy)]; eexists; (split; [eassumption|done]).
Qed.

(** The first call of [getToken] in a process: one token request, and
    either a truthy token, now in the slot, or an exception: the one that
    an answer without a token raises. *)
Lemma hotjar_getToken_first rt w c st' :
  Hotjar.getToken rt w initial = (c, st') ->
  requests st' = [Hotjar.token_request rt w]
  /\ ((exists e, c = Throw e
                 /\ forall res, net w (Hotjar.token_request rt w) = Some res ->
                                lacks_token res ->
                                refused oauth_hotjar res (@Throw output e))
      \/ (exists t res data,
             c = Normal t /\ slot st' = t /\ json_truthy t = true
             /\ net w (Hotjar.token_request rt w) = Some res
             /\ parsed res = Normal data
             /\ property data "access_token" = Normal (Some t))).
Proof.
  unfold Hotjar.getToken, bind, read_slot, write_slot, fetch, lift, ret, throw, initial.
  cbn [slot requests json_truthy app].
  destruct (net w (Hotjar.token_request rt w)) as [res|] eqn:Hnet;
    [|intros [= <- <-]; split; [done|left; eexists; split; [done|]; by intros res' [=]]].
  destruct (parsed res) as [data|e] eqn:Hparsed.
  2: { intros [= <- <-]. split; [done|]. left. eexists. split; [done|].
       intros res' [= <-] (data' & Hp & _). congruence. }
  assert (forall (x : option json),
             property data "access_token" = Normal x ->
             match x with Some t => json_truthy t = false | None => True end ->
             exists description error,
               property data "error_description" = Normal description
               /\ property data "error" = Normal error
               /\ forall res', Some res = Some res' -> lacks_token res' ->
                   refused oauth_hotjar res'
                     (@Throw output
                        (json_to_string
                           (default JNull
                              (Hotjar.json_or (Hotjar.json_or description error)
                                 (Some (JStr "Failed to obtain access token")))))))
    as Hfails.
  { intros x Hx _.
    destruct (property_defined data "access_token" x "error_description" Hx)
      as (description & Hd).
    destruct (property_defined data "access_token" x "error" Hx) as (error & He).
    exists description, error. split; [done|]. split; [done|].
    intros res' [= <-] _. eexists data, _. split; [done|]. split; [|reflexivity].
    unfold token_failure. by rewrite Hd, He. }
  destruct (property data "access_token") as [[t|]|e] eqn:Htoken.
  - destruct (json_truthy t) eqn:Ht.
    + intros [= <- <-]. split; [done|]. right. by exists t, res, data.
    + destruct (Hfails (Some t) eq_refl Ht) as (description & error & -> & -> & Href).
      intros [= <- <-]. split; [done|]. left. eexists. split; [done|exact Href].
  - destruct (Hfails None eq_refl I) as (description & error & -> & -> & Href).
    intros [= <- <-]. split; [done|]. left. eexists. split; [done|exact Href].
  - intros [= <- <-]. split; [done|]. left. eexists. split; [done|].
    intros res' [= <-] Hlack.
    destruct (lacking_parses res data Hlack Hparsed) as (x & Hx & _). congruence.
Qed.

Lemma hotjar_api_ok rt w args method path :
  oauth_ok oauth_hotjar rt w (Hotjar.api rt w args method path).
Proof.
  unfold Hotjar.api. destruct (truthy (get args "dry-run")); [apply oauth_ok_ret|].
  intros o st'. unfold bind at 1. cbn [token_request_of].
  destruct (Hotjar.getToken rt w initial) as [c st1] eqn:Hget.
  apply hotjar_getToken_first in Hget as [Hlog Hc].
  destruct Hc as [(e & -> & Href)|(t & res & data & -> & Hslot & Ht & Hnet & Hparsed & Htoken)].
  - intros [= <- <-]. rewrite Hlog. split; [apply at_most_once_short; cbn; lia|].
    intros _ res Hnet Hlack. by apply Href.
  - unfold bind, fetch, ret. rewrite Hlog. cbn [app].
    match goal with
    | |- context [net w ?r] => set (request := r)
    end.
    assert (request <> Hotjar.token_request rt w) as Hne
      by (intros Heq; apply (f_equal r_body) in Heq; discriminate Heq).
    destruct (net w request); intros [= <- <-]; cbn [requests];
      (split; [by apply at_most_once_then|]).
    + intros _ res' Hnet' Hlack. rewrite Hnet in Hnet'. injection Hnet' as <-.
      by apply (has_token_not_lacking res data t) in Hlack.
    + intros _ res' Hnet' Hlack. rewrite Hnet in Hnet'. injection Hnet' as <-.
      by apply (has_token_not_lacking res data t) in Hlack.
Qed.

(** The first call of [getAccessToken] in a process: no request without
    the secret; with it one token request, and a truthy token, now in the
    slot, or [null], or an exception, which an answer that parses and has
    no token does not raise. *)
Lemma trustpilot_getAccessToken_first rt w c st' :
  Trustpilot.getAccessToken rt w initial = (c, st') ->
  (requests st' = [] /\ c = Normal None)
  \/ (requests st' = [Trustpilot.token_request rt w]
      /\ ((exists e, c = Throw e
                     /\ forall res, net w (Trustpilot.token_request rt w) = Some res ->
                                    ~ lacks_token res)
          \/ c = Normal None
          \/ (exists t res data,
                 c = Normal (Some t) /\ slot st' = t /\ json_truthy t = true
                 /\ net w (Trustpilot.token_request rt w) = Some res
                 /\ parsed res = Normal data
                 /\ property data "access_token" = Normal (Some t)))).
Proof.
  unfold Trustpilot.getAccessToken, bind, read_slot, write_slot, fetch, lift, ret,
    throw, initial.
  cbn [slot requests json_truthy app].
  destruct (negb (truthy (Trustpilot.API_SECRET w)));
    [intros [= <- <-]; by left|].
  intros H. right. revert H.
  destruct (net w (Trustpilot.token_request rt w)) as [res|] eqn:Hnet;
    [|intros [= <- <-]; split; [done|left; eexists; split; [done|]; by intros res' [=]]].
  destruct (parsed res) as [data|e] eqn:Hparsed.
  2: { intros [= <- <-]. split; [done|]. left. eexists. split; [done|].
       intros res' [= <-] (data' & Hp & _). congruence. }
  destruct (property data "access_token") as [[t|]|e] eqn:Htoken.
  - destruct (json_truthy t) eqn:Ht; intros [= <- <-]; (split; [done|]).
    + right. right. by exists t, res, data.
    + right. by left.
  - intros [= <- <-]. split; [done|]. right. by left.
  - intros [= <- <-]. split; [done|]. left. eexists. split; [done|].
    intros res' [= <-] Hlack.
    destruct (lacking_parses res data Hlack Hparsed) as (x & Hx & _). congruence.
Qed.

Lemma trustpilot_api_ok rt w args method path body auth :
  oauth_ok oauth_trustpilot rt w (Trustpilot.api rt w args method path body auth).
Proof.
  unfold Trustpilot.api. destruct (truthy (get args "dry-run")); [apply oauth_ok_ret|].
  cbn [token_request_of].
  assert (forall headers,
             {| r_method := method; r_url := Trustpilot.BASE_URL ++ path;
                r_headers := headers; r_body := option_map JsonBody body |}
             <> Trustpilot.token_request rt w) as Hne.
  { intros headers Heq. apply (f_equal r_body) in Heq.
    destruct body; discriminate Heq. }
  destruct (String.eqb auth "bearer").
  - intros o st'. unfold bind at 1. cbn [token_request_of].
    destruct (Trustpilot.getAccessToken rt w initial) as [c st1] eqn:Hget.
    apply trustpilot_getAccessToken_first in Hget
      as [[Hlog ->]|[Hlog [(e & -> & Hnot)|[->|(t & res & data & -> & Hslot & Ht & Hnet & Hp & Htok)]]]].
    + intros [= <- <-]. rewrite Hlog. split; [apply at_most_once_short; cbn; lia|].
      intros Hin. by apply elem_of_nil in Hin.
    + intros [= <- <-]. rewrite Hlog. split; [apply at_most_once_short; cbn; lia|].
      intros _ res Hnet Hlack. by destruct (Hnot res Hnet).
    + intros [= <- <-]. rewrite Hlog. split; [apply at_most_once_short; cbn; lia|].
      intros _ res Hnet Hlack. reflexivity.
    + rewrite Ht. unfold bind, fetch, ret. rewrite Hlog. cbn [app].
      match goal with
      | |- context [net w ?r] => set (request := r)
      end.
      destruct (net w request); intros [= <- <-]; cbn [requests];
        (split; [apply at_most_once_then, Hne|]);
        intros _ res' Hnet' Hlack; rewrite Hnet in Hnet'; injection Hnet' as <-;
        by apply (has_token_not_lacking res data t) in Hlack.
  - intros o st'. unfold bind, fetch, ret, initial. cbn [requests app token_request_of].
    match goal with
    | |- context [net w ?r] => set (request := r)
    end.
    assert (Trustpilot.token_request rt w ∉ [request]) as Hnotin.
    { intros Hin. apply list_elem_of_singleton in Hin. symmetry in Hin.
      by apply Hne in Hin. }
    destruct (net w request); intros [= <- <-]; cbn [requests];
      (split; [apply at_most_once_short; cbn; lia|done]).
Qed.

Ltac oauth_step lemma :=
  first
    [ apply lemma
    | apply oauth_ok_ret
    | apply oauth_ok_required
    | apply oauth_ok_switch
    | apply List.Forall_cons; [cbn [snd]|]
    | apply List.Forall_nil
    | apply oauth_ok_if ].

Lemma hotjar_main_ok rt w args cmd sub :
  oauth_ok oauth_hotjar rt w (Hotjar.main rt w args cmd sub).
Proof. unfold Hotjar.main. repeat oauth_step hotjar_api_ok. Qed.

Lemma trustpilot_main_ok rt w args cmd sub :
  oauth_ok oauth_trustpilot rt w (Trustpilot.main rt w args cmd sub).
Proof. unfold Trustpilot.main. repeat oauth_step trustpilot_api_ok. Qed.

Lemma main_ok (n : oauth_tool) rt w args cmd sub :
  oauth_ok n rt w (main (oauth_tool_of n) rt w args cmd sub).
Proof. destruct n; [apply hotjar_main_ok|apply trustpilot_main_ok]. Qed.

End TokenFacts.

(** C6 as stated fails: hotjar reports a token answer without a token by
    throwing.  The exception leaves [main()] and is printed by
    [main().catch] on standard error, with exit code 1; nothing is returned
    to the caller and nothing goes to standard output. *)
Lemma token_failure_is_thrown_counterexample :
  lacks_token Sample.empty_object
  /\ run Hotjar.tool Sample.runtime Sample.hotjar_refused ["sites"; "list"]
     = caught "Failed to obtain access token"
              [Hotjar.token_request Sample.runtime Sample.hotjar_refused].
Proof.
  split.
  - exists (JObj []). split; [reflexivity|]. left. reflexivity.
  - vm_compute. reflexivity.
Qed.

(** C6, amended: hotjar and trustpilot, the two tools that fetch an OAuth
    token, send the token request at most once per process, whatever the
    arguments; the token obtained sits in one module level variable, and a
    call that finds it there returns it without fetching.  When the answer
    to the token request has no [access_token], trustpilot returns
    [{error: 'TRUSTPILOT_API_SECRET required for private API endpoints'}],
    printed on standard output with exit code 0; hotjar throws an error
    with the message
    [data.error_description || data.error || 'Failed to obtain access token'],
    which [main().catch] prints as [{error}] on standard error, with exit
    code 1. *)
Theorem token_fetched_once_and_failure_reported (n : oauth_tool) rt w argv :
  at_most_once (token_request_of n rt w) (fetched (run (oauth_tool_of n) rt w argv))
  /\ (forall res,
        token_request_of n rt w ∈ fetched (run (oauth_tool_of n) rt w argv) ->
        net w (token_request_of n rt w) = Some res ->
        lacks_token res ->
        match n with
        | oauth_hotjar =>
            exists data message,
              parsed res = Normal data
              /\ token_failure data = Normal message
              /\ stdout (run Hotjar.tool rt w argv) = []
              /\ stderr (run Hotjar.tool rt w argv) = [JsonError message]
              /\ code (run Hotjar.tool rt w argv) = 1
        | oauth_trustpilot =>
            stdout (run Trustpilot.tool rt w argv) = [no_token]
            /\ stderr (run Trustpilot.tool rt w argv) = []
            /\ code (run Trustpilot.tool rt w argv) = 0
        end)
  /\ (forall st,
        json_truthy (slot st) = true ->
        Hotjar.getToken rt w st = (Normal (slot st), st)
        /\ Trustpilot.getAccessToken rt w st = (Normal (Some (slot st)), st))
  /\ (forall t st',
        Hotjar.getToken rt w initial = (Normal t, st')
        \/ Trustpilot.getAccessToken rt w initial = (Normal (Some t), st') ->
        slot st' = t /\ json_truthy t = true).
Proof.
  split; [|split; [|split]].
  - unfold run.
    destruct (gate _ _); [apply TokenFacts.at_most_once_short; cbn; lia|].
    destruct (parseArgs argv) as [args|e];
      [|apply TokenFacts.at_most_once_short; cbn; lia].
    destruct (destructure _) as [[cmd sub]|e];
      [|apply TokenFacts.at_most_once_short; cbn; lia].
    destruct (main _ rt w args cmd sub initial) as [o st'] eqn:Hmain.
    apply (TokenFacts.main_ok n) in Hmain as [Honce _].
    by destruct o.
  - intros res.
    assert (forall x : exit,
               x = run (oauth_tool_of n) rt w argv ->
               token_request_of n rt w ∈ fetched x ->
               net w (token_request_of n rt w) = Some res ->
               lacks_token res ->
               exists o, refused n res o
                         /\ match o with
                            | Normal result =>
                                stdout x = [result] /\ stderr x = [] /\ code x = 0
                            | Throw e =>
                                stdout x = [] /\ stderr x = [JsonError e] /\ code x = 1
                            end) as Hrun.
    { intros x ->. unfold run.
      destruct (gate _ _); [intros Hin; by apply elem_of_nil in Hin|].
      destruct (parseArgs argv) as [args|e];
        [|intros Hin; by apply elem_of_nil in Hin].
      destruct (destructure _) as [[cmd sub]|e];
        [|intros Hin; by apply elem_of_nil in Hin].
      destruct (main _ rt w args cmd sub initial) as [o st'] eqn:Hmain.
      apply (TokenFacts.main_ok n) in Hmain as [_ Hfail].
      destruct o as [result|e]; cbn [fetched]; intros Hin Hnet Hlack;
        specialize (Hfail Hin res Hnet Hlack); eexists; (split; [exact Hfail|done]). }
    intros Hin Hnet Hlack.
    destruct (Hrun _ eq_refl Hin Hnet Hlack) as (o & Href & Hexit).
    destruct n; cbn [refused oauth_tool_of] in *.
    + destruct Href as (data & message & Hp & Hmessage & ->).
      cbn in Hexit. destruct Hexit as (Hout & Herr & Hcode).
      exists data, message. repeat split; assumption.
    + subst o. exact Hexit.
  - intros st Hslot.
    unfold Hotjar.getToken, Trustpilot.getAccessToken, bind, read_slot, ret.
    by rewrite Hslot.
  - intros t st' [H|H].
    + apply TokenFacts.hotjar_getToken_first in H
        as [_ [(e & [=] & _)|(t' & res & data & [= <-] & Hslot & Ht & _)]].
      done.
    + apply TokenFacts.trustpilot_getAccessToken_first in H
        as [[_ [=]]|[_ [(e & [=] & _)|[[=]|(t' & res & data & [= <-] & Hslot & Ht & _)]]]].
      done.
Qed.

(** hotjar against a server that answers the token request with [{}]. *)
Lemma token_fetched_once_and_failure_reported_witness :
  exists data message,
    parsed Sample.empty_object = Normal data
    /\ token_failure data = Normal message
    /\ stdout (run Hotjar.tool Sample.runtime Sample.hotjar_refused ["sites"; "list"]) = []
    /\ stderr (run Hotjar.tool Sample.runtime Sample.hotjar_refused ["sites"; "list"])
       = [JsonError message]
    /\ code (run Hotjar.tool Sample.runtime Sample.hotjar_refused ["sites"; "list"]) = 1.
Proof.
  apply (proj1 (proj2 (token_fetched_once_and_failure_reported oauth_hotjar
                         Sample.runtime Sample.hotjar_refused ["sites"; "list"]))
               Sample.empty_object).
  - vm_compute. constructor.
  - reflexivity.
  - exists (JObj []). split; [reflexivity|]. left. reflexivity.
Defined.

(** * Further properties of the code *)

(** ** The parser *)

Module ParsedFacts.

Lemma substring_all s : String.substring 0 (String.length s) s = s.
Proof. induction s as [|a s IH]; cbn; [done|by rewrite IH]. Qed.

Lemma slice_flag k : slice ("--" ++ k) 2 = k.
Proof.
  change ("--" ++ k) with (String "-" (String "-" k)).
  unfold slice. cbn. rewrite Nat.sub_0_r. apply substring_all.
Qed.

Lemma startsWith_flag k : startsWith ("--" ++ k) "--" = true.
Proof.
  change ("--" ++ k) with (String "-" (String "-" k)).
  unfold startsWith. cbn. by destruct k.
Qed.

Lemma parseArgs_replay args :
  parseArgs args = replay (pairing args) {[ "_" := VArr [] ]}.
Proof.
  unfold parseArgs.
  rewrite (ParserFacts.parseArgs_loop_pairing args (List.length args) 0) by lia.
  by rewrite drop_0.
Qed.

Lemma replay_flag_value k evs : forall result result',
  k <> "_" -> k <> "__proto__" ->
  replay evs result = Normal result' ->
  get result' k = flag_value k evs (get result k).
Proof.
  induction evs as [|ev evs IH]; intros result result' Hk Hproto; cbn [replay].
  - by intros [= <-].
  - destruct ev as [key v|tok]; cbn [apply_event].
    + intros H. rewrite (IH _ _ Hk Hproto H). unfold flag_value. cbn [fold_left].
      f_equal. unfold object_set, get.
      destruct (decide (key = "__proto__")) as [->|Hkey].
      * destruct (String.eqb_spec "__proto__" k); [congruence|done].
      * destruct (String.eqb_spec key k) as [->|Hne].
        -- by rewrite lookup_insert_eq.
        -- by rewrite lookup_insert_ne.
    + unfold push_positional.
      destruct (result !! "_") as [[| |s|items]|] eqn:Hpos; try discriminate.
      intros H. rewrite (IH _ _ Hk Hproto H). unfold flag_value. cbn [fold_left].
      f_equal. unfold get. by rewrite lookup_insert_ne.
Qed.

Lemma pairing_truthy n : forall toks,
  List.length toks <= n -> Forall truthy_event (pairing toks).
Proof.
  induction n as [|n IH]; intros toks Hlen.
  - destruct toks; [constructor|cbn in Hlen; lia].
  - destruct toks as [|t rest]; [constructor|]. cbn [pairing]. cbn in Hlen.
    destruct (startsWith t "--").
    + destruct rest as [|next rest']; [by repeat constructor|]. cbn in Hlen.
      destruct (negb (String.eqb next "") && negb (startsWith next "--")) eqn:Hnext.
      * constructor; [|apply IH; lia]. cbn. by apply andb_prop in Hnext as [-> _].
      * constructor; [done|]. apply IH. cbn. lia.
    + constructor; [done|]. apply IH. lia.
Qed.

(** A token that begins with [--] is never taken as a value or as a
    positional: it always gives a flag event. *)
Lemma pairing_flag_in n : forall toks t,
  List.length toks <= n ->
  t ∈ toks -> startsWith t "--" = true ->
  exists v, Flag (slice t 2) v ∈ pairing toks.
Proof.
  induction n as [|n IH]; intros toks t Hlen Hin Hflag.
  - destruct toks; [by apply elem_of_nil in Hin|cbn in Hlen; lia].
  - destruct toks as [|t0 rest]; [by apply elem_of_nil in Hin|].
    cbn [pairing]. cbn in Hlen.
    apply elem_of_cons in Hin as [->|Hin].
    + rewrite Hflag. destruct rest as [|next rest'].
      * eexists. apply list_elem_of_here.
      * destruct (negb (String.eqb next "") && negb (startsWith next "--"));
          eexists; apply list_elem_of_here.
    + destruct (startsWith t0 "--").
      * destruct rest as [|next rest']; [by apply elem_of_nil in Hin|]. cbn in Hlen.
        destruct (negb (String.eqb next "") && negb (startsWith next "--")) eqn:Hnext.
        -- apply elem_of_cons in Hin as [->|Hin].
           ++ apply andb_prop in Hnext as [_ Hnext].
              apply negb_true_iff in Hnext. congruence.
           ++ destruct (IH rest' t ltac:(lia) Hin Hflag) as [v Hv].
              exists v. by apply list_elem_of_further.
        -- destruct (IH (next :: rest') t ltac:(cbn; lia) Hin Hflag) as [v Hv].
           exists v. by apply list_elem_of_further.
      * destruct (IH rest t ltac:(lia) Hin Hflag) as [v Hv].
        exists v. by apply list_elem_of_further.
Qed.

Lemma flag_value_truthy k evs : forall init,
  Forall truthy_event evs ->
  truthy init = true \/ (exists v, Flag k v ∈ evs) ->
  truthy (flag_value k evs init) = true.
Proof.
  induction evs as [|ev evs IH]; intros init Hok Hsome.
  - destruct Hsome as [H|[v H]]; [done|by apply elem_of_nil in H].
  - inversion Hok as [|? ? Hev Hrest]; subst.
    unfold flag_value. cbn [fold_left]. apply IH; [done|].
    destruct ev as [key v|tok]; cbn [truthy_event] in Hev.
    + destruct (String.eqb_spec key k) as [->|Hne]; [by left|].
      destruct Hsome as [H|[v' H]]; [by left|right].
      apply elem_of_cons in H as [[= ? ?]|H]; [congruence|by exists v'].
    + destruct Hsome as [H|[v' H]]; [by left|right].
      apply elem_of_cons in H as [[=]|H]. by exists v'.
Qed.

Lemma replay_positionals evs : forall result items,
  result !! "_" = Some (VArr items) ->
  Forall plain_event evs ->
  exists result',
    replay evs result = Normal result'
    /\ result' !! "_" = Some (VArr (items ++ positionals evs)%list).
Proof.
  induction evs as [|ev evs IH]; intros result items Hpos Hplain; cbn [replay].
  - exists result. split; [done|]. unfold positionals. cbn. by rewrite app_nil_r.
  - inversion Hplain as [|? ? Hev Hrest]; subst.
    destruct ev as [key v|tok]; cbn [apply_event plain_event] in *.
    + apply IH; [|done]. unfold object_set.
      destruct (decide (key = "__proto__")); [done|]. by rewrite lookup_insert_ne.
    + unfold push_positional. rewrite Hpos.
      destruct (IH (<["_" := VArr (items ++ [tok])%list]> result)
                   (items ++ [tok])%list) as (r' & Hr & Hl);
        [by rewrite lookup_insert_eq|done|].
      exists r'. split; [done|]. rewrite Hl. unfold positionals. cbn [flat_map].
      by rewrite <- app_assoc.
Qed.

Lemma pairing_no_flags toks :
  Forall (fun t => startsWith t "--" = false) toks ->
  pairing toks = map Positional toks.
Proof.
  induction 1 as [|t rest Ht _ IH]; [done|]. cbn [pairing map]. by rewrite Ht, IH.
Qed.

Lemma positionals_map toks : positionals (map Positional toks) = toks.
Proof.
  unfold positionals. induction toks as [|t rest IH]; [done|].
  cbn [map flat_map app]. by f_equal.
Qed.

Lemma replay_app evs1 : forall evs2 result,
  replay (evs1 ++ evs2) result =
    match replay evs1 result with
    | Normal result' => replay evs2 result'
    | Throw m => Throw m
    end.
Proof.
  induction evs1 as [|ev evs1 IH]; intros evs2 result; cbn [replay app]; [done|].
  destruct (apply_event result ev); [apply IH|done].
Qed.

(** A flag appended to the command line is never taken as the value of
    the flag before it. *)
Lemma pairing_snoc_flag n : forall toks f,
  List.length toks <= n -> startsWith f "--" = true ->
  pairing (toks ++ [f]) = (pairing toks ++ [Flag (slice f 2) VTrue])%list.
Proof.
  induction n as [|n IH]; intros toks f Hlen Hf.
  - destruct toks; [|cbn in Hlen; lia]. cbn. by rewrite Hf.
  - destruct toks as [|t rest]; [cbn; by rewrite Hf|].
    cbn in Hlen. cbn [app pairing]. destruct (startsWith t "--").
    + destruct rest as [|next rest']; cbn [app].
      * rewrite Hf, andb_false_r. cbn [pairing]. by rewrite Hf.
      * cbn in Hlen.
        destruct (negb (String.eqb next "") && negb (startsWith next "--")).
        -- cbn [app]. f_equal. apply IH; [lia|done].
        -- cbn [app]. f_equal. apply (IH (next :: rest')); [cbn; lia|done].
    + cbn [app]. f_equal. apply IH; [lia|done].
Qed.

End ParsedFacts.

(** X1: the value read under a flag name after parsing is the one of the
    flag's last occurrence, and a flag that never occurs reads [undefined];
    for every name but [_] and the names that an object inherits from
    [Object.prototype] ([constructor], [toString], [__proto__] and the
    like), under which a flag that never occurs reads what the prototype
    holds. *)
Theorem last_occurrence_of_a_flag_wins args result k :
  parseArgs args = Normal result ->
  k <> "_" -> k ∉ Object_prototype ->
  get result k = flag_value k (pairing args) VUndefined.
Proof.
  intros Hparse Hk Hinherited.
  assert (k <> "__proto__") as Hproto.
  { intros ->. apply Hinherited. unfold Object_prototype.
    repeat first [apply list_elem_of_here | apply list_elem_of_further]. }
  rewrite ParsedFacts.parseArgs_replay in Hparse.
  rewrite (ParsedFacts.replay_flag_value k _ _ _ Hk Hproto Hparse).
  f_equal. unfold get. by rewrite lookup_singleton_ne.
Qed.

Lemma last_occurrence_of_a_flag_wins_witness :
  get {[ "_" := VArr ["profiles"]; "id" := VStr "B" ]} "id" = VStr "B".
Proof.
  apply (last_occurrence_of_a_flag_wins ["profiles"; "--id"; "A"; "--id"; "B"] _ "id").
  - vm_compute. reflexivity.
  - discriminate.
  - intros Hin. unfold Object_prototype in Hin.
    repeat (apply elem_of_cons in Hin as [Hin|Hin]; [discriminate Hin|]).
    by apply elem_of_nil in Hin.
Defined.

(** X2: a token that begins with [--] is a flag wherever it stands, so a
    flag given anywhere on the command line (such as [--dry-run]) reads
    truthy after parsing. *)
Theorem flag_given_reads_truthy args result k :
  parseArgs args = Normal result ->
  k <> "_" -> k <> "__proto__" ->
  ("--" ++ k) ∈ args ->
  truthy (get result k) = true.
Proof.
  intros Hparse Hk Hproto Hin.
  rewrite ParsedFacts.parseArgs_replay in Hparse.
  rewrite (ParsedFacts.replay_flag_value k _ _ _ Hk Hproto Hparse).
  apply ParsedFacts.flag_value_truthy.
  - by apply (ParsedFacts.pairing_truthy (List.length args)).
  - right.
    destruct (ParsedFacts.pairing_flag_in (List.length args) args ("--" ++ k)
                ltac:(lia) Hin (ParsedFacts.startsWith_flag k)) as [v Hv].
    rewrite ParsedFacts.slice_flag in Hv. by exists v.
Qed.

Lemma flag_given_reads_truthy_witness :
  truthy (get {[ "_" := VArr ["list"]; "dry-run" := VStr "campaigns" ]} "dry-run") = true.
Proof.
  apply (flag_given_reads_truthy ["--dry-run"; "campaigns"; "list"] _ "dry-run").
  - vm_compute. reflexivity.
  - discriminate.
  - discriminate.
  - apply list_elem_of_here.
Defined.

(** X3: when no flag is written [--_], parsing returns, and the array
    under [_] holds, in their order, exactly the tokens that are neither a
    flag nor the value of one; a command line without flags is returned
    token for token. *)
Theorem positionals_keep_their_order args :
  Forall (fun t => startsWith t "--" = true -> slice t 2 <> "_") args ->
  exists result,
    parseArgs args = Normal result
    /\ get result "_" = VArr (positionals (pairing args))
    /\ (Forall (fun t => startsWith t "--" = false) args ->
        get result "_" = VArr args).
Proof.
  intros Hargs. rewrite ParsedFacts.parseArgs_replay.
  destruct (ParsedFacts.replay_positionals (pairing args) {[ "_" := VArr [] ]} [])
    as (result & Hr & Hpos).
  - done.
  - by apply (ParserFacts.pairing_plain (List.length args)).
  - exists result. split; [done|]. unfold get. rewrite Hpos. cbn.
    split; [done|]. intros Hnone.
    by rewrite (ParsedFacts.pairing_no_flags args Hnone),
      ParsedFacts.positionals_map.
Qed.

Lemma positionals_keep_their_order_witness :
  exists result,
    parseArgs ["profiles"; "--id"; "P1"; "get"] = Normal result
    /\ get result "_" = VArr ["profiles"; "get"].
Proof.
  destruct (positionals_keep_their_order ["profiles"; "--id"; "P1"; "get"])
    as (result & Hr & Hpos & _).
  - repeat constructor; by vm_compute.
  - exists result. split; [exact Hr|]. rewrite Hpos. vm_compute. reflexivity.
Defined.

(** X20: a flag at the end of the command line is a switch, and it leaves
    the reading of what precedes it as it was: the parse of the longer
    command line is the parse of the shorter one with the flag set to
    [true]. *)
Theorem trailing_flag_is_a_switch argv k args :
  parseArgs argv = Normal args ->
  parseArgs (argv ++ ["--" ++ k]) = Normal (object_set args k VTrue).
Proof.
  intros Hparse. rewrite ParsedFacts.parseArgs_replay in *.
  rewrite (ParsedFacts.pairing_snoc_flag (List.length argv))
    by (first [done|apply ParsedFacts.startsWith_flag]).
  rewrite ParsedFacts.replay_app, Hparse, ParsedFacts.slice_flag. reflexivity.
Qed.

Lemma trailing_flag_is_a_switch_witness :
  parseArgs (["profiles"; "get"; "--id"] ++ ["--" ++ "dry-run"])
  = Normal (object_set {[ "_" := VArr ["profiles"; "get"]; "id" := VTrue ]}
                       "dry-run" VTrue).
Proof.
  apply (trailing_flag_is_a_switch ["profiles"; "get"; "--id"] "dry-run").
  vm_compute. reflexivity.
Defined.

(** ** The number of requests of a process *)

Module BudgetFacts.

Lemma fetches_weaken {A : Type} n n' (m : M A) :
  n <= n' -> fetches_at_most n m -> fetches_at_most n' m.
Proof.
  intros Hle Hm st. destruct (Hm st) as (extra & Hlog & Hlen).
  exists extra. split; [done|lia].
Qed.

Lemma fetches_ret {A : Type} n (a : A) : fetches_at_most n (ret a).
Proof. intros st. exists []. cbn. split; [by rewrite app_nil_r|lia]. Qed.

Lemma fetches_throw {A : Type} n e : fetches_at_most n (@throw A e).
Proof. intros st. exists []. cbn. split; [by rewrite app_nil_r|lia]. Qed.

Lemma fetches_lift {A : Type} n (c : completion A) : fetches_at_most n (lift c).
Proof. destruct c; [apply fetches_ret|apply fetches_throw]. Qed.

Lemma fetches_read_slot n : fetches_at_most n read_slot.
Proof. intros st. exists []. cbn. split; [by rewrite app_nil_r|lia]. Qed.

Lemma fetches_write_slot n j : fetches_at_most n (write_slot j).
Proof. intros st. exists []. cbn. split; [by rewrite app_nil_r|lia]. Qed.

Lemma fetches_fetch w r : fetches_at_most 1 (fetch w r).
Proof.
  intros st. exists [r]. unfold final, fetch.
  destruct (net w r); cbn; (split; [done|lia]).
Qed.

Lemma fetches_bind {A B : Type} a b (m : M A) (k : A -> M B) :
  fetches_at_most a m -> (forall x, fetches_at_most b (k x)) ->
  fetches_at_most (a + b) (bind m k).
Proof.
  intros Hm Hk st. destruct (Hm st) as (extra1 & Hlog1 & Hlen1).
  unfold final, bind in *. destruct (m st) as [[x|e] st1]; cbn [snd] in *.
  - destruct (Hk x st1) as (extra2 & Hlog2 & Hlen2). unfold final in Hlog2.
    exists (extra1 ++ extra2)%list. rewrite Hlog2, Hlog1, app_assoc.
    split; [done|]. rewrite length_app. lia.
  - exists extra1. split; [done|lia].
Qed.

(** Steps that cost nothing: the budget of what follows is the budget of
    the whole. *)
Lemma fetches_after {A B : Type} n (m : M A) (k : A -> M B) :
  fetches_at_most 0 m -> (forall x, fetches_at_most n (k x)) ->
  fetches_at_most n (bind m k).
Proof. intros Hm Hk. by apply (fetches_bind 0 n). Qed.

Lemma fetches_then {A B : Type} n (m : M A) (k : A -> M B) :
  fetches_at_most n m -> (forall x, fetches_at_most 0 (k x)) ->
  fetches_at_most n (bind m k).
Proof.
  intros Hm Hk. apply (fetches_weaken (n + 0)); [lia|]. by apply fetches_bind.
Qed.

Lemma fetches_required n v message (rest : M output) :
  fetches_at_most n rest -> fetches_at_most n (required v message rest).
Proof. intros H. unfold required. destruct (truthy v); [done|apply fetches_ret]. Qed.

Lemma fetches_if {A : Type} n (b : bool) (m1 m2 : M A) :
  fetches_at_most n m1 -> fetches_at_most n m2 ->
  fetches_at_most n (if b then m1 else m2).
Proof. by destruct b. Qed.

Lemma fetches_switch {A : Type} n (v : value) (cases : list (string * M A)) (d : M A) :
  Forall (fun c => fetches_at_most n (snd c)) cases ->
  fetches_at_most n d ->
  fetches_at_most n (switch v cases d).
Proof.
  intros Hcases Hd. apply switch_elim; [|done].
  eapply Forall_impl; [exact Hcases|]. done.
Qed.

(** One request and the reading of its answer. *)
Lemma fetches_send {B : Type} w r (k : response -> M B) :
  (forall res, fetches_at_most 0 (k res)) -> fetches_at_most 1 (bind (fetch w r) k).
Proof. intros Hk. apply fetches_then; [apply fetches_fetch|exact Hk]. Qed.

Ltac budget_step :=
  first
    [ apply fetches_ret
    | apply fetches_throw
    | apply fetches_lift
    | apply fetches_read_slot
    | apply fetches_write_slot
    | apply fetches_required
    | apply fetches_switch
    | apply List.Forall_cons; [cbn [snd]|]
    | apply List.Forall_nil
    | apply fetches_send; intros ?
    | apply fetches_after; [|intros ?]
    | apply fetches_if
    | match goal with
      | |- fetches_at_most _ (match ?x with _ => _ end) => destruct x
      end ].

Lemma klaviyo_api_budget w args method path body :
  fetches_at_most 1 (Klaviyo.api w args method path body).
Proof. unfold Klaviyo.api. repeat budget_step. Qed.

Lemma semrush_api_budget rt w args params :
  fetches_at_most 1 (Semrush.api rt w args params).
Proof. unfold Semrush.api. repeat budget_step. Qed.

Lemma mixpanel_ingestApi_budget w args method path body :
  fetches_at_most 1 (Mixpanel.ingestApi w args method path body).
Proof. unfold Mixpanel.ingestApi. repeat budget_step. Qed.

Lemma mixpanel_queryApi_budget rt w args method baseUrl path params :
  fetches_at_most 1 (Mixpanel.queryApi rt w args method baseUrl path params).
Proof. unfold Mixpanel.queryApi. repeat budget_step. Qed.

Lemma mixpanel_queryApiPost_budget rt w args path body :
  fetches_at_most 1 (Mixpanel.queryApiPost rt w args path body).
Proof. unfold Mixpanel.queryApiPost. repeat budget_step. Qed.

Lemma tiktok_api_budget w args method path body :
  fetches_at_most 1 (Tiktok.api w args method path body).
Proof. unfold Tiktok.api. repeat budget_step. Qed.

Lemma hotjar_getToken_budget rt w : fetches_at_most 1 (Hotjar.getToken rt w).
Proof.
  unfold Hotjar.getToken.
  apply fetches_after; [apply fetches_read_slot|intros cached].
  apply fetches_if; [apply fetches_ret|].
  apply fetches_send. intros res. repeat budget_step.
Qed.

Lemma hotjar_api_budget rt w args method path :
  fetches_at_most 2 (Hotjar.api rt w args method path).
Proof.
  unfold Hotjar.api. apply fetches_if; [apply fetches_ret|].
  apply (fetches_bind 1 1); [apply hotjar_getToken_budget|intros token].
  repeat budget_step.
Qed.

Lemma trustpilot_getAccessToken_budget rt w :
  fetches_at_most 1 (Trustpilot.getAccessToken rt w).
Proof.
  unfold Trustpilot.getAccessToken.
  apply fetches_after; [apply fetches_read_slot|intros cached].
  apply fetches_if; [apply fetches_ret|].
  apply fetches_if; [apply fetches_ret|].
  apply fetches_send. intros res. repeat budget_step.
Qed.

Lemma trustpilot_api_budget rt w args method path body auth :
  fetches_at_most 2 (Trustpilot.api rt w args method path body auth).
Proof.
  unfold Trustpilot.api. apply fetches_if; [apply fetches_ret|].
  apply fetches_if.
  - apply (fetches_bind 1 1); [apply trustpilot_getAccessToken_budget|intros token].
    repeat budget_step.
  - apply (fetches_weaken 1); [lia|]. repeat budget_step.
Qed.

Ltac budget_main :=
  repeat first
    [ apply klaviyo_api_budget
    | apply semrush_api_budget
    | apply mixpanel_ingestApi_budget
    | apply mixpanel_queryApi_budget
    | apply mixpanel_queryApiPost_budget
    | apply tiktok_api_budget
    | apply hotjar_api_budget
    | apply trustpilot_api_budget
    | budget_step ].

Lemma main_budget (s : script) rt w args cmd sub :
  fetches_at_most (request_budget s) (main (script_of s) rt w args cmd sub).
Proof.
  destruct s as [[| | | |]|]; cbn [request_budget script_of tool_of].
  - unfold Klaviyo.tool, main, Klaviyo.main, Klaviyo.get_by_id, Klaviyo.relationships.
    budget_main.
  - unfold Mixpanel.tool, main, Mixpanel.main. budget_main.
  - unfold Semrush.tool, main, Semrush.main. budget_main.
  - unfold Trustpilot.tool, main, Trustpilot.main. budget_main.
  - unfold Hotjar.tool, main, Hotjar.main. budget_main.
  - unfold Tiktok.tool, main, Tiktok.main. budget_main.
Qed.

End BudgetFacts.

(** X4: whatever the command line, the environment and the answers of the
    network, a process of klaviyo, mixpanel, semrush or tiktok-ads calls
    [fetch] at most once, and a process of hotjar or trustpilot at most
    twice (the token request and the request proper): no handler loops,
    retries or follows pagination. *)
Theorem requests_stay_within_budget (s : script) rt w argv :
  List.length (fetched (run (script_of s) rt w argv)) <= request_budget s.
Proof.
  unfold run.
  destruct (gate _ _); [cbn; lia|].
  destruct (parseArgs argv) as [args|e]; [|cbn; lia].
  destruct (destructure _) as [[cmd sub]|e]; [|cbn; lia].
  destruct (BudgetFacts.main_budget s rt w args cmd sub initial)
    as (extra & Hlog & Hlen).
  unfold final in Hlog.
  destruct (main _ rt w args cmd sub initial) as [[result|e] st];
    cbn [fetched snd requests initial app] in *; rewrite Hlog; lia.
Qed.

(** ** What dry-run mode shows *)

Module MirrorFacts.

Lemma parseArgs_snoc_dry_run argv :
  parseArgs (argv ++ ["--dry-run"]) =
    match parseArgs argv with
    | Normal args => Normal (<["dry-run" := VTrue]> args)
    | Throw m => Throw m
    end.
Proof.
  rewrite !ParsedFacts.parseArgs_replay.
  rewrite (ParsedFacts.pairing_snoc_flag (List.length argv)) by done.
  rewrite ParsedFacts.replay_app. by destruct (replay (pairing argv) _).
Qed.

Lemma fold_left_agree {A B : Type} (f1 f2 : A -> B -> A) (l : list B) : forall init,
  Forall (fun x => forall a, f1 a x = f2 a x) l ->
  fold_left f1 l init = fold_left f2 l init.
Proof.
  induction l as [|x l IH]; intros init Hl; [done|].
  inversion Hl as [|? ? Hx Hrest]; subst. cbn [fold_left]. rewrite Hx. by apply IH.
Qed.

Section Mirror.

Context (rt : runtime) (w : world) (a_dry a_live : gmap string value).
Hypothesis Hdry : truthy (get a_dry "dry-run") = true.
Hypothesis Hlive : truthy (get a_live "dry-run") = false.
Hypothesis Hagree : forall k, k <> "dry-run" -> get a_dry k = get a_live k.

Lemma mirrors_ret credential secret (o : output) (m : M output) :
  (forall d, o <> DryRun d) -> mirrors w credential secret (ret o) m.
Proof. intros Ho st d st' [= -> _]. by destruct (Ho d). Qed.

Lemma mirrors_required credential secret v message (m1 m2 : M output) :
  mirrors w credential secret m1 m2 ->
  mirrors w credential secret (required v message m1) (required v message m2).
Proof.
  intros H. unfold required. destruct (truthy v); [done|]. by apply mirrors_ret.
Qed.

Lemma mirrors_if credential secret (b : bool) (m1 m2 m1' m2' : M output) :
  mirrors w credential secret m1 m1' -> mirrors w credential secret m2 m2' ->
  mirrors w credential secret (if b then m1 else m2) (if b then m1' else m2').
Proof. by destruct b. Qed.

Lemma mirrors_switch credential secret v (cases1 cases2 : list (string * M output))
    d1 d2 :
  Forall2 (fun c1 c2 => fst c1 = fst c2 /\ mirrors w credential secret (snd c1) (snd c2))
          cases1 cases2 ->
  mirrors w credential secret d1 d2 ->
  mirrors w credential secret (switch v cases1 d1) (switch v cases2 d2).
Proof.
  intros Hcases Hd.
  induction Hcases as [|[l1 b1] [l2 b2] r1 r2 [Hl Hb] _ IH]; cbn [switch]; [done|].
  cbn [fst snd] in *. subst l2. by destruct (value_is v l1).
Qed.

Lemma mirrors_lift {A : Type} credential secret (c : completion A)
    (k1 k2 : A -> M output) :
  (forall a, mirrors w credential secret (k1 a) (k2 a)) ->
  mirrors w credential secret (bind (lift c) k1) (bind (lift c) k2).
Proof.
  intros Hk. destruct c as [a|e]; [apply Hk|].
  intros st d st' H. discriminate H.
Qed.

Ltac headers_described :=
  repeat (apply List.Forall2_cons;
          [ cbn [fst snd]; split; [reflexivity|];
            split;
            [ intros Hne; first [reflexivity|by destruct Hne]
            | intros Heq; first [by split|discriminate Heq] ] |]);
  apply List.Forall2_nil.

Lemma sends_and_answers r st :
  bind (fetch w r) (fun res => ret (read_body res)) st
  = (answer w r, {| slot := slot st; requests := requests st ++ [r] |}).
Proof. unfold bind, fetch, ret, answer. by destruct (net w r). Qed.

Lemma klaviyo_api_mirrors method path body :
  mirrors w "Authorization" (credential_value_of direct_klaviyo rt w)
    (Klaviyo.api w a_dry method path body)
                            (Klaviyo.api w a_live method path body).
Proof.
  intros st d st'. unfold Klaviyo.api. rewrite Hdry, Hlive. intros [= <- <-].
  eexists. split; [|apply sends_and_answers].
  repeat split. cbn [r_headers d_headers assoc_set String.eqb Ascii.eqb Bool.eqb].
  headers_described.
Qed.

Lemma mixpanel_ingestApi_mirrors method path body :
  mirrors w "Authorization" (credential_value_of direct_mixpanel rt w)
    (Mixpanel.ingestApi w a_dry method path body)
                            (Mixpanel.ingestApi w a_live method path body).
Proof.
  intros st d st'. unfold Mixpanel.ingestApi. rewrite Hdry, Hlive. intros [= <- <-].
  eexists. split; [|apply sends_and_answers].
  repeat split. cbn [r_headers d_headers]. headers_described.
Qed.

Lemma mixpanel_queryApi_mirrors method baseUrl path params :
  mirrors w "Authorization" (credential_value_of direct_mixpanel rt w)
    (Mixpanel.queryApi rt w a_dry method baseUrl path params)
                            (Mixpanel.queryApi rt w a_live method baseUrl path params).
Proof.
  intros st d st'. unfold Mixpanel.queryApi.
  destruct (negb (truthy (Mixpanel.API_KEY w)) || negb (truthy (Mixpanel.SECRET w)));
    [discriminate|].
  rewrite Hdry, Hlive. intros [= <- <-].
  eexists. split; [|apply sends_and_answers].
  repeat split.
  cbn [r_headers d_headers Mixpanel.basic_auth_headers assoc_set
       String.eqb Ascii.eqb Bool.eqb].
  headers_described.
Qed.

Lemma mixpanel_queryApiPost_mirrors path body :
  mirrors w "Authorization" (credential_value_of direct_mixpanel rt w)
    (Mixpanel.queryApiPost rt w a_dry path body)
                            (Mixpanel.queryApiPost rt w a_live path body).
Proof.
  intros st d st'. unfold Mixpanel.queryApiPost.
  destruct (negb (truthy (Mixpanel.API_KEY w)) || negb (truthy (Mixpanel.SECRET w)));
    [discriminate|].
  rewrite Hdry, Hlive. intros [= <- <-].
  eexists. split; [|apply sends_and_answers].
  repeat split.
  cbn [r_headers d_headers Mixpanel.basic_auth_headers assoc_set
       String.eqb Ascii.eqb Bool.eqb].
  headers_described.
Qed.

(** tiktok-ads puts the body into the request only under [POST], and into
    the descriptor always: the two agree for the calls that [main] makes. *)
Lemma tiktok_api_mirrors method path body :
  method = "POST" \/ body = None ->
  mirrors w "Access-Token" (credential_value_of direct_tiktok rt w)
    (Tiktok.api w a_dry method path body)
                           (Tiktok.api w a_live method path body).
Proof.
  intros Hbody st d st'. unfold Tiktok.api. rewrite Hdry, Hlive. intros [= <- <-].
  eexists. split; [|apply sends_and_answers].
  repeat split.
  - cbn [r_body d_body]. destruct Hbody as [-> | ->]; [done|].
    by destruct (String.eqb method "POST").
  - cbn [r_headers d_headers]. headers_described.
Qed.

Ltac no_dry_run :=
  repeat (apply List.Forall_cons; [cbn [snd]; discriminate|]); apply List.Forall_nil.

Lemma klaviyo_query_agree entries :
  Forall (fun e => snd e <> "dry-run") entries ->
  Klaviyo.query rt a_dry entries = Klaviyo.query rt a_live entries.
Proof.
  intros He. unfold Klaviyo.query.
  rewrite (fold_left_agree _
             (fun ps '(name, flag) =>
                if truthy (get a_live flag)
                then params_set ps name (to_string (get a_live flag)) else ps)); [done|].
  eapply Forall_impl; [exact He|]. intros [name flag] Hflag ps. cbn in Hflag.
  by rewrite (Hagree flag Hflag).
Qed.

Lemma klaviyo_set_each_agree attributes entries :
  Forall (fun e => snd e <> "dry-run") entries ->
  Klaviyo.set_each a_dry attributes entries = Klaviyo.set_each a_live attributes entries.
Proof.
  intros He. unfold Klaviyo.set_each. apply fold_left_agree.
  eapply Forall_impl; [exact He|]. intros [name flag] Hflag o. cbn in Hflag.
  by rewrite (Hagree flag Hflag).
Qed.

Lemma mixpanel_with_optional_agree fixed entries :
  Forall (fun e => snd e <> "dry-run") entries ->
  Mixpanel.with_optional a_dry fixed entries = Mixpanel.with_optional a_live fixed entries.
Proof.
  intros He. unfold Mixpanel.with_optional. apply fold_left_agree.
  eapply Forall_impl; [exact He|]. intros [name flag] Hflag ps. cbn in Hflag.
  by rewrite (Hagree flag Hflag).
Qed.

Ltac mirror_cases :=
  repeat (apply List.Forall2_cons; [split; [reflexivity|cbn [snd]]|]);
  [..|apply List.Forall2_nil].

Ltac mirror_step :=
  first
    [ apply klaviyo_api_mirrors
    | apply mixpanel_ingestApi_mirrors
    | apply mixpanel_queryApi_mirrors
    | apply mixpanel_queryApiPost_mirrors
    | apply tiktok_api_mirrors; first [by left|by right]
    | apply mirrors_ret; discriminate
    | apply mirrors_required
    | apply mirrors_switch; [mirror_cases|]
    | apply mirrors_lift; intros ?
    | apply mirrors_if
    | match goal with
      | |- mirrors _ _ _ (match ?x with _ => _ end) _ => destruct x
      end ].

Lemma klaviyo_main_mirrors cmd sub :
  mirrors w "Authorization" (credential_value_of direct_klaviyo rt w)
    (Klaviyo.main rt w a_dry cmd sub)
                            (Klaviyo.main rt w a_live cmd sub).
Proof.
  unfold Klaviyo.main, Klaviyo.get_by_id, Klaviyo.relationships, Klaviyo.event_properties.
  rewrite !klaviyo_query_agree by no_dry_run.
  rewrite !klaviyo_set_each_agree by no_dry_run.
  rewrite !Hagree by discriminate.
  repeat mirror_step.
Qed.

Lemma mixpanel_main_mirrors cmd sub :
  mirrors w "Authorization" (credential_value_of direct_mixpanel rt w)
    (Mixpanel.main rt w a_dry cmd sub)
                            (Mixpanel.main rt w a_live cmd sub).
Proof.
  unfold Mixpanel.main, Mixpanel.parsed_properties.
  rewrite !mixpanel_with_optional_agree by no_dry_run.
  rewrite !Hagree by discriminate.
  repeat mirror_step.
Qed.

Lemma tiktok_main_mirrors cmd sub :
  mirrors w "Access-Token" (credential_value_of direct_tiktok rt w)
    (Tiktok.main rt w a_dry cmd sub)
                           (Tiktok.main rt w a_live cmd sub).
Proof.
  unfold Tiktok.main, Tiktok.getAdvertiserId, Tiktok.split_or.
  rewrite !Hagree by discriminate.
  repeat mirror_step.
Qed.

Lemma main_mirrors (s : direct_script) cmd sub :
  mirrors w (credential_header_of s) (credential_value_of s rt w)
    (main (direct_script_of s) rt w a_dry cmd sub)
    (main (direct_script_of s) rt w a_live cmd sub).
Proof.
  destruct s;
    [apply klaviyo_main_mirrors|apply mixpanel_main_mirrors|apply tiktok_main_mirrors].
Qed.

End Mirror.

End MirrorFacts.

(** X5: in klaviyo, mixpanel and tiktok-ads, [--dry-run] appended to a
    command line shows the request that the command line sends without it.
    If the dry run prints a descriptor, the real run calls [fetch] exactly
    once, with the method, URL, body and headers of the descriptor (the
    credential header holding the credential where the descriptor holds
    the mask), and ends on the parsed answer (standard output, exit code 0)
    or, when [fetch] fails, on its error (standard error, exit code 1). *)
Theorem dry_run_shows_the_request (s : direct_script) rt w argv args d :
  parseArgs argv = Normal args ->
  truthy (get args "dry-run") = false ->
  stdout (run (direct_script_of s) rt w (argv ++ ["--dry-run"])) = [DryRun d] ->
  exists r,
    describes (credential_header_of s) (credential_value_of s rt w) d r
    /\ fetched (run (direct_script_of s) rt w argv) = [r]
    /\ match answer w r with
       | Normal result =>
           stdout (run (direct_script_of s) rt w argv) = [result]
           /\ stderr (run (direct_script_of s) rt w argv) = []
           /\ code (run (direct_script_of s) rt w argv) = 0
       | Throw e =>
           stdout (run (direct_script_of s) rt w argv) = []
           /\ stderr (run (direct_script_of s) rt w argv) = [JsonError e]
           /\ code (run (direct_script_of s) rt w argv) = 1
       end.
Proof.
  intros Hparse Hlive. unfold run.
  rewrite MirrorFacts.parseArgs_snoc_dry_run, Hparse.
  destruct (gate _ _); [discriminate|].
  assert (get (<["dry-run" := VTrue]> args) "_" = get args "_") as ->
    by (unfold get; by rewrite lookup_insert_ne).
  destruct (destructure _) as [[cmd sub]|e]; [|discriminate].
  destruct (main _ rt w (<["dry-run" := VTrue]> args) cmd sub initial)
    as [[result|e] st] eqn:Hmain; [|discriminate].
  intros [= ->].
  destruct (MirrorFacts.main_mirrors rt w (<["dry-run" := VTrue]> args) args) with
    (s := s) (cmd := cmd) (sub := sub) (st := initial) (d := d) (st' := st)
    as (r & Hd & Hr).
  - unfold get. by rewrite lookup_insert_eq.
  - exact Hlive.
  - intros k Hk. unfold get. by rewrite lookup_insert_ne.
  - exact Hmain.
  - exists r. split; [exact Hd|]. rewrite Hr.
    destruct (answer w r); cbn; done.
Qed.

(** [profiles get --id P1] of klaviyo, against a server that answers. *)
Lemma dry_run_shows_the_request_witness :
  exists r,
    r_method r = "GET"
    /\ r_url r = "https://a.klaviyo.com/api/profiles/P1/"
    /\ fetched (run Klaviyo.tool Sample.runtime
                  (Sample.klaviyo_world Sample.noon Sample.online)
                  ["profiles"; "get"; "--id"; "P1"]) = [r].
Proof.
  destruct (dry_run_shows_the_request direct_klaviyo Sample.runtime
              (Sample.klaviyo_world Sample.noon Sample.online)
              ["profiles"; "get"; "--id"; "P1"]
              {[ "_" := VArr ["profiles"; "get"]; "id" := VStr "P1" ]}
              {| d_method := "GET"; d_url := "https://a.klaviyo.com/api/profiles/P1/";
                 d_headers := [ ("Authorization", "***");
                                ("Content-Type", "application/json");
                                ("Accept", "application/json");
                                ("revision", "2024-10-15") ];
                 d_body := None |})
    as (r & (Hmethod & Hurl & _) & Hfetched & _).
  - vm_compute. reflexivity.
  - vm_compute. reflexivity.
  - vm_compute. reflexivity.
  - exists r. split; [exact Hmethod|]. split; [exact Hurl|exact Hfetched].
Defined.

(** ** The query string of semrush *)

Module ParamFacts.

Lemma filter_others_all k (l : list (string * string)) :
  Forall (fun p => fst p <> k) l ->
  filter (fun p => negb (String.eqb (fst p) k)) l = l.
Proof.
  induction 1 as [|p l Hp _ IH]; [done|].
  rewrite filter_cons_True, IH; [done|].
  apply Is_true_true, negb_true_iff, String.eqb_neq. exact Hp.
Qed.

Lemma filter_others_Forall k (l : list (string * string)) :
  Forall (fun p => fst p <> k) (filter (fun p => negb (String.eqb (fst p) k)) l).
Proof.
  apply Forall_forall. intros p Hp. apply list_elem_of_filter in Hp as [Hp _].
  apply Is_true_true, negb_true_iff, String.eqb_neq in Hp. exact Hp.
Qed.

Lemma filter_others_keeps k k' (l : list (string * string)) :
  Forall (fun p => fst p <> k) l ->
  Forall (fun p => fst p <> k) (filter (fun p => negb (String.eqb (fst p) k')) l).
Proof.
  intros Hl. apply Forall_forall. intros p Hp. apply list_elem_of_filter in Hp as [_ Hp].
  rewrite Forall_forall in Hl. by apply Hl.
Qed.

(** After [params.set(k, v)] there is one pair named [k], and it holds
    [v]. *)
Lemma params_set_gives ps k v :
  exists before after,
    params_set ps k v = (before ++ (k, v) :: after)%list
    /\ Forall (fun p => fst p <> k) before
    /\ Forall (fun p => fst p <> k) after.
Proof.
  induction ps as [|[k' v'] rest IH]; cbn [params_set].
  - exists [], []. by repeat split.
  - destruct (String.eqb_spec k' k) as [->|Hne].
    + exists [], (filter (fun p => negb (String.eqb (fst p) k)) rest).
      split; [done|]. split; [constructor|apply filter_others_Forall].
    + destruct IH as (before & after & -> & Hb & Ha).
      exists ((k', v') :: before), after. split; [done|]. split; [|done].
      by constructor.
Qed.

Lemma params_set_keeps k ps k' v' :
  k' <> k ->
  Forall (fun p => fst p <> k) ps ->
  Forall (fun p => fst p <> k) (params_set ps k' v').
Proof.
  intros Hk. induction 1 as [|[k0 v0] rest Hp Hrest IH]; cbn [params_set].
  - by repeat constructor.
  - destruct (String.eqb k0 k').
    + constructor; [done|]. by apply filter_others_keeps.
    + by constructor.
Qed.

(** Setting another name leaves the pair named [k] as it is. *)
Lemma params_set_other k v k' v' before : forall after,
  k' <> k ->
  Forall (fun p => fst p <> k) before ->
  Forall (fun p => fst p <> k) after ->
  exists before' after',
    params_set (before ++ (k, v) :: after) k' v' = (before' ++ (k, v) :: after')%list
    /\ Forall (fun p => fst p <> k) before'
    /\ Forall (fun p => fst p <> k) after'.
Proof.
  intros after Hk Hb Ha.
  induction Hb as [|[k0 v0] rest Hp Hrest IH]; cbn [app params_set].
  - destruct (String.eqb_spec k k') as [Heq|_]; [by destruct Hk|].
    exists [], (params_set after k' v'). split; [done|].
    split; [constructor|by apply params_set_keeps].
  - destruct (String.eqb k0 k').
    + exists ((k', v') :: filter (fun p => negb (String.eqb (fst p) k')) rest),
             (filter (fun p => negb (String.eqb (fst p) k')) after).
      rewrite filter_app, filter_cons_True.
      * split; [done|]. split; [|by apply filter_others_keeps].
        constructor; [done|by apply filter_others_keeps].
      * apply Is_true_true, negb_true_iff, String.eqb_neq. cbn. congruence.
    + destruct IH as (before' & after' & -> & Hb' & Ha').
      exists ((k0, v0) :: before'), after'. split; [done|]. split; [|done].
      by constructor.
Qed.

(** Setting the name again changes the value in place. *)
Lemma params_set_again k v v' before : forall after,
  Forall (fun p => fst p <> k) before ->
  Forall (fun p => fst p <> k) after ->
  params_set (before ++ (k, v) :: after) k v' = (before ++ (k, v') :: after)%list.
Proof.
  intros after Hb Ha.
  induction Hb as [|[k0 v0] rest Hp Hrest IH]; cbn [app params_set].
  - rewrite String.eqb_refl. by rewrite filter_others_all.
  - cbn in Hp. destruct (String.eqb_spec k0 k) as [Heq|_]; [done|]. by rewrite IH.
Qed.

Section Semrush.

Context (rt : runtime) (w : world) (a_dry a_live : gmap string value).
Hypothesis Hdry : truthy (get a_dry "dry-run") = true.
Hypothesis Hlive : truthy (get a_live "dry-run") = false.
Hypothesis Hagree : forall k, k <> "dry-run" -> get a_dry k = get a_live k.

Lemma semrush_mirrors_ret (o : output) (m : M output) :
  (forall d, o <> DryRun d) -> semrush_mirrors rt w (ret o) m.
Proof. intros Ho st d st' [= -> _]. by destruct (Ho d). Qed.

Lemma semrush_mirrors_switch v (cases1 cases2 : list (string * M output)) d1 d2 :
  Forall2 (fun c1 c2 => fst c1 = fst c2 /\ semrush_mirrors rt w (snd c1) (snd c2))
          cases1 cases2 ->
  semrush_mirrors rt w d1 d2 ->
  semrush_mirrors rt w (switch v cases1 d1) (switch v cases2 d2).
Proof.
  intros Hcases Hd.
  induction Hcases as [|[l1 b1] [l2 b2] r1 r2 [Hl Hb] _ IH]; cbn [switch]; [done|].
  cbn [fst snd] in *. subst l2. by destruct (value_is v l1).
Qed.

Lemma semrush_api_mirrors params :
  semrush_mirrors rt w (Semrush.api rt w a_dry params) (Semrush.api rt w a_live params).
Proof.
  intros st d st'. unfold Semrush.api. rewrite Hdry, Hlive. intros [= <- <-].
  destruct (params_set_gives params "key" (to_string (Semrush.API_KEY w)))
    as (b0 & a0 & -> & Hb0 & Ha0).
  destruct (params_set_other "key" (to_string (Semrush.API_KEY w)) "export_escape" "1"
              b0 a0 ltac:(discriminate) Hb0 Ha0) as (before & after & -> & Hb & Ha).
  exists (before ++ ("key", to_string (Semrush.API_KEY w)) :: after)%list,
         (before ++ ("key", mask) :: after)%list.
  split; [by exists before, after|]. split.
  - by rewrite (params_set_again "key" _ "***" before after Hb Ha).
  - unfold final, bind, fetch, semrush_request.
    destruct (net w _) as [res|]; [|done].
    by destruct (negb (ok res)), (startsWith (Host.text res) "ERROR").
Qed.

Ltac mirror_cases :=
  repeat (apply List.Forall2_cons; [split; [reflexivity|cbn [snd]]|]);
  [..|apply List.Forall2_nil].

Lemma semrush_main_mirrors cmd sub :
  semrush_mirrors rt w (Semrush.main rt w a_dry cmd sub) (Semrush.main rt w a_live cmd sub).
Proof.
  unfold Semrush.main, Semrush.with_limit, Semrush.database.
  rewrite !Hagree by discriminate.
  repeat first
    [ apply semrush_api_mirrors
    | apply semrush_mirrors_ret; discriminate
    | apply semrush_mirrors_switch; [mirror_cases|] ].
Qed.

End Semrush.

End ParamFacts.

(** X6: semrush sends its key in the query string, and [--dry-run] hides
    that and nothing else.  If the dry run prints a descriptor, the real
    run calls [fetch] exactly once; the parameters of the request name
    [key] once, with the key of the environment; and the URL of the
    descriptor is made of the same parameters in the same order, with the
    mask in the place of the key. *)
Theorem semrush_dry_run_hides_only_the_key rt w argv args d :
  parseArgs argv = Normal args ->
  truthy (get args "dry-run") = false ->
  stdout (run Semrush.tool rt w (argv ++ ["--dry-run"])) = [DryRun d] ->
  exists sent shown,
    replaces "key" (to_string (Semrush.API_KEY w)) mask sent shown
    /\ d_url d = Semrush.BASE_URL ++ "?" ++ form_urlencode rt shown
    /\ fetched (run Semrush.tool rt w argv) = [semrush_request rt sent].
Proof.
  intros Hparse Hlive. unfold run.
  rewrite MirrorFacts.parseArgs_snoc_dry_run, Hparse.
  destruct (gate _ _); [discriminate|].
  assert (get (<["dry-run" := VTrue]> args) "_" = get args "_") as ->
    by (unfold get; by rewrite lookup_insert_ne).
  destruct (destructure _) as [[cmd sub]|e]; [|discriminate].
  destruct (main _ rt w (<["dry-run" := VTrue]> args) cmd sub initial)
    as [[result|e] st] eqn:Hmain; [|discriminate].
  intros [= ->].
  destruct (ParamFacts.semrush_main_mirrors rt w (<["dry-run" := VTrue]> args) args) with
    (cmd := cmd) (sub := sub) (st := initial) (d := d) (st' := st)
    as (sent & shown & Hrep & -> & Hlog).
  - unfold get. by rewrite lookup_insert_eq.
  - exact Hlive.
  - intros k Hk. unfold get. by rewrite lookup_insert_ne.
  - exact Hmain.
  - exists sent, shown. split; [exact Hrep|]. split; [done|].
    unfold final in Hlog. cbn [main Semrush.tool] in *.
    destruct (Semrush.main rt w args cmd sub initial) as [[result|e] st1];
      cbn [fetched snd] in *; by rewrite Hlog.
Qed.

(** [domain overview --domain example.com] with [SEMRUSH_API_KEY=sk_1]. *)
Lemma semrush_dry_run_hides_only_the_key_witness :
  exists sent shown,
    replaces "key" "sk_1" "***" sent shown
    /\ fetched (run Semrush.tool Sample.runtime Sample.semrush_world
                  ["domain"; "overview"; "--domain"; "example.com"])
       = [semrush_request Sample.runtime sent].
Proof.
  destruct (semrush_dry_run_hides_only_the_key Sample.runtime Sample.semrush_world
              ["domain"; "overview"; "--domain"; "example.com"]
              {[ "_" := VArr ["domain"; "overview"]; "domain" := VStr "example.com" ]}
              {| d_method := "GET";
                 d_url := "https://api.semrush.com/?type=domain_ranks&export_columns=Db,Dn,Rk,Or,Ot,Oc,Ad,At,Ac&domain=example.com&key=***&export_escape=1";
                 d_headers := []; d_body := None |})
    as (sent & shown & Hrep & _ & Hfetched).
  - vm_compute. reflexivity.
  - vm_compute. reflexivity.
  - vm_compute. reflexivity.
  - exists sent, shown. split; [exact Hrep|exact Hfetched].
Defined.

(** ** The rows that semrush reads from an answer *)

Module CsvFacts.

Lemma cell_value values :
  to_string (or_else (element values 0) (VStr "")) = default "" (head values).
Proof.
  destruct values as [|v rest]; [done|]. unfold element, or_else. cbn.
  destruct (String.eqb_spec v "") as [->|_]; done.
Qed.

Lemma assoc_set_fresh {A : Type} (o : list (string * A)) k v :
  k ∉ map fst o -> assoc_set o k v = (o ++ [(k, v)])%list.
Proof.
  induction o as [|[k' v'] rest IH]; intros Hk; cbn [assoc_set app map]; [done|].
  cbn [map fst] in Hk. apply not_elem_of_cons in Hk as [Hne Hk].
  destruct (String.eqb_spec k' k) as [Heq|_]; [by destruct Hne|].
  by rewrite IH.
Qed.

Lemma build_row_cells headers : forall row values,
  NoDup (map fst row ++ headers) ->
  "__proto__" ∉ headers ->
  Forall (fun h => array_index h = None) headers ->
  Semrush.build_row row headers values = (row ++ cells headers values)%list.
Proof.
  induction headers as [|h rest IH]; intros row values Hnodup Hproto Hnames;
    cbn [Semrush.build_row cells].
  - by rewrite app_nil_r.
  - apply not_elem_of_cons in Hproto as [Hh Hproto].
    apply Forall_cons in Hnames as [Hname Hnames].
    unfold object_put. rewrite Hname.
    destruct (String.eqb_spec h "__proto__") as [Heq|_]; [by destruct Hh|].
    assert (h ∉ map fst row) as Hfresh.
    { apply NoDup_app in Hnodup as (_ & Hdisjoint & _).
      intros Hin. apply (Hdisjoint h Hin). apply list_elem_of_here. }
    rewrite (assoc_set_fresh row h _ Hfresh), cell_value.
    rewrite IH; [by rewrite <- app_assoc| |done|done].
    rewrite map_app. cbn [map fst]. by rewrite <- app_assoc.
Qed.

Lemma cells_names headers : forall values, map fst (cells headers values) = headers.
Proof.
  induction headers as [|h rest IH]; intros values; cbn [cells map fst]; [done|].
  by rewrite IH.
Qed.

Lemma assoc_get_skips {A : Type} (o : list (string * A)) k :
  k ∉ map fst o -> assoc_get o k = None.
Proof.
  induction o as [|[k' v'] rest IH]; intros Hk; cbn [assoc_get]; [done|].
  cbn [map fst] in Hk. apply not_elem_of_cons in Hk as [Hne Hk].
  destruct (String.eqb_spec k' k) as [Heq|_]; [by destruct Hne|]. by apply IH.
Qed.

(** The cell under the column at index [j] is the field at index [j]. *)
Lemma cells_lookup headers : forall values j h,
  NoDup headers ->
  headers !! j = Some h ->
  assoc_get (cells headers values) h = Some (default "" (values !! j)).
Proof.
  induction headers as [|h0 rest IH]; intros values j h Hnodup Hj; [done|].
  apply NoDup_cons in Hnodup as [Hfresh Hnodup]. cbn [cells assoc_get].
  destruct j as [|j]; cbn in Hj.
  - injection Hj as ->. rewrite String.eqb_refl. by destruct values.
  - destruct (String.eqb_spec h0 h) as [->|_].
    + destruct Hfresh. by eapply list_elem_of_lookup_2.
    + rewrite (IH (tail values) j h Hnodup Hj). by destruct values.
Qed.

Lemma flat_map_filter {A B : Type} (keep : A -> bool) (f : A -> B) (l : list A) :
  flat_map (fun x => if keep x then [f x] else []) l = map f (List.filter keep l).
Proof.
  induction l as [|x l IH]; [done|]. cbn [flat_map List.filter].
  destruct (keep x); cbn; by rewrite IH.
Qed.

End CsvFacts.

(** X7: semrush reads an answer as a table.  The first line names the
    columns; every further line that is not blank gives one row, in the
    order of the lines; with column names that are distinct, none of them
    [__proto__] or an array index (a name such as [0] or [17], which
    JavaScript lists before the others whenever it is set), a row has
    exactly the columns of the first line, in that order, and under the
    column at index [j] the field at index [j] of its line, or the empty
    string where the line has no such field or an empty one. *)
Theorem csv_rows_follow_the_header_line rt text first rest :
  split "010" (trim rt text) = first :: rest ->
  NoDup (split ";" first) ->
  "__proto__" ∉ split ";" first ->
  Forall (fun h => array_index h = None) (split ";" first) ->
  Semrush.parseCSV rt text
  = map (fun line => cells (split ";" first) (split ";" line))
        (List.filter (fun line => truthy (VStr (trim rt line))) rest)
  /\ forall values,
       map fst (cells (split ";" first) values) = split ";" first
       /\ forall j h,
            split ";" first !! j = Some h ->
            assoc_get (cells (split ";" first) values) h
            = Some (default "" (values !! j)).
Proof.
  intros Hlines Hnodup Hproto Hnames. split.
  - unfold Semrush.parseCSV. rewrite Hlines.
    destruct rest as [|line rest]; [done|].
    cbn [List.length Nat.ltb Nat.leb].
    rewrite <- CsvFacts.flat_map_filter. apply flat_map_ext. intros l.
    destruct (truthy (VStr (trim rt l))); [|done].
    by rewrite (CsvFacts.build_row_cells _ [] _ Hnodup Hproto Hnames).
  - intros values. split; [apply CsvFacts.cells_names|].
    intros j h Hj. by apply CsvFacts.cells_lookup.
Qed.

(** A table of two columns and two lines, the second line one field
    short. *)
Lemma csv_rows_follow_the_header_line_witness :
  Semrush.parseCSV Sample.runtime
    ("Ph;Nq" ++ String "010" "seo;100" ++ String "010" "ads")
  = [ [("Ph", "seo"); ("Nq", "100")]; [("Ph", "ads"); ("Nq", "")] ].
Proof.
  destruct (csv_rows_follow_the_header_line Sample.runtime
              ("Ph;Nq" ++ String "010" "seo;100" ++ String "010" "ads")
              "Ph;Nq" ["seo;100"; "ads"]) as [Hrows _].
  - vm_compute. reflexivity.
  - apply (bool_decide_unpack _). vm_compute. exact I.
  - apply (bool_decide_unpack _). vm_compute. exact I.
  - repeat (apply List.Forall_cons; [vm_compute; reflexivity|]). apply List.Forall_nil.
  - rewrite Hrows. vm_compute. reflexivity.
Defined.

(** ** Comma separated lists *)

Module SplitFacts.

Lemma append_cons x (a b : string) : String x a ++ b = String x (a ++ b).
Proof. reflexivity. Qed.

Lemma append_assoc (a b c : string) : (a ++ b) ++ c = a ++ b ++ c.
Proof. induction a as [|x a IH]; [done|]. by rewrite !append_cons, IH. Qed.

Lemma append_nil_r (a : string) : a ++ "" = a.
Proof. induction a as [|x a IH]; [done|]. by rewrite append_cons, IH. Qed.

(** A piece without the separator is read through to its end. *)
Lemma split_from_piece c s : forall cur rest,
  free_of c s = true ->
  split_from c cur (s ++ rest) = split_from c (cur ++ s) rest.
Proof.
  induction s as [|a s IH]; intros cur rest Hfree.
  - by rewrite append_nil_r.
  - cbn in Hfree. apply andb_prop in Hfree as [Ha Hfree].
    apply negb_true_iff in Ha.
    rewrite append_cons. cbn [split_from].
    rewrite Ha, (IH _ _ Hfree), append_assoc. done.
Qed.

(** [join(sep).split(sep)] gives the pieces back. *)
Lemma split_join c pieces :
  pieces <> [] ->
  Forall (fun piece => free_of c piece = true) pieces ->
  split c (join (String c "") pieces) = pieces.
Proof.
  intros Hne Hfree. unfold split.
  induction Hfree as [|piece rest Hpiece Hrest IH]; [done|].
  destruct rest as [|next rest].
  - cbn [join]. rewrite <- (append_nil_r piece) at 1.
    by rewrite (split_from_piece c piece "" "" Hpiece).
  - change (join (String c "") (piece :: next :: rest))
      with (piece ++ String c "" ++ join (String c "") (next :: rest)).
    rewrite (split_from_piece c piece "" _ Hpiece).
    change (String c "" ++ join (String c "") (next :: rest))
      with (String c (join (String c "") (next :: rest))).
    cbn [split_from]. rewrite Ascii.eqb_refl. cbn [String.append].
    f_equal. by apply IH.
Qed.

End SplitFacts.

(** X8: [lists add-profiles] and [lists remove-profiles] of klaviyo send
    the profiles of [--profiles id1,id2,...] as one reference per
    identifier, in the order given: the handler makes one request ([POST]
    to add, [DELETE] to remove) to the relationship of the list named by
    [--id], whose body lists [{type: "profile", id}] for each identifier,
    and returns the answer. *)
Theorem profile_ids_are_sent_in_order rt w args lst ids sub method :
  (sub, method) ∈ [("add-profiles", "POST"); ("remove-profiles", "DELETE")] ->
  truthy (get args "dry-run") = false ->
  get args "id" = VStr lst ->
  lst <> "" ->
  get args "profiles" = VStr (join "," ids) ->
  ids <> [] ->
  Forall (fun i => free_of "," i = true) ids ->
  let r :=
    {| r_method := method;
       r_url := Klaviyo.BASE_URL ++ "/lists/" ++ lst ++ "/relationships/profiles/";
       r_headers :=
         [ ("Authorization", "Klaviyo-API-Key " ++ to_string (Klaviyo.API_KEY w));
           ("Content-Type", "application/json");
           ("Accept", "application/json");
           ("revision", Klaviyo.REVISION) ];
       r_body :=
         Some (JsonBody (JObj [("data",
           JArr (map (fun i => JObj [("type", JStr "profile"); ("id", JStr i)]) ids))])) |} in
  Klaviyo.main rt w args (VStr "lists") (VStr sub) initial
  = (answer w r, {| slot := JNull; requests := [r] |}).
Proof.
  intros Hsub Hlive Hid Hlst Hprofiles Hne Hfree r.
  assert (truthy (VStr lst) = true) as Htruthy
    by (cbn; by apply negb_true_iff, String.eqb_neq).
  repeat (apply elem_of_cons in Hsub as [[= -> ->]|Hsub]);
    [..|by apply elem_of_nil in Hsub];
    unfold Klaviyo.main;
    cbv beta iota delta [switch value_is String.eqb Ascii.eqb Bool.eqb];
    unfold Klaviyo.relationships, required;
    rewrite Hid, Htruthy, Hprofiles; cbn [Klaviyo.optional_split lift];
    rewrite (SplitFacts.split_join "," ids Hne Hfree);
    unfold Klaviyo.api; rewrite Hlive;
    apply (MirrorFacts.sends_and_answers w _ initial).
Qed.

(** [lists add-profiles --id L1 --profiles P1,P2], the network down. *)
Lemma profile_ids_are_sent_in_order_witness :
  requests (final (Klaviyo.main Sample.runtime
                     (Sample.klaviyo_world Sample.noon Sample.offline)
                     {[ "_" := VArr ["lists"; "add-profiles"]; "id" := VStr "L1";
                        "profiles" := VStr "P1,P2" ]}
                     (VStr "lists") (VStr "add-profiles")) initial)
  = [ {| r_method := "POST";
         r_url := "https://a.klaviyo.com/api/lists/L1/relationships/profiles/";
         r_headers :=
           [ ("Authorization", "Klaviyo-API-Key pk_live_1");
             ("Content-Type", "application/json");
             ("Accept", "application/json");
             ("revision", "2024-10-15") ];
         r_body :=
           Some (JsonBody (JObj [("data",
             JArr [ JObj [("type", JStr "profile"); ("id", JStr "P1")];
                    JObj [("type", JStr "profile"); ("id", JStr "P2")] ])])) |} ].
Proof.
  unfold final.
  rewrite (profile_ids_are_sent_in_order Sample.runtime
             (Sample.klaviyo_world Sample.noon Sample.offline)
             {[ "_" := VArr ["lists"; "add-profiles"]; "id" := VStr "L1";
                "profiles" := VStr "P1,P2" ]}
             "L1" ["P1"; "P2"] "add-profiles" "POST").
  - reflexivity.
  - apply list_elem_of_here.
  - vm_compute. reflexivity.
  - vm_compute. reflexivity.
  - discriminate.
  - vm_compute. reflexivity.
  - discriminate.
  - repeat constructor.
Defined.

(** X9: a pair of [--property] in [events create] of klaviyo is cut at its
    colons: the first piece names the property and the second is its
    value; what follows a second colon is dropped, and a pair without a
    colon, or with an empty name or value, sets nothing. *)
Theorem property_pair_is_cut_at_colons properties pieces :
  Forall (fun piece => free_of ":" piece = true) pieces ->
  Klaviyo.add_pair properties (join ":" pieces)
  = match pieces with
    | k :: v :: _ =>
        if negb (String.eqb k "") && negb (String.eqb v "")
        then fields_set properties k (JStr v)
        else properties
    | _ => properties
    end.
Proof.
  intros Hfree. unfold Klaviyo.add_pair.
  destruct pieces as [|k [|v more]].
  - done.
  - rewrite (SplitFacts.split_join ":" [k]) by done. cbn. by rewrite andb_false_r.
  - rewrite (SplitFacts.split_join ":" (k :: v :: more)) by done. reflexivity.
Qed.

(** [url:https://example.com] sets [url] to [https]. *)
Lemma property_pair_is_cut_at_colons_witness :
  Klaviyo.add_pair [] "url:https://example.com" = [("url", JStr "https")].
Proof.
  apply (property_pair_is_cut_at_colons [] ["url"; "https"; "//example.com"]).
  repeat constructor.
Defined.

Module AttributeFacts.

Lemma set_each_appends args entries : forall attributes,
  NoDup (map fst attributes ++ map fst entries) ->
  Klaviyo.set_each args attributes entries
  = (attributes
     ++ map (fun e => (fst e, json_of (get args (snd e))))
            (List.filter (fun e => truthy (get args (snd e))) entries))%list.
Proof.
  unfold Klaviyo.set_each.
  induction entries as [|[name flag] rest IH]; intros attributes Hnodup;
    cbn [fold_left List.filter map fst snd].
  - by rewrite app_nil_r.
  - cbn [map fst] in Hnodup.
    assert (name ∉ map fst attributes) as Hfresh.
    { apply NoDup_app in Hnodup as (_ & Hdisjoint & _).
      intros Hin. apply (Hdisjoint name Hin). apply list_elem_of_here. }
    destruct (truthy (get args flag)).
    + rewrite (CsvFacts.assoc_set_fresh attributes name _ Hfresh), IH.
      * cbn [map fst snd]. by rewrite <- app_assoc.
      * rewrite map_app. cbn [map fst]. by rewrite <- app_assoc.
    + apply IH. apply NoDup_app in Hnodup as (Ha & Hdisjoint & Hrest).
      apply NoDup_cons in Hrest as [_ Hrest].
      apply NoDup_app. split; [done|]. split; [|done].
      intros x Hx Hin. apply (Hdisjoint x Hx). by apply list_elem_of_further.
Qed.

End AttributeFacts.

(** X21: the optional attributes of [profiles create], [profiles update]
    and [flows update] of klaviyo enter the body only when their flag is
    given: the attributes are those set before, followed by one entry per
    flag that is truthy, in the order of the handler, and a flag that is
    absent leaves no entry (not even an empty one). *)
Theorem optional_attributes_are_left_out args attributes entries :
  NoDup (map fst attributes ++ map fst entries) ->
  Klaviyo.set_each args attributes entries
  = (attributes
     ++ map (fun e => (fst e, json_of (get args (snd e))))
            (List.filter (fun e => truthy (get args (snd e))) entries))%list
  /\ forall name flag,
       (name, flag) ∈ entries ->
       truthy (get args flag) = false ->
       assoc_get (Klaviyo.set_each args attributes entries) name = None.
Proof.
  intros Hnodup. rewrite (AttributeFacts.set_each_appends args entries attributes Hnodup).
  split; [done|]. intros name flag Hin Hflag.
  apply CsvFacts.assoc_get_skips. rewrite map_app, map_map. cbn [fst].
  apply NoDup_app in Hnodup as (Ha & Hdisjoint & Hentries).
  intros Hname. apply elem_of_app in Hname as [Hname|Hname].
  - apply (Hdisjoint name Hname). apply list_elem_of_fmap. by exists (name, flag).
  - apply list_elem_of_fmap in Hname as ([name' flag'] & Hname' & Hin').
    cbn [fst] in Hname'. subst name'.
    apply list_elem_of_In, filter_In in Hin' as [Hin' Htruthy].
    apply list_elem_of_In in Hin'. cbn [snd] in Htruthy.
    assert (flag' = flag) as ->; [|congruence].
    clear -Hentries Hin Hin'. induction entries as [|[n f] rest IH].
    + by apply elem_of_nil in Hin.
    + cbn [map fst] in Hentries. apply NoDup_cons in Hentries as [Hfresh Hrest].
      apply elem_of_cons in Hin as [Hin|Hin];
        apply elem_of_cons in Hin' as [Hin'|Hin'].
      * congruence.
      * injection Hin as -> ->. destruct Hfresh.
        apply list_elem_of_fmap. by exists (n, flag').
      * injection Hin' as -> ->. destruct Hfresh.
        apply list_elem_of_fmap. by exists (n, flag).
      * by apply IH.
Qed.

(** [profiles update --id P1 --phone 555] sets the phone number only. *)
Lemma optional_attributes_are_left_out_witness :
  Klaviyo.set_each {[ "id" := VStr "P1"; "phone" := VStr "555" ]} []
    [ ("email", "email"); ("first_name", "first-name");
      ("last_name", "last-name"); ("phone_number", "phone") ]
  = [("phone_number", JStr "555")].
Proof.
  destruct (optional_attributes_are_left_out
              {[ "id" := VStr "P1"; "phone" := VStr "555" ]} []
              [ ("email", "email"); ("first_name", "first-name");
                ("last_name", "last-name"); ("phone_number", "phone") ]) as [Hset _].
  - apply (bool_decide_unpack _). vm_compute. exact I.
  - rewrite Hset. vm_compute. reflexivity.
Defined.

(** ** tiktok-ads *)

Module TiktokFacts.

Lemma no_advertiser_id w args :
  unset (env w) "TIKTOK_ADVERTISER_ID" ->
  truthy (get args "advertiser-id") = false ->
  truthy (Tiktok.getAdvertiserId w args) = false.
Proof.
  intros Henv Hflag. apply unset_falsy in Henv.
  unfold Tiktok.getAdvertiserId, or_else. by rewrite Hflag.
Qed.

End TiktokFacts.

(** X10: every command of tiktok-ads needs an advertiser, from
    [--advertiser-id] or else from [TIKTOK_ADVERTISER_ID].  With neither,
    each of them prints [{error}] naming the two on standard output and
    exits with code 0, before it looks at any other flag, in dry-run mode
    too, and without a request. *)
Theorem tiktok_requires_an_advertiser rt w argv args c s :
  Tiktok.gate (env w) = None ->
  parseArgs argv = Normal args ->
  destructure (get args "_") = Normal (VStr c, VStr s) ->
  (c, s) ∈ tiktok_commands ->
  unset (env w) "TIKTOK_ADVERTISER_ID" ->
  truthy (get args "advertiser-id") = false ->
  run Tiktok.tool rt w argv
  = printed (Error "TIKTOK_ADVERTISER_ID env or --advertiser-id required").
Proof.
  intros Hgate Hparse Hdestr Hin Henv Hflag.
  rewrite (run_main Tiktok.tool rt w argv args (VStr c) (VStr s) Hgate Hparse Hdestr).
  pose proof (TiktokFacts.no_advertiser_id w args Henv Hflag) as Hnone.
  unfold tiktok_commands in Hin.
  repeat (apply elem_of_cons in Hin as [[= -> ->]|Hin]);
    [..|by apply elem_of_nil in Hin];
    cbn [main Tiktok.tool]; unfold Tiktok.main;
    cbv beta iota delta [switch value_is String.eqb Ascii.eqb Bool.eqb];
    unfold required; rewrite Hnone; reflexivity.
Qed.

(** [campaigns list] with only the access token set. *)
Lemma tiktok_requires_an_advertiser_witness :
  run Tiktok.tool Sample.runtime
      (Sample.world_at {[ "TIKTOK_ACCESS_TOKEN" := "tt_1" ]} Sample.noon Sample.offline)
      ["campaigns"; "list"]
  = printed (Error "TIKTOK_ADVERTISER_ID env or --advertiser-id required").
Proof.
  apply (tiktok_requires_an_advertiser Sample.runtime
           (Sample.world_at {[ "TIKTOK_ACCESS_TOKEN" := "tt_1" ]} Sample.noon Sample.offline)
           ["campaigns"; "list"] {[ "_" := VArr ["campaigns"; "list"] ]}
           "campaigns" "list").
  - vm_compute. reflexivity.
  - vm_compute. reflexivity.
  - vm_compute. reflexivity.
  - unfold tiktok_commands. apply list_elem_of_further, list_elem_of_here.
  - left. vm_compute. reflexivity.
  - vm_compute. reflexivity.
Defined.

(** X11: the handlers of tiktok-ads that need two flags test them
    together: with an advertiser known, [campaigns create] without
    [--name] or [--objective], [campaigns update-status] without [--ids]
    or [--status], and [reports get] without [--start-date] or
    [--end-date] return [{error}] naming both flags and make no request. *)
Theorem tiktok_reports_missing_flags rt w args c s f g message st :
  (c, s, (f, g), message) ∈ tiktok_paired_flags ->
  truthy (Tiktok.getAdvertiserId w args) = true ->
  truthy (get args f) = false \/ truthy (get args g) = false ->
  Tiktok.main rt w args (VStr c) (VStr s) st = (Normal (Error message), st)
  /\ includes message ("--" ++ f) = true
  /\ includes message ("--" ++ g) = true.
Proof.
  intros Hin Hadv Hmissing. unfold tiktok_paired_flags in Hin.
  assert (negb (truthy (get args f)) || negb (truthy (get args g)) = true) as Htest.
  { destruct Hmissing as [-> | ->]; [done|by rewrite orb_true_r]. }
  repeat (apply elem_of_cons in Hin as [[= -> -> -> -> ->]|Hin]);
    [..|by apply elem_of_nil in Hin];
    (split; [|by vm_compute]);
    unfold Tiktok.main;
    cbv beta iota delta [switch value_is String.eqb Ascii.eqb Bool.eqb];
    unfold required; rewrite Hadv, Htest; reflexivity.
Qed.

(** [campaigns create --name Spring], the objective missing. *)
Lemma tiktok_reports_missing_flags_witness :
  Tiktok.main Sample.runtime
    (Sample.world_at {[ "TIKTOK_ACCESS_TOKEN" := "tt_1"; "TIKTOK_ADVERTISER_ID" := "adv_1" ]}
                     Sample.noon Sample.offline)
    {[ "_" := VArr ["campaigns"; "create"]; "name" := VStr "Spring" ]}
    (VStr "campaigns") (VStr "create") initial
  = (Normal (Error "--name and --objective required"), initial).
Proof.
  apply (tiktok_reports_missing_flags Sample.runtime
           (Sample.world_at {[ "TIKTOK_ACCESS_TOKEN" := "tt_1";
                               "TIKTOK_ADVERTISER_ID" := "adv_1" ]}
                            Sample.noon Sample.offline)
           {[ "_" := VArr ["campaigns"; "create"]; "name" := VStr "Spring" ]}
           "campaigns" "create" "name" "objective").
  - unfold tiktok_paired_flags. apply list_elem_of_here.
  - vm_compute. reflexivity.
  - right. vm_compute. reflexivity.
Defined.

(** X12: [campaigns update-status --ids id1,id2,... --status S] of
    tiktok-ads makes one [POST] request whose body holds the advertiser,
    the identifiers as an array in the order given, and the status; an
    [--advertiser-id] on the command line takes precedence over
    [TIKTOK_ADVERTISER_ID]. *)
Theorem campaign_ids_are_sent_in_order rt w args ids :
  truthy (get args "dry-run") = false ->
  truthy (Tiktok.getAdvertiserId w args) = true ->
  get args "ids" = VStr (join "," ids) ->
  join "," ids <> "" ->
  Forall (fun i => free_of "," i = true) ids ->
  truthy (get args "status") = true ->
  let r :=
    {| r_method := "POST";
       r_url := Tiktok.BASE_URL ++ "/campaign/status/update/";
       r_headers := [ ("Access-Token", to_string (Tiktok.TOKEN w));
                      ("Content-Type", "application/json") ];
       r_body :=
         Some (JsonBody (JObj
           [ ("advertiser_id", json_of (Tiktok.getAdvertiserId w args));
             ("campaign_ids", JArr (map JStr ids));
             ("opt_status", json_of (get args "status")) ])) |} in
  Tiktok.main rt w args (VStr "campaigns") (VStr "update-status") initial
  = (answer w r, {| slot := JNull; requests := [r] |})
  /\ (truthy (get args "advertiser-id") = true ->
      Tiktok.getAdvertiserId w args = get args "advertiser-id").
Proof.
  intros Hlive Hadv Hids Hjoin Hfree Hstatus r. split.
  - assert (ids <> []) as Hne by (intros ->; by destruct Hjoin).
    unfold Tiktok.main.
    cbv beta iota delta [switch value_is String.eqb Ascii.eqb Bool.eqb].
    unfold required. rewrite Hadv, Hids, Hstatus.
    assert (truthy (VStr (join "," ids)) = true) as ->
      by (cbn; by apply negb_true_iff, String.eqb_neq).
    cbn [negb orb Tiktok.split_flag lift].
    rewrite (SplitFacts.split_join "," ids Hne Hfree).
    unfold Tiktok.api. rewrite Hlive.
    apply (MirrorFacts.sends_and_answers w _ initial).
  - intros Hflag. unfold Tiktok.getAdvertiserId, or_else. by rewrite Hflag.
Qed.

(** [campaigns update-status --ids c1,c2 --status DISABLE --advertiser-id
    adv_2], with another advertiser in the environment. *)
Lemma campaign_ids_are_sent_in_order_witness :
  option_map r_body
    (head (requests (final
       (Tiktok.main Sample.runtime
          (Sample.world_at {[ "TIKTOK_ACCESS_TOKEN" := "tt_1";
                              "TIKTOK_ADVERTISER_ID" := "adv_1" ]}
                           Sample.noon Sample.offline)
          {[ "_" := VArr ["campaigns"; "update-status"]; "ids" := VStr "c1,c2";
             "status" := VStr "DISABLE"; "advertiser-id" := VStr "adv_2" ]}
          (VStr "campaigns") (VStr "update-status")) initial)))
  = Some (Some (JsonBody (JObj
      [ ("advertiser_id", JStr "adv_2");
        ("campaign_ids", JArr [JStr "c1"; JStr "c2"]);
        ("opt_status", JStr "DISABLE") ]))).
Proof.
  destruct (campaign_ids_are_sent_in_order Sample.runtime
              (Sample.world_at {[ "TIKTOK_ACCESS_TOKEN" := "tt_1";
                                  "TIKTOK_ADVERTISER_ID" := "adv_1" ]}
                               Sample.noon Sample.offline)
              {[ "_" := VArr ["campaigns"; "update-status"]; "ids" := VStr "c1,c2";
                 "status" := VStr "DISABLE"; "advertiser-id" := VStr "adv_2" ]}
              ["c1"; "c2"]) as [Hmain _].
  - vm_compute. reflexivity.
  - vm_compute. reflexivity.
  - vm_compute. reflexivity.
  - discriminate.
  - repeat constructor.
  - vm_compute. reflexivity.
  - unfold final. rewrite Hmain. reflexivity.
Defined.

(** ** Handlers that stop before the request *)

Module HandlerFacts.

Lemma required_elim (P : M output -> Prop) v message (rest : M output) :
  P rest -> P (ret (Error message)) -> P (required v message rest).
Proof. intros Hrest Herror. unfold required. by destruct (truthy v). Qed.

Lemma if_elim {A : Type} (P : A -> Prop) (b : bool) (x y : A) :
  P x -> P y -> P (if b then x else y).
Proof. by destruct b. Qed.

Lemma gives_error_ret message : gives_error (ret (Error message)).
Proof. by exists message. Qed.

Lemma run_gives_error (t : tool) rt w argv args cmd sub :
  gate t (env w) = None ->
  parseArgs argv = Normal args ->
  destructure (get args "_") = Normal (cmd, sub) ->
  gives_error (main t rt w args cmd sub) ->
  exists message, run t rt w argv = printed (Error message).
Proof.
  intros Hgate Hparse Hdestr [message Hmain]. exists message.
  rewrite (run_main t rt w argv args cmd sub Hgate Hparse Hdestr). by rewrite Hmain.
Qed.

Ltac each_handler :=
  repeat (apply List.Forall_cons; [cbn [fst snd]; intros _|]);
  [..|apply List.Forall_nil].

Ltac handler_step :=
  lazymatch goal with
  | |- _ (required _ _ _) => apply required_elim
  | |- _ (switch _ _ _) => apply switch_elim; [each_handler|intros _]
  | |- _ (if _ then _ else _) => apply if_elim
  | |- gives_error (ret (Error _)) => apply gives_error_ret
  end.

Lemma mixpanel_ingestion_needs_token rt w args c sub :
  c ∈ ingestion_commands ->
  truthy (Mixpanel.TOKEN w) = false ->
  gives_error (Mixpanel.main rt w args (VStr c) sub).
Proof.
  intros Hin Htoken. unfold ingestion_commands in Hin.
  repeat (apply elem_of_cons in Hin as [->|Hin]); [..|by apply elem_of_nil in Hin];
    unfold Mixpanel.main;
    cbn [switch value_is String.eqb Ascii.eqb Bool.eqb];
    unfold required; rewrite Htoken;
    repeat handler_step.
Qed.

Lemma mixpanel_query_needs_key_and_secret rt w args c sub :
  c ∈ query_commands ->
  negb (truthy (Mixpanel.API_KEY w)) || negb (truthy (Mixpanel.SECRET w)) = true ->
  gives_error (Mixpanel.main rt w args (VStr c) sub).
Proof.
  intros Hin Hcred. unfold query_commands in Hin.
  repeat (apply elem_of_cons in Hin as [->|Hin]); [..|by apply elem_of_nil in Hin];
    unfold Mixpanel.main;
    cbn [switch value_is String.eqb Ascii.eqb Bool.eqb];
    unfold Mixpanel.queryApi, Mixpanel.queryApiPost; rewrite Hcred;
    repeat handler_step.
Qed.

End HandlerFacts.

(** X13: mixpanel checks the credentials of a command when the command
    runs, not at the gate.  A process that passed the gate with one set of
    credentials and runs a command of the other set ([track] or [profiles]
    without the token; [query], [funnels], [retention] or [export] without
    the key or without the secret) prints [{error}] on standard output,
    exits with code 0 and makes no request, whatever the subcommand and
    the flags. *)
Theorem mixpanel_checks_credentials_by_command rt w argv args c sub :
  Mixpanel.gate (env w) = None ->
  parseArgs argv = Normal args ->
  destructure (get args "_") = Normal (VStr c, sub) ->
  (c ∈ ingestion_commands /\ unset (env w) "MIXPANEL_TOKEN")
  \/ (c ∈ query_commands
      /\ (unset (env w) "MIXPANEL_API_KEY" \/ unset (env w) "MIXPANEL_SECRET")) ->
  exists message, run Mixpanel.tool rt w argv = printed (Error message).
Proof.
  intros Hgate Hparse Hdestr Hcase.
  apply (HandlerFacts.run_gives_error Mixpanel.tool rt w argv args (VStr c) sub
           Hgate Hparse Hdestr).
  destruct Hcase as [[Hin Htoken]|[Hin Hcred]].
  - apply HandlerFacts.mixpanel_ingestion_needs_token; [done|].
    by apply unset_falsy.
  - apply HandlerFacts.mixpanel_query_needs_key_and_secret; [done|].
    unfold Mixpanel.API_KEY, Mixpanel.SECRET.
    destruct Hcred as [H|H]; apply unset_falsy in H; rewrite H;
      [done|apply orb_true_r].
Qed.

(** [export events] with the token set and no key. *)
Lemma mixpanel_checks_credentials_by_command_witness :
  exists message,
    run Mixpanel.tool Sample.runtime Sample.mixpanel_token_only
        ["export"; "events"; "--from-date"; "2024-01-01"; "--to-date"; "2024-01-31"]
    = printed (Error message).
Proof.
  apply (mixpanel_checks_credentials_by_command Sample.runtime
           Sample.mixpanel_token_only
           ["export"; "events"; "--from-date"; "2024-01-01"; "--to-date"; "2024-01-31"]
           {[ "_" := VArr ["export"; "events"]; "from-date" := VStr "2024-01-01";
              "to-date" := VStr "2024-01-31" ]}
           "export" (VStr "events")).
  - vm_compute. reflexivity.
  - vm_compute. reflexivity.
  - vm_compute. reflexivity.
  - right. split.
    + unfold query_commands. do 3 apply list_elem_of_further. apply list_elem_of_here.
    + left. left. vm_compute. reflexivity.
Defined.

(** X14: the ingestion commands of mixpanel parse [--properties] as JSON
    before they build the request.  With the token and the flags they
    check in place, a value that is not JSON ends the process on the
    message of the parser, as [{error}] on standard error with exit code
    1: nothing is printed on standard output and no request is made, in
    dry-run mode too. *)
Theorem malformed_properties_end_the_process rt w argv args c s e :
  Mixpanel.gate (env w) = None ->
  parseArgs argv = Normal args ->
  destructure (get args "_") = Normal (VStr c, VStr s) ->
  (c, s) ∈ [("track", "event"); ("profiles", "set")] ->
  truthy (Mixpanel.TOKEN w) = true ->
  truthy (get args "distinct-id") = true ->
  (c = "track" -> truthy (get args "event") = true) ->
  truthy (get args "properties") = true ->
  JSON_parse rt (to_string (get args "properties")) = Throw e ->
  run Mixpanel.tool rt w argv
  = {| stdout := []; stderr := [JsonError e]; code := 1;
       argv_parsed := true; fetched := [] |}.
Proof.
  intros Hgate Hparse Hdestr Hin Htoken Hid Hevent Hprops Hjson.
  rewrite (run_main Mixpanel.tool rt w argv args (VStr c) (VStr s) Hgate Hparse Hdestr).
  repeat (apply elem_of_cons in Hin as [[= -> ->]|Hin]); [..|by apply elem_of_nil in Hin];
    cbn [main Mixpanel.tool]; unfold Mixpanel.main;
    cbv beta iota delta [switch value_is String.eqb Ascii.eqb Bool.eqb];
    unfold required, Mixpanel.parsed_properties;
    rewrite Htoken, Hid, ?Hevent, Hprops, Hjson by reflexivity; reflexivity.
Qed.

(** [track event ... --properties {oops], read by a parser that rejects
    it. *)
Lemma malformed_properties_end_the_process_witness :
  run Mixpanel.tool Sample.runtime Sample.mixpanel_token_only
      ["track"; "event"; "--distinct-id"; "u1"; "--event"; "signup";
       "--properties"; "{oops"; "--dry-run"]
  = {| stdout := []; stderr := [JsonError "Unexpected token"]; code := 1;
       argv_parsed := true; fetched := [] |}.
Proof.
  apply (malformed_properties_end_the_process Sample.runtime Sample.mixpanel_token_only
           ["track"; "event"; "--distinct-id"; "u1"; "--event"; "signup";
            "--properties"; "{oops"; "--dry-run"]
           {[ "_" := VArr ["track"; "event"]; "distinct-id" := VStr "u1";
              "event" := VStr "signup"; "properties" := VStr "{oops";
              "dry-run" := VTrue ]}
           "track" "event").
  - vm_compute. reflexivity.
  - vm_compute. reflexivity.
  - vm_compute. reflexivity.
  - apply list_elem_of_here.
  - vm_compute. reflexivity.
  - vm_compute. reflexivity.
  - intros _. vm_compute. reflexivity.
  - vm_compute. reflexivity.
  - vm_compute. reflexivity.
Defined.

(** X15: klaviyo reports a flag that one of its handlers checks and the
    command line omits: with the other checked flags of the handler given,
    the process prints [{error}] whose message names the flag on standard
    output, exits with code 0 and makes no request. *)
Theorem klaviyo_reports_missing_flag rt w argv args c s flags f :
  Klaviyo.gate (env w) = None ->
  parseArgs argv = Normal args ->
  destructure (get args "_") = Normal (VStr c, VStr s) ->
  (c, s, flags) ∈ checked_flags ->
  f ∈ flags ->
  args !! f = None ->
  (forall g, g ∈ flags -> g <> f -> truthy (get args g) = true) ->
  exists message,
    run Klaviyo.tool rt w argv = printed (Error message)
    /\ includes message ("--" ++ f) = true.
Proof.
  intros Hgate Hparse Hdestr Hin Hf Hnone Hothers.
  destruct (FlagFacts.klaviyo_reports_omitted_flag rt w args c s flags f initial
              Hin Hf Hnone Hothers) as (message & Hmain & Hnames).
  exists message. split; [|exact Hnames].
  rewrite (run_main Klaviyo.tool rt w argv args (VStr c) (VStr s) Hgate Hparse Hdestr).
  cbn [main Klaviyo.tool]. by rewrite Hmain.
Qed.

(** [events create --email a@b.c], the metric missing. *)
Lemma klaviyo_reports_missing_flag_witness :
  exists message,
    run Klaviyo.tool Sample.runtime (Sample.klaviyo_world Sample.noon Sample.offline)
        ["events"; "create"; "--email"; "a@b.c"]
    = printed (Error message)
    /\ includes message "--metric" = true.
Proof.
  apply (klaviyo_reports_missing_flag Sample.runtime
           (Sample.klaviyo_world Sample.noon Sample.offline)
           ["events"; "create"; "--email"; "a@b.c"]
           {[ "_" := VArr ["events"; "create"]; "email" := VStr "a@b.c" ]}
           "events" "create" ["metric"; "email"] "metric").
  - vm_compute. reflexivity.
  - vm_compute. reflexivity.
  - vm_compute. reflexivity.
  - unfold checked_flags. do 9 apply list_elem_of_further. apply list_elem_of_here.
  - apply list_elem_of_here.
  - vm_compute. reflexivity.
  - intros g Hg Hne.
    apply elem_of_cons in Hg as [->|Hg]; [by destruct Hne|].
    apply elem_of_cons in Hg as [->|Hg]; [|by apply elem_of_nil in Hg].
    vm_compute. reflexivity.
Defined.

(** ** trustpilot and hotjar *)

Module OAuthFacts.

Import HandlerFacts.

Lemma trustpilot_bearer_without_secret rt w args method path body :
  truthy (Trustpilot.API_SECRET w) = false ->
  truthy (get args "dry-run") = false ->
  gives_error (Trustpilot.api rt w args method path body "bearer").
Proof.
  intros Hsecret Hlive. eexists.
  unfold Trustpilot.api. rewrite Hlive. cbn [String.eqb Ascii.eqb Bool.eqb].
  unfold bind at 1. unfold Trustpilot.getAccessToken, bind, read_slot, initial.
  cbn [slot json_truthy]. rewrite Hsecret. reflexivity.
Qed.

Lemma trustpilot_private_gives_error rt w args c s :
  (c, s) ∈ private_endpoints ->
  truthy (Trustpilot.API_SECRET w) = false ->
  truthy (get args "dry-run") = false ->
  gives_error (Trustpilot.main rt w args (VStr c) (VStr s)).
Proof.
  intros Hin Hsecret Hlive. unfold private_endpoints in Hin.
  repeat (apply elem_of_cons in Hin as [[= -> ->]|Hin]);
    [..|by apply elem_of_nil in Hin];
    unfold Trustpilot.main;
    cbv beta iota zeta delta [switch value_is String.eqb Ascii.eqb Bool.eqb];
    repeat first
      [ handler_step
      | by apply trustpilot_bearer_without_secret ].
Qed.

Lemma trustpilot_public_shape rt w args c s :
  (c, s) ∈ public_endpoints ->
  returns_or_calls
    (fun m => exists method path body,
                m = Trustpilot.api rt w args method path body "apikey")
    (Trustpilot.main rt w args (VStr c) (VStr s)).
Proof.
  intros Hin. unfold public_endpoints in Hin.
  repeat (apply elem_of_cons in Hin as [[= -> ->]|Hin]);
    [..|by apply elem_of_nil in Hin];
    unfold Trustpilot.main;
    cbv beta iota zeta delta [switch value_is String.eqb Ascii.eqb Bool.eqb];
    repeat first
      [ handler_step
      | (left; eexists; reflexivity)
      | (right; do 3 eexists; reflexivity) ].
Qed.

Lemma hotjar_main_shape rt w args cmd sub :
  returns_or_calls
    (fun m => exists method path, m = Hotjar.api rt w args method path)
    (Hotjar.main rt w args cmd sub).
Proof.
  unfold Hotjar.main.
  repeat first
    [ handler_step
    | (left; eexists; reflexivity)
    | (right; do 2 eexists; reflexivity) ].
Qed.

(** The first call of [api] in a process whose token request is answered
    with a token. *)
Lemma hotjar_api_with_token rt w args method path res data t :
  net w (Hotjar.token_request rt w) = Some res ->
  parsed res = Normal data ->
  property data "access_token" = Normal (Some t) ->
  json_truthy t = true ->
  truthy (get args "dry-run") = false ->
  requests (final (Hotjar.api rt w args method path) initial)
  = [ Hotjar.token_request rt w;
      {| r_method := method; r_url := Hotjar.BASE_URL ++ path;
         r_headers := [ ("Authorization", "Bearer " ++ json_to_string t);
                        ("Content-Type", "application/json");
                        ("Accept", "application/json") ];
         r_body := None |} ].
Proof.
  intros Hnet Hparsed Htoken Ht Hlive.
  unfold final, Hotjar.api. rewrite Hlive.
  unfold bind at 1. unfold Hotjar.getToken, bind, read_slot, fetch, lift, initial.
  cbn [slot requests json_truthy app]. rewrite Hnet, Hparsed. cbn [ret].
  rewrite Htoken. cbn [ret]. rewrite Ht. unfold write_slot. cbn [slot requests app].
  match goal with
  | |- context [match net w ?r with _ => _ end] => destruct (net w r)
  end; reflexivity.
Qed.

End OAuthFacts.

(** X16: the commands of trustpilot that reach the private API
    ([reviews private], [reply] and [delete-reply], the [invitations] and
    the [tags]) need [TRUSTPILOT_API_SECRET], which the gate does not
    check.  Without it, and outside dry-run mode, such a command prints
    [{error}] on standard output, exits with code 0 and makes no request:
    not the token request either. *)
Theorem private_endpoints_need_the_secret rt w argv args c s :
  Trustpilot.gate (env w) = None ->
  parseArgs argv = Normal args ->
  destructure (get args "_") = Normal (VStr c, VStr s) ->
  (c, s) ∈ private_endpoints ->
  unset (env w) "TRUSTPILOT_API_SECRET" ->
  truthy (get args "dry-run") = false ->
  exists message, run Trustpilot.tool rt w argv = printed (Error message).
Proof.
  intros Hgate Hparse Hdestr Hin Hsecret Hlive.
  apply (HandlerFacts.run_gives_error Trustpilot.tool rt w argv args (VStr c) (VStr s)
           Hgate Hparse Hdestr).
  apply OAuthFacts.trustpilot_private_gives_error; [done| |done].
  by apply unset_falsy.
Qed.

(** [reviews reply --id R1 --message Thanks] with only the API key set. *)
Lemma private_endpoints_need_the_secret_witness :
  exists message,
    run Trustpilot.tool Sample.runtime
        (Sample.world_at {[ "TRUSTPILOT_API_KEY" := "tp_1" ]} Sample.noon Sample.online)
        ["reviews"; "reply"; "--id"; "R1"; "--message"; "Thanks"]
    = printed (Error message).
Proof.
  apply (private_endpoints_need_the_secret Sample.runtime
           (Sample.world_at {[ "TRUSTPILOT_API_KEY" := "tp_1" ]} Sample.noon Sample.online)
           ["reviews"; "reply"; "--id"; "R1"; "--message"; "Thanks"]
           {[ "_" := VArr ["reviews"; "reply"]; "id" := VStr "R1";
              "message" := VStr "Thanks" ]}
           "reviews" "reply").
  - vm_compute. reflexivity.
  - vm_compute. reflexivity.
  - vm_compute. reflexivity.
  - unfold private_endpoints. apply list_elem_of_further, list_elem_of_here.
  - left. vm_compute. reflexivity.
  - vm_compute. reflexivity.
Defined.

(** X17: the commands of trustpilot that reach the public API
    ([business ...], [reviews list], [get] and [latest]) never ask for a
    token, whether the secret is set or not: the process makes no request
    or exactly one, and that one carries the API key in the header
    [apikey] and no [Authorization] header. *)
Theorem public_endpoints_send_the_api_key rt w argv args c s :
  parseArgs argv = Normal args ->
  destructure (get args "_") = Normal (VStr c, VStr s) ->
  (c, s) ∈ public_endpoints ->
  fetched (run Trustpilot.tool rt w argv) = []
  \/ exists r,
       fetched (run Trustpilot.tool rt w argv) = [r]
       /\ r_headers r = [ ("Content-Type", "application/json");
                          ("Accept", "application/json");
                          ("apikey", to_string (Trustpilot.API_KEY w)) ].
Proof.
  intros Hparse Hdestr Hin. unfold run. rewrite Hparse, Hdestr.
  destruct (gate _ _); [by left|]. cbn [main Trustpilot.tool].
  destruct (OAuthFacts.trustpilot_public_shape rt w args c s Hin)
    as [[o ->]|(method & path & body & ->)]; [by left|].
  unfold Trustpilot.api. destruct (truthy (get args "dry-run")); [by left|].
  cbn [String.eqb Ascii.eqb Bool.eqb assoc_set].
  unfold bind, fetch, ret, initial. cbn [requests app slot].
  right. eexists. destruct (net w _); cbn [fetched requests]; by split.
Qed.

(** [reviews get --id R1] with key and secret set. *)
Lemma public_endpoints_send_the_api_key_witness :
  exists r,
    fetched (run Trustpilot.tool Sample.runtime
               (Sample.world_at {[ "TRUSTPILOT_API_KEY" := "tp_1";
                                   "TRUSTPILOT_API_SECRET" := "s_1" ]}
                                Sample.noon Sample.online)
               ["reviews"; "get"; "--id"; "R1"]) = [r]
    /\ r_headers r = [ ("Content-Type", "application/json");
                       ("Accept", "application/json");
                       ("apikey", "tp_1") ].
Proof.
  destruct (public_endpoints_send_the_api_key Sample.runtime
              (Sample.world_at {[ "TRUSTPILOT_API_KEY" := "tp_1";
                                  "TRUSTPILOT_API_SECRET" := "s_1" ]}
                               Sample.noon Sample.online)
              ["reviews"; "get"; "--id"; "R1"]
              {[ "_" := VArr ["reviews"; "get"]; "id" := VStr "R1" ]}
              "reviews" "get") as [Hnone|Hone].
  - vm_compute. reflexivity.
  - vm_compute. reflexivity.
  - unfold public_endpoints. do 6 apply list_elem_of_further. apply list_elem_of_here.
  - vm_compute in Hnone. discriminate Hnone.
  - exact Hone.
Defined.

(** X18: every command of hotjar but [sites] works on one site and checks
    [--site-id] before it looks at the subcommand.  Without the flag the
    process prints [{error: "--site-id required"}] on standard output,
    exits with code 0 and makes no request, whatever the subcommand. *)
Theorem hotjar_requires_a_site rt w argv args c sub :
  Hotjar.gate (env w) = None ->
  parseArgs argv = Normal args ->
  destructure (get args "_") = Normal (VStr c, sub) ->
  c ∈ site_commands ->
  truthy (get args "site-id") = false ->
  run Hotjar.tool rt w argv = printed (Error "--site-id required").
Proof.
  intros Hgate Hparse Hdestr Hin Hsite.
  rewrite (run_main Hotjar.tool rt w argv args (VStr c) sub Hgate Hparse Hdestr).
  unfold site_commands in Hin.
  repeat (apply elem_of_cons in Hin as [->|Hin]); [..|by apply elem_of_nil in Hin];
    cbn [main Hotjar.tool]; unfold Hotjar.main;
    cbn [switch value_is String.eqb Ascii.eqb Bool.eqb];
    unfold required, Hotjar.siteId; rewrite Hsite; reflexivity.
Qed.

(** [recordings list] without a site. *)
Lemma hotjar_requires_a_site_witness :
  run Hotjar.tool Sample.runtime Sample.hotjar_refused ["recordings"; "list"]
  = printed (Error "--site-id required").
Proof.
  apply (hotjar_requires_a_site Sample.runtime Sample.hotjar_refused
           ["recordings"; "list"] {[ "_" := VArr ["recordings"; "list"] ]}
           "recordings" (VStr "list")).
  - vm_compute. reflexivity.
  - vm_compute. reflexivity.
  - vm_compute. reflexivity.
  - unfold site_commands. do 2 apply list_elem_of_further. apply list_elem_of_here.
  - vm_compute. reflexivity.
Defined.

(** X19: when the token request of hotjar is answered with a token, a
    process makes no request at all (an error found before, or dry-run
    mode) or exactly two: the token request, then one request to the API
    that carries that token as [Authorization: Bearer <token>]. *)
Theorem hotjar_sends_the_token_it_obtained rt w argv res data t :
  net w (Hotjar.token_request rt w) = Some res ->
  parsed res = Normal data ->
  property data "access_token" = Normal (Some t) ->
  json_truthy t = true ->
  fetched (run Hotjar.tool rt w argv) = []
  \/ exists method path,
       fetched (run Hotjar.tool rt w argv)
       = [ Hotjar.token_request rt w;
           {| r_method := method; r_url := Hotjar.BASE_URL ++ path;
              r_headers := [ ("Authorization", "Bearer " ++ json_to_string t);
                             ("Content-Type", "application/json");
                             ("Accept", "application/json") ];
              r_body := None |} ].
Proof.
  intros Hnet Hparsed Htoken Ht. unfold run.
  destruct (gate _ _); [by left|].
  destruct (parseArgs argv) as [args|e]; [|by left].
  destruct (destructure _) as [[cmd sub]|e]; [|by left].
  cbn [main Hotjar.tool].
  destruct (OAuthFacts.hotjar_main_shape rt w args cmd sub)
    as [[o ->]|(method & path & ->)]; [by left|].
  destruct (truthy (get args "dry-run")) eqn:Hdry.
  - left. unfold Hotjar.api. by rewrite Hdry.
  - right. exists method, path.
    pose proof (OAuthFacts.hotjar_api_with_token rt w args method path res data t
                  Hnet Hparsed Htoken Ht Hdry) as Hlog.
    unfold final in Hlog.
    by destruct (Hotjar.api rt w args method path initial) as [[result|e] st];
      cbn [fetched snd] in *.
Qed.

(** [sites list] against a server that grants the token [tok_1]. *)
Lemma hotjar_sends_the_token_it_obtained_witness :
  fetched (run Hotjar.tool Sample.runtime hotjar_granted ["sites"; "list"]) = []
  \/ exists method path,
       fetched (run Hotjar.tool Sample.runtime hotjar_granted ["sites"; "list"])
       = [ Hotjar.token_request Sample.runtime hotjar_granted;
           {| r_method := method; r_url := Hotjar.BASE_URL ++ path;
              r_headers := [ ("Authorization", "Bearer " ++ "tok_1");
                             ("Content-Type", "application/json");
                             ("Accept", "application/json") ];
              r_body := None |} ].
Proof.
  apply (hotjar_sends_the_token_it_obtained Sample.runtime hotjar_granted
           ["sites"; "list"]
           {| status := 200; ok := true;
              text := "{" ++ quoted "access_token" ++ ":" ++ quoted "tok_1" ++ "}";
              parsed := Normal (JObj [("access_token", JStr "tok_1")]) |}
           (JObj [("access_token", JStr "tok_1")]) (JStr "tok_1")).
  - reflexivity.
  - reflexivity.
  - reflexivity.
  - reflexivity.
Defined.

